(** * A shallow embedding of the Go package [txn] (17twenty/txn)

    The package encodes and decodes a fixed-width, line-oriented bank
    transaction file: one file header, batches (header, records, trailer)
    and one file trailer.  This development embeds

    - the record codec of [txn.go] (the five [Read]/[Write] pairs,
      [padRight], [spaces], [IsValid]),
    - the whole-file [Writer.Write] of the writer file, and
    - [Reader.ReadAll] / [readRecordOrHeaderOrTrailer] of [reader.go],

    together with the parts of the Go standard library and of
    [shopspring/decimal] that these functions call.

    Conventions.
    - A Go [string] is a byte string: [string] of the Standard Library,
      whose characters are 8-bit.  [len] is [String.length] and a slice
      expression cuts at bytes.  Where the library reads a string as
      UTF-8 text ([fmt] counts widths and precisions in runes,
      [strings.TrimSpace] takes off Unicode white space), the embedding
      decodes it as [unicode/utf8] does.
    - A Go [int] is a 64-bit signed integer, embedded in [Z]; the only
      arithmetic the package does on it is [++], written [int_incr] with
      its wrap-around.
    - [decimal.Decimal] is a coefficient and a power of ten.
    - [time.Time] is a civil date and a time of day.
    - The buffered sink of the writer is the byte string written so far;
      the buffered source of the reader is the byte string still unread.
      Both are in memory: the sink accepts every write and the source
      fails only with [io.EOF].
    - [log.Println] appends one line to a log kept in the model's world. *)

From Stdlib Require Import ZArith List String Ascii Bool Lia.
From Stdlib Require Import QArith Qabs Qpower.
From Stdlib Require Import DecimalString DecimalPos DecimalN DecimalZ DecimalFacts.
Import ListNotations.

Local Open Scope string_scope.
Local Open Scope Z_scope.

(* ===================================================================== *)
(** * Go integers *)
(* ===================================================================== *)

Module GoInt.

(** [int] on the 64-bit platforms the package is built for. *)
Definition intSize : Z := 64.
Definition maxInt : Z := 2 ^ 63 - 1.
Definition minInt : Z := - 2 ^ 63.
Definition maxUint64 : Z := 2 ^ 64 - 1.

(** Two's-complement wrap-around of a mathematical integer into [int]. *)
Definition wrap (z : Z) : Z := (z + 2 ^ 63) mod 2 ^ 64 - 2 ^ 63.

Definition int_add (a b : Z) : Z := wrap (a + b).

(** [x++] *)
Definition int_incr (a : Z) : Z := int_add a 1.

Definition in_range (z : Z) : Prop := minInt <= z <= maxInt.

End GoInt.
Export GoInt.

(* ===================================================================== *)
(** * Byte strings: slicing, UTF-8, [strings.TrimSpace], decimal digits *)
(* ===================================================================== *)

Module GoString.

Definition len (s : string) : Z := Z.of_nat (String.length s).

(** [len] of a slice. *)
Definition len_ {A : Type} (s : list A) : Z := Z.of_nat (List.length s).

(** [l[a:b]] for [a <= b <= len(l)].  Every slice expression of the
    package is guarded by a length check that puts it in range. *)
Definition slice (l : string) (a b : nat) : string :=
  substring a (b - a) l.

(** [strings.Repeat(String c "", n)] *)
Fixpoint Repeat (c : ascii) (n : nat) : string :=
  match n with
  | O => ""
  | S n' => String c (Repeat c n')
  end.

(** ** UTF-8 ([unicode/utf8]) *)

(** A byte as a number. *)
Definition byte (c : ascii) : Z := Z.of_nat (nat_of_ascii c).

(** [s[i]], for [0 <= i < len(s)]. *)
Definition byteAt (s : string) (i : Z) : Z :=
  match String.get (Z.to_nat i) s with
  | Some c => byte c
  | None => 0
  end.

(** [utf8.RuneError], U+FFFD, and [utf8.RuneSelf]: the bytes below it
    are runes of their own. *)
Definition RuneError : Z := 0xFFFD.
Definition RuneSelf : Z := 0x80.
Definition UTFMax : nat := 4.

(** [c >= utf8.RuneSelf] *)
Definition high (c : ascii) : bool := RuneSelf <=? byte c.

(** The table [first] with [acceptRanges]: for a leading byte from 0x80
    up, the size of its sequence and the range of the second byte;
    [None] is the entry [xx] of a byte that starts no sequence. *)
Definition first (s0 : Z) : option (nat * (Z * Z)) :=
  if s0 <? 0xC2 then None
  else if s0 <=? 0xDF then Some (2%nat, (0x80, 0xBF))
  else if s0 =? 0xE0 then Some (3%nat, (0xA0, 0xBF))
  else if s0 <=? 0xEC then Some (3%nat, (0x80, 0xBF))
  else if s0 =? 0xED then Some (3%nat, (0x80, 0x9F))
  else if s0 <=? 0xEF then Some (3%nat, (0x80, 0xBF))
  else if s0 =? 0xF0 then Some (4%nat, (0x90, 0xBF))
  else if s0 <=? 0xF3 then Some (4%nat, (0x80, 0xBF))
  else if s0 =? 0xF4 then Some (4%nat, (0x80, 0x8F))
  else None.

(** A continuation byte is in [locb, hicb]. *)
Definition continuation (b : Z) : bool := (0x80 <=? b) && (b <=? 0xBF).

(** [utf8.DecodeRuneInString]: the first rune of [s] and its width in
    bytes; [(RuneError, 0)] for the empty string and [(RuneError, 1)]
    for a byte that starts no well-formed sequence.  [for i, r := range
    s] steps through a string in the same way. *)
Definition DecodeRuneInString (s : string) : Z * nat :=
  match s with
  | "" => (RuneError, 0%nat)
  | String c0 t1 =>
      let s0 := byte c0 in
      if s0 <? RuneSelf then (s0, 1%nat)
      else
        match first s0 with
        | None => (RuneError, 1%nat)
        | Some (sz, (lo, hi)) =>
            if (String.length s <? sz)%nat then (RuneError, 1%nat)
            else
              match t1 with
              | "" => (RuneError, 1%nat)
              | String c1 t2 =>
                  let s1 := byte c1 in
                  if (s1 <? lo) || (hi <? s1) then (RuneError, 1%nat)
                  else if (sz <=? 2)%nat then
                    (Z.lor (Z.shiftl (Z.land s0 0x1F) 6) (Z.land s1 0x3F),
                     2%nat)
                  else
                    match t2 with
                    | "" => (RuneError, 1%nat)
                    | String c2 t3 =>
                        let s2 := byte c2 in
                        if negb (continuation s2) then (RuneError, 1%nat)
                        else if (sz <=? 3)%nat then
                          (Z.lor (Z.shiftl (Z.land s0 0x0F) 12)
                             (Z.lor (Z.shiftl (Z.land s1 0x3F) 6)
                                (Z.land s2 0x3F)),
                           3%nat)
                        else
                          match t3 with
                          | "" => (RuneError, 1%nat)
                          | String c3 _ =>
                              let s3 := byte c3 in
                              if negb (continuation s3) then
                                (RuneError, 1%nat)
                              else
                                (Z.lor (Z.shiftl (Z.land s0 0x07) 18)
                                   (Z.lor (Z.shiftl (Z.land s1 0x3F) 12)
                                      (Z.lor (Z.shiftl (Z.land s2 0x3F) 6)
                                         (Z.land s3 0x3F))),
                                 4%nat)
                          end
                    end
              end
        end
  end.

(** [utf8.RuneStart(b)]: [b] is not a continuation byte. *)
Definition RuneStart (b : Z) : bool := negb (Z.land b 0xC0 =? 0x80).

(** [for start--; start >= lim; start-- { if RuneStart(s[start]) { break } }]:
    at most [UTFMax] rounds, as [lim] is at most that far below. *)
Fixpoint backToStart (rounds : nat) (s : string) (lim start : Z) : Z :=
  match rounds with
  | O => start
  | S n =>
      if start <? lim then start
      else if RuneStart (byteAt s start) then start
      else backToStart n s lim (start - 1)
  end.

(** [utf8.DecodeLastRuneInString]: the last rune of [s] and its width. *)
Definition DecodeLastRuneInString (s : string) : Z * nat :=
  let end_ := Z.of_nat (String.length s) in
  if end_ =? 0 then (RuneError, 0%nat)
  else
    let start := end_ - 1 in
    let r := byteAt s start in
    if r <? RuneSelf then (r, 1%nat)
    else
      let lim := Z.max (end_ - Z.of_nat UTFMax) 0 in
      let start := backToStart UTFMax s lim (start - 1) in
      let start := if start <? 0 then 0 else start in
      let (r, size) :=
        DecodeRuneInString
          (substring (Z.to_nat start) (Z.to_nat (end_ - start)) s) in
      if negb (start + Z.of_nat size =? end_) then (RuneError, 1%nat)
      else (r, size).

(** [utf8.RuneCountInString]: an ill-formed byte counts as one rune.
    [within] is the number of bytes still to pass of the rune the scan
    is in. *)
Fixpoint runeCount (within : nat) (s : string) : nat :=
  match s with
  | "" => O
  | String _ s' =>
      match within with
      | S k => runeCount k s'
      | O => S (runeCount (snd (DecodeRuneInString s) - 1) s')
      end
  end.

Definition RuneCountInString (s : string) : nat := runeCount 0 s.

(** ** [unicode.IsSpace] and [strings.TrimSpace] *)

(** [unicode.IsSpace]: the Latin-1 spaces and the other code points of
    the property [White_Space]. *)
Definition IsSpace (r : Z) : bool :=
  if r <=? 0xFF then
    (r =? 9) || (r =? 10) || (r =? 11) || (r =? 12) || (r =? 13)
    || (r =? 32) || (r =? 0x85) || (r =? 0xA0)
  else
    (r =? 0x1680) || ((0x2000 <=? r) && (r <=? 0x200A))
    || (r =? 0x2028) || (r =? 0x2029) || (r =? 0x202F) || (r =? 0x205F)
    || (r =? 0x3000).

(** [asciiSpace[c] == 1]: tab, line feed, vertical tab, form feed,
    carriage return, space. *)
Definition isSpace (c : ascii) : bool :=
  match nat_of_ascii c with
  | 9%nat | 10%nat | 11%nat | 12%nat | 13%nat | 32%nat => true
  | _ => false
  end.

(** [strings.TrimLeftFunc(s, unicode.IsSpace)]: [s] from its first rune
    that is no space, found by [for i, r := range s]. *)
Fixpoint trimLeftFunc (within : nat) (s : string) : string :=
  match s with
  | "" => ""
  | String _ s' =>
      match within with
      | S k => trimLeftFunc k s'
      | O =>
          let (r, size) := DecodeRuneInString s in
          if IsSpace r then trimLeftFunc (size - 1) s' else s
      end
  end.

Definition TrimLeftFunc (s : string) : string := trimLeftFunc 0 s.

(** [lastIndexFunc(s, unicode.IsSpace, false)]: the index of the last
    rune that is no space, or -1; [i] goes down from [len(s)] by the
    width of the last rune of [s[0:i]], and [within] is the number of
    bytes still to pass of that rune. *)
Fixpoint lastIndexFunc (s : string) (i within : nat) : Z :=
  match i with
  | O => -1
  | S i' =>
      match within with
      | S k => lastIndexFunc s i' k
      | O =>
          let (r, size) := DecodeLastRuneInString (substring 0 i s) in
          if negb (IsSpace r) then Z.of_nat i - Z.of_nat size
          else lastIndexFunc s i' (size - 1)
      end
  end.

(** [strings.TrimRightFunc(s, unicode.IsSpace)] *)
Definition TrimRightFunc (s : string) : string :=
  let n := String.length s in
  let i := lastIndexFunc s n 0 in
  let i :=
    if (0 <=? i) && (RuneSelf <=? byteAt s i) then
      i + Z.of_nat
            (snd (DecodeRuneInString (substring (Z.to_nat i) n s)))
    else i + 1 in
  substring 0 (Z.to_nat i) s.

(** [strings.TrimFunc(s, unicode.IsSpace)] *)
Definition TrimFunc (s : string) : string := TrimRightFunc (TrimLeftFunc s).

(** The second loop of [strings.TrimSpace], on [s[start:]]: [stop] goes
    down over the ASCII spaces at the end, and a byte from
    [utf8.RuneSelf] up hands over to [TrimRightFunc]. *)
Fixpoint trimStop (s : string) (stop : nat) : string :=
  match stop with
  | O => ""
  | S k =>
      match String.get k s with
      | None => ""
      | Some c =>
          if high c then TrimRightFunc (substring 0 stop s)
          else if isSpace c then trimStop s k
          else substring 0 stop s
      end
  end.

(** [strings.TrimSpace]: the first loop goes up over the ASCII spaces at
    the start, and a byte from [utf8.RuneSelf] up hands over to
    [TrimFunc] with [unicode.IsSpace]. *)
Fixpoint TrimSpace (s : string) : string :=
  match s with
  | "" => ""
  | String c s' =>
      if high c then TrimFunc s
      else if isSpace c then TrimSpace s'
      else trimStop s (String.length s)
  end.

(** ['0' <= c && c <= '9'], with the digit's value. *)
Definition digitVal (c : ascii) : option Z :=
  let n := Z.of_nat (nat_of_ascii c) in
  if (48 <=? n) && (n <=? 57) then Some (n - 48) else None.

Definition isDigit (c : ascii) : bool :=
  match digitVal c with Some _ => true | None => false end.

(** Decimal text of an integer, as [strconv.Itoa], [big.Int.String] and
    the [%d] verb print it: a minus sign for negative numbers, no
    leading zeros, ["0"] for zero. *)
Definition itoa (z : Z) : string := NilZero.string_of_int (Z.to_int z).

(** Decimal text of [|z|]. *)
Definition utoa (z : Z) : string := itoa (Z.abs z).

Definition nl : string := String (ascii_of_nat 10) "".
Definition cr : string := String (ascii_of_nat 13) "".

End GoString.
Export GoString.

(* ===================================================================== *)
(** * [strconv.Atoi] *)
(* ===================================================================== *)

Module Strconv.

(** The digit loop of the fast path: [n = n*10 + int(ch - '0')], a
    syntax error at the first byte that is not a digit. *)
Fixpoint digits (s : string) (n : Z) : option Z :=
  match s with
  | "" => Some n
  | String ch s' =>
      match digitVal ch with
      | Some d => digits s' (n * 10 + d)
      | None => None
      end
  end.

Inductive uintResult : Type :=
| UOk (n : Z)
| USyntax
| URange.

(** The loop of [ParseUint(s, 10, 64)]: the overflow checks come before
    the following bytes are looked at. *)
Fixpoint parseUintLoop (s : string) (n : Z) : uintResult :=
  match s with
  | "" => UOk n
  | String c s' =>
      match digitVal c with
      | None => USyntax
      | Some d =>
          if n >=? maxUint64 / 10 + 1 then URange
          else
            let n1 := n * 10 + d in
            if n1 >? maxUint64 then URange else parseUintLoop s' n1
      end
  end.

(** [ParseInt(s, 10, 0)]: the value and whether [err == nil]. *)
Definition ParseInt (s : string) : Z * bool :=
  match s with
  | "" => (0, false)
  | String c0 s' =>
      let neg := Ascii.eqb c0 "-" in
      let body := if neg || Ascii.eqb c0 "+" then s' else s in
      match body with
      | "" => (0, false)
      | _ =>
          match parseUintLoop body 0 with
          | USyntax => (0, false)
          | URange => (if neg then minInt else maxInt, false)
          | UOk un =>
              if negb neg && (un >=? 2 ^ 63) then (maxInt, false)
              else if neg && (un >? 2 ^ 63) then (minInt, false)
              else (if neg then - un else un, true)
          end
      end
  end.

(** [strconv.Atoi]: the returned integer and whether [err == nil].
    The callers keep the integer and drop the error. *)
Definition Atoi (s : string) : Z * bool :=
  let sLen := String.length s in
  if (0 <? sLen)%nat && (sLen <? 19)%nat then
    match s with
    | "" => (0, false)
    | String c0 s' =>
        let signed := Ascii.eqb c0 "-" || Ascii.eqb c0 "+" in
        let body := if signed then s' else s in
        if signed && (String.length body <? 1)%nat then (0, false)
        else
          match digits body 0 with
          | None => (0, false)
          | Some n => (if Ascii.eqb c0 "-" then - n else n, true)
          end
    end
  else ParseInt s.

End Strconv.

(* ===================================================================== *)
(** * [decimal.Decimal] (shopspring/decimal) *)
(* ===================================================================== *)

Module Decimal.

(** [value * 10 ^ exp].  The zero value of the Go type has a nil
    coefficient, read as 0, and exponent 0. *)
Record t : Type := New { value : Z; exp : Z }.

Definition zero : t := New 0 0.

(** [d.rescale(exp)]: multiplying keeps the number, dividing truncates
    towards zero ([big.Int.Quo]). *)
Definition rescale (d : t) (e : Z) : t :=
  if exp d =? e then d
  else
    let diff := Z.abs (e - exp d) in
    let expScale := 10 ^ diff in
    if e >? exp d then New (Z.quot (value d) expScale) e
    else New (value d * expScale) e.

Definition RescalePair (d1 d2 : t) : t * t :=
  if exp d1 <? exp d2 then (d1, rescale d2 (exp d1))
  else if exp d1 >? exp d2 then (rescale d1 (exp d2), d2)
  else (d1, d2).

Definition Add (d d2 : t) : t :=
  let (rd, rd2) := RescalePair d d2 in
  New (value rd + value rd2) (exp rd).

Definition Sub (d d2 : t) : t :=
  let (rd, rd2) := RescalePair d d2 in
  New (value rd - value rd2) (exp rd).

Definition Abs (d : t) : t := New (Z.abs (value d)) (exp d).

Definition Sign (d : t) : Z := Z.sgn (value d).

(** [d.Cmp(d2)] as a [comparison]. *)
Definition Cmp (d d2 : t) : comparison :=
  let (rd, rd2) := RescalePair d d2 in
  Z.compare (value rd) (value rd2).

(** [d.Round(places)]: half away from zero. *)
Definition Round (d : t) (places : Z) : t :=
  if exp d =? - places then d
  else
    let ret := rescale d (- places - 1) in
    let v := if value ret <? 0 then value ret - 5 else value ret + 5 in
    let q := v / 10 in
    let m := v mod 10 in
    let q' := if (q <? 0) && negb (m =? 0) then q + 1 else q in
    New q' (exp ret + 1).

(** [d.RoundBank(places)]: a tie goes to the even neighbour. *)
Definition RoundBank (d : t) (places : Z) : t :=
  let round := Round d places in
  let remainder := Abs (Sub d round) in
  let half := New 5 (- places - 1) in
  match Cmp remainder half with
  | Eq =>
      if Z.odd (value round) then
        if value round <? 0 then New (value round + 1) (exp round)
        else New (value round - 1) (exp round)
      else round
  | _ => round
  end.

(** [d.string(false)] *)
Definition string_ (d : t) : string :=
  if exp d >=? 0 then itoa (value (rescale d 0))
  else
    let str := utoa (value d) in
    let n := String.length str in
    let k := Z.to_nat (- exp d) in
    let intPart :=
      if (k <? n)%nat then substring 0 (n - k) str else "0" in
    let fractionalPart :=
      if (k <? n)%nat then substring (n - k) k str
      else Repeat "0" (k - n) ++ str in
    let number :=
      if (0 <? String.length fractionalPart)%nat
      then intPart ++ "." ++ fractionalPart else intPart in
    if value d <? 0 then "-" ++ number else number.

Definition StringFixedBank (d : t) (places : Z) : string :=
  string_ (RoundBank d places).

(** Position of the first ['e'] or ['E'] ([strings.IndexAny(s, "Ee")]). *)
Fixpoint indexE (s : string) : option nat :=
  match s with
  | "" => None
  | String c s' =>
      if Ascii.eqb c "e" || Ascii.eqb c "E" then Some O
      else option_map S (indexE s')
  end.

(** Splits at the decimal points: [None] for more than one point,
    otherwise the text with the point removed and the number of bytes
    after the point. *)
Fixpoint splitPoint (s : string) : option (string * option nat) :=
  match s with
  | "" => Some ("", None)
  | String c s' =>
      match splitPoint s' with
      | None => None
      | Some (rest, p) =>
          if Ascii.eqb c "." then
            match p with
            | Some _ => None
            | None => Some (rest, Some (String.length s'))
            end
          else Some (String c rest, p)
      end
  end.

(** [ParseInt(s, 10, 32)], [None] on any error. *)
Definition parseExp32 (s : string) : option Z :=
  match Strconv.ParseInt s with
  | (n, true) =>
      if (- 2 ^ 31 <=? n) && (n <=? 2 ^ 31 - 1) then Some n else None
  | _ => None
  end.

(** [big.Int.SetString(s, 10)] and, for at most 18 bytes,
    [ParseInt(s, 10, 64)]: an optional sign and at least one digit. *)
Definition parseCoefficient (s : string) : option Z :=
  match s with
  | "" => None
  | String c0 s' =>
      let neg := Ascii.eqb c0 "-" in
      let body := if neg || Ascii.eqb c0 "+" then s' else s in
      match body with
      | "" => None
      | _ => option_map (fun n => if neg then - n else n)
               (Strconv.digits body 0)
      end
  end.

(** [decimal.NewFromString]: [None] stands for a non-nil error, with
    which the Go function returns the zero [Decimal]. *)
Definition NewFromString (s : string) : option t :=
  let split :=
    match indexE s with
    | Some i =>
        match parseExp32 (substring (S i) (String.length s - S i) s) with
        | Some e => Some (substring 0 i s, e)
        | None => None
        end
    | None => Some (s, 0)
    end in
  match split with
  | None => None
  | Some (mant, e) =>
      match splitPoint mant with
      | None => None
      | Some (intString, p) =>
          let e' := match p with
                    | Some k => e - Z.of_nat k
                    | None => e
                    end in
          match parseCoefficient intString with
          | None => None
          | Some v =>
              if (e' <? - 2 ^ 31) || (e' >? 2 ^ 31 - 1) then None
              else Some (New v e')
          end
      end
  end.

(** [d, _ = decimal.NewFromString(s)] *)
Definition NewFromString_ (s : string) : t :=
  match NewFromString s with Some d => d | None => zero end.

End Decimal.

(* ===================================================================== *)
(** * [time.Time] with the layout ["20060102"] *)
(* ===================================================================== *)

Module Time.

(** A civil date in the time's own location and the nanoseconds since
    that day's midnight.  The layout prints and parses the date only. *)
Record t : Type := Date { year : Z; month : Z; day : Z; nanos : Z }.

(** The zero [time.Time]: January 1, year 1, 00:00:00 UTC. *)
Definition zero : t := Date 1 1 1 0.

(** [appendInt(b, x, width)]: sign, then the digits zero-filled to
    [width]. *)
Definition appendInt (x : Z) (width : nat) : string :=
  let ds := utoa x in
  let pad := Repeat "0" (width - String.length ds) in
  if x <? 0 then "-" ++ pad ++ ds else pad ++ ds.

(** [t.Format("20060102")] *)
Definition Format (d : t) : string :=
  appendInt (year d) 4 ++ appendInt (month d) 2 ++ appendInt (day d) 2.

Definition isLeap (y : Z) : bool :=
  (y mod 4 =? 0) && (negb (y mod 100 =? 0) || (y mod 400 =? 0)).

Definition daysIn (m y : Z) : Z :=
  if m =? 2 then (if isLeap y then 29 else 28)
  else if (m =? 4) || (m =? 6) || (m =? 9) || (m =? 11) then 30
  else 31.

(** [getnum(s, true)]: exactly two digits. *)
Definition getnum2 (s : string) : option (Z * string) :=
  match s with
  | String a (String b rest) =>
      match digitVal a, digitVal b with
      | Some x, Some y => Some (x * 10 + y, rest)
      | _, _ => None
      end
  | _ => None
  end.

(** [time.Parse("20060102", s)]: four digits of year, two of month,
    two of day, nothing after them, the month in 1..12 and the day in
    the month.  [None] stands for a non-nil error, with which [Parse]
    returns the zero time. *)
Definition Parse (s : string) : option t :=
  match s with
  | String a (String b (String c (String d rest))) =>
      match Strconv.digits (String a (String b (String c (String d "")))) 0 with
      | None => None
      | Some y =>
          match getnum2 rest with
          | None => None
          | Some (m, rest1) =>
              if (m <=? 0) || (12 <? m) then None
              else
                match getnum2 rest1 with
                | None => None
                | Some (dd, rest2) =>
                    match rest2 with
                    | "" =>
                        if (dd <? 1) || (daysIn m y <? dd) then None
                        else Some (Date y m dd 0)
                    | _ => None
                    end
                end
          end
      end
  | _ => None
  end.

(** [t, _ = time.Parse("20060102", s)] *)
Definition Parse_ (s : string) : t :=
  match Parse s with Some d => d | None => zero end.

End Time.

(* ===================================================================== *)
(** * Errors, the world of a run, and its monad *)
(* ===================================================================== *)

(** The package's error values, [io.EOF], and the errors [fmt.Errorf]
    builds, which carry their text.  A nil [error] is [None]. *)
Inductive error : Type :=
| ErrInsufficientRecords
| ErrInsufficientBatches
| ErrInvalidRecord
| ErrBadFileHeader
| ErrBadBatchHeader
| ErrBadRecord
| ErrBadBatchTrailer
| ErrBadFileTrailer
| ErrUnexpectedRecordType
| EOF
| Errorf (msg : string).

(** [err.Error()] *)
Definition Error (e : error) : string :=
  match e with
  | ErrInsufficientRecords => "txn: Not enough records (minimum 2 required)"
  | ErrInsufficientBatches => "txn: Not enough batches (minimum 1 required)"
  | ErrInvalidRecord => "txn: Invalid Record can't be written"
  | ErrBadFileHeader => "txn: Bad File Header prevented reading"
  | ErrBadBatchHeader => "txn: Bad Batch Header prevented reading"
  | ErrBadRecord => "txn: Bad Record prevented reading"
  | ErrBadBatchTrailer => "txn: Bad Batch Trailer prevented reading"
  | ErrBadFileTrailer => "txn: Bad File Trailer prevented reading"
  | ErrUnexpectedRecordType =>
      "txn: Unexpected record type, can decode 0,1 and 7 only"
  | EOF => "EOF"
  | Errorf msg => msg
  end.

Definition error_eqb (a b : error) : bool :=
  match a, b with
  | ErrInsufficientRecords, ErrInsufficientRecords
  | ErrInsufficientBatches, ErrInsufficientBatches
  | ErrInvalidRecord, ErrInvalidRecord
  | ErrBadFileHeader, ErrBadFileHeader
  | ErrBadBatchHeader, ErrBadBatchHeader
  | ErrBadRecord, ErrBadRecord
  | ErrBadBatchTrailer, ErrBadBatchTrailer
  | ErrBadFileTrailer, ErrBadFileTrailer
  | ErrUnexpectedRecordType, ErrUnexpectedRecordType
  | EOF, EOF => true
  | Errorf x, Errorf y => String.eqb x y
  | _, _ => false
  end.

(** What a run can observe outside the package's own data: the lines
    given to [log.Println] (each the operands joined by single spaces,
    without the logger's time stamp) and the clock behind [time.Now],
    whose [n]-th reading is [clock n]. *)
Record World : Type := mkWorld {
  logs : list string;
  clock : nat -> Time.t;
  ticks : nat
}.

Definition Go (A : Type) : Type := World -> A * World.

Definition ret {A : Type} (a : A) : Go A := fun wd => (a, wd).

Definition bind {A B : Type} (c : Go A) (k : A -> Go B) : Go B :=
  fun wd => let (a, wd') := c wd in k a wd'.

Declare Scope go_scope.
Delimit Scope go_scope with go.
Notation "x <- c ;; k" := (bind c (fun x => k))
  (at level 61, c at next level, right associativity) : go_scope.
Notation "c ;; k" := (bind c (fun _ => k))
  (at level 61, right associativity) : go_scope.

(** [log.Println(...)] *)
Definition Println (line : string) : Go unit :=
  fun wd => (tt, mkWorld (logs wd ++ [line]) (clock wd) (ticks wd)).

(** [time.Now()] *)
Definition Now : Go Time.t :=
  fun wd => (clock wd (ticks wd), mkWorld (logs wd) (clock wd) (S (ticks wd))).

(* ===================================================================== *)
(** * The verbs of [fmt.Sprintf] that the package uses *)
(* ===================================================================== *)

(** Flags, width and precision of one verb: [%-35.35s] is
    [{| minus := true; zero := false; wid := Some 35; prec := Some 35 |}]. *)
Record verb : Type := mkVerb {
  minus : bool;
  zero : bool;
  wid : option nat;
  prec : option nat
}.

(** [%s], [%d] *)
Definition v_ : verb := mkVerb false false None None.
(** [%Ws], e.g. [%2s] *)
Definition v_w (w : nat) : verb := mkVerb false false (Some w) None.
(** [%W.Ps], e.g. [%7.7s] *)
Definition v_wp (w p : nat) : verb := mkVerb false false (Some w) (Some p).
(** [%-W.Ps], e.g. [%-35.35s] *)
Definition v_minus (w p : nat) : verb := mkVerb true false (Some w) (Some p).
(** [%0W.Ps], e.g. [%08.8s] *)
Definition v_zero (w p : nat) : verb := mkVerb false true (Some w) (Some p).

(** [fmt.pad] and [fmt.padString]: fill up to the width, which counts
    runes, on the left unless [-] is set. *)
Definition pad (padByte : ascii) (v : verb) (s : string) : string :=
  match wid v with
  | None | Some O => s
  | Some w =>
      let width := (w - RuneCountInString s)%nat in
      if minus v then s ++ Repeat " " width
      else Repeat padByte width ++ s
  end.

(** [fmt.truncateString]: [s] up to its rune number [n], found by
    [for i := range s]; [within] is the number of bytes still to pass of
    the rune the scan is in. *)
Fixpoint truncate (n within : nat) (s : string) : string :=
  match s with
  | "" => ""
  | String c s' =>
      match within with
      | S k => String c (truncate n k s')
      | O =>
          match n with
          | O => ""
          | S n' =>
              String c (truncate n' (snd (DecodeRuneInString s) - 1) s')
          end
      end
  end.

Definition truncateString (n : nat) (s : string) : string := truncate n 0 s.

(** [%d] with its flags ([fmt.fmtInteger], base 10).  A precision is the
    least number of digits; with a precision the [0] flag is ignored and
    the width is filled with spaces. *)
Definition fmt_d (v : verb) (x : Z) : string :=
  let negative := x <? 0 in
  let ds := utoa x in
  let body :=
    match prec v with
    | Some p =>
        if (p =? 0)%nat && (x =? 0) then ""
        else Repeat "0" (p - String.length ds) ++ ds
    | None =>
        match zero v, wid v with
        | true, Some w =>
            let p := if negative then (w - 1)%nat else w in
            Repeat "0" (p - String.length ds) ++ ds
        | _, _ => ds
        end
    end in
  pad " " v (if negative then "-" ++ body else body).

(* ===================================================================== *)
(** * The five record kinds, the batch, the writer and the reader *)
(* ===================================================================== *)

Module FileHeader.
Record t : Type := mk {
  recordType : Z;             (* pos 1      - always zero *)
  CustomerNumber : string;    (* pos 1-10 *)
  CustomerName : string;      (* pos 10-45 *)
  RemitterName : string;      (* pos 45-64 *)
  FileCreated : Time.t;       (* pos 64-72  - YYYYMMDD *)
  ProcessingDate : Time.t;    (* pos 72-80  - YYYYMMDD *)
  Description : string        (* pos 80-100 *)
}.
Definition zero : t := mk 0 "" "" "" Time.zero Time.zero "".
End FileHeader.

Module BatchHeader.
Record t : Type := mk {
  recordType : Z;             (* pos 1      - always one *)
  BSBNumber : string;         (* pos 1-8 *)
  AccountNumber : string;     (* pos 8-17 *)
  AccountName : string;       (* pos 17-52 *)
  TransactionDate : Time.t;   (* pos 52-60 *)
  Amount : Decimal.t;         (* pos 60-76 *)
  Indicator : string          (* pos 76-78 *)
}.
Definition zero : t := mk 0 "" "" "" Time.zero Decimal.zero "".
End BatchHeader.

(** The Go type is named [Record]. *)
Module TxnRecord.
Record t : Type := mk {
  recordType : Z;                     (* pos 1       - always two *)
  BSBNumber : string;                 (* pos 1-8 *)
  AccountNumber : string;             (* pos 8-17 *)
  AccountName : string;               (* pos 17-52 *)
  TransactionDate : Time.t;           (* pos 52-60 *)
  Amount : Decimal.t;                 (* pos 60-76 *)
  Indicator : string;                 (* pos 76-78 *)
  TransactionCode : string;           (* pos 78-80 *)
  Description : string;               (* pos 80-120 *)
  ReferenceNumber : Z;                (* pos 120-130 *)
  SecondaryReferenceNumber : string;  (* pos 130-140 *)
  ChequeNumber : string               (* pos 140-148 *)
}.
Definition zero : t :=
  mk 0 "" "" "" Time.zero Decimal.zero "" "" "" 0 "" "".
End TxnRecord.

Module FileTrailer.
Record t : Type := mk {
  recordType : Z;                 (* pos 1     - always nine *)
  CustomerNumber : string;        (* pos 1-9 *)
  CustomerName : string;          (* pos 9-44 *)
  TotalDebitTransactions : Z;     (* pos 44-50 *)
  TotalCreditTransactions : Z;    (* pos 50-56 *)
  TotalDebitAmount : Decimal.t;   (* pos 56-72 *)
  TotalCreditAmount : Decimal.t   (* pos 72-88 *)
}.
Definition zero : t := mk 0 "" "" 0 0 Decimal.zero Decimal.zero.
End FileTrailer.

Module BatchTrailer.
Record t : Type := mk {
  recordType : Z;                 (* pos 1 *)
  BSBNumber : string;             (* pos 1-8 *)
  AccountNumber : string;         (* pos 8-17 *)
  AccountName : string;           (* pos 17-52 *)
  TransactionDate : Time.t;       (* pos 52-60 *)
  Amount : Decimal.t;             (* pos 60-76 *)
  Indicator : string;             (* pos 76-78 *)
  BatchType : string;             (* pos 78-80 *)
  ReferenceNumber : Z;            (* pos 80-86 *)
  TotalDebitTransactions : Z;     (* pos 86-92 *)
  TotalCreditTransactions : Z;    (* pos 92-98 *)
  TotalDebitAmount : Decimal.t;   (* pos 98-114 *)
  TotalCreditAmount : Decimal.t   (* pos 114-130 *)
}.
Definition zero : t :=
  mk 0 "" "" "" Time.zero Decimal.zero "" "" 0 0 0 Decimal.zero Decimal.zero.
End BatchTrailer.

Module Batch.
Record t : Type := mk {
  BatchHeader : BatchHeader.t;
  Records : list TxnRecord.t;
  BatchTrailer : BatchTrailer.t
}.
Definition zero : t := mk BatchHeader.zero [] BatchTrailer.zero.
End Batch.

(** [FileHeader] and [FileTrailer] are pointers in Go; the embedding
    keeps the structs they point to inside the writer, which is the only
    path the package reaches them by.  [wr] is what has been written to
    the buffered sink.  So a value of this type is a writer whose three
    pointers are set, as [NewWriter] returns it: with a nil [FileHeader]
    or [FileTrailer] and a batch to write, [Write] panics at the first
    dereference, and such a writer is no value of this type. *)
Module Writer.
Record t : Type := mk {
  OmitBatchTotals : bool;
  CRLFLineEndings : bool;
  FileHeader : FileHeader.t;
  FileTrailer : FileTrailer.t;
  Batch : list Batch.t;
  wr : string
}.
End Writer.

(** [r] is the input not yet read from the buffered source that
    [NewReader] sets: a value of this type is a reader whose source is
    set. *)
Module Reader.
Record t : Type := mk {
  FileHeader : FileHeader.t;
  Batch : list Batch.t;
  FileTrailer : FileTrailer.t;
  r : string
}.
End Reader.

Definition Debit : string := "DR".
Definition Credit : string := "CR".
Definition BatchTXN : string := "ST".
Definition BatchPAY : string := "SP".

(* ===================================================================== *)
(** * [padRight], [spaces] *)
(* ===================================================================== *)

(** The loop of [padRight]: append [pad], return the first [length]
    bytes once the text is longer than [length]. *)
Fixpoint padRight_loop (fuel : nat) (str pad : string) (length : nat)
  : option string :=
  match fuel with
  | O => None
  | S fuel' =>
      let str' := str ++ pad in
      if (length <? String.length str')%nat
      then Some (slice str' 0 length)
      else padRight_loop fuel' str' pad length
  end.

(** [padRight(str, pad, length)].  With the pad [" "], which every call
    of the package passes, the loop returns within [length + 1] rounds
    ([padRight_loop_returns]). *)
Definition padRight (str pad : string) (length : nat) : string :=
  match padRight_loop (S length) str pad length with
  | Some s => s
  | None => ""
  end.

Definition spaces (howMany : nat) : string := padRight "" " " howMany.

(* ===================================================================== *)
(** * Decoding: [IsValid] and the five [Read] methods *)
(* ===================================================================== *)

(** [bsbNumberRegEx.MatchString], the expression [^\d{3}-\d{3}$]: three
    ASCII digits, a hyphen, three ASCII digits, and nothing else. *)
Definition bsbNumberRegEx_MatchString (s : string) : bool :=
  match s with
  | String a (String b (String c (String h (String d (String e (String f "")))))) =>
      isDigit a && isDigit b && isDigit c && Ascii.eqb h "-"
      && isDigit d && isDigit e && isDigit f
  | _ => false
  end.

(** [r.IsValid()] *)
Definition IsValid (r : TxnRecord.t) : bool :=
  if String.eqb (TxnRecord.Indicator r) Credit
     || String.eqb (TxnRecord.Indicator r) Debit
  then bsbNumberRegEx_MatchString (TxnRecord.BSBNumber r)
  else false.

(** [n, _ = strconv.Atoi(strings.TrimSpace(s))] *)
Definition atoiField (s : string) : Z := fst (Strconv.Atoi (TrimSpace s)).
(** [t, _ = time.Parse("20060102", strings.TrimSpace(s))] *)
Definition dateField (s : string) : Time.t := Time.Parse_ (TrimSpace s).
(** [d, _ = decimal.NewFromString(strings.TrimSpace(s))] *)
Definition amountField (s : string) : Decimal.t :=
  Decimal.NewFromString_ (TrimSpace s).

Local Open Scope go_scope.

(** Whether [len(l) != a && len(l) != b]. *)
Definition badLength (l : string) (a b : nat) : bool :=
  negb (String.length l =? a)%nat && negb (String.length l =? b)%nat.

(** The [Read] methods have pointer receivers: each takes the struct the
    receiver points to and returns it as the call leaves it, with the
    returned error. *)
Definition FileHeader_Read (h : FileHeader.t) (l : string)
  : Go (FileHeader.t * option error) :=
  if badLength l 171 172 then
    Println ("TXN: Header expected 170, got " ++ itoa (len l)) ;;
    ret (h, Some ErrBadFileHeader)
  else
    ret (FileHeader.mk
           (atoiField (slice l 0 1))
           (TrimSpace (slice l 1 10))
           (TrimSpace (slice l 10 45))
           (TrimSpace (slice l 45 64))
           (dateField (slice l 64 72))
           (dateField (slice l 72 80))
           (TrimSpace (slice l 80 100)),
         None).

(** [recordType] is not assigned: it stays what the receiver had. *)
Definition BatchHeader_Read (h : BatchHeader.t) (l : string)
  : Go (BatchHeader.t * option error) :=
  if badLength l 171 172 then
    Println ("TXN: Header expected 170, got " ++ itoa (len l)) ;;
    ret (h, Some ErrBadBatchHeader)
  else
    ret (BatchHeader.mk
           (BatchHeader.recordType h)
           (TrimSpace (slice l 1 8))
           (TrimSpace (slice l 8 17))
           (TrimSpace (slice l 17 52))
           (dateField (slice l 52 60))
           (amountField (slice l 60 76))
           (TrimSpace (slice l 76 78)),
         None).

(** The fields are assigned before the validity check, so the receiver
    holds the decoded record also when [ErrInvalidRecord] is returned. *)
Definition Record_Read (r : TxnRecord.t) (l : string)
  : Go (TxnRecord.t * option error) :=
  if badLength l 169 170 then ret (r, Some ErrBadRecord)
  else
    let r' := TxnRecord.mk
                (atoiField (slice l 0 1))
                (TrimSpace (slice l 1 8))
                (TrimSpace (slice l 8 17))
                (TrimSpace (slice l 17 52))
                (dateField (slice l 52 60))
                (amountField (slice l 60 76))
                (TrimSpace (slice l 76 78))
                (TrimSpace (slice l 78 80))
                (TrimSpace (slice l 80 120))
                (atoiField (slice l 120 130))
                (TrimSpace (slice l 130 140))
                (TrimSpace (slice l 140 148)) in
    if negb (IsValid r') then ret (r', Some ErrInvalidRecord)
    else ret (r', None).

Definition FileTrailer_Read (t : FileTrailer.t) (l : string)
  : Go (FileTrailer.t * option error) :=
  if badLength l 171 172 then
    Println ("TXN: Trailer expected 171, got " ++ itoa (len l)) ;;
    ret (t, Some ErrBadFileTrailer)
  else
    ret (FileTrailer.mk
           (atoiField (slice l 0 1))
           (TrimSpace (slice l 1 9))
           (TrimSpace (slice l 9 44))
           (atoiField (slice l 44 50))
           (atoiField (slice l 50 56))
           (amountField (slice l 56 72))
           (amountField (slice l 72 88)),
         None).

Definition BatchTrailer_Read (t : BatchTrailer.t) (l : string)
  : Go (BatchTrailer.t * option error) :=
  if badLength l 171 172 then
    Println ("TXN: Batch Trailer expected 170, got " ++ itoa (len l)) ;;
    ret (t, Some ErrBadBatchTrailer)
  else
    ret (BatchTrailer.mk
           (atoiField (slice l 0 1))
           (TrimSpace (slice l 1 8))
           (TrimSpace (slice l 8 17))
           (TrimSpace (slice l 17 52))
           (dateField (slice l 52 60))
           (amountField (slice l 60 76))
           (TrimSpace (slice l 76 78))
           (TrimSpace (slice l 78 80))
           (atoiField (slice l 80 86))
           (atoiField (slice l 86 92))
           (atoiField (slice l 92 98))
           (amountField (slice l 98 114))
           (amountField (slice l 114 130)),
         None).

(* ===================================================================== *)
(** * Reading a file: [Reader.ReadAll] *)
(* ===================================================================== *)

(** [NewReader(r)] over the input [src]. *)
Definition NewReader (src : string) : Reader.t :=
  Reader.mk FileHeader.zero [] FileTrailer.zero src.

(** The two index expressions [r.Batch[len(r.Batch)-1]] of the reader. *)
Inductive site : Type :=
| AppendRecord     (* case '2': ....Records = append(....Records, record) *)
| AttachTrailer.   (* case '7': ....BatchTrailer = batch.BatchTrailer *)

(** The run-time panic "index out of range [index] with length length". *)
Inductive panic : Type :=
| IndexOutOfRange (at_ : site) (index : Z) (length : nat).

Inductive outcome (A : Type) : Type :=
| Val (a : A)
| Panic (p : panic).
Arguments Val {A} a.
Arguments Panic {A} p.

(** [s[i]] for an [int] index: [None] stands for the bounds check
    failing. *)
Definition elemAt {A : Type} (s : list A) (i : Z) : option A :=
  if (i <? 0) || (Z.of_nat (List.length s) <=? i) then None
  else nth_error s (Z.to_nat i).

(** [s[i] = x] for an index in range. *)
Fixpoint store {A : Type} (s : list A) (i : nat) (x : A) : list A :=
  match s, i with
  | [], _ => []
  | _ :: s', O => x :: s'
  | y :: s', S i' => y :: store s' i' x
  end.

(** [bufio.Reader.ReadString('\n')] on the unread input: the bytes up to
    and including the first line feed, the input left, and whether the
    input ended before a line feed was found ([err == io.EOF]). *)
Fixpoint ReadString (src : string) : string * string * bool :=
  match src with
  | "" => ("", "", true)
  | String c src' =>
      if Ascii.eqb c (ascii_of_nat 10) then (String c "", src', false)
      else
        let '(line, rest, eof) := ReadString src' in
        (String c line, rest, eof)
  end.

Notation "' pat <- c ;; k" :=
  (bind c (fun x => match x with pat => k end))
  (at level 61, pat pattern, c at next level, right associativity) : go_scope.

Definition setBatch (rd : Reader.t) (bs : list Batch.t) : Reader.t :=
  Reader.mk (Reader.FileHeader rd) bs (Reader.FileTrailer rd) (Reader.r rd).

(** The reader with [src] as its unread input. *)
Definition setInput (rd : Reader.t) (src : string) : Reader.t :=
  Reader.mk (Reader.FileHeader rd) (Reader.Batch rd) (Reader.FileTrailer rd)
    src.

(** The [switch b] of [readRecordOrHeaderOrTrailer] on the line just
    read: the returned error, or the panic of an index out of range, and
    the reader as the statement leaves it.  [record] and [batch] are the
    function's zero-valued locals. *)
Definition switchRecordType (b : ascii) (line : string) (rd : Reader.t)
  : Go (outcome (option error) * Reader.t) :=
  let record := TxnRecord.zero in
  let batch := Batch.zero in
  if Ascii.eqb b "0" then
    '(h, err) <- FileHeader_Read (Reader.FileHeader rd) line ;;
    ret (Val err,
         Reader.mk h (Reader.Batch rd) (Reader.FileTrailer rd) (Reader.r rd))
  else if Ascii.eqb b "1" then
    '(bh, err) <- BatchHeader_Read (Batch.BatchHeader batch) line ;;
    match err with
    | None =>
        let batch := Batch.mk bh (Batch.Records batch)
                       (Batch.BatchTrailer batch) in
        ret (Val None, setBatch rd (Reader.Batch rd ++ [batch]))
    | Some e => ret (Val (Some e), rd)
    end
  else if Ascii.eqb b "2" then
    '(record, err) <- Record_Read record line ;;
    match err with
    | None =>
        if IsValid record then
          let i := len_ (Reader.Batch rd) - 1 in
          match elemAt (Reader.Batch rd) i with
          | None =>
              ret (Panic (IndexOutOfRange AppendRecord i
                            (List.length (Reader.Batch rd))), rd)
          | Some cur =>
              let cur' := Batch.mk (Batch.BatchHeader cur)
                            (Batch.Records cur ++ [record])
                            (Batch.BatchTrailer cur) in
              ret (Val None,
                   setBatch rd (store (Reader.Batch rd) (Z.to_nat i) cur'))
          end
        else ret (Val (Some ErrInvalidRecord), rd)
    | Some e => ret (Val (Some e), rd)
    end
  else if Ascii.eqb b "7" then
    '(bt, err) <- BatchTrailer_Read (Batch.BatchTrailer batch) line ;;
    match err with
    | None =>
        let i := len_ (Reader.Batch rd) - 1 in
        match elemAt (Reader.Batch rd) i with
        | None =>
            ret (Panic (IndexOutOfRange AttachTrailer i
                          (List.length (Reader.Batch rd))), rd)
        | Some cur =>
            let cur' := Batch.mk (Batch.BatchHeader cur)
                          (Batch.Records cur) bt in
            ret (Val None,
                 setBatch rd (store (Reader.Batch rd) (Z.to_nat i) cur'))
        end
    | Some e => ret (Val (Some e), rd)
    end
  else if Ascii.eqb b "9" then
    '(t, err) <- FileTrailer_Read (Reader.FileTrailer rd) line ;;
    ret (Val err,
         Reader.mk (Reader.FileHeader rd) (Reader.Batch rd) t (Reader.r rd))
  else ret (Val (Some ErrUnexpectedRecordType), rd).

(** One call of [readRecordOrHeaderOrTrailer].  [ReadByte] fails with
    [io.EOF] on empty input and otherwise gives the first byte, which
    [UnreadByte] puts back; [ReadString] can fail with [io.EOF] only,
    which the function lets pass. *)
Definition readRecordOrHeaderOrTrailer (rd : Reader.t)
  : Go (outcome (option error) * Reader.t) :=
  match Reader.r rd with
  | "" => ret (Val (Some EOF), rd)
  | String b _ =>
      let '(line, rest, _) := ReadString (Reader.r rd) in
      switchRecordType b line (setInput rd rest)
  end.

(** What a call of [ReadAll] ends in: its two results, or a panic. *)
Inductive readAllResult : Type :=
| Returned (batch : list Batch.t) (err : option error)
| Panicked (p : panic).

(** The loop of [ReadAll], at most [fuel] rounds. *)
Fixpoint ReadAll_loop (fuel : nat) (rd : Reader.t)
  : Go (option readAllResult * Reader.t) :=
  match fuel with
  | O => ret (None, rd)
  | S fuel' =>
      '(res, rd') <- readRecordOrHeaderOrTrailer rd ;;
      match res with
      | Panic p => ret (Some (Panicked p), rd')
      | Val (Some EOF) => ret (Some (Returned (Reader.Batch rd') None), rd')
      | Val (Some err) =>
          Println ("readRecordOrHeaderOrTrailer " ++ Error err) ;;
          ret (Some (Returned (Reader.Batch rd') (Some err)), rd')
      | Val None => ReadAll_loop fuel' rd'
      end
  end.

(** [r.ReadAll()].  Every round but the last consumes at least one byte
    of input, so one round more than there are unread bytes is enough:
    the result is never [None] ([ReadAll_returns]). *)
Definition ReadAll (rd : Reader.t) : Go (option readAllResult * Reader.t) :=
  ReadAll_loop (S (String.length (Reader.r rd))) rd.

(* ===================================================================== *)
(** * Encoding: the five [Write] methods and [Writer.Write] *)
(* ===================================================================== *)

(** [NewBatch()] *)
Definition NewBatch : Go Batch.t :=
  t1 <- Now ;;
  t2 <- Now ;;
  ret (Batch.mk
         (BatchHeader.mk 1 "" "" "" t1 Decimal.zero "")
         []
         (BatchTrailer.mk 7 "" "" "" t2 Decimal.zero "" BatchPAY 0 0 0
            Decimal.zero Decimal.zero)).

(** [NewWriter(w)] over an empty sink. *)
Definition NewWriter : Go Writer.t :=
  t1 <- Now ;;
  t2 <- Now ;;
  b <- NewBatch ;;
  ret (Writer.mk false false
         (FileHeader.mk 0 "" "" "" t1 t2 "ACCOUNT TRANSACTIONS")
         (FileTrailer.mk 9 "" "" 0 0 Decimal.zero Decimal.zero)
         [b]
         "").

(** The statement a call of the writer's body ends in: it falls through
    with a value, or it executes [return err]. *)
Inductive flow (A : Type) : Type :=
| Next (a : A)
| Return_ (err : error).
Arguments Next {A} a.
Arguments Return_ {A} err.

(** Code that runs on a writer [w], in the world. *)
Definition WriterM (A : Type) : Type := Writer.t -> Go (flow A * Writer.t).

Definition wret {A : Type} (a : A) : WriterM A :=
  fun w => ret (Next a, w).

Definition wbind {A B : Type} (c : WriterM A) (k : A -> WriterM B)
  : WriterM B :=
  fun w =>
    '(f, w') <- c w ;;
    match f with
    | Next a => k a w'
    | Return_ err => ret (Return_ err, w')
    end.

Declare Scope writer_scope.
Delimit Scope writer_scope with writer.
Notation "x <- c ;; k" := (wbind c (fun x => k))
  (at level 61, c at next level, right associativity) : writer_scope.
Notation "c ;; k" := (wbind c (fun _ => k))
  (at level 61, right associativity) : writer_scope.

(** [return err] *)
Definition return_ {A : Type} (err : error) : WriterM A :=
  fun w => ret (Return_ err, w).

(** Reading a field of [w]. *)
Definition gets {A : Type} (f : Writer.t -> A) : WriterM A :=
  fun w => ret (Next (f w), w).

(** [*w.FileTrailer = t] *)
Definition setFileTrailer (t : FileTrailer.t) : WriterM unit :=
  fun w =>
    ret (Next tt,
         Writer.mk (Writer.OmitBatchTotals w) (Writer.CRLFLineEndings w)
           (Writer.FileHeader w) t (Writer.Batch w) (Writer.wr w)).

(** [fmt.Fprintf(w.wr, "%s", s)] *)
Definition Fprintf (s : string) : WriterM unit :=
  fun w =>
    ret (Next tt,
         Writer.mk (Writer.OmitBatchTotals w) (Writer.CRLFLineEndings w)
           (Writer.FileHeader w) (Writer.FileTrailer w) (Writer.Batch w)
           (Writer.wr w ++ s)).

(** [w.wr.WriteByte(c)] *)
Definition WriteByte (c : ascii) : WriterM unit := Fprintf (String c "").

Definition lift {A : Type} (c : Go A) : WriterM A :=
  fun w => (a <- c ;; ret (Next a, w))%go.

(** [if w.CRLFLineEndings { w.wr.WriteByte('\r') }] *)
Definition carriageReturn : WriterM unit :=
  (crlf <- gets Writer.CRLFLineEndings ;;
   if crlf then WriteByte (ascii_of_nat 13) else wret tt)%writer.

(** [w.wr.WriteByte('\n')] *)
Definition lineFeed : WriterM unit := WriteByte (ascii_of_nat 10).

(** [for i, x := range xs { body }] with the loop's local variables [s]:
    [x] is a copy of the element, [i] its index. *)
Fixpoint forRange {A St : Type} (xs : list A) (i : nat)
  (body : nat -> A -> St -> WriterM St) (s : St) : WriterM St :=
  match xs with
  | [] => wret s
  | x :: xs' =>
      (s' <- body i x s ;; forRange xs' (S i) body s')%writer
  end.

(** The four local totals of one batch. *)
Record totals : Type := mkTotals {
  batchDebitCounter : Z;
  batchCreditCounter : Z;
  batchDebitTx : Decimal.t;
  batchCreditTx : Decimal.t
}.

Section Encode.

(** Whether the [0] flag zero-fills a string operand.  It does up to
    Go 1.22 ([%08.8s] of ["123456"] is ["00123456"]); from Go 1.23 the
    flag is ignored for strings and the fill is blank.  The package
    fixes no toolchain, so the encoders take the behaviour as a
    parameter. *)
Variable strZeroPad : bool.

(** [%s] with its flags ([fmt.fmtS]): cut to the precision, then fill
    to the width.  Both count runes. *)
Definition fmt_s (v : verb) (s : string) : string :=
  let s' := match prec v with
            | Some p => truncateString p s
            | None => s
            end in
  pad (if zero v && negb (minus v) && strZeroPad then "0" else " ")%char
    v s'.

(** "%d%08.8s%-35.35s%-20.20s%8.8s%8.8s%20.20s%s" *)
Definition FileHeader_Write (h : FileHeader.t) : string :=
  let tempStr :=
    fmt_d v_ (FileHeader.recordType h)
    ++ fmt_s (v_zero 8 8) (FileHeader.CustomerNumber h)
    ++ fmt_s (v_minus 35 35) (FileHeader.CustomerName h)
    ++ fmt_s (v_minus 20 20) (FileHeader.RemitterName h)
    ++ fmt_s (v_wp 8 8) (Time.Format (FileHeader.FileCreated h))
    ++ fmt_s (v_wp 8 8) (Time.Format (FileHeader.ProcessingDate h))
    ++ fmt_s (v_wp 20 20) (FileHeader.Description h)
    ++ fmt_s v_ (spaces 70) in
  padRight tempStr " " 170.

(** "1%-7.7s%-9.9s%-35.35s%8.8s%16.16s%2.2s%s" *)
Definition BatchHeader_Write (h : BatchHeader.t) : string :=
  let tempStr :=
    "1"
    ++ fmt_s (v_minus 7 7) (BatchHeader.BSBNumber h)
    ++ fmt_s (v_minus 9 9) (BatchHeader.AccountNumber h)
    ++ fmt_s (v_minus 35 35) (BatchHeader.AccountName h)
    ++ fmt_s (v_wp 8 8) (Time.Format (BatchHeader.TransactionDate h))
    ++ fmt_s (v_wp 16 16) (Decimal.StringFixedBank (BatchHeader.Amount h) 2)
    ++ fmt_s (v_wp 2 2) (BatchHeader.Indicator h)
    ++ fmt_s v_ (spaces 92) in
  padRight tempStr " " 170.

(** "2%7.7s%9.9s%-35.35s%8.8s%16.16s%2.2s%2.2s%-40.40s%-10.1d%-10.10s%-8.8s%s" *)
Definition Record_Write (r : TxnRecord.t) : string :=
  let tempStr :=
    "2"
    ++ fmt_s (v_wp 7 7) (TxnRecord.BSBNumber r)
    ++ fmt_s (v_wp 9 9) (TxnRecord.AccountNumber r)
    ++ fmt_s (v_minus 35 35) (TxnRecord.AccountName r)
    ++ fmt_s (v_wp 8 8) (Time.Format (TxnRecord.TransactionDate r))
    ++ fmt_s (v_wp 16 16) (Decimal.StringFixedBank (TxnRecord.Amount r) 2)
    ++ fmt_s (v_wp 2 2) (TxnRecord.Indicator r)
    ++ fmt_s (v_wp 2 2) (TxnRecord.TransactionCode r)
    ++ fmt_s (v_minus 40 40) (TxnRecord.Description r)
    ++ fmt_d (v_minus 10 1) (TxnRecord.ReferenceNumber r)
    ++ fmt_s (v_minus 10 10) (TxnRecord.SecondaryReferenceNumber r)
    ++ fmt_s (v_minus 8 8) (TxnRecord.ChequeNumber r)
    ++ fmt_s v_ (spaces 20) in
  padRight tempStr " " 168.

(** "%d%7.7s%9.9s%-35.35s%8.8s%16.16s%2s%2s%06.6d%6.1d%6.1d%16.16s%16.16s%s" *)
Definition BatchTrailer_Write (t : BatchTrailer.t) : string :=
  let tempStr :=
    fmt_d v_ (BatchTrailer.recordType t)
    ++ fmt_s (v_wp 7 7) (BatchTrailer.BSBNumber t)
    ++ fmt_s (v_wp 9 9) (BatchTrailer.AccountNumber t)
    ++ fmt_s (v_minus 35 35) (BatchTrailer.AccountName t)
    ++ fmt_s (v_wp 8 8) (Time.Format (BatchTrailer.TransactionDate t))
    ++ fmt_s (v_wp 16 16) (Decimal.StringFixedBank (BatchTrailer.Amount t) 2)
    ++ fmt_s (v_w 2) (BatchTrailer.Indicator t)
    ++ fmt_s (v_w 2) (BatchTrailer.BatchType t)
    ++ fmt_d (v_zero 6 6) (BatchTrailer.ReferenceNumber t)
    ++ fmt_d (v_wp 6 1) (BatchTrailer.TotalDebitTransactions t)
    ++ fmt_d (v_wp 6 1) (BatchTrailer.TotalCreditTransactions t)
    ++ fmt_s (v_wp 16 16)
         (Decimal.StringFixedBank (BatchTrailer.TotalDebitAmount t) 2)
    ++ fmt_s (v_wp 16 16)
         (Decimal.StringFixedBank (BatchTrailer.TotalCreditAmount t) 2)
    ++ fmt_s v_ (spaces 40) in
  padRight tempStr " " 170.

(** "%d%08.8s%-35.35s%-6.1d%-6.1d%-16.16s%-16.16s%s" *)
Definition FileTrailer_Write (t : FileTrailer.t) : string :=
  let tempStr :=
    fmt_d v_ (FileTrailer.recordType t)
    ++ fmt_s (v_zero 8 8) (FileTrailer.CustomerNumber t)
    ++ fmt_s (v_minus 35 35) (FileTrailer.CustomerName t)
    ++ fmt_d (v_minus 6 1) (FileTrailer.TotalDebitTransactions t)
    ++ fmt_d (v_minus 6 1) (FileTrailer.TotalCreditTransactions t)
    ++ fmt_s (v_minus 16 16)
         (Decimal.StringFixedBank (FileTrailer.TotalDebitAmount t) 2)
    ++ fmt_s (v_minus 16 16)
         (Decimal.StringFixedBank (FileTrailer.TotalCreditAmount t) 2)
    ++ fmt_s v_ (spaces 82) in
  padRight tempStr " " 170.

Local Open Scope writer_scope.

(** The [switch r.Indicator] of the record loop, under
    [!w.OmitBatchTotals]. *)
Definition addToTotals (i : nat) (r : TxnRecord.t) (s : totals)
  : WriterM totals :=
  if String.eqb (TxnRecord.Indicator r) Debit then
    t <- gets Writer.FileTrailer ;;
    setFileTrailer
      (FileTrailer.mk (FileTrailer.recordType t)
         (FileTrailer.CustomerNumber t) (FileTrailer.CustomerName t)
         (int_incr (FileTrailer.TotalDebitTransactions t))
         (FileTrailer.TotalCreditTransactions t)
         (Decimal.Add (FileTrailer.TotalDebitAmount t) (TxnRecord.Amount r))
         (FileTrailer.TotalCreditAmount t)) ;;
    wret (mkTotals (int_incr (batchDebitCounter s)) (batchCreditCounter s)
            (Decimal.Add (batchDebitTx s) (TxnRecord.Amount r))
            (batchCreditTx s))
  else if String.eqb (TxnRecord.Indicator r) Credit then
    t <- gets Writer.FileTrailer ;;
    setFileTrailer
      (FileTrailer.mk (FileTrailer.recordType t)
         (FileTrailer.CustomerNumber t) (FileTrailer.CustomerName t)
         (FileTrailer.TotalDebitTransactions t)
         (int_incr (FileTrailer.TotalCreditTransactions t))
         (FileTrailer.TotalDebitAmount t)
         (Decimal.Add (FileTrailer.TotalCreditAmount t) (TxnRecord.Amount r))) ;;
    wret (mkTotals (batchDebitCounter s) (int_incr (batchCreditCounter s))
            (batchDebitTx s)
            (Decimal.Add (batchCreditTx s) (TxnRecord.Amount r)))
  else
    lift (Println ("Unknown transaction type " ++ TxnRecord.Indicator r
                   ++ " in record " ++ itoa (Z.of_nat i))) ;;
    wret s.

(** The body of [for i, r := range batch.Records]. *)
Definition writeRecord (i : nat) (r : TxnRecord.t) (s : totals)
  : WriterM totals :=
  if negb (IsValid r) then
    return_ (Errorf (Error ErrInvalidRecord ++ " (record "
                     ++ itoa (Z.of_nat i) ++ ")"))
  else
    omit <- gets Writer.OmitBatchTotals ;;
    s' <- (if negb omit then addToTotals i r s else wret s) ;;
    Fprintf (Record_Write r) ;;
    carriageReturn ;;
    lineFeed ;;
    wret s'.

(** The trailer of the loop's copy [batch] after the assignments that
    follow the record loop; [recordType] is the one field they leave. *)
Definition batchTrailer (k : nat) (batch : Batch.t) (s : totals)
  (now : Time.t) : BatchTrailer.t :=
  let batchAmount := Decimal.Sub (batchCreditTx s) (batchDebitTx s) in
  let indicator := if Decimal.Sign batchAmount <? 0 then "DR" else "CR" in
  BatchTrailer.mk
    (BatchTrailer.recordType (Batch.BatchTrailer batch))
    (BatchHeader.BSBNumber (Batch.BatchHeader batch))
    (BatchHeader.AccountNumber (Batch.BatchHeader batch))
    (BatchHeader.AccountName (Batch.BatchHeader batch))
    now
    (Decimal.Abs batchAmount)
    indicator
    BatchTXN
    (Z.of_nat k)
    (batchDebitCounter s)
    (batchCreditCounter s)
    (batchDebitTx s)
    (batchCreditTx s).

(** The body of [for k, batch := range w.Batch].  [batch] is the loop's
    copy of the element: the trailer is assigned in the copy. *)
Definition writeBatch (k : nat) (batch : Batch.t) (_ : unit)
  : WriterM unit :=
  Fprintf (BatchHeader_Write (Batch.BatchHeader batch)) ;;
  carriageReturn ;;
  lineFeed ;;
  s <- forRange (Batch.Records batch) 0 writeRecord
         (mkTotals 0 0 Decimal.zero Decimal.zero) ;;
  now <- lift Now ;;
  let batch := Batch.mk (Batch.BatchHeader batch) (Batch.Records batch)
                 (batchTrailer k batch s now) in
  Fprintf (BatchTrailer_Write (Batch.BatchTrailer batch)) ;;
  carriageReturn ;;
  lineFeed.

Definition Write_body : WriterM unit :=
  batches <- gets Writer.Batch ;;
  if (List.length batches <? 1)%nat then return_ ErrInsufficientBatches
  else
    h <- gets Writer.FileHeader ;;
    Fprintf (FileHeader_Write h) ;;
    carriageReturn ;;
    lineFeed ;;
    batches <- gets Writer.Batch ;;
    forRange batches 0 writeBatch tt ;;
    t <- gets Writer.FileTrailer ;;
    Fprintf (FileTrailer_Write t) ;;
    carriageReturn ;;
    lineFeed.

(** [w.Write()]: the returned error and the writer as the call leaves
    it. *)
Definition Writer_Write (w : Writer.t) : Go (option error * Writer.t) :=
  ('(f, w') <- Write_body w ;;
   match f with
   | Next _ => ret (None, w')
   | Return_ err => ret (Some err, w')
   end)%go.

End Encode.

(* ===================================================================== *)
(** * Definitions used to state the properties *)
(* ===================================================================== *)

(** ** The five record kinds *)

Inductive kind : Type :=
| KFileHeader
| KBatchHeader
| KRecord
| KBatchTrailer
| KFileTrailer.

(** The width of the kind's line, without the line terminator. *)
Definition width (k : kind) : nat :=
  match k with
  | KRecord => 168
  | _ => 170
  end.

(** The kind's length error. *)
Definition badKind (k : kind) : error :=
  match k with
  | KFileHeader => ErrBadFileHeader
  | KBatchHeader => ErrBadBatchHeader
  | KRecord => ErrBadRecord
  | KBatchTrailer => ErrBadBatchTrailer
  | KFileTrailer => ErrBadFileTrailer
  end.

Definition receiver (k : kind) : Type :=
  match k with
  | KFileHeader => FileHeader.t
  | KBatchHeader => BatchHeader.t
  | KRecord => TxnRecord.t
  | KBatchTrailer => BatchTrailer.t
  | KFileTrailer => FileTrailer.t
  end.

(** The error that the kind's [Read] returns for the line [l]. *)
Definition readError (k : kind)
  : receiver k -> string -> World -> option error :=
  match k with
  | KFileHeader => fun h l wd => snd (fst (FileHeader_Read h l wd))
  | KBatchHeader => fun h l wd => snd (fst (BatchHeader_Read h l wd))
  | KRecord => fun r l wd => snd (fst (Record_Read r l wd))
  | KBatchTrailer => fun t l wd => snd (fst (BatchTrailer_Read t l wd))
  | KFileTrailer => fun t l wd => snd (fst (FileTrailer_Read t l wd))
  end.

(** ** Amounts as rational numbers, and sums *)

(** The number a [Decimal] stands for. *)
Definition toQ (d : Decimal.t) : Q :=
  (inject_Z (Decimal.value d) * inject_Z 10 ^ Decimal.exp d)%Q.

(** The sum of the amounts of the records whose indicator is [ind]. *)
Definition sumAmounts (ind : string) (rs : list TxnRecord.t) : Q :=
  fold_right
    (fun r acc =>
       if String.eqb (TxnRecord.Indicator r) ind
       then (toQ (TxnRecord.Amount r) + acc)%Q else acc)
    0%Q rs.

(** The number of records whose indicator is [ind]. *)
Definition countOf (ind : string) (rs : list TxnRecord.t) : Z :=
  fold_right
    (fun r acc =>
       if String.eqb (TxnRecord.Indicator r) ind then 1 + acc else acc)
    0 rs.

Definition sumQ (qs : list Q) : Q := fold_right Qplus 0%Q qs.

(** A sum of [int]s as Go computes it, with wrap-around. *)
Definition sumInt (zs : list Z) : Z := fold_right int_add 0 zs.

Definition fileSum (ind : string) (bs : list Batch.t) : Q :=
  sumQ (map (fun b => sumAmounts ind (Batch.Records b)) bs).

Definition fileCount (ind : string) (bs : list Batch.t) : Z :=
  fold_right Z.add 0 (map (fun b => countOf ind (Batch.Records b)) bs).

(** ** What [Writer.Write] does, as plain functions *)

Definition allValid (rs : list TxnRecord.t) : Prop :=
  Forall (fun r => IsValid r = true) rs.

Definition allValidBatches (bs : list Batch.t) : Prop :=
  Forall (fun b => allValid (Batch.Records b)) bs.

(** The line terminator that the writer puts after every line. *)
Definition eol (crlf : bool) : string := if crlf then cr ++ nl else nl.

(** One record's effect on the batch's local totals. *)
Definition tally (omit : bool) (s : totals) (r : TxnRecord.t) : totals :=
  if omit then s
  else if String.eqb (TxnRecord.Indicator r) Debit then
    mkTotals (int_incr (batchDebitCounter s)) (batchCreditCounter s)
      (Decimal.Add (batchDebitTx s) (TxnRecord.Amount r)) (batchCreditTx s)
  else if String.eqb (TxnRecord.Indicator r) Credit then
    mkTotals (batchDebitCounter s) (int_incr (batchCreditCounter s))
      (batchDebitTx s) (Decimal.Add (batchCreditTx s) (TxnRecord.Amount r))
  else s.

(** One record's effect on the file trailer. *)
Definition tallyFile (omit : bool) (t : FileTrailer.t) (r : TxnRecord.t)
  : FileTrailer.t :=
  if omit then t
  else if String.eqb (TxnRecord.Indicator r) Debit then
    FileTrailer.mk (FileTrailer.recordType t)
      (FileTrailer.CustomerNumber t) (FileTrailer.CustomerName t)
      (int_incr (FileTrailer.TotalDebitTransactions t))
      (FileTrailer.TotalCreditTransactions t)
      (Decimal.Add (FileTrailer.TotalDebitAmount t) (TxnRecord.Amount r))
      (FileTrailer.TotalCreditAmount t)
  else if String.eqb (TxnRecord.Indicator r) Credit then
    FileTrailer.mk (FileTrailer.recordType t)
      (FileTrailer.CustomerNumber t) (FileTrailer.CustomerName t)
      (FileTrailer.TotalDebitTransactions t)
      (int_incr (FileTrailer.TotalCreditTransactions t))
      (FileTrailer.TotalDebitAmount t)
      (Decimal.Add (FileTrailer.TotalCreditAmount t) (TxnRecord.Amount r))
  else t.

(** The writer [w] with another file trailer and another sink content. *)
Definition withTrailerOut (w : Writer.t) (t : FileTrailer.t) (out : string)
  : Writer.t :=
  Writer.mk (Writer.OmitBatchTotals w) (Writer.CRLFLineEndings w)
    (Writer.FileHeader w) t (Writer.Batch w) out.

(** The world after [n] more readings of the clock. *)
Definition tick (n : nat) (wd : World) : World :=
  mkWorld (logs wd) (clock wd) (n + ticks wd).

(** The local totals after the record loop of a batch. *)
Definition batchTotals (omit : bool) (b : Batch.t) : totals :=
  fold_left (tally omit) (Batch.Records b)
    (mkTotals 0 0 Decimal.zero Decimal.zero).

(** The trailers that the batch loop serialises for the batches [bs],
    the first of them with index [k] and at the clock's reading [t0]. *)
Fixpoint trailers (omit : bool) (clk : nat -> Time.t) (t0 k : nat)
  (bs : list Batch.t) : list BatchTrailer.t :=
  match bs with
  | [] => []
  | b :: bs' =>
      batchTrailer k b (batchTotals omit b) (clk t0)
      :: trailers omit clk (S t0) (S k) bs'
  end.

(** The file trailer after the batches [bs]. *)
Definition fileTotals (omit : bool) (bs : list Batch.t)
  (ft : FileTrailer.t) : FileTrailer.t :=
  fold_left (fun t b => fold_left (tallyFile omit) (Batch.Records b) t)
    bs ft.

(** Every total of a batch trailer is zero. *)
Definition zeroTotals (t : BatchTrailer.t) : Prop :=
  BatchTrailer.TotalDebitTransactions t = 0
  /\ BatchTrailer.TotalCreditTransactions t = 0
  /\ BatchTrailer.TotalDebitAmount t = Decimal.zero
  /\ BatchTrailer.TotalCreditAmount t = Decimal.zero
  /\ BatchTrailer.Amount t = Decimal.zero.

(** The error of [Write] for the invalid record with index [i]. *)
Definition invalidRecordAt (i : nat) : error :=
  Errorf (Error ErrInvalidRecord ++ " (record " ++ itoa (Z.of_nat i) ++ ")").

Section Rendering.

Variable strZeroPad : bool.

(** The lines of the records [rs]. *)
Definition recordLines (crlf : bool) (rs : list TxnRecord.t) : string :=
  fold_right (fun r acc => Record_Write strZeroPad r ++ eol crlf ++ acc)
    "" rs.

(** The lines of the batch [b] with the trailer [t]. *)
Definition batchText (crlf : bool) (b : Batch.t) (t : BatchTrailer.t)
  : string :=
  BatchHeader_Write strZeroPad (Batch.BatchHeader b) ++ eol crlf
  ++ recordLines crlf (Batch.Records b)
  ++ BatchTrailer_Write strZeroPad t ++ eol crlf.

Fixpoint batchesText (crlf : bool) (bs : list Batch.t)
  (ts : list BatchTrailer.t) : string :=
  match bs, ts with
  | b :: bs', t :: ts' => batchText crlf b t ++ batchesText crlf bs' ts'
  | _, _ => ""
  end.

(** A whole file: the header [fh], the batches [bs] with the trailers
    [ts], the file trailer [ft]. *)
Definition fileText (crlf : bool) (fh : FileHeader.t) (bs : list Batch.t)
  (ts : list BatchTrailer.t) (ft : FileTrailer.t) : string :=
  FileHeader_Write strZeroPad fh ++ eol crlf
  ++ batchesText crlf bs ts
  ++ FileTrailer_Write strZeroPad ft ++ eol crlf.

End Rendering.

(** ** The lines of an input *)

(** Whether the text is empty or ends in a line feed: every line of it
    is complete. *)
Fixpoint terminated (s : string) : bool :=
  match s with
  | "" => true
  | String c s' =>
      match s' with
      | "" => Ascii.eqb c (ascii_of_nat 10)
      | _ => terminated s'
      end
  end.

(** The lines that successive [ReadString('\n')] calls return: each up
    to and including its line feed, the last one possibly without. *)
Fixpoint splitLines (src : string) : list string :=
  match src with
  | "" => []
  | String c src' =>
      if Ascii.eqb c (ascii_of_nat 10) then String c "" :: splitLines src'
      else
        match splitLines src' with
        | [] => [String c ""]
        | l :: ls => String c l :: ls
        end
  end.

Definition firstByte (l : string) : option ascii :=
  match l with
  | "" => None
  | String c _ => Some c
  end.

(** A ['1'] line precedes every ['2'] line. *)
Definition headerBeforeRecords (ls : list string) : Prop :=
  forall (j : nat) (l : string),
    nth_error ls j = Some l -> firstByte l = Some "2"%char ->
    exists (i : nat) (l' : string),
      (i < j)%nat /\ nth_error ls i = Some l' /\ firstByte l' = Some "1"%char.

(** A call of [readRecordOrHeaderOrTrailer] panics at the append of
    case ['2']. *)
Definition appendPanic (res : outcome (option error)) : Prop :=
  exists (i : Z) (n : nat), res = Panic (IndexOutOfRange AppendRecord i n).

(** What keeps the append in bounds: a batch is open, or a ['1'] line
    comes before every ['2'] line of the unread input. *)
Definition appendSafe (rd : Reader.t) : Prop :=
  Reader.Batch rd <> [] \/ headerBeforeRecords (splitLines (Reader.r rd)).

(** The line that [ReadAll] logs when it stops on the error [err]. *)
Definition readAllLog (err : error) : string :=
  "readRecordOrHeaderOrTrailer " ++ Error err.

(** ** Example data: the file of the package's [TestDemo] *)

Definition exampleDate : Time.t := Time.Date 2017 1 23 0.

Definition exampleWorld : World := mkWorld [] (fun _ => exampleDate) 0.

Definition exampleFileHeader : FileHeader.t :=
  FileHeader.mk 0 "00123456" "ABC PTY LIMITED" "MACQUARIE BANK"
    exampleDate exampleDate "ACCOUNT TRANSACTIONS".

Definition exampleBatchHeader : BatchHeader.t :=
  BatchHeader.mk 1 "182-222" "123456789" "DEMO ACCOUNT NUMBER 2"
    exampleDate (Decimal.New 42632 (-2)) Credit.

Definition exampleRecords : list TxnRecord.t :=
  [ TxnRecord.mk 2 "182-222" "123456789" "DEMO ACCOUNT NUMBER 2" exampleDate
      (Decimal.New 272178 (-2)) Debit "13"
      "DDR GL481         Tower Australia" 245397 "" "";
    TxnRecord.mk 2 "182-222" "123456789" "DEMO ACCOUNT NUMBER 2" exampleDate
      (Decimal.New 121000 (-2)) Credit "50"
      "TEST TRANS        SIMPSON DESERT O" 0 "" "";
    TxnRecord.mk 2 "182-222" "123456789" "DEMO ACCOUNT NUMBER 2" exampleDate
      (Decimal.New 12000 (-2)) Debit "13"
      "TEST TRANS               payment" 0 "" "";
    TxnRecord.mk 2 "182-222" "123456789" "DEMO ACCOUNT NUMBER 2" exampleDate
      (Decimal.New 244896 (-2)) Credit "50"
      "PAYMENT 1246      ATHM" 1 "" "" ].

Definition exampleBatchTrailer : BatchTrailer.t :=
  BatchTrailer.mk 7 "182-222" "123456789" "DEMO ACCOUNT NUMBER 2" exampleDate
    (Decimal.New 81718 (-2)) Credit BatchTXN 0 2 2
    (Decimal.New 284178 (-2)) (Decimal.New 365896 (-2)).

Definition exampleFileTrailer : FileTrailer.t :=
  FileTrailer.mk 9 "00123456" "ABC PTY LIMITED" 2 2
    (Decimal.New 284178 (-2)) (Decimal.New 365896 (-2)).

(** The batch and the writer of the test before [Write]: a new writer
    with its fields set. *)
Definition exampleBatch : Batch.t :=
  Batch.mk exampleBatchHeader exampleRecords
    (BatchTrailer.mk 7 "" "" "" exampleDate Decimal.zero "" BatchPAY
       0 0 0 Decimal.zero Decimal.zero).

Definition exampleWriter : Writer.t :=
  Writer.mk false false exampleFileHeader
    (FileTrailer.mk 9 "00123456" "ABC PTY LIMITED" 0 0
       Decimal.zero Decimal.zero)
    [exampleBatch]
    "".

(** A record with the indicator ["XX"] and a well-formed routing
    number. *)
Definition recordXX : TxnRecord.t :=
  TxnRecord.mk 2 "182-222" "123456789" "DEMO ACCOUNT NUMBER 2" exampleDate
    (Decimal.New 121000 (-2)) "XX" "50"
    "TEST TRANS        SIMPSON DESERT O" 0 "" "".

(** The example writer with [recordXX] as the only record of its
    batch. *)
Definition writerXX : Writer.t :=
  Writer.mk false false exampleFileHeader
    (FileTrailer.mk 9 "00123456" "ABC PTY LIMITED" 0 0
       Decimal.zero Decimal.zero)
    [ Batch.mk exampleBatchHeader [recordXX] BatchTrailer.zero ]
    "".

(** Three lines as they stand in a file: the batch header, the first
    record, and [recordXX]. *)
Definition batchHeaderLine : string :=
  "1182-222123456789DEMO ACCOUNT NUMBER 2              20170123          426.32CR                                                                                            "
  ++ nl.

Definition recordLine : string :=
  "2182-222123456789DEMO ACCOUNT NUMBER 2              20170123         2721.78DR13DDR GL481         Tower Australia       245397                                          "
  ++ nl.

Definition recordLineXX : string :=
  "2182-222123456789DEMO ACCOUNT NUMBER 2              20170123         1210.00XX50TEST TRANS        SIMPSON DESERT O      0                                               "
  ++ nl.

(** The batch that the reader holds after [batchHeaderLine]: the decoded
    header in the reader's zero-valued batch. *)
Definition exampleReadBatch : Batch.t :=
  Batch.mk
    (BatchHeader.mk 0 "182-222" "123456789" "DEMO ACCOUNT NUMBER 2"
       exampleDate (Decimal.New 42632 (-2)) Credit)
    [] BatchTrailer.zero.

(** The example writer without batches. *)
Definition emptyWriter : Writer.t :=
  Writer.mk false false exampleFileHeader
    (FileTrailer.mk 9 "00123456" "ABC PTY LIMITED" 0 0
       Decimal.zero Decimal.zero)
    [] "".

(** The example writer and the world after [Write]. *)
Definition exampleWritten : Writer.t :=
  Eval vm_compute in snd (fst (Writer_Write true exampleWriter exampleWorld)).

Definition exampleWorldAfter : World :=
  mkWorld [] (fun _ => exampleDate) 1.

(** ** Values that a fixed-width line holds and gives back *)

(** A text that holds no byte of which [p] is true. *)
Fixpoint noneOf (p : ascii -> bool) (s : string) : bool :=
  match s with
  | "" => true
  | String c s' => negb (p c) && noneOf p s'
  end.

(** A text of the bytes below [utf8.RuneSelf], in which a rune is a
    byte. *)
Definition isASCII (s : string) : bool := noneOf high s.

(** What [strings.TrimSpace] takes off such a text: the ASCII spaces at
    its start and at its end. *)
Fixpoint trimLeft (s : string) : string :=
  match s with
  | "" => ""
  | String c s' => if isSpace c then trimLeft s' else s
  end.

Fixpoint trimRight (s : string) : string :=
  match s with
  | "" => ""
  | String c s' =>
      match trimRight s' with
      | "" => if isSpace c then "" else String c ""
      | t => String c t
      end
  end.

(** A text without an ASCII space at either end. *)
Definition blankFree (s : string) : Prop := trimRight (trimLeft s) = s.

(** A text that [strings.TrimSpace] returns as it is. *)
Definition trimmed (s : string) : Prop := TrimSpace s = s.

(** The number that the digits [d], most significant first, stand for
    after the digits that stood for [acc]. *)
Fixpoint uintZ (d : Decimal.uint) (acc : Z) : Z :=
  match d with
  | Decimal.Nil => acc
  | Decimal.D0 l => uintZ l (acc * 10 + 0)
  | Decimal.D1 l => uintZ l (acc * 10 + 1)
  | Decimal.D2 l => uintZ l (acc * 10 + 2)
  | Decimal.D3 l => uintZ l (acc * 10 + 3)
  | Decimal.D4 l => uintZ l (acc * 10 + 4)
  | Decimal.D5 l => uintZ l (acc * 10 + 5)
  | Decimal.D6 l => uintZ l (acc * 10 + 6)
  | Decimal.D7 l => uintZ l (acc * 10 + 7)
  | Decimal.D8 l => uintZ l (acc * 10 + 8)
  | Decimal.D9 l => uintZ l (acc * 10 + 9)
  end.

Fixpoint allDigits (s : string) : bool :=
  match s with
  | "" => true
  | String c s' => isDigit c && allDigits s'
  end.

(** Whether the last byte, and the first, is no ASCII space: such a
    text is [blankFree]. *)
Fixpoint lastNonSpace (s : string) : bool :=
  match s with
  | "" => true
  | String c s' =>
      match s' with
      | "" => negb (isSpace c)
      | _ => lastNonSpace s'
      end
  end.

Definition firstNonSpace (s : string) : bool :=
  match s with
  | "" => true
  | String c _ => negb (isSpace c)
  end.

(** A non-negative [int] whose decimal text has at most [w] bytes. *)
Definition intOk (w : nat) (n : Z) : Prop :=
  0 <= n /\ (String.length (itoa n) <= w)%nat.

(** A text that a column of width [w] holds and gives back: it is
    ASCII, so that its runes are its bytes, [strings.TrimSpace] returns
    it as it is, and it has at most [w] bytes. *)
Definition fits (w : nat) (s : string) : Prop :=
  isASCII s = true /\ trimmed s /\ (String.length s <= w)%nat.

(** A calendar date of the years 0 to 9999, at midnight. *)
Definition dateOk (d : Time.t) : Prop :=
  0 <= Time.year d <= 9999
  /\ 1 <= Time.month d <= 12
  /\ 1 <= Time.day d <= Time.daysIn (Time.month d) (Time.year d)
  /\ Time.nanos d = 0.

(** [appendInt(y, 4)] is four digits that read back as [y]. *)
Definition year4 (y : Z) : bool :=
  match Time.appendInt y 4 with
  | String a (String b (String c (String d ""))) =>
      match Strconv.digits (Time.appendInt y 4) 0 with
      | Some y' => (y' =? y) && allDigits (Time.appendInt y 4)
      | None => false
      end
  | _ => false
  end.

(** [appendInt(m, 2)] is two digits that [getnum] reads back as [m]. *)
Definition num2 (m : Z) : bool :=
  match Time.appendInt m 2 with
  | String a (String b "") =>
      match Time.getnum2 (Time.appendInt m 2) with
      | Some (m', "") => (m' =? m) && allDigits (Time.appendInt m 2)
      | _ => false
      end
  | _ => false
  end.

Definition upto (n : Z) : list Z := map Z.of_nat (seq 0 (Z.to_nat n)).

(** An amount with two decimal places whose text has at most 16 bytes. *)
Definition amountOk (a : Decimal.t) : Prop :=
  Decimal.exp a = -2 /\ (String.length (Decimal.string_ a) <= 16)%nat.

Definition isE (c : ascii) : bool := Ascii.eqb c "e" || Ascii.eqb c "E".
Definition isDot (c : ascii) : bool := Ascii.eqb c ".".

(** A record that its line holds and gives back. *)
Definition wfRecord (r : TxnRecord.t) : Prop :=
  TxnRecord.recordType r = 2
  /\ fits 7 (TxnRecord.BSBNumber r)
  /\ fits 9 (TxnRecord.AccountNumber r)
  /\ fits 35 (TxnRecord.AccountName r)
  /\ dateOk (TxnRecord.TransactionDate r)
  /\ amountOk (TxnRecord.Amount r)
  /\ fits 2 (TxnRecord.Indicator r)
  /\ fits 2 (TxnRecord.TransactionCode r)
  /\ fits 40 (TxnRecord.Description r)
  /\ intOk 10 (TxnRecord.ReferenceNumber r)
  /\ fits 10 (TxnRecord.SecondaryReferenceNumber r)
  /\ fits 8 (TxnRecord.ChequeNumber r).

(** A line terminator: ["\n"], ["\r\n"], or any one or two bytes. *)
Definition terminator (e : string) : Prop :=
  String.length e = 1%nat \/ String.length e = 2%nat.

(** A batch header that its line holds and gives back. *)
Definition wfBatchHeader (h : BatchHeader.t) : Prop :=
  fits 7 (BatchHeader.BSBNumber h)
  /\ fits 9 (BatchHeader.AccountNumber h)
  /\ fits 35 (BatchHeader.AccountName h)
  /\ dateOk (BatchHeader.TransactionDate h)
  /\ amountOk (BatchHeader.Amount h)
  /\ fits 2 (BatchHeader.Indicator h).

(** A batch trailer that its line holds and gives back. *)
Definition wfBatchTrailer (t : BatchTrailer.t) : Prop :=
  intOk 1 (BatchTrailer.recordType t)
  /\ fits 7 (BatchTrailer.BSBNumber t)
  /\ fits 9 (BatchTrailer.AccountNumber t)
  /\ fits 35 (BatchTrailer.AccountName t)
  /\ dateOk (BatchTrailer.TransactionDate t)
  /\ amountOk (BatchTrailer.Amount t)
  /\ fits 2 (BatchTrailer.Indicator t)
  /\ fits 2 (BatchTrailer.BatchType t)
  /\ intOk 6 (BatchTrailer.ReferenceNumber t)
  /\ intOk 6 (BatchTrailer.TotalDebitTransactions t)
  /\ intOk 6 (BatchTrailer.TotalCreditTransactions t)
  /\ amountOk (BatchTrailer.TotalDebitAmount t)
  /\ amountOk (BatchTrailer.TotalCreditAmount t).

(** A file trailer that its line holds and gives back; where the [0] flag
    fills a string with zeros, the customer number has to fill its
    column. *)
Definition wfFileTrailer (zp : bool) (t : FileTrailer.t) : Prop :=
  intOk 1 (FileTrailer.recordType t)
  /\ fits 8 (FileTrailer.CustomerNumber t)
  /\ (zp = true -> String.length (FileTrailer.CustomerNumber t) = 8%nat)
  /\ fits 35 (FileTrailer.CustomerName t)
  /\ intOk 6 (FileTrailer.TotalDebitTransactions t)
  /\ intOk 6 (FileTrailer.TotalCreditTransactions t)
  /\ amountOk (FileTrailer.TotalDebitAmount t)
  /\ amountOk (FileTrailer.TotalCreditAmount t).

(** A file header whose fields fit the columns [Write] gives them. *)
Definition wfFileHeader (h : FileHeader.t) : Prop :=
  intOk 1 (FileHeader.recordType h)
  /\ fits 8 (FileHeader.CustomerNumber h)
  /\ fits 35 (FileHeader.CustomerName h)
  /\ fits 20 (FileHeader.RemitterName h)
  /\ dateOk (FileHeader.FileCreated h)
  /\ dateOk (FileHeader.ProcessingDate h)
  /\ fits 20 (FileHeader.Description h).

(** ** Definitions for the further properties *)

(** [k] copies of [pad], one after the other. *)
Fixpoint times (pad : string) (k : nat) : string :=
  match k with
  | O => ""
  | S k' => pad ++ times pad k'
  end.

(** The line feed, at which [ReadString] ends a line. *)
Definition isLF (c : ascii) : bool := Ascii.eqb c (ascii_of_nat 10).

(** A text without a line feed. *)
Definition oneLine (s : string) : Prop := noneOf isLF s = true.

(** A predicate that holds of no byte of a number's text. *)
Definition offNumbers (p : ascii -> bool) : Prop :=
  (forall c, isDigit c = true -> p c = false)
  /\ p " "%char = false /\ p "-"%char = false /\ p "."%char = false.

(** What the layout ["20060102"] keeps of a time: its date. *)
Definition dateOnly (d : Time.t) : Time.t :=
  Time.Date (Time.year d) (Time.month d) (Time.day d) 0.

(** A time whose date the layout prints in eight digits. *)
Definition dateFits (d : Time.t) : Prop :=
  0 <= Time.year d <= 9999
  /\ 1 <= Time.month d <= 12
  /\ 1 <= Time.day d <= Time.daysIn (Time.month d) (Time.year d).

(** An amount whose text to two places has at most 16 bytes. *)
Definition amountFits (a : Decimal.t) : Prop :=
  (String.length (Decimal.StringFixedBank a 2) <= 16)%nat.

(** What a line keeps of a record: the record type 2 of the format, the
    date of the time, the amount to two places. *)
Definition keptRecord (r : TxnRecord.t) : TxnRecord.t :=
  TxnRecord.mk 2
    (TxnRecord.BSBNumber r) (TxnRecord.AccountNumber r)
    (TxnRecord.AccountName r)
    (dateOnly (TxnRecord.TransactionDate r))
    (Decimal.RoundBank (TxnRecord.Amount r) 2)
    (TxnRecord.Indicator r) (TxnRecord.TransactionCode r)
    (TxnRecord.Description r) (TxnRecord.ReferenceNumber r)
    (TxnRecord.SecondaryReferenceNumber r) (TxnRecord.ChequeNumber r).

(** What [BatchHeader.Read] leaves in a receiver of record type [rt]
    after the line of [h]. *)
Definition keptBatchHeader (rt : Z) (h : BatchHeader.t) : BatchHeader.t :=
  BatchHeader.mk rt
    (BatchHeader.BSBNumber h) (BatchHeader.AccountNumber h)
    (BatchHeader.AccountName h)
    (dateOnly (BatchHeader.TransactionDate h))
    (Decimal.RoundBank (BatchHeader.Amount h) 2)
    (BatchHeader.Indicator h).

Definition keptBatchTrailer (t : BatchTrailer.t) : BatchTrailer.t :=
  BatchTrailer.mk (BatchTrailer.recordType t)
    (BatchTrailer.BSBNumber t) (BatchTrailer.AccountNumber t)
    (BatchTrailer.AccountName t)
    (dateOnly (BatchTrailer.TransactionDate t))
    (Decimal.RoundBank (BatchTrailer.Amount t) 2)
    (BatchTrailer.Indicator t) (BatchTrailer.BatchType t)
    (BatchTrailer.ReferenceNumber t)
    (BatchTrailer.TotalDebitTransactions t)
    (BatchTrailer.TotalCreditTransactions t)
    (Decimal.RoundBank (BatchTrailer.TotalDebitAmount t) 2)
    (Decimal.RoundBank (BatchTrailer.TotalCreditAmount t) 2).

Definition keptFileTrailer (t : FileTrailer.t) : FileTrailer.t :=
  FileTrailer.mk (FileTrailer.recordType t)
    (FileTrailer.CustomerNumber t) (FileTrailer.CustomerName t)
    (FileTrailer.TotalDebitTransactions t)
    (FileTrailer.TotalCreditTransactions t)
    (Decimal.RoundBank (FileTrailer.TotalDebitAmount t) 2)
    (Decimal.RoundBank (FileTrailer.TotalCreditAmount t) 2).

(** A record whose fields fit the columns [Write] gives them. *)
Definition recordFits (r : TxnRecord.t) : Prop :=
  fits 7 (TxnRecord.BSBNumber r)
  /\ fits 9 (TxnRecord.AccountNumber r)
  /\ fits 35 (TxnRecord.AccountName r)
  /\ dateFits (TxnRecord.TransactionDate r)
  /\ amountFits (TxnRecord.Amount r)
  /\ fits 2 (TxnRecord.Indicator r)
  /\ fits 2 (TxnRecord.TransactionCode r)
  /\ fits 40 (TxnRecord.Description r)
  /\ intOk 10 (TxnRecord.ReferenceNumber r)
  /\ fits 10 (TxnRecord.SecondaryReferenceNumber r)
  /\ fits 8 (TxnRecord.ChequeNumber r).

Definition batchHeaderFits (h : BatchHeader.t) : Prop :=
  fits 7 (BatchHeader.BSBNumber h)
  /\ fits 9 (BatchHeader.AccountNumber h)
  /\ fits 35 (BatchHeader.AccountName h)
  /\ dateFits (BatchHeader.TransactionDate h)
  /\ amountFits (BatchHeader.Amount h)
  /\ fits 2 (BatchHeader.Indicator h).

Definition batchTrailerFits (t : BatchTrailer.t) : Prop :=
  intOk 1 (BatchTrailer.recordType t)
  /\ fits 7 (BatchTrailer.BSBNumber t)
  /\ fits 9 (BatchTrailer.AccountNumber t)
  /\ fits 35 (BatchTrailer.AccountName t)
  /\ dateFits (BatchTrailer.TransactionDate t)
  /\ amountFits (BatchTrailer.Amount t)
  /\ fits 2 (BatchTrailer.Indicator t)
  /\ fits 2 (BatchTrailer.BatchType t)
  /\ intOk 6 (BatchTrailer.ReferenceNumber t)
  /\ intOk 6 (BatchTrailer.TotalDebitTransactions t)
  /\ intOk 6 (BatchTrailer.TotalCreditTransactions t)
  /\ amountFits (BatchTrailer.TotalDebitAmount t)
  /\ amountFits (BatchTrailer.TotalCreditAmount t).

(** Where the [0] flag fills a string with zeros, the customer number
    has to fill its column. *)
Definition fileTrailerFits (zp : bool) (t : FileTrailer.t) : Prop :=
  intOk 1 (FileTrailer.recordType t)
  /\ fits 8 (FileTrailer.CustomerNumber t)
  /\ (zp = true -> String.length (FileTrailer.CustomerNumber t) = 8%nat)
  /\ fits 35 (FileTrailer.CustomerName t)
  /\ intOk 6 (FileTrailer.TotalDebitTransactions t)
  /\ intOk 6 (FileTrailer.TotalCreditTransactions t)
  /\ amountFits (FileTrailer.TotalDebitAmount t)
  /\ amountFits (FileTrailer.TotalCreditAmount t).

(** The kind's [Write], as the text it gives to the writer. *)
Definition encode (zp : bool) (k : kind) : receiver k -> string :=
  match k with
  | KFileHeader => FileHeader_Write zp
  | KBatchHeader => BatchHeader_Write zp
  | KRecord => Record_Write zp
  | KBatchTrailer => BatchTrailer_Write zp
  | KFileTrailer => FileTrailer_Write zp
  end.

(** The string fields of a value of the kind. *)
Definition texts (k : kind) : receiver k -> list string :=
  match k with
  | KFileHeader => fun h =>
      [FileHeader.CustomerNumber h; FileHeader.CustomerName h;
       FileHeader.RemitterName h; FileHeader.Description h]
  | KBatchHeader => fun h =>
      [BatchHeader.BSBNumber h; BatchHeader.AccountNumber h;
       BatchHeader.AccountName h; BatchHeader.Indicator h]
  | KRecord => fun r =>
      [TxnRecord.BSBNumber r; TxnRecord.AccountNumber r;
       TxnRecord.AccountName r; TxnRecord.Indicator r;
       TxnRecord.TransactionCode r; TxnRecord.Description r;
       TxnRecord.SecondaryReferenceNumber r; TxnRecord.ChequeNumber r]
  | KBatchTrailer => fun t =>
      [BatchTrailer.BSBNumber t; BatchTrailer.AccountNumber t;
       BatchTrailer.AccountName t; BatchTrailer.Indicator t;
       BatchTrailer.BatchType t]
  | KFileTrailer => fun t =>
      [FileTrailer.CustomerNumber t; FileTrailer.CustomerName t]
  end.

(** A record that [Write] accepts and a line gives back. *)
Definition recordReadable (r : TxnRecord.t) : Prop :=
  IsValid r = true /\ recordFits r /\ Forall oneLine (texts KRecord r).

(** A batch of a writer whose header and records their lines give back;
    its trailer has the record type 7 that [NewBatch] gives it. *)
Definition batchReadable (b : Batch.t) : Prop :=
  batchHeaderFits (Batch.BatchHeader b)
  /\ Forall oneLine (texts KBatchHeader (Batch.BatchHeader b))
  /\ Forall recordReadable (Batch.Records b)
  /\ BatchTrailer.recordType (Batch.BatchTrailer b) = 7.

(** The batches that [ReadAll] builds from the lines of the batches [bs]
    written with the trailers [ts]: the header in a zero-valued batch,
    the records appended to it, the trailer attached. *)
Fixpoint readBack (bs : list Batch.t) (ts : list BatchTrailer.t)
  : list Batch.t :=
  match bs, ts with
  | b :: bs', t :: ts' =>
      Batch.mk (keptBatchHeader 0 (Batch.BatchHeader b))
        (map keptRecord (Batch.Records b))
        (keptBatchTrailer t)
      :: readBack bs' ts'
  | _, _ => []
  end.

(** The trailers, one for each batch, that their lines give back. *)
Definition trailersReadable (ts : list BatchTrailer.t) : Prop :=
  Forall (fun t => BatchTrailer.recordType t = 7
                   /\ batchTrailerFits t
                   /\ Forall oneLine (texts KBatchTrailer t)) ts.

(** The number of records of a file. *)
Definition recordCount (bs : list Batch.t) : nat :=
  fold_right (fun b n => (List.length (Batch.Records b) + n)%nat) O bs.

(** The lines [ls], each followed by the terminator [e]. *)
Definition joinLines (e : string) (ls : list string) : string :=
  fold_right (fun l acc => l ++ e ++ acc) "" ls.

(** The widths of the lines of one batch: its header, its records, its
    trailer. *)
Definition batchWidths (b : Batch.t) : list nat :=
  width KBatchHeader
  :: map (fun _ => width KRecord) (Batch.Records b)
  ++ [width KBatchTrailer].

(** The widths of the lines of a file of the batches [bs], in their
    order: the file header, the batches, the file trailer. *)
Definition lineWidths (bs : list Batch.t) : list nat :=
  width KFileHeader :: flat_map batchWidths bs ++ [width KFileTrailer].

(** The first byte of a line of the kind, on which the reader's switch
    chooses the decoder. *)
Definition typeByte (k : kind) : ascii :=
  match k with
  | KFileHeader => "0"
  | KBatchHeader => "1"
  | KRecord => "2"
  | KBatchTrailer => "7"
  | KFileTrailer => "9"
  end.

(** What the kind's [Read] logs for a line [l] it rejects for its
    length: [Record.Read] logs nothing. *)
Definition lengthLog (k : kind) (l : string) : list string :=
  match k with
  | KFileHeader | KBatchHeader =>
      ["TXN: Header expected 170, got " ++ itoa (len l)]
  | KRecord => []
  | KBatchTrailer => ["TXN: Batch Trailer expected 170, got " ++ itoa (len l)]
  | KFileTrailer => ["TXN: Trailer expected 171, got " ++ itoa (len l)]
  end.

(** The world with more lines logged. *)
Definition logged (wd : World) (ls : list string) : World :=
  mkWorld (logs wd ++ ls) (clock wd) (ticks wd).

(** A byte that starts a line of no kind. *)
Definition unknownType (b : ascii) : Prop :=
  b <> "0"%char /\ b <> "1"%char /\ b <> "2"%char /\ b <> "7"%char
  /\ b <> "9"%char.

(** A ['1'] line precedes every ['2'] line and every ['7'] line. *)
Definition headerBeforeBatchLines (ls : list string) : Prop :=
  forall (j : nat) (l : string),
    nth_error ls j = Some l ->
    firstByte l = Some "2"%char \/ firstByte l = Some "7"%char ->
    exists (i : nat) (l' : string),
      (i < j)%nat /\ nth_error ls i = Some l' /\ firstByte l' = Some "1"%char.

(** What keeps both index expressions of the reader in bounds. *)
Definition indexSafe (rd : Reader.t) : Prop :=
  Reader.Batch rd <> [] \/ headerBeforeBatchLines (splitLines (Reader.r rd)).

(** A file header whose fields fit the columns [Write] gives them. *)
Definition fileHeaderFits (h : FileHeader.t) : Prop :=
  intOk 1 (FileHeader.recordType h)
  /\ fits 8 (FileHeader.CustomerNumber h)
  /\ fits 35 (FileHeader.CustomerName h)
  /\ fits 20 (FileHeader.RemitterName h)
  /\ dateFits (FileHeader.FileCreated h)
  /\ dateFits (FileHeader.ProcessingDate h)
  /\ fits 20 (FileHeader.Description h).

(** The file header with the dates of its two times. *)
Definition datedFileHeader (h : FileHeader.t) : FileHeader.t :=
  FileHeader.mk (FileHeader.recordType h)
    (FileHeader.CustomerNumber h) (FileHeader.CustomerName h)
    (FileHeader.RemitterName h)
    (dateOnly (FileHeader.FileCreated h))
    (dateOnly (FileHeader.ProcessingDate h))
    (FileHeader.Description h).

(** The line of a record up to the end of its indicator. *)
Definition recordHead (zp : bool) (r : TxnRecord.t) : string :=
  "2"
  ++ fmt_s zp (v_wp 7 7) (TxnRecord.BSBNumber r)
  ++ fmt_s zp (v_wp 9 9) (TxnRecord.AccountNumber r)
  ++ fmt_s zp (v_minus 35 35) (TxnRecord.AccountName r)
  ++ fmt_s zp (v_wp 8 8) (Time.Format (TxnRecord.TransactionDate r))
  ++ fmt_s zp (v_wp 16 16) (Decimal.StringFixedBank (TxnRecord.Amount r) 2)
  ++ fmt_s zp (v_wp 2 2) (TxnRecord.Indicator r).

(** A byte that no number's text holds and that is no part of an
    indicator: [c] is from [utf8.RuneSelf] up, or ['C'], or ['D']. *)
Definition highOrCD (c : ascii) : bool :=
  high c || Ascii.eqb c "C" || Ascii.eqb c "D".

(** The two bytes of a well-formed rune from U+0080 to U+07FF. *)
Definition twoByteRune (c1 c2 : ascii) : Prop :=
  0xC2 <= byte c1 <= 0xDF /\ 0x80 <= byte c2 <= 0xBF.

(** The first record of the test and the lines of the test's batch
    trailer and file trailer, the latter without its line feed. *)
Definition exampleRecord : TxnRecord.t := hd TxnRecord.zero exampleRecords.

Definition batchTrailerLine : string :=
  Eval vm_compute in BatchTrailer_Write true exampleBatchTrailer ++ nl.

Definition fileTrailerText : string :=
  Eval vm_compute in FileTrailer_Write true exampleFileTrailer.

(** A record that passes [IsValid] and has an account number, a
    description and a reference number longer than their columns. *)
Definition overlongRecord : TxnRecord.t :=
  TxnRecord.mk 2 "182-222" "1234567890123" "DEMO ACCOUNT NUMBER 2" exampleDate
    (Decimal.New 272178 (-2)) Debit "13"
    "DDR GL481         Tower Australia and New Zealand" 12345678901 "" "".

(** A valid record whose account name, CAFE DU MONDE with an acute
    accent on the E (U+00C9, two bytes), has 13 runes in 14 bytes; and a
    batch header whose account name ends in a no-break space (U+00A0,
    two bytes). *)
Definition accentRecord : TxnRecord.t :=
  TxnRecord.mk 2 "182-222" "123456789"
    ("CAF" ++ String (ascii_of_nat 195) (String (ascii_of_nat 137) "")
     ++ " DU MONDE")
    exampleDate (Decimal.New 272178 (-2)) Debit "13" "DDR" 245397 "" "".

Definition noBreakHeader : BatchHeader.t :=
  BatchHeader.mk 1 "182-222" "123456789"
    ("AB" ++ String (ascii_of_nat 194) (String (ascii_of_nat 160) ""))
    exampleDate (Decimal.New 0 (-2)) Credit.

(** The reader after [batchHeaderLine]. *)
Definition exampleReader : Reader.t :=
  Reader.mk FileHeader.zero [exampleReadBatch] FileTrailer.zero "".

(* ===================================================================== *)
(** * Properties of the decoders' length check *)
(* ===================================================================== *)

Lemma badLength_spec (l : string) (a b : nat) :
  badLength l a b = true <-> String.length l <> a /\ String.length l <> b.
Proof.
  unfold badLength.
  rewrite andb_true_iff, !negb_true_iff, !Nat.eqb_neq.
  reflexivity.
Qed.

(** C8.  For each of the five record kinds, the kind's [Read] returns the
    kind's own length error exactly for the lines whose length is neither
    the kind's width plus one nor its width plus two: it returns that
    error for every such line, and for no line of one of those two
    lengths. *)
Theorem C8_length_error_iff (k : kind) (recv : receiver k) (l : string)
  (wd : World) :
  readError k recv l wd = Some (badKind k)
  <-> String.length l <> (width k + 1)%nat
      /\ String.length l <> (width k + 2)%nat.
Proof.
  destruct k; cbn [readError width badKind Nat.add];
    rewrite <- badLength_spec.
  - unfold FileHeader_Read.
    destruct (badLength l 171 172); cbn; split; congruence.
  - unfold BatchHeader_Read.
    destruct (badLength l 171 172); cbn; split; congruence.
  - unfold Record_Read.
    destruct (badLength l 169 170); cbn; [split; congruence|].
    match goal with |- context [negb ?b] => destruct b end;
      cbn; split; congruence.
  - unfold BatchTrailer_Read.
    destruct (badLength l 171 172); cbn; split; congruence.
  - unfold FileTrailer_Read.
    destruct (badLength l 171 172); cbn; split; congruence.
Qed.

(* ===================================================================== *)
(** * Properties of [Writer.Write] *)
(* ===================================================================== *)

Lemma ten_neq_0 : ~ (inject_Z 10 == 0)%Q.
Proof. discriminate. Qed.

Lemma toQ_rescale_down (d : Decimal.t) (e : Z) :
  e <= Decimal.exp d -> (toQ (Decimal.rescale d e) == toQ d)%Q.
Proof.
  intros He. unfold Decimal.rescale.
  destruct (Z.eqb_spec (Decimal.exp d) e) as [Heq|Hne]; [reflexivity|].
  destruct (Z.gtb_spec e (Decimal.exp d)) as [Hgt|_]; [lia|].
  unfold toQ; cbn [Decimal.value Decimal.exp].
  rewrite Z.abs_neq by lia.
  replace (- (e - Decimal.exp d)) with (Decimal.exp d - e) by lia.
  rewrite inject_Z_mult, Zpower_Qpower by lia.
  rewrite <- Qmult_assoc, <- Qpower_plus by exact ten_neq_0.
  replace (Decimal.exp d - e + e) with (Decimal.exp d) by lia.
  reflexivity.
Qed.

Lemma toQ_Add (a b : Decimal.t) : (toQ (Decimal.Add a b) == toQ a + toQ b)%Q.
Proof.
  unfold Decimal.Add, Decimal.RescalePair.
  destruct (Z.ltb_spec (Decimal.exp a) (Decimal.exp b)) as [Hlt|Hge].
  - rewrite <- (toQ_rescale_down b (Decimal.exp a)) by lia.
    unfold toQ; cbn [Decimal.value Decimal.exp].
    assert (He : Decimal.exp (Decimal.rescale b (Decimal.exp a)) = Decimal.exp a).
    { unfold Decimal.rescale. destruct (Z.eqb_spec (Decimal.exp b) (Decimal.exp a)); [congruence|].
      destruct (_ >? _); reflexivity. }
    rewrite He, inject_Z_plus. ring.
  - destruct (Z.gtb_spec (Decimal.exp a) (Decimal.exp b)) as [Hgt|Hle].
    + rewrite <- (toQ_rescale_down a (Decimal.exp b)) by lia.
      unfold toQ; cbn [Decimal.value Decimal.exp].
      assert (He : Decimal.exp (Decimal.rescale a (Decimal.exp b)) = Decimal.exp b).
      { unfold Decimal.rescale. destruct (Z.eqb_spec (Decimal.exp a) (Decimal.exp b)); [congruence|].
        destruct (_ >? _); reflexivity. }
      rewrite He, inject_Z_plus. ring.
    + assert (Decimal.exp a = Decimal.exp b) by lia.
      unfold toQ; cbn [Decimal.value Decimal.exp].
      rewrite inject_Z_plus, H. ring.
Qed.

Lemma toQ_Sub (a b : Decimal.t) : (toQ (Decimal.Sub a b) == toQ a - toQ b)%Q.
Proof.
  unfold Decimal.Sub, Decimal.RescalePair.
  destruct (Z.ltb_spec (Decimal.exp a) (Decimal.exp b)) as [Hlt|Hge].
  - rewrite <- (toQ_rescale_down b (Decimal.exp a)) by lia.
    unfold toQ; cbn [Decimal.value Decimal.exp].
    assert (He : Decimal.exp (Decimal.rescale b (Decimal.exp a)) = Decimal.exp a).
    { unfold Decimal.rescale. destruct (Z.eqb_spec (Decimal.exp b) (Decimal.exp a)); [congruence|].
      destruct (_ >? _); reflexivity. }
    rewrite He. unfold Z.sub. rewrite inject_Z_plus, inject_Z_opp. ring.
  - destruct (Z.gtb_spec (Decimal.exp a) (Decimal.exp b)) as [Hgt|Hle].
    + rewrite <- (toQ_rescale_down a (Decimal.exp b)) by lia.
      unfold toQ; cbn [Decimal.value Decimal.exp].
      assert (He : Decimal.exp (Decimal.rescale a (Decimal.exp b)) = Decimal.exp b).
      { unfold Decimal.rescale. destruct (Z.eqb_spec (Decimal.exp a) (Decimal.exp b)); [congruence|].
        destruct (_ >? _); reflexivity. }
      rewrite He. unfold Z.sub. rewrite inject_Z_plus, inject_Z_opp. ring.
    + assert (Decimal.exp a = Decimal.exp b) by lia.
      unfold toQ; cbn [Decimal.value Decimal.exp].
      unfold Z.sub. rewrite inject_Z_plus, inject_Z_opp, H. ring.
Qed.

Lemma pow10_pos (e : Z) : (0 < inject_Z 10 ^ e)%Q.
Proof. apply Qpower_0_lt. reflexivity. Qed.

Lemma toQ_Abs (d : Decimal.t) : (toQ (Decimal.Abs d) == Qabs (toQ d))%Q.
Proof.
  unfold toQ, Decimal.Abs; cbn [Decimal.value Decimal.exp].
  rewrite Qabs_Qmult.
  rewrite (Qabs_pos (inject_Z 10 ^ Decimal.exp d)) by (apply Qlt_le_weak, pow10_pos).
  reflexivity.
Qed.

Lemma toQ_zero : (toQ Decimal.zero == 0)%Q.
Proof. reflexivity. Qed.

Lemma Sign_neg_iff (d : Decimal.t) :
  (Decimal.Sign d <? 0) = true <-> (toQ d < 0)%Q.
Proof.
  unfold Decimal.Sign, toQ.
  rewrite Z.ltb_lt.
  assert (Hs : Z.sgn (Decimal.value d) < 0 <-> Decimal.value d < 0)
    by (destruct (Decimal.value d); cbn; lia).
  rewrite Hs; clear Hs.
  pose proof (pow10_pos (Decimal.exp d)) as Hp.
  split; intros H.
  - setoid_replace 0%Q with (0 * inject_Z 10 ^ Decimal.exp d)%Q by ring.
    apply Qmult_lt_compat_r; [exact Hp|].
    change 0%Q with (inject_Z 0). rewrite <- Zlt_Qlt. exact H.
  - destruct (Z.lt_ge_cases (Decimal.value d) 0) as [Hlt|Hge]; [exact Hlt|].
    exfalso. apply (Qlt_not_le _ _ H).
    apply Qmult_le_0_compat; [|apply Qlt_le_weak, Hp].
    change 0%Q with (inject_Z 0). rewrite <- Zle_Qle. exact Hge.
Qed.

Lemma append_assoc (a b c : string) : (a ++ b) ++ c = a ++ (b ++ c).
Proof. induction a as [|x a IH]; cbn; [reflexivity|now rewrite IH]. Qed.

Lemma append_nil_r (a : string) : a ++ "" = a.
Proof. induction a as [|x a IH]; cbn; [reflexivity|now rewrite IH]. Qed.

Lemma IsValid_indicator (r : TxnRecord.t) :
  IsValid r = true ->
  TxnRecord.Indicator r = Debit \/ TxnRecord.Indicator r = Credit.
Proof.
  unfold IsValid.
  destruct (String.eqb_spec (TxnRecord.Indicator r) Credit) as [Hc|_];
    [now right|].
  destruct (String.eqb_spec (TxnRecord.Indicator r) Debit) as [Hd|_];
    [now left|].
  cbn. discriminate.
Qed.

Section WriterLemmas.

Variable zp : bool.

Lemma withTrailerOut_twice (w : Writer.t) (t t' : FileTrailer.t)
  (out out' : string) :
  withTrailerOut (withTrailerOut w t out) t' out' = withTrailerOut w t' out'.
Proof. reflexivity. Qed.

Lemma withTrailerOut_id (w : Writer.t) :
  withTrailerOut w (Writer.FileTrailer w) (Writer.wr w) = w.
Proof. destruct w; reflexivity. Qed.

Lemma wbind_eq {A B : Type} (c : WriterM A) (k : A -> WriterM B)
  (w : Writer.t) (wd : World) :
  wbind c k w wd
  = match c w wd with
    | (Next a, w', wd') => k a w' wd'
    | (Return_ err, w', wd') => (Return_ err, w', wd')
    end.
Proof.
  unfold wbind, bind. destruct (c w wd) as [[[a|err] w'] wd']; reflexivity.
Qed.

Lemma Fprintf_eq (s : string) (w : Writer.t) (wd : World) :
  Fprintf s w wd
  = (Next tt, withTrailerOut w (Writer.FileTrailer w) (Writer.wr w ++ s), wd).
Proof. reflexivity. Qed.

Lemma gets_eq {A : Type} (f : Writer.t -> A) (w : Writer.t) (wd : World) :
  gets f w wd = (Next (f w), w, wd).
Proof. reflexivity. Qed.

(** What the two statements that end a line write. *)
Lemma endLine_eq {B : Type} (k : WriterM B) (w : Writer.t) (wd : World) :
  wbind carriageReturn (fun _ => wbind lineFeed (fun _ => k)) w wd
  = k (withTrailerOut w (Writer.FileTrailer w)
         (Writer.wr w ++ eol (Writer.CRLFLineEndings w))) wd.
Proof.
  destruct w as [omit [|] fh ft bs out];
    unfold carriageReturn, lineFeed, WriteByte, Fprintf, wbind, bind, gets,
      ret, wret, eol, withTrailerOut, cr, nl; cbn;
    rewrite ?append_assoc; reflexivity.
Qed.

Lemma endLine_last_eq (w : Writer.t) (wd : World) :
  wbind carriageReturn (fun _ => lineFeed) w wd
  = (Next tt,
     withTrailerOut w (Writer.FileTrailer w)
       (Writer.wr w ++ eol (Writer.CRLFLineEndings w)), wd).
Proof.
  destruct w as [omit [|] fh ft bs out];
    unfold carriageReturn, lineFeed, WriteByte, Fprintf, wbind, bind, gets,
      ret, wret, eol, withTrailerOut, cr, nl; cbn;
    rewrite ?append_assoc; reflexivity.
Qed.

Lemma writeRecord_valid (i : nat) (r : TxnRecord.t) (s : totals)
  (w : Writer.t) (wd : World) :
  IsValid r = true ->
  writeRecord zp i r s w wd
  = (Next (tally (Writer.OmitBatchTotals w) s r),
     withTrailerOut w
       (tallyFile (Writer.OmitBatchTotals w) (Writer.FileTrailer w) r)
       (Writer.wr w ++ Record_Write zp r ++ eol (Writer.CRLFLineEndings w)),
     wd).
Proof.
  intros Hv. unfold writeRecord. rewrite Hv. cbn [negb].
  destruct (IsValid_indicator r Hv) as [Hi|Hi];
    destruct w as [omit crlf fh ft bs out];
    unfold tally, tallyFile, withTrailerOut, addToTotals;
    rewrite Hi; destruct omit, crlf; cbn;
    rewrite ?append_assoc; reflexivity.
Qed.

Lemma writeRecord_invalid (i : nat) (r : TxnRecord.t) (s : totals)
  (w : Writer.t) (wd : World) :
  IsValid r = false ->
  writeRecord zp i r s w wd
  = (Return_ (Errorf (Error ErrInvalidRecord ++ " (record "
                      ++ itoa (Z.of_nat i) ++ ")")), w, wd).
Proof. intros Hv. unfold writeRecord. rewrite Hv. reflexivity. Qed.

Lemma forRange_app {A St : Type} (xs ys : list A) (i : nat)
  (body : nat -> A -> St -> WriterM St) (s : St) (w : Writer.t)
  (wd : World) :
  forRange (xs ++ ys)%list i body s w wd
  = wbind (forRange xs i body s)
      (fun s' => forRange ys (i + List.length xs) body s') w wd.
Proof.
  revert i s w wd. induction xs as [|x xs IH]; intros i s w wd.
  - cbn. rewrite Nat.add_0_r. reflexivity.
  - cbn [forRange app List.length]. rewrite !wbind_eq.
    destruct (body i x s w wd) as [[[s1|err] w1] wd1]; [|reflexivity].
    rewrite IH, wbind_eq.
    replace (S i + List.length xs)%nat with (i + S (List.length xs))%nat by lia.
    reflexivity.
Qed.

Lemma records_valid (rs : list TxnRecord.t) (i : nat) (s : totals)
  (w : Writer.t) (wd : World) :
  allValid rs ->
  forRange rs i (writeRecord zp) s w wd
  = (Next (fold_left (tally (Writer.OmitBatchTotals w)) rs s),
     withTrailerOut w
       (fold_left (tallyFile (Writer.OmitBatchTotals w)) rs
          (Writer.FileTrailer w))
       (Writer.wr w ++ recordLines zp (Writer.CRLFLineEndings w) rs),
     wd).
Proof.
  intros Hv. revert i s w wd.
  induction Hv as [|r rs Hr _ IH]; intros i s w wd.
  - cbn. rewrite append_nil_r. destruct w; reflexivity.
  - cbn [forRange]. rewrite wbind_eq.
    rewrite (writeRecord_valid i r s w wd Hr).
    rewrite IH. destruct w; cbn. rewrite !append_assoc. reflexivity.
Qed.

Lemma writeBatch_valid (k : nat) (b : Batch.t) (w : Writer.t)
  (wd : World) :
  allValid (Batch.Records b) ->
  writeBatch zp k b tt w wd
  = (Next tt,
     withTrailerOut w
       (fold_left (tallyFile (Writer.OmitBatchTotals w)) (Batch.Records b)
          (Writer.FileTrailer w))
       (Writer.wr w
        ++ batchText zp (Writer.CRLFLineEndings w) b
             (batchTrailer k b (batchTotals (Writer.OmitBatchTotals w) b)
                (clock wd (ticks wd)))),
     tick 1 wd).
Proof.
  intros Hv. unfold writeBatch.
  rewrite wbind_eq, Fprintf_eq, endLine_eq, wbind_eq.
  rewrite (records_valid _ 0 _ _ wd Hv).
  rewrite wbind_eq. cbn [lift Now bind ret].
  rewrite wbind_eq, Fprintf_eq, endLine_last_eq.
  cbn [Batch.BatchTrailer Batch.BatchHeader Batch.Records].
  rewrite !withTrailerOut_twice.
  unfold batchText, batchTotals, tick.
  destruct w; cbn [withTrailerOut Writer.wr Writer.FileTrailer
                     Writer.OmitBatchTotals Writer.CRLFLineEndings Nat.add].
  rewrite !append_assoc. reflexivity.
Qed.

Lemma batches_valid (bs : list Batch.t) (k : nat) (w : Writer.t)
  (wd : World) :
  allValidBatches bs ->
  forRange bs k (writeBatch zp) tt w wd
  = (Next tt,
     withTrailerOut w
       (fileTotals (Writer.OmitBatchTotals w) bs (Writer.FileTrailer w))
       (Writer.wr w
        ++ batchesText zp (Writer.CRLFLineEndings w) bs
             (trailers (Writer.OmitBatchTotals w) (clock wd) (ticks wd) k
                bs)),
     tick (List.length bs) wd).
Proof.
  intros Hv. revert k w wd.
  induction Hv as [|b bs Hb _ IH]; intros k w wd.
  - cbn. rewrite append_nil_r. destruct w, wd; reflexivity.
  - cbn [forRange]. rewrite wbind_eq, (writeBatch_valid k b w wd Hb).
    rewrite IH. rewrite withTrailerOut_twice.
    destruct w as [omit crlf fh ft bs0 out], wd as [lg ck tk]; unfold tick.
    cbn [withTrailerOut Writer.wr Writer.FileTrailer Writer.OmitBatchTotals
           Writer.CRLFLineEndings logs clock ticks fileTotals fold_left
           trailers batchesText List.length Nat.add].
    rewrite !append_assoc, Nat.add_succ_r. reflexivity.
Qed.

Lemma Write_valid (w : Writer.t) (wd : World) :
  Writer.Batch w <> [] ->
  allValidBatches (Writer.Batch w) ->
  let ft' := fileTotals (Writer.OmitBatchTotals w) (Writer.Batch w)
               (Writer.FileTrailer w) in
  let ts := trailers (Writer.OmitBatchTotals w) (clock wd) (ticks wd) 0
              (Writer.Batch w) in
  Writer_Write zp w wd
  = (None,
     withTrailerOut w ft'
       (Writer.wr w
        ++ fileText zp (Writer.CRLFLineEndings w) (Writer.FileHeader w)
             (Writer.Batch w) ts ft'),
     tick (List.length (Writer.Batch w)) wd).
Proof.
  intros Hne Hv ft' ts. unfold Writer_Write, Write_body, bind.
  rewrite wbind_eq, gets_eq.
  destruct (Writer.Batch w) as [|b0 bs0] eqn:Hbs; [congruence|].
  cbn [List.length Nat.ltb Nat.leb].
  rewrite wbind_eq, gets_eq, wbind_eq, Fprintf_eq, endLine_eq.
  rewrite wbind_eq, gets_eq.
  cbn [withTrailerOut Writer.Batch]. rewrite Hbs.
  rewrite wbind_eq, (batches_valid _ 0 _ wd Hv).
  rewrite wbind_eq, gets_eq, wbind_eq, Fprintf_eq, endLine_last_eq.
  rewrite !withTrailerOut_twice.
  subst ft' ts. unfold fileText.
  destruct w as [omit crlf fh ft bs out].
  cbn [withTrailerOut Writer.wr Writer.FileTrailer Writer.OmitBatchTotals
         Writer.CRLFLineEndings Writer.FileHeader Writer.Batch] in *.
  rewrite !append_assoc. reflexivity.
Qed.

Lemma records_first_invalid (rs1 rs2 : list TxnRecord.t) (r : TxnRecord.t)
  (i : nat) (s : totals) (w : Writer.t) (wd : World) :
  allValid rs1 -> IsValid r = false ->
  forRange (rs1 ++ r :: rs2)%list i (writeRecord zp) s w wd
  = (Return_ (invalidRecordAt (i + List.length rs1)),
     withTrailerOut w
       (fold_left (tallyFile (Writer.OmitBatchTotals w)) rs1
          (Writer.FileTrailer w))
       (Writer.wr w ++ recordLines zp (Writer.CRLFLineEndings w) rs1),
     wd).
Proof.
  intros Hv Hr.
  rewrite forRange_app, wbind_eq, (records_valid rs1 i s w wd Hv).
  cbn [forRange]. rewrite wbind_eq, writeRecord_invalid by exact Hr.
  reflexivity.
Qed.

Lemma writeBatch_first_invalid (k : nat) (b : Batch.t)
  (rs1 rs2 : list TxnRecord.t) (r : TxnRecord.t) (w : Writer.t)
  (wd : World) :
  Batch.Records b = (rs1 ++ r :: rs2)%list ->
  allValid rs1 -> IsValid r = false ->
  writeBatch zp k b tt w wd
  = (Return_ (invalidRecordAt (List.length rs1)),
     withTrailerOut w
       (fold_left (tallyFile (Writer.OmitBatchTotals w)) rs1
          (Writer.FileTrailer w))
       (Writer.wr w
        ++ BatchHeader_Write zp (Batch.BatchHeader b)
        ++ eol (Writer.CRLFLineEndings w)
        ++ recordLines zp (Writer.CRLFLineEndings w) rs1),
     wd).
Proof.
  intros Hb Hv Hr. unfold writeBatch.
  rewrite wbind_eq, Fprintf_eq, endLine_eq, wbind_eq, Hb.
  rewrite (records_first_invalid rs1 rs2 r 0 _ _ wd Hv Hr).
  rewrite !withTrailerOut_twice.
  destruct w as [omit crlf fh ft bs out].
  cbn [withTrailerOut Writer.wr Writer.FileTrailer Writer.OmitBatchTotals
         Writer.CRLFLineEndings Nat.add].
  rewrite !append_assoc. reflexivity.
Qed.

(** The first invalid record of the file: the batches [bs1] before its
    batch [b] and the records [rs1] before it in [b] are valid. *)
Lemma Write_first_invalid (w : Writer.t) (wd : World)
  (bs1 bs2 : list Batch.t) (b : Batch.t) (rs1 rs2 : list TxnRecord.t)
  (r : TxnRecord.t) :
  Writer.Batch w = (bs1 ++ b :: bs2)%list ->
  allValidBatches bs1 ->
  Batch.Records b = (rs1 ++ r :: rs2)%list ->
  allValid rs1 -> IsValid r = false ->
  let omit := Writer.OmitBatchTotals w in
  let crlf := Writer.CRLFLineEndings w in
  Writer_Write zp w wd
  = (Some (invalidRecordAt (List.length rs1)),
     withTrailerOut w
       (fold_left (tallyFile omit) rs1
          (fileTotals omit bs1 (Writer.FileTrailer w)))
       (Writer.wr w
        ++ FileHeader_Write zp (Writer.FileHeader w) ++ eol crlf
        ++ batchesText zp crlf bs1 (trailers omit (clock wd) (ticks wd) 0 bs1)
        ++ BatchHeader_Write zp (Batch.BatchHeader b) ++ eol crlf
        ++ recordLines zp crlf rs1),
     tick (List.length bs1) wd).
Proof.
  intros Hbs Hv1 Hb Hv Hr omit crlf.
  unfold Writer_Write, Write_body, bind.
  rewrite wbind_eq, gets_eq, Hbs.
  replace (List.length (bs1 ++ b :: bs2) <? 1)%nat with false
    by (symmetry; apply Nat.ltb_ge; rewrite length_app; cbn; lia).
  rewrite wbind_eq, gets_eq, wbind_eq, Fprintf_eq, endLine_eq.
  rewrite wbind_eq, gets_eq.
  cbn [withTrailerOut Writer.Batch]. rewrite Hbs.
  rewrite wbind_eq, forRange_app, wbind_eq.
  rewrite (batches_valid bs1 0 _ wd Hv1).
  cbn [forRange]. rewrite wbind_eq.
  rewrite (writeBatch_first_invalid _ b rs1 rs2 r _ _ Hb Hv Hr).
  rewrite !withTrailerOut_twice.
  subst omit crlf.
  destruct w as [omit crlf fh ft bs out].
  cbn [withTrailerOut Writer.wr Writer.FileTrailer Writer.OmitBatchTotals
         Writer.CRLFLineEndings Writer.FileHeader Writer.Batch] in *.
  rewrite !append_assoc. reflexivity.
Qed.

End WriterLemmas.

(** ** Sums *)

Lemma wrap_wrap_add_l (a b : Z) : wrap (wrap a + b) = wrap (a + b).
Proof.
  unfold wrap.
  replace ((a + 2 ^ 63) mod 2 ^ 64 - 2 ^ 63 + b + 2 ^ 63)
    with ((a + 2 ^ 63) mod 2 ^ 64 + b) by ring.
  rewrite Zplus_mod_idemp_l. f_equal. f_equal. ring.
Qed.

Lemma wrap_wrap_add_r (a b : Z) : wrap (a + wrap b) = wrap (a + b).
Proof. rewrite Z.add_comm, wrap_wrap_add_l. f_equal. ring. Qed.

Lemma wrap_in_range (a : Z) : in_range a -> wrap a = a.
Proof.
  unfold in_range, minInt, maxInt, wrap.
  change (2 ^ 63) with 9223372036854775808.
  change (2 ^ 64) with 18446744073709551616.
  intros H. rewrite Z.mod_small by lia. ring.
Qed.

Lemma wrap_range (a : Z) : in_range (wrap a).
Proof.
  unfold in_range, minInt, maxInt, wrap.
  change (2 ^ 63) with 9223372036854775808.
  change (2 ^ 64) with 18446744073709551616.
  pose proof (Z.mod_pos_bound (a + 9223372036854775808) 18446744073709551616).
  lia.
Qed.

Lemma countOf_nonneg (ind : string) (rs : list TxnRecord.t) : 0 <= countOf ind rs.
Proof.
  unfold countOf. induction rs as [|r rs IH]; cbn [fold_right]; [lia|].
  destruct (String.eqb _ _); lia.
Qed.

Lemma Debit_neq_Credit : String.eqb Debit Credit = false.
Proof. reflexivity. Qed.

(** The record loop's totals, field by field. *)
Lemma tally_fold (rs : list TxnRecord.t) (s : totals) :
  let s' := fold_left (tally false) rs s in
  (toQ (batchDebitTx s') == toQ (batchDebitTx s) + sumAmounts Debit rs)%Q
  /\ (toQ (batchCreditTx s') == toQ (batchCreditTx s) + sumAmounts Credit rs)%Q
  /\ wrap (batchDebitCounter s') = wrap (batchDebitCounter s + countOf Debit rs)
  /\ wrap (batchCreditCounter s')
     = wrap (batchCreditCounter s + countOf Credit rs).
Proof.
  revert s. induction rs as [|r rs IH]; intros s.
  - cbn. repeat split; try ring; f_equal; ring.
  - cbn [fold_left sumAmounts countOf fold_right].
    fold (sumAmounts Debit rs) (sumAmounts Credit rs)
      (countOf Debit rs) (countOf Credit rs).
    destruct (IH (tally false s r)) as (H1 & H2 & H3 & H4).
    cbv zeta. rewrite H1, H2, H3, H4. clear IH H1 H2 H3 H4.
    unfold tally.
    destruct (String.eqb_spec (TxnRecord.Indicator r) Debit) as [Hd|Hd].
    + rewrite Hd, Debit_neq_Credit. cbn [batchDebitTx batchCreditTx
        batchDebitCounter batchCreditCounter].
      rewrite toQ_Add. unfold int_incr, int_add. rewrite wrap_wrap_add_l.
      repeat split; try ring; f_equal; ring.
    + destruct (String.eqb_spec (TxnRecord.Indicator r) Credit) as [Hc|Hc].
      * cbn [batchDebitTx batchCreditTx batchDebitCounter batchCreditCounter].
        rewrite toQ_Add. unfold int_incr, int_add. rewrite wrap_wrap_add_l.
        repeat split; try ring; f_equal; ring.
      * repeat split; try ring; f_equal; ring.
Qed.

Lemma tally_fold_range (omit : bool) (rs : list TxnRecord.t) (s : totals) :
  in_range (batchDebitCounter s) -> in_range (batchCreditCounter s) ->
  in_range (batchDebitCounter (fold_left (tally omit) rs s))
  /\ in_range (batchCreditCounter (fold_left (tally omit) rs s)).
Proof.
  revert s. induction rs as [|r rs IH]; intros s Hd Hc; [now split|].
  cbn [fold_left]. apply IH; unfold tally;
    destruct omit; try assumption;
    destruct (String.eqb _ Debit); cbn; try assumption;
    try apply wrap_range;
    destruct (String.eqb _ Credit); cbn; try assumption; apply wrap_range.
Qed.

Lemma tally_omit (rs : list TxnRecord.t) (s : totals) :
  fold_left (tally true) rs s = s.
Proof. induction rs as [|r rs IH]; cbn; [reflexivity|exact IH]. Qed.

Lemma tallyFile_omit (rs : list TxnRecord.t) (t : FileTrailer.t) :
  fold_left (tallyFile true) rs t = t.
Proof. induction rs as [|r rs IH]; cbn; [reflexivity|exact IH]. Qed.

(** The file trailer after the records [rs]: the fields that are not
    totals stay, the totals grow by the records' sums. *)
Lemma tallyFile_fold (rs : list TxnRecord.t) (t : FileTrailer.t) :
  let t' := fold_left (tallyFile false) rs t in
  FileTrailer.recordType t' = FileTrailer.recordType t
  /\ FileTrailer.CustomerNumber t' = FileTrailer.CustomerNumber t
  /\ FileTrailer.CustomerName t' = FileTrailer.CustomerName t
  /\ (toQ (FileTrailer.TotalDebitAmount t')
      == toQ (FileTrailer.TotalDebitAmount t) + sumAmounts Debit rs)%Q
  /\ (toQ (FileTrailer.TotalCreditAmount t')
      == toQ (FileTrailer.TotalCreditAmount t) + sumAmounts Credit rs)%Q
  /\ wrap (FileTrailer.TotalDebitTransactions t')
     = wrap (FileTrailer.TotalDebitTransactions t + countOf Debit rs)
  /\ wrap (FileTrailer.TotalCreditTransactions t')
     = wrap (FileTrailer.TotalCreditTransactions t + countOf Credit rs).
Proof.
  revert t. induction rs as [|r rs IH]; intros t.
  - cbn. repeat split; try ring; f_equal; ring.
  - cbn [fold_left sumAmounts countOf fold_right].
    fold (sumAmounts Debit rs) (sumAmounts Credit rs)
      (countOf Debit rs) (countOf Credit rs).
    destruct (IH (tallyFile false t r)) as (H1 & H2 & H3 & H4 & H5 & H6 & H7).
    cbv zeta. rewrite H1, H2, H3, H4, H5, H6, H7.
    clear IH H1 H2 H3 H4 H5 H6 H7.
    unfold tallyFile.
    destruct (String.eqb_spec (TxnRecord.Indicator r) Debit) as [Hd|Hd].
    + rewrite Hd, Debit_neq_Credit.
      cbn [FileTrailer.recordType FileTrailer.CustomerNumber
             FileTrailer.CustomerName FileTrailer.TotalDebitAmount
             FileTrailer.TotalCreditAmount FileTrailer.TotalDebitTransactions
             FileTrailer.TotalCreditTransactions].
      rewrite toQ_Add. unfold int_incr, int_add. rewrite wrap_wrap_add_l.
      repeat split; try ring; f_equal; ring.
    + destruct (String.eqb_spec (TxnRecord.Indicator r) Credit) as [Hc|Hc].
      * cbn [FileTrailer.recordType FileTrailer.CustomerNumber
               FileTrailer.CustomerName FileTrailer.TotalDebitAmount
               FileTrailer.TotalCreditAmount FileTrailer.TotalDebitTransactions
               FileTrailer.TotalCreditTransactions].
        rewrite toQ_Add. unfold int_incr, int_add. rewrite wrap_wrap_add_l.
        repeat split; try ring; f_equal; ring.
      * repeat split; try ring; f_equal; ring.
Qed.

Lemma sumInt_spec (zs : list Z) : sumInt zs = wrap (fold_right Z.add 0 zs).
Proof.
  induction zs as [|z zs IH]; [reflexivity|].
  cbn [sumInt fold_right]. fold (sumInt zs). rewrite IH.
  unfold int_add. apply wrap_wrap_add_r.
Qed.

Lemma tallyFile_fold_range (omit : bool) (rs : list TxnRecord.t)
  (t : FileTrailer.t) :
  in_range (FileTrailer.TotalDebitTransactions t) ->
  in_range (FileTrailer.TotalCreditTransactions t) ->
  in_range (FileTrailer.TotalDebitTransactions (fold_left (tallyFile omit) rs t))
  /\ in_range
       (FileTrailer.TotalCreditTransactions (fold_left (tallyFile omit) rs t)).
Proof.
  revert t. induction rs as [|r rs IH]; intros t Hd Hc; [now split|].
  cbn [fold_left]. apply IH; unfold tallyFile;
    destruct omit; try assumption;
    destruct (String.eqb _ Debit); cbn; try assumption;
    try apply wrap_range;
    destruct (String.eqb _ Credit); cbn; try assumption; apply wrap_range.
Qed.

Lemma fileTotals_omit (bs : list Batch.t) (t : FileTrailer.t) :
  fileTotals true bs t = t.
Proof.
  unfold fileTotals. induction bs as [|b bs IH]; cbn; [reflexivity|].
  rewrite tallyFile_omit. exact IH.
Qed.

Lemma fileTotals_fold (bs : list Batch.t) (t : FileTrailer.t) :
  let t' := fileTotals false bs t in
  FileTrailer.recordType t' = FileTrailer.recordType t
  /\ FileTrailer.CustomerNumber t' = FileTrailer.CustomerNumber t
  /\ FileTrailer.CustomerName t' = FileTrailer.CustomerName t
  /\ (toQ (FileTrailer.TotalDebitAmount t')
      == toQ (FileTrailer.TotalDebitAmount t) + fileSum Debit bs)%Q
  /\ (toQ (FileTrailer.TotalCreditAmount t')
      == toQ (FileTrailer.TotalCreditAmount t) + fileSum Credit bs)%Q
  /\ wrap (FileTrailer.TotalDebitTransactions t')
     = wrap (FileTrailer.TotalDebitTransactions t + fileCount Debit bs)
  /\ wrap (FileTrailer.TotalCreditTransactions t')
     = wrap (FileTrailer.TotalCreditTransactions t + fileCount Credit bs).
Proof.
  revert t. induction bs as [|b bs IH]; intros t.
  - cbn. repeat split; try ring; f_equal; ring.
  - unfold fileTotals, fileSum, fileCount.
    cbn [fold_left map fold_right sumQ].
    fold (fileTotals false bs
            (fold_left (tallyFile false) (Batch.Records b) t)).
    fold (sumQ (map (fun b => sumAmounts Debit (Batch.Records b)) bs))
      (sumQ (map (fun b => sumAmounts Credit (Batch.Records b)) bs)).
    fold (fileSum Debit bs) (fileSum Credit bs)
      (fileCount Debit bs) (fileCount Credit bs).
    destruct (IH (fold_left (tallyFile false) (Batch.Records b) t))
      as (H1 & H2 & H3 & H4 & H5 & H6 & H7).
    destruct (tallyFile_fold (Batch.Records b) t)
      as (G1 & G2 & G3 & G4 & G5 & G6 & G7).
    cbv zeta in *. rewrite H1, H2, H3, H4, H5, H6, H7, G1, G2, G3, G4, G5.
    rewrite <- wrap_wrap_add_l, G6, wrap_wrap_add_l.
    rewrite <- (wrap_wrap_add_l (FileTrailer.TotalCreditTransactions _)),
      G7, wrap_wrap_add_l.
    repeat split; try ring; f_equal; ring.
Qed.

Lemma fileTotals_range (omit : bool) (bs : list Batch.t) (t : FileTrailer.t) :
  in_range (FileTrailer.TotalDebitTransactions t) ->
  in_range (FileTrailer.TotalCreditTransactions t) ->
  in_range (FileTrailer.TotalDebitTransactions (fileTotals omit bs t))
  /\ in_range (FileTrailer.TotalCreditTransactions (fileTotals omit bs t)).
Proof.
  unfold fileTotals. revert t.
  induction bs as [|b bs IH]; intros t Hd Hc; [now split|].
  cbn [fold_left]. apply IH; apply tallyFile_fold_range; assumption.
Qed.

Lemma zero_in_range : in_range 0.
Proof. unfold in_range, minInt, maxInt. cbn. lia. Qed.

(** The totals of one batch. *)
Lemma batchTotals_spec (b : Batch.t) :
  let s := batchTotals false b in
  (toQ (batchDebitTx s) == sumAmounts Debit (Batch.Records b))%Q
  /\ (toQ (batchCreditTx s) == sumAmounts Credit (Batch.Records b))%Q
  /\ batchDebitCounter s = wrap (countOf Debit (Batch.Records b))
  /\ batchCreditCounter s = wrap (countOf Credit (Batch.Records b)).
Proof.
  unfold batchTotals.
  destruct (tally_fold (Batch.Records b)
              (mkTotals 0 0 Decimal.zero Decimal.zero)) as (H1 & H2 & H3 & H4).
  destruct (tally_fold_range false (Batch.Records b)
              (mkTotals 0 0 Decimal.zero Decimal.zero)
              zero_in_range zero_in_range) as (R1 & R2).
  cbv zeta in *. cbn [batchDebitTx batchCreditTx batchDebitCounter
                        batchCreditCounter] in H1, H2, H3, H4.
  rewrite H1, H2, toQ_zero.
  rewrite <- (wrap_in_range _ R1), <- (wrap_in_range _ R2), H3, H4.
  repeat split; try ring.
Qed.

Lemma batchTotals_omit (b : Batch.t) :
  batchTotals true b = mkTotals 0 0 Decimal.zero Decimal.zero.
Proof. unfold batchTotals. apply tally_omit. Qed.

Lemma trailers_length (omit : bool) (clk : nat -> Time.t) (t0 k : nat)
  (bs : list Batch.t) :
  List.length (trailers omit clk t0 k bs) = List.length bs.
Proof.
  revert t0 k. induction bs as [|b bs IH]; intros t0 k; cbn;
    [reflexivity|now rewrite IH].
Qed.

Lemma trailers_nth (omit : bool) (clk : nat -> Time.t) (t0 k : nat)
  (bs : list Batch.t) (j : nat) (b : Batch.t) :
  nth_error bs j = Some b ->
  nth_error (trailers omit clk t0 k bs) j
  = Some (batchTrailer (k + j) b (batchTotals omit b) (clk (t0 + j)%nat)).
Proof.
  revert t0 k j. induction bs as [|b0 bs IH]; intros t0 k j Hj.
  - destruct j; discriminate.
  - destruct j as [|j]; cbn in Hj |- *.
    + injection Hj as ->. rewrite !Nat.add_0_r. reflexivity.
    + rewrite (IH (S t0) (S k) j Hj), !Nat.add_succ_r. reflexivity.
Qed.

(** Either every record is valid, or there is a first invalid one. *)
Lemma first_invalid_record (rs : list TxnRecord.t) :
  allValid rs
  \/ exists rs1 r rs2,
       rs = (rs1 ++ r :: rs2)%list /\ allValid rs1 /\ IsValid r = false.
Proof.
  induction rs as [|r rs IH]; [left; constructor|].
  destruct (IsValid r) eqn:Hr.
  - destruct IH as [IH|(rs1 & r' & rs2 & -> & Hv & Hr')].
    + left. constructor; assumption.
    + right. exists (r :: rs1), r', rs2.
      repeat split; [constructor; assumption|assumption].
  - right. exists [], r, rs. repeat split; [constructor|assumption].
Qed.

Lemma first_invalid_batch (bs : list Batch.t) :
  allValidBatches bs
  \/ exists bs1 b bs2 rs1 r rs2,
       bs = (bs1 ++ b :: bs2)%list /\ allValidBatches bs1
       /\ Batch.Records b = (rs1 ++ r :: rs2)%list
       /\ allValid rs1 /\ IsValid r = false.
Proof.
  induction bs as [|b bs IH]; [left; constructor|].
  destruct (first_invalid_record (Batch.Records b))
    as [Hb|(rs1 & r & rs2 & Hrs & Hv & Hr)].
  - destruct IH as [IH|(bs1 & b' & bs2 & rs1 & r & rs2 & -> & Hv1 & Hrs & Hv & Hr)].
    + left. constructor; assumption.
    + right. exists (b :: bs1), b', bs2, rs1, r, rs2.
      repeat split; try assumption. constructor; assumption.
  - right. exists [], b, bs, rs1, r, rs2.
    repeat split; try assumption. constructor.
Qed.

(** The totals of the emitted batch trailers, summed over the file. *)
Lemma trailers_sums (clk : nat -> Time.t) (t0 k : nat) (bs : list Batch.t) :
  let ts := trailers false clk t0 k bs in
  sumInt (map BatchTrailer.TotalDebitTransactions ts)
  = wrap (fileCount Debit bs)
  /\ sumInt (map BatchTrailer.TotalCreditTransactions ts)
     = wrap (fileCount Credit bs)
  /\ (sumQ (map (fun t => toQ (BatchTrailer.TotalDebitAmount t)) ts)
      == fileSum Debit bs)%Q
  /\ (sumQ (map (fun t => toQ (BatchTrailer.TotalCreditAmount t)) ts)
      == fileSum Credit bs)%Q.
Proof.
  revert t0 k. induction bs as [|b bs IH]; intros t0 k.
  - cbn. repeat split; reflexivity.
  - destruct (IH (S t0) (S k)) as (H1 & H2 & H3 & H4).
    destruct (batchTotals_spec b) as (G1 & G2 & G3 & G4).
    cbv zeta in *.
    unfold fileCount, fileSum.
    cbn [trailers map sumInt sumQ fold_right batchTrailer
           BatchTrailer.TotalDebitTransactions
           BatchTrailer.TotalCreditTransactions
           BatchTrailer.TotalDebitAmount BatchTrailer.TotalCreditAmount].
    fold (sumInt (map BatchTrailer.TotalDebitTransactions
                    (trailers false clk (S t0) (S k) bs)))
      (sumInt (map BatchTrailer.TotalCreditTransactions
                 (trailers false clk (S t0) (S k) bs)))
      (sumQ (map (fun t => toQ (BatchTrailer.TotalDebitAmount t))
               (trailers false clk (S t0) (S k) bs)))
      (sumQ (map (fun t => toQ (BatchTrailer.TotalCreditAmount t))
               (trailers false clk (S t0) (S k) bs))).
    fold (sumQ (map (fun b => sumAmounts Debit (Batch.Records b)) bs))
      (sumQ (map (fun b => sumAmounts Credit (Batch.Records b)) bs)).
    fold (fileSum Debit bs) (fileSum Credit bs)
      (fileCount Debit bs) (fileCount Credit bs).
    rewrite H1, H2, H3, H4, G1, G2, G3, G4.
    unfold int_add. rewrite !wrap_wrap_add_l, !wrap_wrap_add_r.
    repeat split; reflexivity.
Qed.

Lemma trailers_omit (clk : nat -> Time.t) (t0 k : nat) (bs : list Batch.t) :
  Forall zeroTotals (trailers true clk t0 k bs).
Proof.
  revert t0 k. induction bs as [|b bs IH]; intros t0 k; cbn [trailers];
    constructor; [|apply IH].
  rewrite batchTotals_omit. repeat split.
Qed.

Lemma double_count (x0 x y n : Z) :
  x0 = 0 -> in_range x -> in_range y ->
  wrap x = wrap (x0 + n) -> wrap y = wrap (x + n) ->
  y = int_add x x.
Proof.
  intros -> Rx Ry Hx Hy. rewrite Z.add_0_l in Hx.
  rewrite <- (wrap_in_range y Ry), Hy. unfold int_add.
  rewrite <- (wrap_wrap_add_l x n), Hx, wrap_wrap_add_l.
  rewrite <- (wrap_wrap_add_l x x), Hx, wrap_wrap_add_l.
  rewrite <- (wrap_wrap_add_r n x), Hx, wrap_wrap_add_r.
  reflexivity.
Qed.

Lemma trailers_app (omit : bool) (clk : nat -> Time.t) (t0 k : nat)
  (xs ys : list Batch.t) :
  trailers omit clk t0 k (xs ++ ys)
  = (trailers omit clk t0 k xs
     ++ trailers omit clk (t0 + List.length xs) (k + List.length xs) ys)%list.
Proof.
  revert t0 k. induction xs as [|x xs IH]; intros t0 k.
  - cbn. rewrite !Nat.add_0_r. reflexivity.
  - cbn [trailers app List.length]. rewrite IH, !Nat.add_succ_r. reflexivity.
Qed.

Lemma batchesText_app (zp crlf : bool) (xs ys : list Batch.t)
  (txs tys : list BatchTrailer.t) :
  List.length txs = List.length xs ->
  batchesText zp crlf (xs ++ ys) (txs ++ tys)
  = batchesText zp crlf xs txs ++ batchesText zp crlf ys tys.
Proof.
  revert txs. induction xs as [|x xs IH]; intros txs Hlen.
  - destruct txs; [reflexivity|discriminate].
  - destruct txs as [|t txs]; [discriminate|].
    cbn [batchesText app]. rewrite IH by (cbn in Hlen; lia).
    rewrite append_assoc. reflexivity.
Qed.

Lemma allValidBatches_app (xs ys : list Batch.t) :
  allValidBatches xs -> allValidBatches ys -> allValidBatches (xs ++ ys).
Proof. intros Hx Hy. apply Forall_app. split; assumption. Qed.

(** What [Write] has written once it is past the batch [b], which it
    reaches because the batches [bs1] before it are valid, and whose own
    records are valid: the file header, the batches [bs1], and [b] with
    the trailer computed for it; whatever follows depends on the batches
    after [b]. *)
Lemma Write_past_batch (zp : bool) (w : Writer.t) (wd : World)
  (bs1 bs2 : list Batch.t) (b : Batch.t) :
  Writer.Batch w = (bs1 ++ b :: bs2)%list ->
  allValidBatches bs1 ->
  allValid (Batch.Records b) ->
  exists (rest : string),
    Writer.wr (snd (fst (Writer_Write zp w wd)))
    = Writer.wr w
      ++ FileHeader_Write zp (Writer.FileHeader w)
      ++ eol (Writer.CRLFLineEndings w)
      ++ batchesText zp (Writer.CRLFLineEndings w) bs1
           (trailers (Writer.OmitBatchTotals w) (clock wd) (ticks wd) 0 bs1)
      ++ batchText zp (Writer.CRLFLineEndings w) b
           (batchTrailer (List.length bs1) b
              (batchTotals (Writer.OmitBatchTotals w) b)
              (clock wd (ticks wd + List.length bs1)%nat))
      ++ rest.
Proof.
  intros Hbs Hv1 Hb.
  assert (Hsplit : forall (cs : list Batch.t),
    batchesText zp (Writer.CRLFLineEndings w) (bs1 ++ b :: cs)
      (trailers (Writer.OmitBatchTotals w) (clock wd) (ticks wd) 0
         (bs1 ++ b :: cs))
    = batchesText zp (Writer.CRLFLineEndings w) bs1
        (trailers (Writer.OmitBatchTotals w) (clock wd) (ticks wd) 0 bs1)
      ++ batchText zp (Writer.CRLFLineEndings w) b
           (batchTrailer (List.length bs1) b
              (batchTotals (Writer.OmitBatchTotals w) b)
              (clock wd (ticks wd + List.length bs1)%nat))
      ++ batchesText zp (Writer.CRLFLineEndings w) cs
           (trailers (Writer.OmitBatchTotals w) (clock wd)
              (S (ticks wd + List.length bs1)) (S (List.length bs1)) cs)).
  { intros cs. rewrite trailers_app, batchesText_app by apply trailers_length.
    reflexivity. }
  destruct (first_invalid_batch bs2)
    as [Hv2|(c1 & b' & c2 & rs1 & r & rs2 & -> & Hc1 & Hrs & Hv & Hr)].
  - assert (Hall : allValidBatches (Writer.Batch w)).
    { rewrite Hbs. apply allValidBatches_app; [exact Hv1|].
      constructor; assumption. }
    assert (Hne : Writer.Batch w <> []).
    { rewrite Hbs. destruct bs1; discriminate. }
    rewrite (Write_valid zp w wd Hne Hall).
    cbn [fst snd withTrailerOut Writer.wr]. unfold fileText.
    rewrite Hbs, Hsplit, !append_assoc. eexists. reflexivity.
  - assert (Hv1' : allValidBatches (bs1 ++ b :: c1)).
    { apply allValidBatches_app; [exact Hv1|]. constructor; assumption. }
    assert (Hbs' : Writer.Batch w = ((bs1 ++ b :: c1) ++ b' :: c2)%list).
    { rewrite Hbs, <- app_assoc. reflexivity. }
    rewrite (Write_first_invalid zp w wd (bs1 ++ b :: c1) c2 b' rs1 rs2 r
               Hbs' Hv1' Hrs Hv Hr).
    cbn [fst snd withTrailerOut Writer.wr].
    rewrite Hsplit, !append_assoc. eexists. reflexivity.
Qed.

Section WriterTheorems.

Variable zp : bool.

Lemma Write_empty (w : Writer.t) (wd : World) :
  Writer.Batch w = [] ->
  Writer_Write zp w wd = (Some ErrInsufficientBatches, w, wd).
Proof.
  intros Hb. unfold Writer_Write, Write_body, bind.
  rewrite wbind_eq, gets_eq, Hb. reflexivity.
Qed.

(** C7.  [Write] on a writer whose batch list is empty returns the
    "insufficient batches" error and leaves the writer as it was: nothing
    at all is written to the sink, and the world is as before. *)
Theorem C7_empty_batch_list (w : Writer.t) (wd : World) :
  Writer.Batch w = [] ->
  Writer_Write zp w wd = (Some ErrInsufficientBatches, w, wd)
  /\ Writer.wr (snd (fst (Writer_Write zp w wd))) = Writer.wr w.
Proof.
  intros Hb. rewrite (Write_empty w wd Hb). split; reflexivity.
Qed.

(** C6.  When a batch holds a record that fails [IsValid], the first such
    record of the file (every batch before its batch [b] and every record
    before it in [b] is valid) makes [Write] return the invalid-record
    error that carries the record's index in its batch.  What has been
    written by then is the file header, the batches before [b] in full,
    the header of [b] and the lines of the records before the invalid
    one: neither its line nor the line of any later record. *)
Theorem C6_first_invalid_record_aborts (w : Writer.t) (wd : World)
  (bs1 bs2 : list Batch.t) (b : Batch.t) (rs1 rs2 : list TxnRecord.t)
  (r : TxnRecord.t) :
  Writer.Batch w = (bs1 ++ b :: bs2)%list ->
  allValidBatches bs1 ->
  Batch.Records b = (rs1 ++ r :: rs2)%list ->
  allValid rs1 ->
  IsValid r = false ->
  exists (w' : Writer.t) (wd' : World),
    Writer_Write zp w wd
    = (Some (Errorf ("txn: Invalid Record can't be written (record "
                     ++ itoa (Z.of_nat (List.length rs1)) ++ ")")),
       w', wd')
    /\ Writer.wr w'
       = Writer.wr w
         ++ FileHeader_Write zp (Writer.FileHeader w)
         ++ eol (Writer.CRLFLineEndings w)
         ++ batchesText zp (Writer.CRLFLineEndings w) bs1
              (trailers (Writer.OmitBatchTotals w) (clock wd) (ticks wd) 0
                 bs1)
         ++ BatchHeader_Write zp (Batch.BatchHeader b)
         ++ eol (Writer.CRLFLineEndings w)
         ++ recordLines zp (Writer.CRLFLineEndings w) rs1.
Proof.
  intros Hbs Hv1 Hb Hv Hr.
  eexists _, _. split.
  - apply (Write_first_invalid zp w wd bs1 bs2 b rs1 rs2 r); assumption.
  - reflexivity.
Qed.

Lemma Write_logs (w : Writer.t) (wd : World) :
  logs (snd (Writer_Write zp w wd)) = logs wd.
Proof.
  destruct (Writer.Batch w) as [|b0 bs0] eqn:Hbs.
  - rewrite Write_empty by exact Hbs. reflexivity.
  - destruct (first_invalid_batch (Writer.Batch w))
      as [Hv|(bs1 & b & bs2 & rs1 & r & rs2 & Hsplit & Hv1 & Hrs & Hv & Hr)].
    + rewrite Write_valid by (try assumption; congruence). reflexivity.
    + rewrite (Write_first_invalid zp w wd bs1 bs2 b rs1 rs2 r) by assumption.
      reflexivity.
Qed.

Lemma Write_success (w w' : Writer.t) (wd wd' : World) :
  Writer_Write zp w wd = (None, w', wd') ->
  Writer.Batch w <> [] /\ allValidBatches (Writer.Batch w).
Proof.
  intros HW. split.
  - intros Hb. rewrite (Write_empty w wd Hb) in HW. discriminate.
  - destruct (first_invalid_batch (Writer.Batch w))
      as [Hv|(bs1 & b & bs2 & rs1 & r & rs2 & Hsplit & Hv1 & Hrs & Hv & Hr)];
      [exact Hv|].
    rewrite (Write_first_invalid zp w wd bs1 bs2 b rs1 rs2 r) in HW
      by assumption.
    discriminate.
Qed.

(** C3, as amended.  A record whose indicator is neither ["DR"] nor ["CR"]
    fails the validity check that [Write] makes before it touches the
    totals.  When no invalid record comes before it, [Write] returns the
    invalid-record error with the record's index; nothing is logged; the
    file trailer holds the totals of the records before it only; and the
    sink ends with the lines of the records before it: its own line is
    not written and the write does not go on. *)
Theorem C3_bad_indicator_aborts (w : Writer.t) (wd : World)
  (bs1 bs2 : list Batch.t) (b : Batch.t) (rs1 rs2 : list TxnRecord.t)
  (r : TxnRecord.t) :
  Writer.Batch w = (bs1 ++ b :: bs2)%list ->
  allValidBatches bs1 ->
  Batch.Records b = (rs1 ++ r :: rs2)%list ->
  allValid rs1 ->
  TxnRecord.Indicator r <> Debit ->
  TxnRecord.Indicator r <> Credit ->
  exists (w' : Writer.t) (wd' : World),
    Writer_Write zp w wd
    = (Some (Errorf ("txn: Invalid Record can't be written (record "
                     ++ itoa (Z.of_nat (List.length rs1)) ++ ")")),
       w', wd')
    /\ logs wd' = logs wd
    /\ Writer.FileTrailer w'
       = fold_left (tallyFile (Writer.OmitBatchTotals w)) rs1
           (fileTotals (Writer.OmitBatchTotals w) bs1 (Writer.FileTrailer w))
    /\ Writer.wr w'
       = Writer.wr w
         ++ FileHeader_Write zp (Writer.FileHeader w)
         ++ eol (Writer.CRLFLineEndings w)
         ++ batchesText zp (Writer.CRLFLineEndings w) bs1
              (trailers (Writer.OmitBatchTotals w) (clock wd) (ticks wd) 0
                 bs1)
         ++ BatchHeader_Write zp (Batch.BatchHeader b)
         ++ eol (Writer.CRLFLineEndings w)
         ++ recordLines zp (Writer.CRLFLineEndings w) rs1.
Proof.
  intros Hbs Hv1 Hb Hv Hd Hc.
  assert (Hr : IsValid r = false).
  { unfold IsValid.
    destruct (String.eqb_spec (TxnRecord.Indicator r) Credit); [contradiction|].
    destruct (String.eqb_spec (TxnRecord.Indicator r) Debit); [contradiction|].
    reflexivity. }
  eexists _, _. split; [|split; [|split]].
  - apply (Write_first_invalid zp w wd bs1 bs2 b rs1 rs2 r); assumption.
  - reflexivity.
  - reflexivity.
  - reflexivity.
Qed.

(** What [C2] says of one emitted batch trailer. *)
Lemma batchTrailer_spec (k : nat) (b : Batch.t) (now : Time.t) :
  let t := batchTrailer k b (batchTotals false b) now in
  let debitSum := sumAmounts Debit (Batch.Records b) in
  let creditSum := sumAmounts Credit (Batch.Records b) in
  (toQ (BatchTrailer.TotalDebitAmount t) == debitSum)%Q
  /\ (toQ (BatchTrailer.TotalCreditAmount t) == creditSum)%Q
  /\ (toQ (BatchTrailer.Amount t) == Qabs (creditSum - debitSum))%Q
  /\ (BatchTrailer.Indicator t = "CR" <-> (debitSum <= creditSum)%Q)
  /\ BatchTrailer.ReferenceNumber t = Z.of_nat k.
Proof.
  destruct (batchTotals_spec b) as (H1 & H2 & _ & _).
  cbv zeta in *. unfold batchTrailer.
  cbn [BatchTrailer.TotalDebitAmount BatchTrailer.TotalCreditAmount
         BatchTrailer.Amount BatchTrailer.Indicator
         BatchTrailer.ReferenceNumber].
  split; [exact H1|]. split; [exact H2|]. split; [|split; [|reflexivity]].
  - rewrite toQ_Abs, toQ_Sub, H1, H2. reflexivity.
  - destruct (Decimal.Sign _ <? 0) eqn:Hs.
    + apply Sign_neg_iff in Hs. rewrite toQ_Sub, H1, H2 in Hs.
      split; [discriminate|]. intros Hle. exfalso.
      apply (Qlt_not_le _ _ Hs).
      setoid_replace 0%Q
        with (sumAmounts Debit (Batch.Records b)
              - sumAmounts Debit (Batch.Records b))%Q by ring.
      apply Qplus_le_l. exact Hle.
    + split; [|reflexivity]. intros _.
      apply Qnot_lt_le. intros Hlt.
      assert (Hneg : (Decimal.Sign
                        (Decimal.Sub (batchCreditTx (batchTotals false b))
                           (batchDebitTx (batchTotals false b))) <? 0) = true).
      { apply Sign_neg_iff. rewrite toQ_Sub, H1, H2.
        setoid_replace 0%Q
          with (sumAmounts Debit (Batch.Records b)
                - sumAmounts Debit (Batch.Records b))%Q by ring.
        apply Qplus_lt_l. exact Hlt. }
      congruence.
Qed.

(** C2.  With [OmitBatchTotals] false, for every batch [b] of the file
    whose records are all valid and which [Write] reaches (the batches
    before it are valid): [Write] writes the file header, the batches
    before [b], and [b] with a trailer [t] that has [TotalDebitAmount]
    equal to the sum of the amounts of the batch's ["DR"] records,
    [TotalCreditAmount] equal to the sum for ["CR"], [Amount] equal to
    the absolute value of credit sum minus debit sum, [Indicator] ["CR"]
    exactly when the credit sum is at least the debit sum, and
    [ReferenceNumber] equal to the position of [b] in the file, counted
    from zero. *)
Theorem C2_batch_trailer_totals (w : Writer.t) (wd : World)
  (bs1 bs2 : list Batch.t) (b : Batch.t) :
  Writer.OmitBatchTotals w = false ->
  Writer.Batch w = (bs1 ++ b :: bs2)%list ->
  allValidBatches bs1 ->
  allValid (Batch.Records b) ->
  exists (t : BatchTrailer.t) (rest : string),
    Writer.wr (snd (fst (Writer_Write zp w wd)))
    = Writer.wr w
      ++ FileHeader_Write zp (Writer.FileHeader w)
      ++ eol (Writer.CRLFLineEndings w)
      ++ batchesText zp (Writer.CRLFLineEndings w) bs1
           (trailers (Writer.OmitBatchTotals w) (clock wd) (ticks wd) 0 bs1)
      ++ batchText zp (Writer.CRLFLineEndings w) b t
      ++ rest
    /\ let debitSum := sumAmounts Debit (Batch.Records b) in
       let creditSum := sumAmounts Credit (Batch.Records b) in
       (toQ (BatchTrailer.TotalDebitAmount t) == debitSum)%Q
       /\ (toQ (BatchTrailer.TotalCreditAmount t) == creditSum)%Q
       /\ (toQ (BatchTrailer.Amount t) == Qabs (creditSum - debitSum))%Q
       /\ (BatchTrailer.Indicator t = "CR" <-> (debitSum <= creditSum)%Q)
       /\ BatchTrailer.ReferenceNumber t = Z.of_nat (List.length bs1).
Proof.
  intros Homit Hbs Hv1 Hb.
  destruct (Write_past_batch zp w wd bs1 bs2 b Hbs Hv1 Hb) as [rest Hrest].
  eexists _, rest. split; [exact Hrest|].
  rewrite Homit. apply batchTrailer_spec.
Qed.

(** C5.  For a writer whose file trailer totals are zero, as in a new
    writer, with at least one batch and every record valid: [Write]
    returns nil, and afterwards, when [OmitBatchTotals] is false, each of
    the file trailer's two counts and two amounts is the sum of that
    total over the batch trailers written (the counts summed as Go adds
    [int]s); when [OmitBatchTotals] is true, the four totals of the file
    trailer and every total of every batch trailer written are zero. *)
Theorem C5_file_totals (w : Writer.t) (wd : World) :
  FileTrailer.TotalDebitTransactions (Writer.FileTrailer w) = 0 ->
  FileTrailer.TotalCreditTransactions (Writer.FileTrailer w) = 0 ->
  FileTrailer.TotalDebitAmount (Writer.FileTrailer w) = Decimal.zero ->
  FileTrailer.TotalCreditAmount (Writer.FileTrailer w) = Decimal.zero ->
  Writer.Batch w <> [] ->
  allValidBatches (Writer.Batch w) ->
  exists (ts : list BatchTrailer.t) (w' : Writer.t) (wd' : World),
    Writer_Write zp w wd = (None, w', wd')
    /\ Writer.wr w'
       = Writer.wr w
         ++ fileText zp (Writer.CRLFLineEndings w) (Writer.FileHeader w)
              (Writer.Batch w) ts (Writer.FileTrailer w')
    /\ List.length ts = List.length (Writer.Batch w)
    /\ let ft := Writer.FileTrailer w' in
       if Writer.OmitBatchTotals w then
         FileTrailer.TotalDebitTransactions ft = 0
         /\ FileTrailer.TotalCreditTransactions ft = 0
         /\ FileTrailer.TotalDebitAmount ft = Decimal.zero
         /\ FileTrailer.TotalCreditAmount ft = Decimal.zero
         /\ Forall zeroTotals ts
       else
         FileTrailer.TotalDebitTransactions ft
         = sumInt (map BatchTrailer.TotalDebitTransactions ts)
         /\ FileTrailer.TotalCreditTransactions ft
            = sumInt (map BatchTrailer.TotalCreditTransactions ts)
         /\ (toQ (FileTrailer.TotalDebitAmount ft)
             == sumQ (map (fun t => toQ (BatchTrailer.TotalDebitAmount t)) ts))%Q
         /\ (toQ (FileTrailer.TotalCreditAmount ft)
             == sumQ (map (fun t => toQ (BatchTrailer.TotalCreditAmount t)) ts))%Q.
Proof.
  intros Hdc Hcc Hda Hca Hne Hv.
  eexists _, _, _. split; [apply Write_valid; assumption|].
  split; [reflexivity|]. split; [apply trailers_length|].
  cbn [withTrailerOut Writer.FileTrailer].
  destruct (Writer.OmitBatchTotals w).
  - rewrite fileTotals_omit.
    repeat split; try assumption. apply trailers_omit.
  - destruct (fileTotals_fold (Writer.Batch w) (Writer.FileTrailer w))
      as (_ & _ & _ & H4 & H5 & H6 & H7).
    destruct (fileTotals_range false (Writer.Batch w) (Writer.FileTrailer w))
      as (R1 & R2);
      [rewrite Hdc; apply zero_in_range|rewrite Hcc; apply zero_in_range|].
    destruct (trailers_sums (clock wd) (ticks wd) 0 (Writer.Batch w))
      as (S1 & S2 & S3 & S4).
    cbv zeta in *.
    rewrite S1, S2, S3, S4, H4, H5, Hda, Hca, toQ_zero.
    rewrite <- (wrap_in_range _ R1), <- (wrap_in_range _ R2), H6, H7, Hdc, Hcc.
    repeat split; try ring.
Qed.

(** C10.  After a [Write] that returns nil, the batch list (with every
    batch header, record list and stored batch trailer), the file header
    and the two options of the writer are what they were, and so are the
    fields of the file trailer that are not totals.  Each of the four
    totals of the file trailer is its value before the call plus what
    this pass summed: the number of the records of all batches with the
    indicator ["DR"], the number of those with ["CR"], and the sums of
    their amounts; with [OmitBatchTotals] the pass sums nothing and the
    file trailer is what it was.  These are also the sums of the totals
    over the batch trailers this call wrote.  If the totals were zero
    before the call, a second [Write] on the writer as the first left it
    returns nil again and leaves each total at twice its value after the
    first.  The counts are Go [int]s, taken in range before the call. *)
Theorem C10_write_frame (w w' : Writer.t) (wd wd' : World) :
  in_range (FileTrailer.TotalDebitTransactions (Writer.FileTrailer w)) ->
  in_range (FileTrailer.TotalCreditTransactions (Writer.FileTrailer w)) ->
  Writer_Write zp w wd = (None, w', wd') ->
  let ft := Writer.FileTrailer w in
  let ft' := Writer.FileTrailer w' in
  (Writer.Batch w' = Writer.Batch w
   /\ Writer.FileHeader w' = Writer.FileHeader w
   /\ Writer.OmitBatchTotals w' = Writer.OmitBatchTotals w
   /\ Writer.CRLFLineEndings w' = Writer.CRLFLineEndings w
   /\ FileTrailer.recordType ft' = FileTrailer.recordType ft
   /\ FileTrailer.CustomerNumber ft' = FileTrailer.CustomerNumber ft
   /\ FileTrailer.CustomerName ft' = FileTrailer.CustomerName ft)
  /\ (exists ts : list BatchTrailer.t,
        Writer.wr w'
        = Writer.wr w
          ++ fileText zp (Writer.CRLFLineEndings w) (Writer.FileHeader w)
               (Writer.Batch w) ts ft'
        /\ List.length ts = List.length (Writer.Batch w)
        /\ FileTrailer.TotalDebitTransactions ft'
           = int_add (FileTrailer.TotalDebitTransactions ft)
               (sumInt (map BatchTrailer.TotalDebitTransactions ts))
        /\ FileTrailer.TotalCreditTransactions ft'
           = int_add (FileTrailer.TotalCreditTransactions ft)
               (sumInt (map BatchTrailer.TotalCreditTransactions ts))
        /\ (toQ (FileTrailer.TotalDebitAmount ft')
            == toQ (FileTrailer.TotalDebitAmount ft)
               + sumQ (map (fun t => toQ (BatchTrailer.TotalDebitAmount t)) ts))%Q
        /\ (toQ (FileTrailer.TotalCreditAmount ft')
            == toQ (FileTrailer.TotalCreditAmount ft)
               + sumQ (map (fun t => toQ (BatchTrailer.TotalCreditAmount t)) ts))%Q)
  /\ (if Writer.OmitBatchTotals w then ft' = ft
      else
        FileTrailer.TotalDebitTransactions ft'
        = int_add (FileTrailer.TotalDebitTransactions ft)
            (fileCount Debit (Writer.Batch w))
        /\ FileTrailer.TotalCreditTransactions ft'
           = int_add (FileTrailer.TotalCreditTransactions ft)
               (fileCount Credit (Writer.Batch w))
        /\ (toQ (FileTrailer.TotalDebitAmount ft')
            == toQ (FileTrailer.TotalDebitAmount ft)
               + fileSum Debit (Writer.Batch w))%Q
        /\ (toQ (FileTrailer.TotalCreditAmount ft')
            == toQ (FileTrailer.TotalCreditAmount ft)
               + fileSum Credit (Writer.Batch w))%Q)
  /\ (FileTrailer.TotalDebitTransactions ft = 0 ->
      FileTrailer.TotalCreditTransactions ft = 0 ->
      (toQ (FileTrailer.TotalDebitAmount ft) == 0)%Q ->
      (toQ (FileTrailer.TotalCreditAmount ft) == 0)%Q ->
      exists (w'' : Writer.t) (wd'' : World),
        Writer_Write zp w' wd' = (None, w'', wd'')
        /\ let ft'' := Writer.FileTrailer w'' in
           FileTrailer.TotalDebitTransactions ft''
           = int_add (FileTrailer.TotalDebitTransactions ft')
               (FileTrailer.TotalDebitTransactions ft')
           /\ FileTrailer.TotalCreditTransactions ft''
              = int_add (FileTrailer.TotalCreditTransactions ft')
                  (FileTrailer.TotalCreditTransactions ft')
           /\ (toQ (FileTrailer.TotalDebitAmount ft'')
               == 2 * toQ (FileTrailer.TotalDebitAmount ft'))%Q
           /\ (toQ (FileTrailer.TotalCreditAmount ft'')
               == 2 * toQ (FileTrailer.TotalCreditAmount ft'))%Q).
Proof.
  intros Rd Rc HW ft ft'.
  destruct (Write_success w w' wd wd' HW) as [Hne Hv].
  pose proof (Write_valid zp w wd Hne Hv) as HW'. cbv zeta in HW'.
  rewrite HW in HW'. injection HW' as Hw' Hwd'.
  assert (Hft' : ft' = fileTotals (Writer.OmitBatchTotals w) (Writer.Batch w) ft)
    by (subst ft' w'; reflexivity).
  assert (Hframe : Writer.Batch w' = Writer.Batch w
                   /\ Writer.FileHeader w' = Writer.FileHeader w
                   /\ Writer.OmitBatchTotals w' = Writer.OmitBatchTotals w
                   /\ Writer.CRLFLineEndings w' = Writer.CRLFLineEndings w)
    by (subst w'; repeat split).
  destruct Hframe as (Fb & Fh & Fo & Fc).
  destruct (fileTotals_range (Writer.OmitBatchTotals w) (Writer.Batch w) ft
              Rd Rc) as (R1 & R2).
  rewrite <- Hft' in R1, R2.
  assert (Htot :
    FileTrailer.recordType ft' = FileTrailer.recordType ft
    /\ FileTrailer.CustomerNumber ft' = FileTrailer.CustomerNumber ft
    /\ FileTrailer.CustomerName ft' = FileTrailer.CustomerName ft
    /\ exists ts : list BatchTrailer.t,
         ts = trailers (Writer.OmitBatchTotals w) (clock wd) (ticks wd) 0
                (Writer.Batch w)
         /\ FileTrailer.TotalDebitTransactions ft'
            = int_add (FileTrailer.TotalDebitTransactions ft)
                (sumInt (map BatchTrailer.TotalDebitTransactions ts))
         /\ FileTrailer.TotalCreditTransactions ft'
            = int_add (FileTrailer.TotalCreditTransactions ft)
                (sumInt (map BatchTrailer.TotalCreditTransactions ts))
         /\ (toQ (FileTrailer.TotalDebitAmount ft')
             == toQ (FileTrailer.TotalDebitAmount ft)
                + sumQ (map (fun t => toQ (BatchTrailer.TotalDebitAmount t)) ts))%Q
         /\ (toQ (FileTrailer.TotalCreditAmount ft')
             == toQ (FileTrailer.TotalCreditAmount ft)
                + sumQ (map (fun t => toQ (BatchTrailer.TotalCreditAmount t)) ts))%Q).
  { rewrite Hft' in *. clear Hft' Hw' HW.
    destruct (Writer.OmitBatchTotals w).
    - rewrite fileTotals_omit. repeat split. eexists. split; [reflexivity|].
      pose proof (trailers_omit (clock wd) (ticks wd) 0 (Writer.Batch w)) as Hz.
      induction Hz as [|t ts (Z1 & Z2 & Z3 & Z4 & _) _ IH].
      + cbn. unfold int_add. rewrite !Z.add_0_r, !wrap_in_range by assumption.
        repeat split; ring.
      + destruct IH as (I1 & I2 & I3 & I4).
        cbn [map sumInt sumQ fold_right].
        fold (sumInt (map BatchTrailer.TotalDebitTransactions ts))
          (sumInt (map BatchTrailer.TotalCreditTransactions ts))
          (sumQ (map (fun t => toQ (BatchTrailer.TotalDebitAmount t)) ts))
          (sumQ (map (fun t => toQ (BatchTrailer.TotalCreditAmount t)) ts)).
        rewrite Z1, Z2, Z3, Z4, toQ_zero.
        unfold int_add at 2 4. rewrite !Z.add_0_l.
        rewrite !sumInt_spec in *. unfold int_add in *.
        rewrite !wrap_wrap_add_r in *.
        repeat split; try assumption.
        * rewrite I3 at 1. ring.
        * rewrite I4 at 1. ring.
    - destruct (fileTotals_fold (Writer.Batch w) ft)
        as (H1 & H2 & H3 & H4 & H5 & H6 & H7).
      destruct (trailers_sums (clock wd) (ticks wd) 0 (Writer.Batch w))
        as (S1 & S2 & S3 & S4).
      cbv zeta in *. repeat (split; [assumption|]).
      eexists. split; [reflexivity|].
      rewrite S1, S2, S3, S4. unfold int_add. rewrite !wrap_wrap_add_r.
      rewrite <- (wrap_in_range _ R1), <- (wrap_in_range _ R2).
      repeat split; assumption. }
  destruct Htot as (T1 & T2 & T3 & ts & Hts & T4 & T5 & T6 & T7).
  split; [repeat split; assumption|]. split; [|split].
  - exists ts. split; [subst ts w'; reflexivity|].
    split; [subst ts; apply trailers_length|].
    repeat split; assumption.
  - clear T4 T5 T6 T7 Hts. revert R1 R2. rewrite Hft'.
    destruct (Writer.OmitBatchTotals w).
    + intros _ _. apply fileTotals_omit.
    + intros R1 R2.
      destruct (fileTotals_fold (Writer.Batch w) ft)
        as (_ & _ & _ & H4 & H5 & H6 & H7).
      cbv zeta in *. unfold int_add. rewrite <- H6, <- H7.
      rewrite !wrap_in_range by assumption.
      repeat split; assumption.
  - intros Zd Zc Zda Zca.
    assert (Hne' : Writer.Batch w' <> []) by (rewrite Fb; exact Hne).
    assert (Hv' : allValidBatches (Writer.Batch w')) by (rewrite Fb; exact Hv).
    eexists _, _. split; [apply Write_valid; assumption|].
    cbn [withTrailerOut Writer.FileTrailer]. rewrite Fo, Fb.
    fold ft'. rewrite Hft'.
    destruct (Writer.OmitBatchTotals w).
    + rewrite !fileTotals_omit. fold ft.
      rewrite Zd, Zc, Zda, Zca. repeat split; try reflexivity; ring.
    + destruct (fileTotals_fold (Writer.Batch w) ft)
        as (_ & _ & _ & H4 & H5 & H6 & H7).
      destruct (fileTotals_fold (Writer.Batch w)
                  (fileTotals false (Writer.Batch w) ft))
        as (_ & _ & _ & G4 & G5 & G6 & G7).
      destruct (fileTotals_range false (Writer.Batch w)
                  (fileTotals false (Writer.Batch w) ft)) as (Q1 & Q2);
        [rewrite <- Hft'; exact R1|rewrite <- Hft'; exact R2|].
      cbv zeta in *.
      rewrite G4, G5, H4, H5, Zda, Zca.
      rewrite Hft' in R1, R2.
      rewrite (double_count _ _ _ _ Zd R1 Q1 H6 G6).
      rewrite (double_count _ _ _ _ Zc R2 Q2 H7 G7).
      repeat split; try ring.
Qed.

End WriterTheorems.

(* ===================================================================== *)
(** * Properties of [Reader.ReadAll] *)
(* ===================================================================== *)

Lemma length_append (a b : string) :
  String.length (a ++ b) = (String.length a + String.length b)%nat.
Proof. induction a as [|x a IH]; cbn; [reflexivity|now rewrite IH]. Qed.

Lemma ReadString_split (s line rest : string) (eof : bool) :
  ReadString s = (line, rest, eof) ->
  s = line ++ rest /\ (s <> "" -> line <> "").
Proof.
  revert line rest eof. induction s as [|c s IH]; intros line rest eof.
  - cbn. intros [= <- <- <-]. split; [reflexivity|congruence].
  - cbn [ReadString].
    destruct (Ascii.eqb c (ascii_of_nat 10)).
    + intros [= <- <- <-]. split; [reflexivity|discriminate].
    + destruct (ReadString s) as [[line0 rest0] eof0].
      intros [= <- <- <-]. destruct (IH _ _ _ eq_refl) as [IH1 _].
      cbn. split; [now rewrite <- IH1|discriminate].
Qed.

Lemma ReadString_app (pre X : string) :
  terminated pre = true -> pre <> "" ->
  exists line rest,
    ReadString pre = (line, rest, false)
    /\ terminated rest = true
    /\ ReadString (pre ++ X) = (line, rest ++ X, false).
Proof.
  induction pre as [|c s IH]; [intros _ H; contradiction|]. intros Ht _.
  cbn [ReadString append].
  destruct (Ascii.eqb c (ascii_of_nat 10)) eqn:Hc.
  - exists (String c ""), s. repeat split.
    cbn [terminated] in Ht. destruct s; [reflexivity|exact Ht].
  - assert (Hs : s <> "").
    { intros ->. cbn [terminated] in Ht. congruence. }
    assert (Ht' : terminated s = true).
    { cbn [terminated] in Ht. destruct s; [congruence|exact Ht]. }
    destruct (IH Ht' Hs) as (line & rest & H1 & H2 & H3).
    rewrite H1, H3. exists (String c line), rest. repeat split. exact H2.
Qed.

(** The switch leaves the unread input alone and never returns
    [io.EOF]. *)
Lemma switch_input (b : ascii) (line : string) (rd : Reader.t) (wd : World) :
  forall res rd' wd',
    switchRecordType b line rd wd = (res, rd', wd') ->
    Reader.r rd' = Reader.r rd /\ res <> Val (Some EOF).
Proof.
  intros res rd' wd'.
  unfold switchRecordType, FileHeader_Read, BatchHeader_Read, Record_Read,
    BatchTrailer_Read, FileTrailer_Read, bind, ret, Println.
  destruct (Ascii.eqb b "0"); [|destruct (Ascii.eqb b "1");
    [|destruct (Ascii.eqb b "2"); [|destruct (Ascii.eqb b "7");
      [|destruct (Ascii.eqb b "9")]]]].
  - destruct (badLength line 171 172); cbn; intros [= <- <- <-];
      split; [reflexivity|discriminate|reflexivity|discriminate].
  - destruct (badLength line 171 172); cbn; intros [= <- <- <-];
      split; [reflexivity|discriminate|reflexivity|discriminate].
  - destruct (badLength line 169 170); cbn.
    + intros [= <- <- <-]. split; [reflexivity|discriminate].
    + match goal with |- context [negb ?v] => destruct v eqn:Hv end; cbn.
      * rewrite Hv.
        destruct (elemAt (Reader.Batch rd) (len_ (Reader.Batch rd) - 1));
          intros [= <- <- <-]; split; try reflexivity; discriminate.
      * intros [= <- <- <-]. split; [reflexivity|discriminate].
  - destruct (badLength line 171 172); cbn.
    + intros [= <- <- <-]. split; [reflexivity|discriminate].
    + destruct (elemAt (Reader.Batch rd) (len_ (Reader.Batch rd) - 1));
        intros [= <- <- <-]; split; try reflexivity; discriminate.
  - destruct (badLength line 171 172); cbn; intros [= <- <- <-];
      split; [reflexivity|discriminate|reflexivity|discriminate].
  - intros [= <- <- <-]. split; [reflexivity|discriminate].
Qed.

(** The switch does not look at the unread input. *)
Lemma switch_setInput (b : ascii) (line X : string) (rd : Reader.t)
  (wd : World) :
  switchRecordType b line (setInput rd X) wd
  = (let '(res, rd', wd') := switchRecordType b line rd wd in
     (res, setInput rd' X, wd')).
Proof.
  unfold switchRecordType, FileHeader_Read, BatchHeader_Read, Record_Read,
    BatchTrailer_Read, FileTrailer_Read, bind, ret, Println.
  destruct (Ascii.eqb b "0"); [|destruct (Ascii.eqb b "1");
    [|destruct (Ascii.eqb b "2"); [|destruct (Ascii.eqb b "7");
      [|destruct (Ascii.eqb b "9")]]]].
  - destruct (badLength line 171 172); reflexivity.
  - destruct (badLength line 171 172); reflexivity.
  - destruct (badLength line 169 170); [reflexivity|].
    match goal with |- context [negb ?v] => destruct v eqn:Hv end; cbn;
      [|reflexivity].
    rewrite Hv.
    destruct (elemAt (Reader.Batch rd) (len_ (Reader.Batch rd) - 1));
      reflexivity.
  - destruct (badLength line 171 172); [reflexivity|]. cbn.
    destruct (elemAt (Reader.Batch rd) (len_ (Reader.Batch rd) - 1));
      reflexivity.
  - destruct (badLength line 171 172); reflexivity.
  - reflexivity.
Qed.

Lemma setInput_setInput (rd : Reader.t) (a b : string) :
  setInput (setInput rd a) b = setInput rd b.
Proof. reflexivity. Qed.

Lemma setInput_id (rd : Reader.t) : setInput rd (Reader.r rd) = rd.
Proof. destruct rd; reflexivity. Qed.

(** A call on non-empty input consumes input and does not return
    [io.EOF]. *)
Lemma step_consumes (rd rd' : Reader.t) (wd wd' : World)
  (res : outcome (option error)) :
  Reader.r rd <> "" ->
  readRecordOrHeaderOrTrailer rd wd = (res, rd', wd') ->
  (String.length (Reader.r rd') < String.length (Reader.r rd))%nat
  /\ res <> Val (Some EOF).
Proof.
  intros Hne. unfold readRecordOrHeaderOrTrailer.
  destruct (Reader.r rd) as [|b s] eqn:Hr; [congruence|].
  destruct (ReadString (String b s)) as [[line rest] eof] eqn:HR.
  intros Hsw. destruct (switch_input _ _ _ _ _ _ _ Hsw) as [Hin Hres].
  split; [|exact Hres].
  rewrite Hin. cbn [setInput Reader.r].
  destruct (ReadString_split _ _ _ _ HR) as [Hsplit Hline].
  rewrite Hsplit, length_append.
  assert (line <> "") by (apply Hline; discriminate).
  destruct line; [congruence|]. cbn. lia.
Qed.

Lemma step_empty (rd : Reader.t) (wd : World) :
  Reader.r rd = "" ->
  readRecordOrHeaderOrTrailer rd wd = (Val (Some EOF), rd, wd).
Proof.
  intros Hr. unfold readRecordOrHeaderOrTrailer. rewrite Hr. reflexivity.
Qed.

(** [ReadAll] returns: the fuel it starts with is enough. *)
Lemma ReadAll_loop_returns (fuel : nat) (rd : Reader.t) (wd : World) :
  (String.length (Reader.r rd) < fuel)%nat ->
  exists res rd' wd', ReadAll_loop fuel rd wd = (Some res, rd', wd').
Proof.
  revert rd wd. induction fuel as [|fuel IH]; intros rd wd Hlt; [lia|].
  cbn [ReadAll_loop]. unfold bind.
  destruct (readRecordOrHeaderOrTrailer rd wd) as [[res rd1] wd1] eqn:Hstep.
  destruct res as [[err|]|p].
  - destruct err; unfold bind, Println, ret; cbn; do 3 eexists; reflexivity.
  - destruct (Reader.r rd) eqn:Hr.
    + rewrite step_empty in Hstep by exact Hr. discriminate.
    + assert (Hne : Reader.r rd <> "") by (rewrite Hr; discriminate).
      destruct (step_consumes _ _ _ _ _ Hne Hstep) as [Hdec _].
      apply IH. rewrite Hr in Hdec. cbn in Hlt, Hdec. lia.
  - cbn. do 3 eexists; reflexivity.
Qed.

Lemma ReadAll_returns (rd : Reader.t) (wd : World) :
  exists res rd' wd', ReadAll rd wd = (Some res, rd', wd').
Proof. apply ReadAll_loop_returns. lia. Qed.

(** More fuel does not change a result. *)
Lemma ReadAll_loop_more_fuel (n m : nat) (rd rd' : Reader.t) (wd wd' : World)
  (res : readAllResult) :
  ReadAll_loop n rd wd = (Some res, rd', wd') ->
  (n <= m)%nat ->
  ReadAll_loop m rd wd = (Some res, rd', wd').
Proof.
  revert m rd wd. induction n as [|n IH]; intros m rd wd; [discriminate|].
  intros Hn Hle. destruct m as [|m]; [lia|].
  cbn [ReadAll_loop] in *. unfold bind in *.
  destruct (readRecordOrHeaderOrTrailer rd wd) as [[r1 rd1] wd1].
  destruct r1 as [[err|]|p]; try exact Hn.
  apply IH; [exact Hn|lia].
Qed.

Lemma ReadAll_loop_agree (n : nat) (rd rd' : Reader.t) (wd wd' : World)
  (res : readAllResult) :
  ReadAll_loop n rd wd = (Some res, rd', wd') ->
  ReadAll rd wd = (Some res, rd', wd').
Proof.
  intros Hn.
  destruct (ReadAll_returns rd wd) as (res0 & rd0 & wd0 & H0).
  pose proof (ReadAll_loop_more_fuel _ (Nat.max n (S (String.length (Reader.r rd))))
                _ _ _ _ _ Hn (Nat.le_max_l _ _)) as H1.
  pose proof (ReadAll_loop_more_fuel _ (Nat.max n (S (String.length (Reader.r rd))))
                _ _ _ _ _ H0 (Nat.le_max_r _ _)) as H2.
  rewrite H0. congruence.
Qed.

(** A call on [pre ++ X], where [pre] is not empty and ends in a line
    feed, is the call on [pre] with [X] left behind it. *)
Lemma step_app (rd : Reader.t) (wd : World) (pre X : string) :
  terminated pre = true -> pre <> "" ->
  exists res rd' wd',
    readRecordOrHeaderOrTrailer (setInput rd pre) wd = (res, rd', wd')
    /\ terminated (Reader.r rd') = true
    /\ readRecordOrHeaderOrTrailer (setInput rd (pre ++ X)) wd
       = (res, setInput rd' (Reader.r rd' ++ X), wd').
Proof.
  intros Ht Hne.
  destruct (ReadString_app pre X Ht Hne) as (line & rest & H1 & H2 & H3).
  unfold readRecordOrHeaderOrTrailer. cbn [setInput Reader.r].
  destruct pre as [|b s]; [congruence|]. cbn [append].
  change (String b (s ++ X)) with (String b s ++ X).
  rewrite H1, H3, !setInput_setInput.
  destruct (switchRecordType b line (setInput rd rest) wd)
    as [[res rd'] wd'] eqn:Hsw.
  destruct (switch_input _ _ _ _ _ _ _ Hsw) as [Hin _].
  cbn [setInput Reader.r] in Hin.
  exists res, rd', wd'. split; [reflexivity|]. split; [now rewrite Hin|].
  rewrite <- (setInput_setInput rd rest (rest ++ X)), switch_setInput, Hsw, Hin.
  reflexivity.
Qed.

(** Reading [pre ++ X], where reading [pre] alone ends without error:
    the loop comes to [X] with the reader that [pre] leaves. *)
Lemma ReadAll_loop_prefix (n : nat) (rd rd1 : Reader.t) (wd wd1 : World)
  (pre X : string) (bs : list Batch.t) :
  terminated pre = true ->
  ReadAll_loop n (setInput rd pre) wd = (Some (Returned bs None), rd1, wd1) ->
  bs = Reader.Batch rd1
  /\ exists j, forall k,
       ReadAll_loop (j + k) (setInput rd (pre ++ X)) wd
       = ReadAll_loop k (setInput rd1 X) wd1.
Proof.
  revert rd wd pre. induction n as [|n IH]; intros rd wd pre Ht Hrun;
    [discriminate|].
  destruct pre as [|b s] eqn:Hpre.
  - cbn [ReadAll_loop] in Hrun. unfold bind in Hrun.
    rewrite step_empty in Hrun by reflexivity. cbn in Hrun.
    injection Hrun as <- <- <-. split; [reflexivity|].
    exists O. intros k. reflexivity.
  - rewrite <- Hpre in *.
    assert (Hne : pre <> "") by (rewrite Hpre; discriminate).
    destruct (step_app rd wd pre X Ht Hne) as (res & rd' & wd' & H1 & H2 & H3).
    cbn [ReadAll_loop] in Hrun. unfold bind in Hrun. rewrite H1 in Hrun.
    destruct res as [[err|]|p].
    + assert (Herr : err <> EOF).
      { intros ->.
        assert (Hne' : Reader.r (setInput rd pre) <> "") by exact Hne.
        destruct (step_consumes _ _ _ _ _ Hne' H1) as [_ Hc]. congruence. }
      destruct err; cbn in Hrun; try discriminate. congruence.
    + rewrite <- (setInput_id rd') in Hrun.
      destruct (IH rd' wd' (Reader.r rd') H2 Hrun) as [Hbs [j Hj]].
      split; [exact Hbs|]. exists (S j). intros k.
      cbn [Nat.add ReadAll_loop]. unfold bind. rewrite H3. apply Hj.
    + discriminate.
Qed.

Lemma ReadString_cons (c : ascii) (s : string) :
  ReadString (String c s)
  = if Ascii.eqb c (ascii_of_nat 10) then (String c "", s, false)
    else (String c (fst (fst (ReadString s))), snd (fst (ReadString s)),
          snd (ReadString s)).
Proof.
  cbn [ReadString]. destruct (ReadString s) as [[l r] e]. reflexivity.
Qed.

Lemma splitLines_cons (c : ascii) (s : string) :
  splitLines (String c s)
  = if Ascii.eqb c (ascii_of_nat 10) then String c "" :: splitLines s
    else match splitLines s with
         | [] => [String c ""]
         | l :: ls => String c l :: ls
         end.
Proof. reflexivity. Qed.

Lemma splitLines_ReadString (b : ascii) (s line rest : string) (eof : bool) :
  ReadString (String b s) = (line, rest, eof) ->
  splitLines (String b s) = line :: splitLines rest
  /\ firstByte line = Some b.
Proof.
  revert b line rest eof. induction s as [|c s IH]; intros b line rest eof;
    rewrite ReadString_cons, splitLines_cons;
    destruct (Ascii.eqb b (ascii_of_nat 10)).
  - intros [= <- <- <-]. split; reflexivity.
  - intros [= <- <- <-]. split; reflexivity.
  - intros [= <- <- <-]. split; reflexivity.
  - destruct (ReadString (String c s)) as [[line0 rest0] eof0] eqn:HR.
    cbn [fst snd]. intros [= <- <- <-].
    destruct (IH c line0 rest0 eof0 HR) as [IH1 _].
    rewrite IH1. split; reflexivity.
Qed.

Lemma elemAt_last {A : Type} (s : list A) :
  s <> [] -> exists x, elemAt s (len_ s - 1) = Some x.
Proof.
  intros Hne. unfold elemAt, len_.
  assert (Hlen : (0 < List.length s)%nat) by (destruct s; [congruence|cbn; lia]).
  destruct (Z.ltb_spec (Z.of_nat (List.length s) - 1) 0); [lia|].
  destruct (Z.leb_spec (Z.of_nat (List.length s)) (Z.of_nat (List.length s) - 1));
    [lia|]. cbn [orb].
  destruct (nth_error s (Z.to_nat (Z.of_nat (List.length s) - 1))) eqn:Hn;
    [eauto|].
  apply nth_error_None in Hn. lia.
Qed.

Lemma elemAt_nil {A : Type} (i : Z) : elemAt (@nil A) i = None.
Proof.
  unfold elemAt. cbn. destruct (Z.ltb_spec i 0); [reflexivity|].
  destruct (Z.leb_spec 0 i); [reflexivity|lia].
Qed.

Lemma store_nonempty {A : Type} (s : list A) (i : nat) (x : A) :
  s <> [] -> store s i x <> [].
Proof. destruct s, i; cbn; congruence. Qed.

(** The switch with a batch open: no panic, and a batch stays open. *)
Lemma switch_open (b : ascii) (line : string) (rd rd' : Reader.t)
  (wd wd' : World) (res : outcome (option error)) :
  Reader.Batch rd <> [] ->
  switchRecordType b line rd wd = (res, rd', wd') ->
  (forall p, res <> Panic p) /\ Reader.Batch rd' <> [].
Proof.
  intros Hne.
  destruct (elemAt_last (Reader.Batch rd) Hne) as [cur Hcur].
  unfold switchRecordType, FileHeader_Read, BatchHeader_Read, Record_Read,
    BatchTrailer_Read, FileTrailer_Read, bind, ret, Println.
  destruct (Ascii.eqb b "0"); [|destruct (Ascii.eqb b "1");
    [|destruct (Ascii.eqb b "2"); [|destruct (Ascii.eqb b "7");
      [|destruct (Ascii.eqb b "9")]]]].
  - destruct (badLength line 171 172); cbn; intros [= <- <- <-];
      split; try discriminate; exact Hne.
  - destruct (badLength line 171 172); cbn; intros [= <- <- <-];
      split; try discriminate; try exact Hne.
    cbn. destruct (Reader.Batch rd); discriminate.
  - destruct (badLength line 169 170); cbn.
    + intros [= <- <- <-]. split; [discriminate|exact Hne].
    + match goal with |- context [negb ?v] => destruct v eqn:Hv end; cbn.
      * rewrite Hv, Hcur. intros [= <- <- <-].
        split; [discriminate|]. cbn. apply store_nonempty, Hne.
      * intros [= <- <- <-]. split; [discriminate|exact Hne].
  - destruct (badLength line 171 172); cbn.
    + intros [= <- <- <-]. split; [discriminate|exact Hne].
    + rewrite Hcur. intros [= <- <- <-].
      split; [discriminate|]. cbn. apply store_nonempty, Hne.
  - destruct (badLength line 171 172); cbn; intros [= <- <- <-];
      split; try discriminate; exact Hne.
  - intros [= <- <- <-]. split; [discriminate|exact Hne].
Qed.

(** The switch with no batch open, on a line that is not a ['2'] line:
    it does not panic at the append, and a ['1'] line that is read
    without error opens a batch. *)
Lemma switch_closed (b : ascii) (line : string) (rd rd' : Reader.t)
  (wd wd' : World) (res : outcome (option error)) :
  b <> "2"%char ->
  switchRecordType b line rd wd = (res, rd', wd') ->
  ~ appendPanic res
  /\ (b = "1"%char -> res = Val None -> Reader.Batch rd' <> []).
Proof.
  intros Hb.
  unfold switchRecordType, FileHeader_Read, BatchHeader_Read, Record_Read,
    BatchTrailer_Read, FileTrailer_Read, bind, ret, Println, appendPanic.
  destruct (Ascii.eqb_spec b "0") as [->|_];
    [|destruct (Ascii.eqb_spec b "1") as [->|_];
      [|destruct (Ascii.eqb_spec b "2") as [->|_];
        [|destruct (Ascii.eqb_spec b "7") as [->|_];
          [|destruct (Ascii.eqb_spec b "9") as [->|_]]]]].
  - destruct (badLength line 171 172); cbn; intros [= <- <- <-];
      (split; [intros (i & n & H); discriminate|discriminate]).
  - destruct (badLength line 171 172); cbn; intros [= <- <- <-];
      (split; [intros (i & n & H); discriminate|]).
    + discriminate.
    + intros _ _. cbn. destruct (Reader.Batch rd); discriminate.
  - congruence.
  - destruct (badLength line 171 172); cbn.
    + intros [= <- <- <-].
      split; [intros (i & n & H); discriminate|discriminate].
    + destruct (elemAt (Reader.Batch rd) (len_ (Reader.Batch rd) - 1));
        intros [= <- <- <-];
        (split; [intros (i & n & H); discriminate|discriminate]).
  - destruct (badLength line 171 172); cbn; intros [= <- <- <-];
      (split; [intros (i & n & H); discriminate|discriminate]).
  - intros [= <- <- <-].
    split; [intros (i & n & H); discriminate|discriminate].
Qed.

Lemma headerBeforeRecords_tail (l : string) (ls : list string) :
  headerBeforeRecords (l :: ls) ->
  firstByte l <> Some "1"%char ->
  headerBeforeRecords ls.
Proof.
  intros H Hl j l2 Hj H2.
  destruct (H (S j) l2 Hj H2) as (i & l' & Hi & Hn & H1).
  destruct i as [|i].
  - cbn in Hn. injection Hn as <-. contradiction.
  - exists i, l'. repeat split; [lia|exact Hn|exact H1].
Qed.

Lemma headerBeforeRecords_head (l : string) (ls : list string) :
  headerBeforeRecords (l :: ls) -> firstByte l <> Some "2"%char.
Proof.
  intros H H2. destruct (H O l eq_refl H2) as (i & _ & Hi & _). lia.
Qed.

Lemma step_safe (rd rd' : Reader.t) (wd wd' : World)
  (res : outcome (option error)) :
  appendSafe rd ->
  readRecordOrHeaderOrTrailer rd wd = (res, rd', wd') ->
  ~ appendPanic res /\ (res = Val None -> appendSafe rd').
Proof.
  intros Hsafe. unfold readRecordOrHeaderOrTrailer.
  destruct (Reader.r rd) as [|b s] eqn:Hr.
  - intros [= <- <- <-]. split; [intros (i & n & H); discriminate|discriminate].
  - destruct (ReadString (String b s)) as [[line rest] eof] eqn:HR.
    destruct (splitLines_ReadString _ _ _ _ _ HR) as [Hsplit Hfirst].
    intros Hsw.
    destruct (switch_input _ _ _ _ _ _ _ Hsw) as [Hin _].
    cbn [setInput Reader.r] in Hin.
    destruct Hsafe as [Hopen|Hpre].
    + assert (Hopen' : Reader.Batch (setInput rd rest) <> []) by exact Hopen.
      destruct (switch_open _ _ _ _ _ _ _ Hopen' Hsw) as [Hp Hb].
      split; [intros (i & n & H); exact (Hp _ H)|].
      intros _. left. exact Hb.
    + rewrite Hr, Hsplit in Hpre.
      assert (Hb2 : b <> "2"%char).
      { intros ->. apply (headerBeforeRecords_head _ _ Hpre). exact Hfirst. }
      destruct (switch_closed _ _ _ _ _ _ _ Hb2 Hsw) as [Hp Hone].
      split; [exact Hp|]. intros Hres.
      destruct (Ascii.eqb_spec b "1") as [Hb1|Hb1].
      * left. apply Hone; assumption.
      * right. rewrite Hin. apply (headerBeforeRecords_tail line); [exact Hpre|].
        rewrite Hfirst. congruence.
Qed.

Lemma ReadAll_loop_safe (n : nat) (rd rd' : Reader.t) (wd wd' : World)
  (res : readAllResult) :
  appendSafe rd ->
  ReadAll_loop n rd wd = (Some res, rd', wd') ->
  forall (i : Z) (k : nat),
    res <> Panicked (IndexOutOfRange AppendRecord i k).
Proof.
  revert rd wd. induction n as [|n IH]; intros rd wd Hsafe; [discriminate|].
  cbn [ReadAll_loop]. unfold bind.
  destruct (readRecordOrHeaderOrTrailer rd wd) as [[r1 rd1] wd1] eqn:Hstep.
  destruct (step_safe _ _ _ _ _ Hsafe Hstep) as [Hp Hnext].
  destruct r1 as [[err|]|p].
  - destruct err; unfold Println, ret; cbn; intros [= <- <- <-]; discriminate.
  - apply IH, Hnext. reflexivity.
  - cbn. intros [= <- <- <-] i k [= ->]. apply Hp. exists i, k. reflexivity.
Qed.

(** One round of [ReadAll] on an invalid ['2'] line. *)
Lemma ReadAll_loop_invalid_record (rd : Reader.t) (wd : World)
  (line rest : string) (eof : bool) :
  ReadString (line ++ rest) = (line, rest, eof) ->
  firstByte line = Some "2"%char ->
  badLength line 169 170 = false ->
  IsValid (fst (fst (Record_Read TxnRecord.zero line wd))) = false ->
  ReadAll_loop 1 (setInput rd (line ++ rest)) wd
  = (Some (Returned (Reader.Batch rd) (Some ErrInvalidRecord)),
     setInput rd rest,
     mkWorld (logs wd ++ [readAllLog ErrInvalidRecord]) (clock wd) (ticks wd)).
Proof.
  intros HR Hfirst Hlen Hinv.
  destruct line as [|c line']; [discriminate|].
  cbn in Hfirst. injection Hfirst as ->.
  cbn [ReadAll_loop]. unfold bind at 1.
  unfold readRecordOrHeaderOrTrailer. cbn [setInput Reader.r].
  change (String "2" line' ++ rest) with (String "2" (line' ++ rest)) in *.
  rewrite HR, setInput_setInput.
  unfold switchRecordType.
  change (Ascii.eqb "2" "0") with false.
  change (Ascii.eqb "2" "1") with false.
  change (Ascii.eqb "2" "2") with true.
  cbv iota. unfold bind at 1.
  unfold Record_Read in *. rewrite Hlen in *.
  cbn [fst ret] in Hinv. 
  match goal with
  | |- context [negb (IsValid ?r)] =>
      match type of Hinv with
      | context [negb (IsValid ?r')] =>
          destruct (negb (IsValid r')) eqn:Hn
      end
  end.
  - reflexivity.
  - cbn [fst ret] in Hinv. rewrite Hinv in Hn. discriminate.
Qed.

(** C4, as amended.  When the lines before it are read without error and
    a ['2'] line decodes to a record that fails [IsValid], the record is
    dropped and [ReadAll] stops at that line: it returns the batches read
    so far with the invalid-record error, logs the error, and leaves the
    rest of the input, whatever it is, unread. *)
Theorem C4_invalid_record_stops_read (rd rd1 : Reader.t) (wd wd1 : World)
  (pre line rest : string) (eof : bool) (bs : list Batch.t) :
  terminated pre = true ->
  ReadAll (setInput rd pre) wd = (Some (Returned bs None), rd1, wd1) ->
  ReadString (line ++ rest) = (line, rest, eof) ->
  firstByte line = Some "2"%char ->
  badLength line 169 170 = false ->
  IsValid (fst (fst (Record_Read TxnRecord.zero line wd1))) = false ->
  ReadAll (setInput rd (pre ++ line ++ rest)) wd
  = (Some (Returned bs (Some ErrInvalidRecord)),
     setInput rd1 rest,
     mkWorld (logs wd1 ++ [readAllLog ErrInvalidRecord]) (clock wd1)
       (ticks wd1)).
Proof.
  intros Ht Hpre HR Hline Hlen Hinv.
  destruct (ReadAll_loop_prefix _ rd rd1 wd wd1 pre (line ++ rest) bs Ht Hpre)
    as [-> [j Hj]].
  apply (ReadAll_loop_agree (j + 1)).
  rewrite Hj.
  apply (ReadAll_loop_invalid_record rd1 wd1 line rest eof); assumption.
Qed.

(** The first call of [ReadAll] on input that starts with the valid
    record line [recordLine]. *)
Lemma ReadAll_record_first (rest : string) (wd : World) :
  ReadAll (NewReader (recordLine ++ rest)) wd
  = (Some (Panicked (IndexOutOfRange AppendRecord (-1) 0)),
     NewReader rest, wd).
Proof.
  apply (ReadAll_loop_agree 1). reflexivity.
Qed.

(** C9.  There is input on which the append of case ['2'] indexes out of
    the empty batch list, with index -1: any input that starts with the
    valid record line [recordLine], which no batch header line precedes.
    And on input in which a ['1'] line precedes every ['2'] line,
    [ReadAll] on a new reader never ends in that panic. *)
Theorem C9_record_before_batch_header :
  (firstByte recordLine = Some "2"%char
   /\ (forall wd : World,
         snd (fst (Record_Read TxnRecord.zero recordLine wd)) = None)
   /\ forall (rest : string) (wd : World),
        ReadAll (NewReader (recordLine ++ rest)) wd
        = (Some (Panicked (IndexOutOfRange AppendRecord (-1) 0)),
           NewReader rest, wd))
  /\ (forall (src : string) (wd : World),
        headerBeforeRecords (splitLines src) ->
        forall (i : Z) (n : nat),
          fst (fst (ReadAll (NewReader src) wd))
          <> Some (Panicked (IndexOutOfRange AppendRecord i n))).
Proof.
  split; [split; [reflexivity|split; [intros wd; reflexivity|]]|].
  - exact ReadAll_record_first.
  - intros src wd Hpre i n.
    destruct (ReadAll_returns (NewReader src) wd) as (res & rd' & wd' & HR).
    rewrite HR. cbn [fst]. intros [= ->].
    assert (Hsafe : appendSafe (NewReader src)) by (right; exact Hpre).
    apply (ReadAll_loop_safe _ _ _ _ _ _ Hsafe HR i n).
    reflexivity.
Qed.

(* ===================================================================== *)
(** * Properties of the record codec *)
(* ===================================================================== *)

Lemma substring_0_length (n : nat) (s : string) :
  (n <= String.length s)%nat -> String.length (substring 0 n s) = n.
Proof.
  revert s. induction n as [|n IH]; intros s Hn.
  - destruct s; reflexivity.
  - destruct s as [|c s]; cbn in Hn; [lia|].
    cbn. rewrite IH by lia. reflexivity.
Qed.

(** With the pad [" "] the loop of [padRight] returns, and what it
    returns has the requested length. *)
Lemma padRight_loop_returns (fuel : nat) (str : string) (length : nat) :
  (length + 1 <= String.length str + fuel)%nat -> (1 <= fuel)%nat ->
  exists s,
    padRight_loop fuel str " " length = Some s /\ String.length s = length.
Proof.
  revert str. induction fuel as [|fuel IH]; intros str Hfuel Hpos; [lia|].
  cbn [padRight_loop].
  assert (Hlen : String.length (str ++ " ") = S (String.length str))
    by (rewrite length_append; cbn; lia).
  destruct (Nat.ltb_spec length (String.length (str ++ " "))) as [Hlt|Hge].
  - eexists. split; [reflexivity|].
    unfold slice. rewrite Nat.sub_0_r. apply substring_0_length. lia.
  - apply IH; lia.
Qed.

Lemma padRight_length (str : string) (length : nat) :
  String.length (padRight str " " length) = length.
Proof.
  unfold padRight.
  destruct (padRight_loop_returns (S length) str length) as (s & Hs & Hl);
    [lia|lia|].
  rewrite Hs. exact Hl.
Qed.

(** Every encoder emits a line of exactly the kind's width. *)
Lemma Write_width (zp : bool) :
  (forall h, String.length (FileHeader_Write zp h) = width KFileHeader)
  /\ (forall h, String.length (BatchHeader_Write zp h) = width KBatchHeader)
  /\ (forall r, String.length (Record_Write zp r) = width KRecord)
  /\ (forall t, String.length (BatchTrailer_Write zp t) = width KBatchTrailer)
  /\ (forall t, String.length (FileTrailer_Write zp t) = width KFileTrailer).
Proof.
  repeat split; intros; apply padRight_length.
Qed.

(** ** Slices of concatenations *)

Lemma substring_0_all (s t : string) :
  substring 0 (String.length s) (s ++ t) = s.
Proof. induction s as [|c s IH]; cbn; [destruct t; reflexivity|now rewrite IH]. Qed.

Lemma substring_skip (s t : string) (n m : nat) :
  substring (String.length s + n) m (s ++ t) = substring n m t.
Proof. induction s as [|c s IH]; cbn; [reflexivity|exact IH]. Qed.

(** [(f ++ rest)[a:b]] past the field [f]. *)
Lemma slice_skip (f rest : string) (n a b : nat) :
  String.length f = n -> (n <= a)%nat -> (a <= b)%nat ->
  slice (f ++ rest) a b = slice rest (a - n) (b - n).
Proof.
  intros <- Ha Hb. unfold slice.
  replace a with (String.length f + (a - String.length f))%nat at 1 by lia.
  rewrite substring_skip. f_equal. lia.
Qed.

(** [(f ++ rest)[0:b]] is the field [f] of width [b]. *)
Lemma slice_field (f rest : string) (b : nat) :
  String.length f = b -> slice (f ++ rest) 0 b = f.
Proof.
  intros <-. unfold slice. rewrite Nat.sub_0_r. apply substring_0_all.
Qed.

Lemma length_Repeat (c : ascii) (n : nat) : String.length (Repeat c n) = n.
Proof. induction n as [|n IH]; cbn; [reflexivity|now rewrite IH]. Qed.

(** ** ASCII text: a rune is a byte *)

Lemma noneOf_app (p : ascii -> bool) (a b : string) :
  noneOf p (a ++ b) = noneOf p a && noneOf p b.
Proof.
  induction a as [|c a IH]; [reflexivity|].
  cbn. rewrite IH, andb_assoc. reflexivity.
Qed.

Lemma noneOf_substring (p : ascii -> bool) (s : string) (a n : nat) :
  noneOf p s = true -> noneOf p (substring a n s) = true.
Proof.
  revert a n. induction s as [|c s IH]; intros a n H.
  - destruct a, n; reflexivity.
  - cbn [noneOf] in H. apply andb_true_iff in H. destruct H as [Hc Hs].
    destruct a as [|a]; cbn [substring].
    + destruct n as [|n]; [reflexivity|].
      cbn [noneOf]. rewrite Hc. cbn. apply IH, Hs.
    + apply IH, Hs.
Qed.

Lemma noneOf_Repeat (p : ascii -> bool) (c : ascii) (n : nat) :
  p c = false -> noneOf p (Repeat c n) = true.
Proof.
  intros Hc. induction n as [|n IH]; [reflexivity|].
  cbn. now rewrite Hc, IH.
Qed.

Lemma allDigits_noneOf (p : ascii -> bool) (s : string) :
  (forall c, isDigit c = true -> p c = false) ->
  allDigits s = true -> noneOf p s = true.
Proof.
  intros Hp. induction s as [|c s IH]; [reflexivity|].
  cbn. intros H. apply andb_true_iff in H. destruct H as [Hc Hs].
  rewrite (Hp c Hc), (IH Hs). reflexivity.
Qed.

Lemma isASCII_app (a b : string) :
  isASCII (a ++ b) = isASCII a && isASCII b.
Proof. apply noneOf_app. Qed.

Lemma isASCII_Repeat (c : ascii) (n : nat) :
  high c = false -> isASCII (Repeat c n) = true.
Proof. apply noneOf_Repeat. Qed.

Lemma isASCII_substring (s : string) (a n : nat) :
  isASCII s = true -> isASCII (substring a n s) = true.
Proof. apply noneOf_substring. Qed.

Lemma isDigit_low (c : ascii) : isDigit c = true -> high c = false.
Proof.
  unfold isDigit, digitVal, high, byte, RuneSelf.
  destruct (48 <=? Z.of_nat (nat_of_ascii c)) eqn:H1;
    destruct (Z.of_nat (nat_of_ascii c) <=? 57) eqn:H2; try discriminate.
  intros _. apply Z.leb_gt. apply Z.leb_le in H2. lia.
Qed.

Lemma allDigits_isASCII (s : string) :
  allDigits s = true -> isASCII s = true.
Proof. apply allDigits_noneOf. exact isDigit_low. Qed.

Lemma DecodeRune_low (c : ascii) (s : string) :
  high c = false -> DecodeRuneInString (String c s) = (byte c, 1%nat).
Proof.
  unfold high. intros H. cbn [DecodeRuneInString].
  apply Z.leb_gt in H. apply Z.ltb_lt in H. rewrite H. reflexivity.
Qed.

(** The runes of an ASCII text are its bytes. *)
Lemma RuneCount_ascii (s : string) :
  isASCII s = true -> RuneCountInString s = String.length s.
Proof.
  unfold RuneCountInString, isASCII.
  induction s as [|c s IH]; [reflexivity|].
  cbn [noneOf]. intros H. apply andb_true_iff in H. destruct H as [Hc Hs].
  apply negb_true_iff in Hc.
  cbn [runeCount String.length]. rewrite (DecodeRune_low c s Hc).
  cbn [snd Nat.sub]. rewrite IH by exact Hs. reflexivity.
Qed.

(** Its first [n] runes are its first [n] bytes. *)
Lemma truncate_ascii (n : nat) (s : string) :
  isASCII s = true -> truncateString n s = substring 0 n s.
Proof.
  unfold truncateString, isASCII. revert n.
  induction s as [|c s IH]; intros n H.
  - destruct n; reflexivity.
  - cbn [noneOf] in H. apply andb_true_iff in H. destruct H as [Hc Hs].
    apply negb_true_iff in Hc.
    destruct n as [|n]; [reflexivity|].
    cbn [truncate substring]. rewrite (DecodeRune_low c s Hc).
    cbn [snd Nat.sub]. rewrite IH by exact Hs. reflexivity.
Qed.

Lemma trimRight_snoc_space (x : string) (c : ascii) :
  isSpace c = true -> trimRight (x ++ String c "") = trimRight x.
Proof.
  intros Hc. induction x as [|d x IH].
  - cbn. rewrite Hc. reflexivity.
  - cbn [append trimRight]. rewrite IH. reflexivity.
Qed.

Lemma trimRight_snoc (x : string) (c : ascii) :
  isSpace c = false -> trimRight (x ++ String c "") = x ++ String c "".
Proof.
  intros Hc. induction x as [|d x IH].
  - cbn. rewrite Hc. reflexivity.
  - cbn [append trimRight]. rewrite IH. destruct x; reflexivity.
Qed.

Lemma substring_snoc (s : string) (k : nat) (c : ascii) :
  String.get k s = Some c ->
  substring 0 (S k) s = substring 0 k s ++ String c "".
Proof.
  revert k. induction s as [|d s IH]; intros k H; [discriminate|].
  destruct k as [|k].
  - cbn in H. injection H as ->. cbn. destruct s; reflexivity.
  - cbn [String.get] in H. cbn [substring append].
    change (substring 0 (S k) s) with (substring 0 (S k) s).
    rewrite <- (IH k H). reflexivity.
Qed.

Lemma get_low (s : string) (k : nat) (c : ascii) :
  isASCII s = true -> String.get k s = Some c -> high c = false.
Proof.
  unfold isASCII. revert k. induction s as [|d s IH]; intros k H G;
    [discriminate|].
  cbn [noneOf] in H. apply andb_true_iff in H. destruct H as [Hd Hs].
  destruct k as [|k]; cbn in G.
  - injection G as <-. apply negb_true_iff, Hd.
  - apply (IH k Hs G).
Qed.

Lemma get_in_range (s : string) (k : nat) :
  (k < String.length s)%nat -> exists c, String.get k s = Some c.
Proof.
  revert k. induction s as [|d s IH]; intros k H; cbn in H; [lia|].
  destruct k as [|k]; [eexists; reflexivity|]. apply IH. lia.
Qed.

(** The second loop of [TrimSpace] on an ASCII text. *)
Lemma trimStop_ascii (s : string) (stop : nat) :
  isASCII s = true -> (stop <= String.length s)%nat ->
  trimStop s stop = trimRight (substring 0 stop s).
Proof.
  intros Ha. induction stop as [|k IH]; intros Hk.
  - cbn [trimStop]. destruct s; reflexivity.
  - destruct (get_in_range s k) as [c Hc]; [lia|].
    cbn [trimStop]. rewrite Hc, (get_low s k c Ha Hc).
    rewrite (substring_snoc s k c Hc).
    destruct (isSpace c) eqn:Hs.
    + rewrite trimRight_snoc_space by exact Hs. apply IH. lia.
    + rewrite trimRight_snoc by exact Hs. reflexivity.
Qed.

Lemma substring_0_all_nil (s : string) :
  substring 0 (String.length s) s = s.
Proof. induction s as [|c s IH]; cbn; [reflexivity|now rewrite IH]. Qed.

(** [strings.TrimSpace] of an ASCII text takes the ASCII spaces off its
    two ends: it never leaves its two loops. *)
Lemma TrimSpace_ascii (s : string) :
  isASCII s = true -> TrimSpace s = trimRight (trimLeft s).
Proof.
  unfold isASCII. induction s as [|c s IH]; [reflexivity|].
  intros H. pose proof H as Ha.
  cbn [noneOf] in H. apply andb_true_iff in H. destruct H as [Hc Hs].
  apply negb_true_iff in Hc.
  cbn [TrimSpace trimLeft]. rewrite Hc.
  destruct (isSpace c); [apply IH, Hs|].
  rewrite (trimStop_ascii (String c s) _ Ha) by lia.
  rewrite substring_0_all_nil. reflexivity.
Qed.

(** A text without a blank at either end is what [TrimSpace] returns
    for it. *)
Lemma TrimSpace_blankFree (s : string) :
  isASCII s = true -> blankFree s -> TrimSpace s = s.
Proof. intros Ha Ht. rewrite TrimSpace_ascii by exact Ha. exact Ht. Qed.

(** On ASCII text [TrimSpace] returns a text as it is exactly when it
    has no ASCII space at either end. *)
Lemma trimmed_blankFree (s : string) :
  isASCII s = true -> trimmed s -> blankFree s.
Proof.
  intros Ha Ht. unfold trimmed in Ht.
  rewrite TrimSpace_ascii in Ht by exact Ha. exact Ht.
Qed.

Lemma fits_blankFree (w : nat) (s : string) : fits w s -> blankFree s.
Proof. intros (Ha & Ht & _). apply trimmed_blankFree; assumption. Qed.

(** ** [TrimSpace] of a filled ASCII field *)

Lemma trimLeft_Repeat (n : nat) (s : string) :
  trimLeft (Repeat " " n ++ s) = trimLeft s.
Proof. induction n as [|n IH]; cbn; [reflexivity|exact IH]. Qed.

Lemma trimRight_Repeat (n : nat) : trimRight (Repeat " " n) = "".
Proof. induction n as [|n IH]; cbn; [reflexivity|]. rewrite IH. reflexivity. Qed.

Lemma trimRight_app_Repeat (s : string) (n : nat) :
  trimRight (s ++ Repeat " " n) = trimRight s.
Proof.
  induction s as [|c s IH].
  - cbn [append]. rewrite trimRight_Repeat. reflexivity.
  - cbn [append trimRight]. rewrite IH. reflexivity.
Qed.

Lemma trimLeft_nonspace (s : string) :
  trimLeft s = s \/ exists c s', s = String c s' /\ isSpace c = true.
Proof.
  destruct s as [|c s]; [left; reflexivity|].
  cbn. destruct (isSpace c) eqn:Hc; [right; eauto|left; reflexivity].
Qed.

(** A text without a blank at either end is kept by both trims. *)
Lemma blankFree_left (s : string) : blankFree s -> trimLeft s = s.
Proof.
  unfold blankFree. intros H.
  destruct s as [|c s]; [reflexivity|].
  cbn [trimLeft] in *. destruct (isSpace c) eqn:Hc; [|reflexivity].
  exfalso.
  assert (Hlen : forall t, (String.length (trimRight t) <= String.length t)%nat).
  { induction t as [|x t IHt]; cbn; [lia|].
    destruct (trimRight t); [destruct (isSpace x); cbn; lia|cbn in *; lia]. }
  assert (Hlen2 : forall t, (String.length (trimLeft t) <= String.length t)%nat).
  { induction t as [|x t IHt]; cbn; [lia|].
    destruct (isSpace x); cbn; lia. }
  pose proof (Hlen (trimLeft s)) as H1. pose proof (Hlen2 s) as H2.
  rewrite H in H1. cbn in H1. lia.
Qed.

Lemma blankFree_right (s : string) : blankFree s -> trimRight s = s.
Proof.
  intros H. pose proof (blankFree_left s H) as Hl.
  unfold blankFree in H. rewrite Hl in H. exact H.
Qed.

Lemma TrimSpace_left_fill (s : string) (n : nat) :
  isASCII s = true -> blankFree s -> TrimSpace (Repeat " " n ++ s) = s.
Proof.
  intros Ha H. rewrite TrimSpace_ascii
    by (rewrite isASCII_app, isASCII_Repeat, Ha; reflexivity).
  rewrite trimLeft_Repeat.
  rewrite (blankFree_left s H). apply blankFree_right, H.
Qed.

Lemma TrimSpace_right_fill (s : string) (n : nat) :
  isASCII s = true -> blankFree s -> TrimSpace (s ++ Repeat " " n) = s.
Proof.
  intros Ha H. rewrite TrimSpace_ascii
    by (rewrite isASCII_app, isASCII_Repeat, Ha; reflexivity).
  destruct s as [|c s].
  - cbn [append]. clear H. induction n as [|n IH]; [reflexivity|exact IH].
  - pose proof (blankFree_left _ H) as Hl. cbn [trimLeft append] in *.
    destruct (isSpace c) eqn:Hc.
    + exfalso. 
      assert (Hlen2 : forall t, (String.length (trimLeft t) <= String.length t)%nat).
      { induction t as [|x t IHt]; cbn; [lia|]. destruct (isSpace x); cbn; lia. }
      pose proof (Hlen2 s) as H2. rewrite Hl in H2. cbn in H2. lia.
    + change (String c (s ++ Repeat " " n)) with (String c s ++ Repeat " " n).
      rewrite trimRight_app_Repeat. apply blankFree_right, H.
Qed.

(** ** The string verbs on text that fits *)

Lemma substring_0_ge (n : nat) (s : string) :
  (String.length s <= n)%nat -> substring 0 n s = s.
Proof.
  revert n. induction s as [|c s IH]; intros n Hn.
  - destruct n; reflexivity.
  - destruct n as [|n]; cbn in Hn; [lia|]. cbn. rewrite IH by lia. reflexivity.
Qed.

Lemma pad_left (c : ascii) (w : nat) (p : option nat) (z : bool) (s : string) :
  isASCII s = true -> (String.length s <= w)%nat ->
  pad c (mkVerb false z (Some w) p) s = Repeat c (w - String.length s) ++ s.
Proof.
  intros Ha Hs. unfold pad. cbn [wid minus]. rewrite RuneCount_ascii by exact Ha.
  destruct w as [|w]; [|reflexivity].
  destruct s; [reflexivity|cbn in Hs; lia].
Qed.

Lemma pad_right (c : ascii) (w : nat) (p : option nat) (z : bool) (s : string) :
  isASCII s = true -> (String.length s <= w)%nat ->
  pad c (mkVerb true z (Some w) p) s = s ++ Repeat " " (w - String.length s).
Proof.
  intros Ha Hs. unfold pad. cbn [wid minus]. rewrite RuneCount_ascii by exact Ha.
  destruct w as [|w]; [|reflexivity].
  destruct s; [reflexivity|cbn in Hs; lia].
Qed.

Lemma length_pad_left (c : ascii) (w : nat) (s : string) :
  (String.length s <= w)%nat ->
  String.length (Repeat c (w - String.length s) ++ s) = w.
Proof. intros Hs. rewrite length_append, length_Repeat. lia. Qed.

Lemma length_pad_right (w : nat) (s : string) :
  (String.length s <= w)%nat ->
  String.length (s ++ Repeat " " (w - String.length s)) = w.
Proof. intros Hs. rewrite length_append, length_Repeat. lia. Qed.

Section Verbs.

Variable zp : bool.

(** [%-W.Ws] *)
Lemma fmt_s_minus (w : nat) (s : string) :
  isASCII s = true -> (String.length s <= w)%nat ->
  fmt_s zp (v_minus w w) s = s ++ Repeat " " (w - String.length s).
Proof.
  intros Ha Hs. unfold fmt_s, v_minus. cbn [prec zero minus andb negb].
  rewrite truncate_ascii by exact Ha.
  rewrite substring_0_ge by exact Hs. apply pad_right; assumption.
Qed.

(** [%W.Ws] *)
Lemma fmt_s_wp (w : nat) (s : string) :
  isASCII s = true -> (String.length s <= w)%nat ->
  fmt_s zp (v_wp w w) s = Repeat " " (w - String.length s) ++ s.
Proof.
  intros Ha Hs. unfold fmt_s, v_wp. cbn [prec zero minus andb negb].
  rewrite truncate_ascii by exact Ha.
  rewrite substring_0_ge by exact Hs. apply pad_left; assumption.
Qed.

(** [%Ws] *)
Lemma fmt_s_w (w : nat) (s : string) :
  isASCII s = true -> (String.length s <= w)%nat ->
  fmt_s zp (v_w w) s = Repeat " " (w - String.length s) ++ s.
Proof.
  intros Ha Hs. unfold fmt_s, v_w. cbn [prec zero minus andb negb].
  apply pad_left; assumption.
Qed.

(** [%0W.Ws]: the fill is ['0'] or blank, by the toolchain. *)
Lemma fmt_s_zero (w : nat) (s : string) :
  isASCII s = true -> (String.length s <= w)%nat ->
  fmt_s zp (v_zero w w) s
  = Repeat (if zp then "0" else " ")%char (w - String.length s) ++ s.
Proof.
  intros Ha Hs. unfold fmt_s, v_zero. cbn [prec zero minus andb negb].
  rewrite truncate_ascii by exact Ha.
  rewrite substring_0_ge by exact Hs. rewrite pad_left by assumption.
  destruct zp; reflexivity.
Qed.

(** [%s] *)
Lemma fmt_s_plain (s : string) : fmt_s zp v_ s = s.
Proof. reflexivity. Qed.

End Verbs.

(** ** [padRight] on a text of the requested length *)

Lemma padRight_exact (str : string) (n : nat) :
  String.length str = n -> padRight str " " n = str.
Proof.
  intros Hn. unfold padRight. cbn [padRight_loop].
  rewrite length_append. cbn [String.length].
  replace (n <? String.length str + 1)%nat with true
    by (symmetry; apply Nat.ltb_lt; lia).
  unfold slice. rewrite Nat.sub_0_r, <- Hn. apply substring_0_all.
Qed.

Lemma spaces_eq (n : nat) : spaces n = Repeat " " n.
Proof.
  unfold spaces, padRight.
  assert (H : forall fuel k, (n + 1 <= k + fuel)%nat -> (k <= n)%nat ->
            padRight_loop fuel (Repeat " " k) " " n = Some (Repeat " " n)).
  { induction fuel as [|fuel IH]; intros k Hk Hle; [lia|].
    cbn [padRight_loop].
    assert (Hr : Repeat " " k ++ " " = Repeat " " (S k)).
    { clear. induction k as [|k IHk]; cbn; [reflexivity|now rewrite IHk]. }
    rewrite Hr, length_Repeat.
    destruct (Nat.ltb_spec n (S k)) as [Hlt|Hge].
    - assert (k = n) by lia. subst k. f_equal. unfold slice.
      rewrite Nat.sub_0_r. rewrite <- Hr.
      rewrite <- (length_Repeat " " n) at 1. apply substring_0_all.
    - apply IH; lia. }
  change "" with (Repeat " " 0). rewrite H by lia. reflexivity.
Qed.

(** ** Decimal digits: what [strconv] parses of what it prints *)

Lemma digits_string_of_uint (d : Decimal.uint) (acc : Z) :
  Strconv.digits (NilEmpty.string_of_uint d) acc = Some (uintZ d acc).
Proof.
  revert acc. induction d; intros acc; cbn [NilEmpty.string_of_uint uintZ];
    try reflexivity;
    cbn [Strconv.digits]; cbv [digitVal]; cbn; apply IHd.
Qed.

Lemma allDigits_string_of_uint (d : Decimal.uint) :
  allDigits (NilEmpty.string_of_uint d) = true.
Proof. induction d; cbn; try reflexivity; exact IHd. Qed.

Lemma uintZ_of_uint_acc (d : Decimal.uint) (p : positive) :
  uintZ d (Z.pos p) = Z.pos (Pos.of_uint_acc d p).
Proof.
  revert p. induction d; intros p; cbn [uintZ Pos.of_uint_acc];
    try reflexivity;
    rewrite <- IHd; f_equal; lia.
Qed.

Lemma uintZ_of_uint (d : Decimal.uint) : uintZ d 0 = Z.of_N (Pos.of_uint d).
Proof.
  induction d; cbn [uintZ Pos.of_uint]; try reflexivity;
    try exact IHd;
    cbn [Z.mul Z.add]; rewrite uintZ_of_uint_acc; reflexivity.
Qed.

Lemma itoa_pos (p : positive) :
  itoa (Z.pos p) = NilEmpty.string_of_uint (Pos.to_uint p).
Proof.
  unfold itoa. cbn [Z.to_int NilZero.string_of_int].
  unfold NilZero.string_of_uint.
  destruct (Pos.to_uint p) eqn:Hp; try reflexivity.
  exfalso. exact (DecimalPos.Unsigned.to_uint_nonnil p Hp).
Qed.

(** The digit loop reads back what [itoa] prints. *)
Lemma digits_itoa (n : Z) :
  0 <= n -> Strconv.digits (itoa n) 0 = Some n.
Proof.
  intros Hn. destruct n as [|p|p]; [reflexivity| |lia].
  rewrite itoa_pos, digits_string_of_uint, uintZ_of_uint.
  rewrite DecimalPos.Unsigned.of_to. reflexivity.
Qed.

Lemma allDigits_itoa (n : Z) : 0 <= n -> allDigits (itoa n) = true.
Proof.
  intros Hn. destruct n as [|p|p]; [reflexivity| |lia].
  rewrite itoa_pos. apply allDigits_string_of_uint.
Qed.

Lemma itoa_nonempty (n : Z) : 0 <= n -> itoa n <> "".
Proof.
  intros Hn. destruct n as [|p|p]; [discriminate| |lia].
  rewrite itoa_pos. intros H.
  destruct (Pos.to_uint p) eqn:Hp; cbn in H; try discriminate.
  exact (DecimalPos.Unsigned.to_uint_nonnil p Hp).
Qed.

Lemma isDigit_not_space (c : ascii) : isDigit c = true -> isSpace c = false.
Proof.
  unfold isDigit, digitVal, isSpace.
  destruct (nat_of_ascii c) as [|n] eqn:Hc; [cbn; discriminate|].
  do 32 (destruct n as [|n]; [cbn; try discriminate; try reflexivity|]).
  reflexivity.
Qed.

Lemma trimRight_lastNonSpace (s : string) :
  lastNonSpace s = true -> trimRight s = s.
Proof.
  induction s as [|c s IH]; [reflexivity|].
  cbn [lastNonSpace trimRight]. destruct s as [|c' s'].
  - cbn. intros H. destruct (isSpace c); [discriminate|reflexivity].
  - intros H. rewrite (IH H). reflexivity.
Qed.

Lemma blankFree_ends (s : string) :
  firstNonSpace s = true -> lastNonSpace s = true -> blankFree s.
Proof.
  intros Hf Hl. unfold blankFree, TrimSpace.
  assert (Hleft : trimLeft s = s).
  { destruct s as [|c s]; [reflexivity|]. cbn in *.
    destruct (isSpace c); [discriminate|reflexivity]. }
  rewrite Hleft. apply trimRight_lastNonSpace, Hl.
Qed.

Lemma allDigits_ends (s : string) :
  allDigits s = true -> firstNonSpace s = true /\ lastNonSpace s = true.
Proof.
  induction s as [|c s IH]; [split; reflexivity|].
  cbn [allDigits]. intros H. apply andb_true_iff in H. destruct H as [Hc Hs].
  pose proof (isDigit_not_space c Hc) as Hsp.
  split; [cbn; now rewrite Hsp|].
  cbn [lastNonSpace]. destruct s; [now rewrite Hsp|].
  apply (IH Hs).
Qed.

Lemma allDigits_blankFree (s : string) : allDigits s = true -> blankFree s.
Proof.
  intros H. destruct (allDigits_ends s H). apply blankFree_ends; assumption.
Qed.

Lemma allDigits_app (a b : string) :
  allDigits (a ++ b) = allDigits a && allDigits b.
Proof.
  induction a as [|c a IH]; [reflexivity|].
  cbn. rewrite IH, andb_assoc. reflexivity.
Qed.

Lemma allDigits_Repeat0 (n : nat) : allDigits (Repeat "0" n) = true.
Proof. induction n as [|n IH]; [reflexivity|exact IH]. Qed.

Lemma digits_app (a b : string) (acc : Z) :
  Strconv.digits (a ++ b) acc
  = match Strconv.digits a acc with
    | Some n => Strconv.digits b n
    | None => None
    end.
Proof.
  revert acc. induction a as [|c a IH]; intros acc; [reflexivity|].
  cbn. destruct (digitVal c); [apply IH|reflexivity].
Qed.

Lemma digits_Repeat0 (n : nat) : Strconv.digits (Repeat "0" n) 0 = Some 0.
Proof. induction n as [|n IH]; [reflexivity|exact IH]. Qed.

(** ** Integer fields *)

Lemma utoa_nonneg (n : Z) : 0 <= n -> utoa n = itoa n.
Proof. intros Hn. unfold utoa. rewrite Z.abs_eq by exact Hn. reflexivity. Qed.

Lemma length_itoa_pos (n : Z) :
  0 <= n -> (1 <= String.length (itoa n))%nat.
Proof.
  intros Hn. pose proof (itoa_nonempty n Hn).
  destruct (itoa n); [congruence|cbn; lia].
Qed.

(** [Atoi] of zero-filled digits. *)
Lemma Atoi_digits (n : Z) (k : nat) :
  0 <= n -> (k + String.length (itoa n) < 19)%nat ->
  Strconv.Atoi (Repeat "0" k ++ itoa n) = (n, true).
Proof.
  intros Hn Hlen. unfold Strconv.Atoi.
  pose proof (length_itoa_pos n Hn) as Hpos.
  rewrite length_append, length_Repeat.
  replace (0 <? k + String.length (itoa n))%nat with true
    by (symmetry; apply Nat.ltb_lt; lia).
  replace (k + String.length (itoa n) <? 19)%nat with true
    by (symmetry; apply Nat.ltb_lt; lia).
  cbn [andb].
  assert (Hd : allDigits (Repeat "0" k ++ itoa n) = true)
    by (rewrite allDigits_app, allDigits_Repeat0, allDigits_itoa by exact Hn;
        reflexivity).
  assert (Hv : Strconv.digits (Repeat "0" k ++ itoa n) 0 = Some n)
    by (rewrite digits_app, digits_Repeat0; apply digits_itoa, Hn).
  destruct (Repeat "0" k ++ itoa n) as [|c0 s'] eqn:Hs.
  - destruct k; cbn in Hs; [|discriminate].
    exfalso. exact (itoa_nonempty n Hn Hs).
  - cbn [allDigits] in Hd. apply andb_true_iff in Hd. destruct Hd as [Hc0 _].
    assert (Hminus : Ascii.eqb c0 "-" = false).
    { destruct (Ascii.eqb_spec c0 "-") as [->|]; [discriminate|reflexivity]. }
    assert (Hplus : Ascii.eqb c0 "+" = false).
    { destruct (Ascii.eqb_spec c0 "+") as [->|]; [discriminate|reflexivity]. }
    rewrite Hminus, Hplus. cbn [orb andb]. rewrite Hv. reflexivity.
Qed.

Section IntFields.

Variable w : nat.
Variable n : Z.
Hypothesis Hok : intOk w n.
Hypothesis Hw : (w < 19)%nat.

(** [%-W.1d] *)
Lemma field_int_left :
  String.length (fmt_d (v_minus w 1) n) = w
  /\ atoiField (fmt_d (v_minus w 1) n) = n.
Proof.
  destruct Hok as [Hn Hlen].
  pose proof (length_itoa_pos n Hn) as Hpos.
  pose proof (allDigits_isASCII _ (allDigits_itoa n Hn)) as Hasc.
  unfold fmt_d, v_minus. cbn [prec zero wid minus].
  replace (n <? 0) with false by (symmetry; apply Z.ltb_ge; exact Hn).
  rewrite utoa_nonneg by exact Hn.
  replace (1 - String.length (itoa n))%nat with 0%nat by lia.
  cbn [Nat.eqb andb Repeat append].
  rewrite pad_right by assumption.
  split; [apply length_pad_right, Hlen|].
  unfold atoiField.
  rewrite TrimSpace_right_fill
    by (first [exact Hasc|apply allDigits_blankFree, allDigits_itoa, Hn]).
  change (itoa n) with (Repeat "0" 0 ++ itoa n).
  rewrite Atoi_digits by (cbn; lia). reflexivity.
Qed.

(** [%W.1d] *)
Lemma field_int_right :
  String.length (fmt_d (v_wp w 1) n) = w
  /\ atoiField (fmt_d (v_wp w 1) n) = n.
Proof.
  destruct Hok as [Hn Hlen].
  pose proof (length_itoa_pos n Hn) as Hpos.
  pose proof (allDigits_isASCII _ (allDigits_itoa n Hn)) as Hasc.
  unfold fmt_d, v_wp. cbn [prec zero wid minus].
  replace (n <? 0) with false by (symmetry; apply Z.ltb_ge; exact Hn).
  rewrite utoa_nonneg by exact Hn.
  replace (1 - String.length (itoa n))%nat with 0%nat by lia.
  cbn [Nat.eqb andb Repeat append].
  rewrite pad_left by assumption.
  split; [apply length_pad_left, Hlen|].
  unfold atoiField.
  rewrite TrimSpace_left_fill
    by (first [exact Hasc|apply allDigits_blankFree, allDigits_itoa, Hn]).
  change (itoa n) with (Repeat "0" 0 ++ itoa n).
  rewrite Atoi_digits by (cbn; lia). reflexivity.
Qed.

(** [%0W.Wd] *)
Lemma field_int_zero :
  (0 < w)%nat ->
  String.length (fmt_d (v_zero w w) n) = w
  /\ atoiField (fmt_d (v_zero w w) n) = n.
Proof.
  intros Hw0. destruct Hok as [Hn Hlen].
  pose proof (length_itoa_pos n Hn) as Hpos.
  unfold fmt_d, v_zero. cbn [prec zero wid minus].
  replace (n <? 0) with false by (symmetry; apply Z.ltb_ge; exact Hn).
  rewrite utoa_nonneg by exact Hn.
  replace (w =? 0)%nat with false by (symmetry; apply Nat.eqb_neq; lia).
  cbn [andb].
  assert (Hl : String.length (Repeat "0" (w - String.length (itoa n)) ++ itoa n)
               = w) by (apply length_pad_left, Hlen).
  assert (Hd : allDigits (Repeat "0" (w - String.length (itoa n)) ++ itoa n)
               = true)
    by (rewrite allDigits_app, allDigits_Repeat0, allDigits_itoa by exact Hn;
        reflexivity).
  rewrite pad_left by (first [apply allDigits_isASCII, Hd|lia]).
  rewrite Hl, Nat.sub_diag. cbn [Repeat append].
  split; [exact Hl|].
  unfold atoiField.
  rewrite TrimSpace_blankFree
    by (first [apply allDigits_isASCII, Hd|apply allDigits_blankFree, Hd]).
  rewrite Atoi_digits by lia. reflexivity.
Qed.

End IntFields.

(** ** String fields *)

Section StringFields.

Variable zp : bool.
Variable w : nat.
Variable s : string.
Hypothesis Hfits : fits w s.

(** [%-W.Ws] *)
Lemma field_s_minus :
  String.length (fmt_s zp (v_minus w w) s) = w
  /\ TrimSpace (fmt_s zp (v_minus w w) s) = s.
Proof.
  pose proof (fits_blankFree _ _ Hfits) as Hb.
  destruct Hfits as (Ha & Ht & Hl). rewrite fmt_s_minus by assumption.
  split; [apply length_pad_right, Hl|apply TrimSpace_right_fill; assumption].
Qed.

(** [%W.Ws] *)
Lemma field_s_wp :
  String.length (fmt_s zp (v_wp w w) s) = w
  /\ TrimSpace (fmt_s zp (v_wp w w) s) = s.
Proof.
  pose proof (fits_blankFree _ _ Hfits) as Hb.
  destruct Hfits as (Ha & Ht & Hl). rewrite fmt_s_wp by assumption.
  split; [apply length_pad_left, Hl|apply TrimSpace_left_fill; assumption].
Qed.

(** [%Ws] *)
Lemma field_s_w :
  String.length (fmt_s zp (v_w w) s) = w
  /\ TrimSpace (fmt_s zp (v_w w) s) = s.
Proof.
  pose proof (fits_blankFree _ _ Hfits) as Hb.
  destruct Hfits as (Ha & Ht & Hl). rewrite fmt_s_w by assumption.
  split; [apply length_pad_left, Hl|apply TrimSpace_left_fill; assumption].
Qed.

(** [%0W.Ws], where the text fills the column or the fill is blank. *)
Lemma field_s_zero :
  (zp = true -> String.length s = w) ->
  String.length (fmt_s zp (v_zero w w) s) = w
  /\ TrimSpace (fmt_s zp (v_zero w w) s) = s.
Proof.
  intros Hz. pose proof (fits_blankFree _ _ Hfits) as Hb.
  destruct Hfits as (Ha & Ht & Hl).
  rewrite fmt_s_zero by assumption.
  split; [apply length_pad_left, Hl|].
  destruct zp.
  - rewrite Hz by reflexivity. rewrite Nat.sub_diag.
    apply TrimSpace_blankFree; assumption.
  - apply TrimSpace_left_fill; assumption.
Qed.

End StringFields.

(** ** Date fields *)

Lemma upto_In (n z : Z) : 0 <= z < n -> In z (upto n).
Proof.
  intros Hz. unfold upto. apply in_map_iff. exists (Z.to_nat z).
  split; [lia|]. apply in_seq. lia.
Qed.

Lemma year4_all : forallb year4 (upto 10000) = true.
Proof. vm_compute. reflexivity. Qed.

Lemma num2_all : forallb num2 (upto 100) = true.
Proof. vm_compute. reflexivity. Qed.

Lemma year4_ok (y : Z) : 0 <= y <= 9999 -> year4 y = true.
Proof.
  intros Hy. apply (proj1 (forallb_forall year4 (upto 10000)) year4_all).
  apply upto_In. lia.
Qed.

Lemma num2_ok (m : Z) : 0 <= m <= 99 -> num2 m = true.
Proof.
  intros Hm. apply (proj1 (forallb_forall num2 (upto 100)) num2_all).
  apply upto_In. lia.
Qed.

Lemma daysIn_le_31 (m y : Z) : Time.daysIn m y <= 31.
Proof.
  unfold Time.daysIn.
  destruct (m =? 2); [destruct (Time.isLeap y); lia|].
  destruct ((m =? 4) || (m =? 6) || (m =? 9) || (m =? 11)); lia.
Qed.

Lemma getnum2_app (a b rest : string) (m : Z) :
  Time.getnum2 a = Some (m, "") -> String.length a = 2%nat ->
  Time.getnum2 (a ++ rest) = Some (m, rest).
Proof.
  destruct a as [|x [|y [|z a]]]; cbn; try discriminate.
  destruct (digitVal x), (digitVal y); try discriminate.
  intros [= <-] _. reflexivity.
Qed.

(** [Format] of a plain date is eight digits that [Parse] reads back. *)
Lemma Parse_Format (d : Time.t) :
  dateOk d ->
  String.length (Time.Format d) = 8%nat
  /\ allDigits (Time.Format d) = true
  /\ Time.Parse (Time.Format d) = Some d.
Proof.
  intros (Hy & Hm & Hd & Hn). destruct d as [y m dd ns]. cbn in *. subst ns.
  pose proof (daysIn_le_31 m y) as H31.
  pose proof (year4_ok y Hy) as Y.
  pose proof (num2_ok m ltac:(lia)) as M.
  pose proof (num2_ok dd ltac:(lia)) as D.
  unfold Time.Format. cbn [Time.year Time.month Time.day].
  unfold year4 in Y. unfold num2 in M, D.
  destruct (Time.appendInt y 4) as [|a [|b [|c [|e [|? ?]]]]] eqn:Ey;
    try discriminate.
  destruct (Strconv.digits (String a (String b (String c (String e "")))) 0)
    as [y'|] eqn:Edy; [|discriminate].
  apply andb_true_iff in Y. destruct Y as [Y1 Y2]. apply Z.eqb_eq in Y1. subst y'.
  destruct (Time.appendInt m 2) as [|m1 [|m2 [|? ?]]] eqn:Em; try discriminate.
  destruct (Time.getnum2 (String m1 (String m2 ""))) as [[m' [|? ?]]|] eqn:Egm;
    try discriminate.
  apply andb_true_iff in M. destruct M as [M1 M2]. apply Z.eqb_eq in M1. subst m'.
  destruct (Time.appendInt dd 2) as [|d1 [|d2 [|? ?]]] eqn:Ed; try discriminate.
  destruct (Time.getnum2 (String d1 (String d2 ""))) as [[d' [|? ?]]|] eqn:Egd;
    try discriminate.
  apply andb_true_iff in D. destruct D as [D1 D2]. apply Z.eqb_eq in D1. subst d'.
  split; [reflexivity|]. split.
  - rewrite !allDigits_app, Y2, M2, D2. reflexivity.
  - cbn [append Time.Parse]. rewrite Edy.
    change (String m1 (String m2 (String d1 (String d2 ""))))
      with (String m1 (String m2 "") ++ String d1 (String d2 "")).
    rewrite (getnum2_app _ "" _ m Egm eq_refl).
    replace ((m <=? 0) || (12 <? m)) with false
      by (symmetry; apply orb_false_iff; split;
          [apply Z.leb_gt|apply Z.ltb_ge]; lia).
    rewrite Egd.
    replace ((dd <? 1) || (Time.daysIn m y <? dd)) with false
      by (symmetry; apply orb_false_iff; split; apply Z.ltb_ge; lia).
    reflexivity.
Qed.

(** [%8.8s] of a formatted date. *)
Lemma field_date (zp : bool) (d : Time.t) :
  dateOk d ->
  String.length (fmt_s zp (v_wp 8 8) (Time.Format d)) = 8%nat
  /\ dateField (fmt_s zp (v_wp 8 8) (Time.Format d)) = d.
Proof.
  intros Hd. destruct (Parse_Format d Hd) as (Hl & Ha & Hp).
  pose proof (allDigits_isASCII _ Ha) as Hasc.
  rewrite fmt_s_wp by (first [exact Hasc|lia]).
  rewrite Hl. cbn [Nat.sub Repeat append].
  split; [exact Hl|].
  unfold dateField, Time.Parse_.
  rewrite (TrimSpace_blankFree _ Hasc (allDigits_blankFree _ Ha)), Hp.
  reflexivity.
Qed.

(** ** Amount fields *)

Lemma StringFixedBank_two_places (a : Decimal.t) :
  Decimal.exp a = -2 -> Decimal.StringFixedBank a 2 = Decimal.string_ a.
Proof.
  destruct a as [v e]. cbn [Decimal.exp]. intros ->.
  unfold Decimal.StringFixedBank, Decimal.RoundBank, Decimal.Round.
  cbn [Decimal.exp Z.opp Z.eqb Pos.eqb].
  unfold Decimal.Sub, Decimal.RescalePair. cbn [Decimal.exp].
  change (-2 <? -2) with false. change (-2 >? -2) with false.
  cbn [Decimal.exp Decimal.value]. rewrite Z.sub_diag. reflexivity.
Qed.

Lemma substring_split (s : string) (a b : nat) :
  (a + b = String.length s)%nat ->
  substring 0 a s ++ substring a b s = s.
Proof.
  revert a b. induction s as [|c s IH]; intros a b Hab.
  - cbn in Hab. assert (a = 0%nat) by lia. assert (b = 0%nat) by lia.
    subst. reflexivity.
  - destruct a as [|a].
    + cbn in Hab. subst b. cbn [substring append].
      f_equal. rewrite <- (append_nil_r s) at 2.
      rewrite substring_0_all. reflexivity.
    + cbn [substring append]. f_equal. apply IH. cbn in Hab. lia.
Qed.

Lemma length_substring (s : string) (a b : nat) :
  (a + b <= String.length s)%nat -> String.length (substring a b s) = b.
Proof.
  revert a b. induction s as [|c s IH]; intros a b Hab.
  - cbn in Hab. assert (b = 0%nat) by lia. subst. destruct a; reflexivity.
  - destruct a as [|a].
    + destruct b as [|b]; [reflexivity|].
      cbn [substring String.length]. f_equal.
      apply (IH 0%nat b). cbn in Hab. lia.
    + cbn [substring]. apply IH. cbn in Hab. lia.
Qed.

Lemma digit_not_E (c : ascii) : isDigit c = true -> isE c = false.
Proof.
  intros H. unfold isE.
  destruct (Ascii.eqb_spec c "e") as [->|]; [discriminate|].
  destruct (Ascii.eqb_spec c "E") as [->|]; [discriminate|reflexivity].
Qed.

Lemma digit_not_dot (c : ascii) : isDigit c = true -> isDot c = false.
Proof.
  intros H. unfold isDot.
  destruct (Ascii.eqb_spec c ".") as [->|]; [discriminate|reflexivity].
Qed.

Lemma indexE_noneOf (s : string) :
  noneOf isE s = true -> Decimal.indexE s = None.
Proof.
  induction s as [|c s IH]; [reflexivity|].
  cbn. intros H. apply andb_true_iff in H. destruct H as [Hc Hs].
  apply negb_true_iff in Hc. unfold isE in Hc. rewrite Hc, (IH Hs).
  reflexivity.
Qed.

Lemma splitPoint_noneOf (s : string) :
  noneOf isDot s = true -> Decimal.splitPoint s = Some (s, None).
Proof.
  induction s as [|c s IH]; [reflexivity|].
  cbn. intros H. apply andb_true_iff in H. destruct H as [Hc Hs].
  apply negb_true_iff in Hc. unfold isDot in Hc. rewrite (IH Hs), Hc.
  reflexivity.
Qed.

Lemma splitPoint_one (a b : string) :
  noneOf isDot a = true -> noneOf isDot b = true ->
  Decimal.splitPoint (a ++ String "." b)
  = Some (a ++ b, Some (String.length b)).
Proof.
  intros Ha Hb. induction a as [|c a IH].
  - cbn [append Decimal.splitPoint]. rewrite (splitPoint_noneOf b Hb).
    reflexivity.
  - cbn in Ha. apply andb_true_iff in Ha. destruct Ha as [Hc Ha].
    apply negb_true_iff in Hc. unfold isDot in Hc.
    cbn [append Decimal.splitPoint]. rewrite (IH Ha), Hc. reflexivity.
Qed.

(** [NewFromString] on a sign, digits, a point and two digits. *)
Lemma NewFromString_fixed (neg : bool) (ip fp : string) (N : Z) :
  allDigits ip = true -> allDigits fp = true -> ip <> "" ->
  String.length fp = 2%nat ->
  Strconv.digits (ip ++ fp) 0 = Some N ->
  Decimal.NewFromString ((if neg then "-" else "") ++ ip ++ "." ++ fp)
  = Some (Decimal.New (if neg then - N else N) (-2)).
Proof.
  intros Hip Hfp Hne Hlen HN.
  pose proof (allDigits_noneOf isE ip digit_not_E Hip) as E1.
  pose proof (allDigits_noneOf isE fp digit_not_E Hfp) as E2.
  pose proof (allDigits_noneOf isDot ip digit_not_dot Hip) as D1.
  pose proof (allDigits_noneOf isDot fp digit_not_dot Hfp) as D2.
  unfold Decimal.NewFromString.
  rewrite indexE_noneOf
    by (rewrite !noneOf_app, E1, E2; destruct neg; reflexivity).
  rewrite <- append_assoc. change ("." ++ fp) with (String "." fp).
  rewrite splitPoint_one
    by (try rewrite noneOf_app; try rewrite D1; try exact D2;
        destruct neg; reflexivity).
  rewrite Hlen. cbn [Z.of_nat Pos.of_succ_nat Pos.succ Z.sub Z.add Z.opp
                       Z.pos_sub].
  assert (Hc : Decimal.parseCoefficient
                 (((if neg then "-" else "") ++ ip) ++ fp)
               = Some (if neg then - N else N)).
  { unfold Decimal.parseCoefficient. destruct neg.
    - cbn [append]. change (Ascii.eqb "-" "-") with true. cbn [orb].
      destruct (ip ++ fp) eqn:Hs.
      + destruct ip; [congruence|discriminate].
      + rewrite HN. reflexivity.
    - cbn [append]. destruct ip as [|c0 ip']; [congruence|].
      cbn [append]. cbn [allDigits] in Hip.
      apply andb_true_iff in Hip. destruct Hip as [Hc0 _].
      assert (Hminus : Ascii.eqb c0 "-" = false).
      { destruct (Ascii.eqb_spec c0 "-") as [->|]; [discriminate|reflexivity]. }
      assert (Hplus : Ascii.eqb c0 "+" = false).
      { destruct (Ascii.eqb_spec c0 "+") as [->|]; [discriminate|reflexivity]. }
      rewrite Hminus, Hplus. cbn [orb]. cbn [append] in HN. rewrite HN.
      reflexivity. }
  rewrite Hc. reflexivity.
Qed.

(** The text of an amount with two decimal places, in its parts. *)
Lemma string_two_places (v : Z) :
  exists ip fp : string,
    Decimal.string_ (Decimal.New v (-2))
    = (if v <? 0 then "-" else "") ++ ip ++ "." ++ fp
    /\ allDigits ip = true /\ allDigits fp = true /\ ip <> ""
    /\ String.length fp = 2%nat
    /\ Strconv.digits (ip ++ fp) 0 = Some (Z.abs v).
Proof.
  assert (Habs : 0 <= Z.abs v) by lia.
  pose proof (allDigits_itoa _ Habs) as Hd.
  pose proof (digits_itoa _ Habs) as Hv.
  pose proof (length_itoa_pos _ Habs) as Hpos.
  unfold Decimal.string_. cbn [Decimal.exp Decimal.value Z.geb Z.compare].
  change (Z.to_nat (- -2)) with 2%nat.
  unfold utoa. set (str := itoa (Z.abs v)) in *.
  destruct (Nat.ltb_spec 2 (String.length str)) as [Hlt|Hge].
  - exists (substring 0 (String.length str - 2) str),
      (substring (String.length str - 2) 2 str).
    pose proof (substring_split str (String.length str - 2) 2 ltac:(lia)) as Hs.
    pose proof (length_substring str (String.length str - 2) 2 ltac:(lia)) as Hl.
    rewrite Hl. cbn [Nat.ltb Nat.leb].
    assert (Hboth : allDigits (substring 0 (String.length str - 2) str)
                    && allDigits (substring (String.length str - 2) 2 str)
                    = true) by (rewrite <- allDigits_app, Hs; exact Hd).
    apply andb_true_iff in Hboth. destruct Hboth as [H1 H2].
    split; [destruct (v <? 0); reflexivity|].
    split; [exact H1|]. split; [exact H2|].
    split.
    + intros He.
      pose proof (length_substring str 0 (String.length str - 2) ltac:(lia)) as Hl0.
      rewrite He in Hl0. cbn in Hl0. lia.
    + split; [first [exact Hl|reflexivity]|]. rewrite Hs. exact Hv.
  - exists "0", (Repeat "0" (2 - String.length str) ++ str).
    assert (Hl : String.length (Repeat "0" (2 - String.length str) ++ str)
                 = 2%nat) by (apply length_pad_left; lia).
    rewrite Hl. cbn [Nat.ltb Nat.leb].
    split; [destruct (v <? 0); reflexivity|].
    split; [reflexivity|].
    split; [rewrite allDigits_app, allDigits_Repeat0; exact Hd|].
    split; [discriminate|]. split; [first [exact Hl|reflexivity]|].
    change ("0" ++ Repeat "0" (2 - String.length str) ++ str)
      with (Repeat "0" (S (2 - String.length str)) ++ str).
    rewrite digits_app, digits_Repeat0. exact Hv.
Qed.

Lemma NewFromString_string (a : Decimal.t) :
  Decimal.exp a = -2 ->
  Decimal.NewFromString (Decimal.string_ a) = Some a
  /\ blankFree (Decimal.string_ a).
Proof.
  destruct a as [v e]. cbn [Decimal.exp]. intros ->.
  destruct (string_two_places v) as (ip & fp & Hs & Hip & Hfp & Hne & Hl & HN).
  rewrite Hs. split.
  - rewrite (NewFromString_fixed (v <? 0) ip fp (Z.abs v)) by assumption.
    f_equal. f_equal. destruct (Z.ltb_spec v 0); lia.
  - destruct (allDigits_ends ip Hip) as [F1 _].
    destruct (allDigits_ends fp Hfp) as [_ L2].
    apply blankFree_ends.
    + destruct (v <? 0); [reflexivity|].
      destruct ip; [congruence|exact F1].
    + assert (Hlast : forall x y, y <> "" -> lastNonSpace (x ++ y) = lastNonSpace y).
      { induction x as [|c x IHx]; intros y Hy; [reflexivity|].
        cbn [append lastNonSpace].
        destruct (x ++ y) eqn:Hxy.
        - destruct x; cbn in Hxy; [congruence|discriminate].
        - rewrite <- Hxy. apply IHx, Hy. }
      assert (Hfpne : fp <> "") by (destruct fp; [discriminate|discriminate]).
      rewrite !Hlast; try exact L2; try exact Hfpne.
      * destruct fp; discriminate.
      * destruct ip; discriminate.
Qed.

(** ** The bytes of a number's text *)

Lemma noneOf_utoa (p : ascii -> bool) (x : Z) :
  offNumbers p -> noneOf p (utoa x) = true.
Proof.
  intros [Hd _]. apply allDigits_noneOf; [exact Hd|].
  apply allDigits_itoa. lia.
Qed.

Lemma offNumbers_zero (p : ascii -> bool) : offNumbers p -> p "0"%char = false.
Proof. intros [Hd _]. apply Hd. reflexivity. Qed.

Lemma noneOf_minus (p : ascii -> bool) (b : bool) (s : string) :
  offNumbers p -> noneOf p s = true ->
  noneOf p (if b then "-" ++ s else s) = true.
Proof.
  intros (_ & _ & Hm & _) Hs. destruct b; [|exact Hs].
  cbn. now rewrite Hm, Hs.
Qed.

Lemma noneOf_appendInt (p : ascii -> bool) (x : Z) (w : nat) :
  offNumbers p -> noneOf p (Time.appendInt x w) = true.
Proof.
  intros Hp. pose proof (offNumbers_zero p Hp) as H0.
  unfold Time.appendInt. apply (noneOf_minus p (x <? 0)); [exact Hp|].
  now rewrite noneOf_app, noneOf_Repeat, noneOf_utoa.
Qed.

Lemma noneOf_Format (p : ascii -> bool) (d : Time.t) :
  offNumbers p -> noneOf p (Time.Format d) = true.
Proof.
  intros Hp. unfold Time.Format.
  now rewrite !noneOf_app, !noneOf_appendInt.
Qed.

Lemma itoa_neg (q : positive) : itoa (Z.neg q) = "-" ++ itoa (Z.pos q).
Proof. reflexivity. Qed.

Lemma noneOf_itoa (p : ascii -> bool) (x : Z) :
  offNumbers p -> noneOf p (itoa x) = true.
Proof.
  intros Hp. destruct x as [|q|q].
  - apply (noneOf_utoa p 0 Hp).
  - apply (noneOf_utoa p (Z.pos q) Hp).
  - rewrite itoa_neg. apply (noneOf_minus p true); [exact Hp|].
    apply (noneOf_utoa p (Z.pos q) Hp).
Qed.

Lemma noneOf_string_ (p : ascii -> bool) (d : Decimal.t) :
  offNumbers p -> noneOf p (Decimal.string_ d) = true.
Proof.
  intros Hp. pose proof (offNumbers_zero p Hp) as H0.
  unfold Decimal.string_.
  destruct (Decimal.exp d >=? 0); [apply noneOf_itoa, Hp|].
  apply (noneOf_minus p (Decimal.value d <? 0)); [exact Hp|].
  pose proof (noneOf_utoa p (Decimal.value d) Hp) as Hu.
  assert (Hi : noneOf p
                 (if (Z.to_nat (- Decimal.exp d)
                      <? String.length (utoa (Decimal.value d)))%nat
                  then substring 0
                         (String.length (utoa (Decimal.value d))
                          - Z.to_nat (- Decimal.exp d))
                         (utoa (Decimal.value d))
                  else "0") = true).
  { destruct (_ <? _)%nat; [apply noneOf_substring, Hu|cbn; now rewrite H0]. }
  match goal with
  | |- noneOf p (if ?b then _ else _) = true => destruct b
  end; [|exact Hi].
  rewrite noneOf_app, Hi. cbn [append noneOf andb].
  destruct Hp as (_ & _ & _ & Hdot). rewrite Hdot. cbn [negb andb].
  destruct (_ <? _)%nat; [apply noneOf_substring, Hu|].
  now rewrite noneOf_app, noneOf_Repeat, Hu.
Qed.

Lemma noneOf_StringFixedBank (p : ascii -> bool) (d : Decimal.t) (k : Z) :
  offNumbers p -> noneOf p (Decimal.StringFixedBank d k) = true.
Proof. intros Hp. apply noneOf_string_, Hp. Qed.

Lemma offNumbers_high : offNumbers high.
Proof.
  repeat split; try reflexivity. exact isDigit_low.
Qed.

Section AmountFields.

Variable zp : bool.
Variable a : Decimal.t.
Hypothesis Hok : amountOk a.

(** [%16.16s] of [StringFixedBank(2)] *)
Lemma field_amount_right :
  String.length (fmt_s zp (v_wp 16 16) (Decimal.StringFixedBank a 2)) = 16%nat
  /\ amountField (fmt_s zp (v_wp 16 16) (Decimal.StringFixedBank a 2)) = a.
Proof.
  destruct Hok as [He Hl].
  destruct (NewFromString_string a He) as [Hp Ht].
  pose proof (noneOf_string_ high a offNumbers_high) as Hasc.
  fold (isASCII (Decimal.string_ a)) in Hasc.
  rewrite StringFixedBank_two_places by exact He.
  rewrite fmt_s_wp by assumption.
  split; [apply length_pad_left, Hl|].
  unfold amountField, Decimal.NewFromString_.
  rewrite TrimSpace_left_fill by assumption. rewrite Hp. reflexivity.
Qed.

(** [%-16.16s] of [StringFixedBank(2)] *)
Lemma field_amount_left :
  String.length (fmt_s zp (v_minus 16 16) (Decimal.StringFixedBank a 2))
  = 16%nat
  /\ amountField (fmt_s zp (v_minus 16 16) (Decimal.StringFixedBank a 2)) = a.
Proof.
  destruct Hok as [He Hl].
  destruct (NewFromString_string a He) as [Hp Ht].
  pose proof (noneOf_string_ high a offNumbers_high) as Hasc.
  fold (isASCII (Decimal.string_ a)) in Hasc.
  rewrite StringFixedBank_two_places by exact He.
  rewrite fmt_s_minus by assumption.
  split; [apply length_pad_right, Hl|].
  unfold amountField, Decimal.NewFromString_.
  rewrite TrimSpace_right_fill by assumption. rewrite Hp. reflexivity.
Qed.

End AmountFields.

(** ** The round trip of the four kinds whose columns agree *)

(** [%d] of one digit *)
Lemma field_int_plain (n : Z) :
  intOk 1 n ->
  String.length (fmt_d v_ n) = 1%nat /\ atoiField (fmt_d v_ n) = n.
Proof.
  intros [Hn Hlen].
  pose proof (length_itoa_pos n Hn) as Hpos.
  unfold fmt_d, v_, pad. cbn -[itoa utoa Z.ltb atoiField].
  replace (n <? 0) with false by (symmetry; apply Z.ltb_ge; exact Hn).
  rewrite utoa_nonneg by exact Hn.
  split; [lia|].
  unfold atoiField.
  rewrite TrimSpace_blankFree
    by (first [apply allDigits_isASCII|apply allDigits_blankFree];
        apply allDigits_itoa, Hn).
  change (itoa n) with (Repeat "0" 0 ++ itoa n).
  rewrite Atoi_digits by (cbn; lia). reflexivity.
Qed.

(** Names a written field, keeping its width and what it reads back as. *)
Ltac name_field H :=
  let L := fresh "L" in
  let R := fresh "R" in
  destruct H as [L R];
  match type of L with
  | String.length ?f = _ =>
      let x := fresh "f" in set (x := f) in *; clearbody x
  end.

Ltac lengths :=
  rewrite ?length_append;
  repeat match goal with
         | L : String.length ?f = _ |- context [String.length ?f] =>
             rewrite L
         end.

(** Cuts every field [l[a:b]] out of a line known field by field. *)
Ltac cut_fields :=
  repeat match goal with
         | L : String.length ?f = ?n
           |- context [slice (append ?f ?rest) ?a ?b] =>
             first [ rewrite (slice_field f rest b L)
                   | rewrite (slice_skip f rest n a b L) by lia;
                     cbn [Nat.sub] ]
         end.

Ltac read_back :=
  repeat match goal with
         | R : ?lhs = _ |- context [?lhs] => rewrite R
         end.

Ltac decode e He :=
  rewrite padRight_exact by (lengths; reflexivity);
  match goal with
  | |- context [badLength ?l ?a ?b] =>
      replace (badLength l a b) with false
        by (unfold badLength; lengths;
            destruct He as [He | He]; rewrite He; reflexivity)
  end;
  rewrite !append_assoc;
  cut_fields.

Theorem Record_round_trip (zp : bool) (r r0 : TxnRecord.t) (e : string)
  (wd : World) :
  wfRecord r -> terminator e ->
  Record_Read r0 (Record_Write zp r ++ e) wd
  = (r, if IsValid r then None else Some ErrInvalidRecord, wd).
Proof.
  intros (Ht & H1 & H2 & H3 & H4 & H5 & H6 & H7 & H8 & H9 & H10 & H11) He.
  unfold Record_Write, Record_Read. rewrite fmt_s_plain, spaces_eq.
  assert (H0 : String.length "2" = 1%nat /\ atoiField "2" = 2)
    by (split; reflexivity).
  pose proof (conj (length_Repeat " " 20) (eq_refl (Repeat " " 20))) as Hs.
  name_field H0.
  name_field (field_s_wp zp 7 _ H1).
  name_field (field_s_wp zp 9 _ H2).
  name_field (field_s_minus zp 35 _ H3).
  name_field (field_date zp _ H4).
  name_field (field_amount_right zp _ H5).
  name_field (field_s_wp zp 2 _ H6).
  name_field (field_s_wp zp 2 _ H7).
  name_field (field_s_minus zp 40 _ H8).
  name_field (field_int_left 10 _ H9 ltac:(lia)).
  name_field (field_s_minus zp 10 _ H10).
  name_field (field_s_minus zp 8 _ H11).
  name_field Hs.
  decode e He. read_back.
  destruct r as [rt b an nm d am i tc ds rn sr cq].
  cbn -[IsValid] in *. subst rt.
  match goal with |- context [negb ?b] => destruct b end; reflexivity.
Qed.

(** [BatchHeader.Read] assigns every field but [recordType], which stays
    what the receiver had. *)
Theorem BatchHeader_round_trip (zp : bool) (h h0 : BatchHeader.t)
  (e : string) (wd : World) :
  wfBatchHeader h -> terminator e ->
  BatchHeader_Read h0 (BatchHeader_Write zp h ++ e) wd
  = (BatchHeader.mk (BatchHeader.recordType h0)
       (BatchHeader.BSBNumber h) (BatchHeader.AccountNumber h)
       (BatchHeader.AccountName h) (BatchHeader.TransactionDate h)
       (BatchHeader.Amount h) (BatchHeader.Indicator h),
     None, wd).
Proof.
  intros (H1 & H2 & H3 & H4 & H5 & H6) He.
  unfold BatchHeader_Write, BatchHeader_Read.
  rewrite fmt_s_plain, spaces_eq.
  assert (H0 : String.length "1" = 1%nat /\ "1" = "1")
    by (split; reflexivity).
  pose proof (conj (length_Repeat " " 92) (eq_refl (Repeat " " 92))) as Hs.
  name_field H0.
  name_field (field_s_minus zp 7 _ H1).
  name_field (field_s_minus zp 9 _ H2).
  name_field (field_s_minus zp 35 _ H3).
  name_field (field_date zp _ H4).
  name_field (field_amount_right zp _ H5).
  name_field (field_s_wp zp 2 _ H6).
  name_field Hs.
  decode e He. read_back. reflexivity.
Qed.

Theorem BatchTrailer_round_trip (zp : bool) (t t0 : BatchTrailer.t)
  (e : string) (wd : World) :
  wfBatchTrailer t -> terminator e ->
  BatchTrailer_Read t0 (BatchTrailer_Write zp t ++ e) wd = (t, None, wd).
Proof.
  intros (H0 & H1 & H2 & H3 & H4 & H5 & H6 & H7 & H8 & H9 & H10 & H11 & H12)
    He.
  unfold BatchTrailer_Write, BatchTrailer_Read.
  rewrite fmt_s_plain, spaces_eq.
  pose proof (conj (length_Repeat " " 40) (eq_refl (Repeat " " 40))) as Hs.
  name_field (field_int_plain _ H0).
  name_field (field_s_wp zp 7 _ H1).
  name_field (field_s_wp zp 9 _ H2).
  name_field (field_s_minus zp 35 _ H3).
  name_field (field_date zp _ H4).
  name_field (field_amount_right zp _ H5).
  name_field (field_s_w zp 2 _ H6).
  name_field (field_s_w zp 2 _ H7).
  name_field (field_int_zero 6 _ H8 ltac:(lia) ltac:(lia)).
  name_field (field_int_right 6 _ H9 ltac:(lia)).
  name_field (field_int_right 6 _ H10 ltac:(lia)).
  name_field (field_amount_right zp _ H11).
  name_field (field_amount_right zp _ H12).
  name_field Hs.
  decode e He. read_back.
  destruct t; reflexivity.
Qed.

Theorem FileTrailer_round_trip (zp : bool) (t t0 : FileTrailer.t)
  (e : string) (wd : World) :
  wfFileTrailer zp t -> terminator e ->
  FileTrailer_Read t0 (FileTrailer_Write zp t ++ e) wd = (t, None, wd).
Proof.
  intros (H0 & H1 & Hz & H2 & H3 & H4 & H5 & H6) He.
  unfold FileTrailer_Write, FileTrailer_Read.
  rewrite fmt_s_plain, spaces_eq.
  pose proof (conj (length_Repeat " " 82) (eq_refl (Repeat " " 82))) as Hs.
  name_field (field_int_plain _ H0).
  name_field (field_s_zero zp 8 _ H1 Hz).
  name_field (field_s_minus zp 35 _ H2).
  name_field (field_int_left 6 _ H3 ltac:(lia)).
  name_field (field_int_left 6 _ H4 ltac:(lia)).
  name_field (field_amount_left zp _ H5).
  name_field (field_amount_left zp _ H6).
  name_field Hs.
  decode e He. read_back.
  destruct t; reflexivity.
Qed.

(** ** The file header: the decoder's columns against the encoder's *)

Lemma length_trimLeft (t : string) :
  (String.length (trimLeft t) <= String.length t)%nat.
Proof.
  induction t as [|x t IHt]; cbn; [lia|]. destruct (isSpace x); cbn; lia.
Qed.

Lemma blankFree_first (c : ascii) (s : string) :
  blankFree (String c s) -> isSpace c = false.
Proof.
  intros H. pose proof (blankFree_left _ H) as Hl. cbn [trimLeft] in Hl.
  destruct (isSpace c); [|reflexivity].
  pose proof (length_trimLeft s) as Hlen. rewrite Hl in Hlen.
  cbn in Hlen. lia.
Qed.

Lemma lastNonSpace_app (x y : string) :
  y <> "" -> lastNonSpace (x ++ y) = lastNonSpace y.
Proof.
  induction x as [|c x IHx]; intros Hy; [reflexivity|].
  cbn [append lastNonSpace].
  destruct (x ++ y) eqn:Hxy.
  - destruct x; cbn in Hxy; [congruence|discriminate].
  - apply IHx, Hy.
Qed.

(** What [TrimSpace] leaves of a filled column followed by one more
    byte. *)
Lemma TrimSpace_shifted (zp : bool) (k : nat) (s : string) (c : ascii) :
  isASCII s = true -> high c = false -> blankFree s -> isSpace c = false ->
  TrimSpace (Repeat (if zp then "0" else " ")%char k ++ s ++ String c "")
  = (if zp then Repeat "0" k else "") ++ s ++ String c "".
Proof.
  intros Ha Hh Hs Hc.
  assert (Hasc : isASCII (s ++ String c "") = true).
  { rewrite isASCII_app, Ha. unfold isASCII. cbn. now rewrite Hh. }
  assert (Hlast : lastNonSpace (s ++ String c "") = true).
  { rewrite lastNonSpace_app by discriminate. cbn. now rewrite Hc. }
  assert (Hfirst : firstNonSpace (s ++ String c "") = true).
  { destruct s as [|x s]; cbn; [now rewrite Hc|].
    now rewrite (blankFree_first x s Hs). }
  destruct zp.
  - apply TrimSpace_blankFree.
    + rewrite isASCII_app, isASCII_Repeat, Hasc by reflexivity. reflexivity.
    + apply blankFree_ends.
      * destruct k; [exact Hfirst|reflexivity].
      * rewrite lastNonSpace_app; [exact Hlast|]. destruct s; discriminate.
  - apply TrimSpace_left_fill; [exact Hasc|].
    apply blankFree_ends; assumption.
Qed.

Lemma substring_0_app (f rest : string) (m : nat) :
  substring 0 (String.length f + m) (f ++ rest) = f ++ substring 0 m rest.
Proof.
  induction f as [|c f IH]; [reflexivity|]. cbn. now rewrite IH.
Qed.

(** [(f ++ rest)[0:b]] reaches past the field [f]. *)
Lemma slice_over (f rest : string) (n b : nat) :
  String.length f = n -> (n <= b)%nat ->
  slice (f ++ rest) 0 b = f ++ slice rest 0 (b - n).
Proof.
  intros <- Hb. unfold slice. rewrite !Nat.sub_0_r.
  replace b with (String.length f + (b - String.length f))%nat at 1 by lia.
  apply substring_0_app.
Qed.

(** [FileHeader.Read] takes the customer number from [l[1:10]], one byte
    more than the eight [Write] gives it: it comes back with the first
    byte of the customer name after it.  The record type, the two dates
    and the description are at the columns [Read] takes them from. *)
Theorem FileHeader_reads_shifted (zp : bool) (h h0 : FileHeader.t)
  (e : string) (wd : World) (c : ascii) (name' : string) :
  wfFileHeader h -> terminator e ->
  FileHeader.CustomerName h = String c name' ->
  let got := FileHeader_Read h0 (FileHeader_Write zp h ++ e) wd in
  snd (fst got) = None
  /\ FileHeader.CustomerNumber (fst (fst got))
     = (if zp
        then Repeat "0" (8 - String.length (FileHeader.CustomerNumber h))
        else "")
       ++ FileHeader.CustomerNumber h ++ String c ""
  /\ FileHeader.recordType (fst (fst got)) = FileHeader.recordType h
  /\ FileHeader.FileCreated (fst (fst got)) = FileHeader.FileCreated h
  /\ FileHeader.ProcessingDate (fst (fst got)) = FileHeader.ProcessingDate h
  /\ FileHeader.Description (fst (fst got)) = FileHeader.Description h.
Proof.
  intros (H0 & H1 & H2 & H3 & H4 & H5 & H6) He Hname.
  unfold FileHeader_Write, FileHeader_Read.
  rewrite fmt_s_plain, spaces_eq.
  rewrite (fmt_s_minus zp 35) by apply H2.
  rewrite (fmt_s_zero zp 8) by apply H1.
  assert (Hc : isSpace c = false)
    by (apply (blankFree_first c name'); rewrite <- Hname;
        apply (fits_blankFree _ _ H2)).
  assert (Lname : (String.length name' <= 34)%nat).
  { destruct H2 as (_ & _ & H2). rewrite Hname in H2. cbn in H2. lia. }
  assert (Hh : high c = false).
  { destruct H2 as (H2 & _). rewrite Hname in H2. unfold isASCII in H2.
    cbn [noneOf] in H2. apply andb_true_iff in H2.
    apply negb_true_iff, H2. }
  rewrite Hname.
  change (String c name' ++ ?x) with (String c "" ++ name' ++ x).
  assert (Lg : String.length
                 (name' ++ Repeat " " (35 - String.length (String c name')))
               = 34%nat).
  { rewrite length_append, length_Repeat. cbn [String.length]. lia. }
  assert (Lf1 : String.length
                  (Repeat (if zp then "0" else " ")%char
                     (8 - String.length (FileHeader.CustomerNumber h))
                   ++ FileHeader.CustomerNumber h) = 8%nat).
  { rewrite length_append, length_Repeat. destruct H1 as (_ & _ & H1). lia. }
  assert (Lc : String.length (String c "") = 1%nat) by reflexivity.
  pose proof (TrimSpace_shifted zp
                (8 - String.length (FileHeader.CustomerNumber h))
                (FileHeader.CustomerNumber h) c ltac:(apply H1) Hh
                (fits_blankFree _ _ H1) Hc) as Rcn.
  rewrite <- append_assoc in Rcn.
  pose proof (conj (length_Repeat " " 70) (eq_refl (Repeat " " 70))) as Hs.
  destruct (field_int_plain _ H0) as [Lrt Rrt].
  set (frt := fmt_d v_ (FileHeader.recordType h)) in *. clearbody frt.
  name_field (field_s_minus zp 20 _ H3).
  name_field (field_date zp _ H4).
  name_field (field_date zp _ H5).
  name_field (field_s_wp zp 20 _ H6).
  name_field Hs.
  set (fcn := Repeat _ _ ++ FileHeader.CustomerNumber h) in *.
  set (fnm := name' ++ Repeat " " _) in *.
  set (fch := String c "") in *.
  clearbody fcn fnm fch.
  rewrite padRight_exact by (lengths; reflexivity).
  match goal with
  | |- context [badLength ?l ?a ?b] =>
      replace (badLength l a b) with false
        by (unfold badLength; lengths;
            destruct He as [He | He]; rewrite He; reflexivity)
  end.
  rewrite !append_assoc.
  cbn [fst snd ret FileHeader.CustomerNumber FileHeader.recordType
       FileHeader.FileCreated FileHeader.ProcessingDate
       FileHeader.Description].
  split; [reflexivity|].
  split.
  { rewrite (slice_skip frt _ 1 1 10 Lrt) by lia. cbn [Nat.sub].
    rewrite (slice_over fcn _ 8 9 Lf1) by lia. cbn [Nat.sub].
    rewrite (slice_field fch _ 1 Lc). exact Rcn. }
  cut_fields. read_back. repeat split; reflexivity.
Qed.

(** So no file header with a customer name reads back with its customer
    number. *)
Corollary FileHeader_customer_number_lost (zp : bool) (h h0 : FileHeader.t)
  (e : string) (wd : World) :
  wfFileHeader h -> terminator e -> FileHeader.CustomerName h <> "" ->
  FileHeader.CustomerNumber
    (fst (fst (FileHeader_Read h0 (FileHeader_Write zp h ++ e) wd)))
  <> FileHeader.CustomerNumber h.
Proof.
  intros Hwf He Hname.
  destruct (FileHeader.CustomerName h) as [|c name'] eqn:Hn; [congruence|].
  destruct (FileHeader_reads_shifted zp h h0 e wd c name' Hwf He Hn)
    as (_ & Hcn & _).
  cbv zeta in Hcn. rewrite Hcn. intros Heq.
  apply (f_equal String.length) in Heq.
  rewrite !length_append in Heq. cbn [String.length] in Heq. lia.
Qed.

(** C1 at the file header of the example, whose strings fit their
    columns and whose dates are plain dates: the line that [Write] emits
    for it, decoded by [Read], gives back another customer number,
    customer name and remitter name.  [Write] lays the customer number
    out in columns 1-9, the customer name in 9-44 and the remitter name
    in 44-64; [Read] takes them from columns 1-10, 10-45 and 45-64. *)
Theorem C1_file_header_round_trip_fails (zp : bool) (wd : World) :
  FileHeader_Read FileHeader.zero (FileHeader_Write zp exampleFileHeader ++ nl)
    wd
  = (FileHeader.mk 0 "00123456A" "BC PTY LIMITED                    M"
       "ACQUARIE BANK" exampleDate exampleDate "ACCOUNT TRANSACTIONS",
     None, wd)
  /\ FileHeader.CustomerNumber exampleFileHeader = "00123456"
  /\ FileHeader.CustomerName exampleFileHeader = "ABC PTY LIMITED"
  /\ FileHeader.RemitterName exampleFileHeader = "MACQUARIE BANK".
Proof.
  split; [|repeat split]. destruct zp; reflexivity.
Qed.

(** The example's values are values that their lines hold. *)
Ltac holds :=
  repeat split; try reflexivity; vm_compute;
  first [reflexivity | lia | discriminate].

Example exampleFileHeader_wf : wfFileHeader exampleFileHeader.
Proof. holds. Qed.

Example exampleBatchHeader_wf : wfBatchHeader exampleBatchHeader.
Proof. holds. Qed.

Example exampleRecords_wf : Forall wfRecord exampleRecords.
Proof. repeat constructor; holds. Qed.

Example exampleBatchTrailer_wf : wfBatchTrailer exampleBatchTrailer.
Proof. holds. Qed.

Example exampleFileTrailer_wf (zp : bool) :
  wfFileTrailer zp exampleFileTrailer.
Proof. holds. Qed.

(** The other four kinds give the example's values back; the batch header
    read into a new struct, as [readRecordOrHeaderOrTrailer] reads it,
    comes back with the record type 0 of the new struct, not its 1. *)
Example BatchHeader_round_trip_example (zp : bool) (wd : World) :
  BatchHeader_Read BatchHeader.zero
    (BatchHeader_Write zp exampleBatchHeader ++ nl) wd
  = (BatchHeader.mk 0 "182-222" "123456789" "DEMO ACCOUNT NUMBER 2"
       exampleDate (Decimal.New 42632 (-2)) Credit,
     None, wd)
  /\ BatchHeader.recordType exampleBatchHeader = 1.
Proof.
  split; [|reflexivity].
  apply (BatchHeader_round_trip zp exampleBatchHeader BatchHeader.zero nl wd
           exampleBatchHeader_wf).
  left; reflexivity.
Qed.

Example Record_round_trip_example (zp : bool) (wd : World) :
  Forall
    (fun r => Record_Read TxnRecord.zero (Record_Write zp r ++ nl) wd
              = (r, None, wd))
    exampleRecords.
Proof.
  pose proof exampleRecords_wf as Hwf.
  assert (Hv : Forall (fun r => IsValid r = true) exampleRecords)
    by (repeat constructor).
  induction Hwf as [|r rs Hr _ IH]; constructor.
  - rewrite (Record_round_trip zp r TxnRecord.zero nl wd Hr)
      by (left; reflexivity).
    inversion Hv as [|? ? Hvr _]; subst. rewrite Hvr. reflexivity.
  - apply IH. inversion Hv; assumption.
Qed.

Example BatchTrailer_round_trip_example (zp : bool) (wd : World) :
  BatchTrailer_Read BatchTrailer.zero
    (BatchTrailer_Write zp exampleBatchTrailer ++ nl) wd
  = (exampleBatchTrailer, None, wd).
Proof.
  apply BatchTrailer_round_trip;
    [exact exampleBatchTrailer_wf|left; reflexivity].
Qed.

Example FileTrailer_round_trip_example (zp : bool) (wd : World) :
  FileTrailer_Read FileTrailer.zero
    (FileTrailer_Write zp exampleFileTrailer ++ nl) wd
  = (exampleFileTrailer, None, wd).
Proof.
  apply FileTrailer_round_trip;
    [exact (exampleFileTrailer_wf zp)|left; reflexivity].
Qed.

(** The example's file header is one of those that lose their customer
    number. *)
Example FileHeader_customer_number_lost_example (zp : bool) (wd : World) :
  FileHeader.CustomerNumber
    (fst (fst (FileHeader_Read FileHeader.zero
                 (FileHeader_Write zp exampleFileHeader ++ nl) wd)))
  <> FileHeader.CustomerNumber exampleFileHeader.
Proof.
  apply FileHeader_customer_number_lost;
    [exact exampleFileHeader_wf|left; reflexivity|discriminate].
Qed.

(** The three example lines are what the encoders emit. *)
Example example_lines (zp : bool) :
  batchHeaderLine = BatchHeader_Write zp exampleBatchHeader ++ nl
  /\ recordLine = Record_Write zp (hd TxnRecord.zero exampleRecords) ++ nl
  /\ recordLineXX = Record_Write zp recordXX ++ nl.
Proof. destruct zp; repeat split; reflexivity. Qed.

(* ===================================================================== *)
(** * Further properties of the package *)
(* ===================================================================== *)

(** ** [padRight] with any pad *)

Lemma substring_0_prefix (n : nat) (x y : string) :
  (n <= String.length x)%nat -> substring 0 n (x ++ y) = substring 0 n x.
Proof.
  revert n. induction x as [|c x IH]; intros n Hn.
  - cbn in Hn. assert (n = O) by lia. subst n. destruct y; reflexivity.
  - destruct n as [|n]; [reflexivity|]. cbn in *. rewrite IH by lia.
    reflexivity.
Qed.

Lemma times_add (pad : string) (j k : nat) :
  times pad (j + k) = times pad j ++ times pad k.
Proof.
  induction j as [|j IH]; [reflexivity|].
  cbn [Nat.add times]. rewrite IH, append_assoc. reflexivity.
Qed.

Lemma length_times (pad : string) (k : nat) :
  String.length (times pad k) = (k * String.length pad)%nat.
Proof.
  induction k as [|k IH]; [reflexivity|].
  cbn [times]. rewrite length_append, IH. cbn. lia.
Qed.

Lemma times_blank (k : nat) : times " " k = Repeat " " k.
Proof. induction k as [|k IH]; [reflexivity|]. cbn. now rewrite IH. Qed.

(** The loop returns after [k] rounds, [k] the least number of pads that
    make the text longer than [length]. *)
Lemma padRight_loop_spec (pad : string) (n : nat) :
  pad <> "" ->
  forall (fuel : nat) (str : string),
    (1 <= fuel)%nat -> (n < String.length str + fuel)%nat ->
    exists k,
      (1 <= k <= fuel)%nat
      /\ padRight_loop fuel str pad n
         = Some (substring 0 n (str ++ times pad k))
      /\ (n < String.length (str ++ times pad k))%nat.
Proof.
  intros Hpad.
  assert (Hlp : (1 <= String.length pad)%nat)
    by (destruct pad; [congruence|cbn; lia]).
  induction fuel as [|fuel IH]; intros str Hf Hn; [lia|].
  cbn [padRight_loop].
  destruct (Nat.ltb_spec n (String.length (str ++ pad))) as [Hlt|Hge].
  - exists 1%nat. cbn [times]. rewrite append_nil_r.
    unfold slice. rewrite Nat.sub_0_r. repeat split; try lia.
  - rewrite length_append in Hge.
    destruct (IH (str ++ pad)) as (k & Hk & Hr & Hl).
    + lia.
    + rewrite length_append. lia.
    + exists (S k). cbn [times].
      rewrite append_assoc in Hr, Hl. repeat split; try lia; assumption.
Qed.

(** [padRight] with a pad that is not empty, in closed form. *)
Lemma padRight_eq (str pad : string) (n : nat) :
  pad <> "" ->
  padRight str pad n = substring 0 n (str ++ times pad (S n))
  /\ String.length (padRight str pad n) = n
  /\ ((n <= String.length str)%nat -> padRight str pad n = substring 0 n str)
  /\ ((String.length str <= n)%nat ->
      padRight str pad n
      = str ++ substring 0 (n - String.length str) (times pad (S n))).
Proof.
  intros Hpad.
  assert (Hlp : (1 <= String.length pad)%nat)
    by (destruct pad; [congruence|cbn; lia]).
  destruct (padRight_loop_spec pad n Hpad (S n) str) as (k & Hk & Hr & Hl);
    [lia|lia|].
  assert (Heq : padRight str pad n = substring 0 n (str ++ times pad (S n))).
  { unfold padRight. rewrite Hr.
    replace (S n) with (k + (S n - k))%nat by lia.
    rewrite times_add, <- append_assoc.
    rewrite (substring_0_prefix n (str ++ times pad k)) by lia.
    reflexivity. }
  assert (Hlong : (n <= String.length (str ++ times pad (S n)))%nat).
  { rewrite length_append, length_times. nia. }
  split; [exact Heq|]. rewrite Heq. split; [|split].
  - apply length_substring. cbn [Nat.add]. exact Hlong.
  - intros Hs. apply substring_0_prefix, Hs.
  - intros Hs.
    replace n with (String.length str + (n - String.length str))%nat at 1
      by lia.
    apply substring_0_app.
Qed.

(** X1.  [padRight(str, pad, length)] with a pad that is not empty
    returns the first [length] bytes of [str] followed by copies of
    [pad]: it has exactly [length] bytes, it cuts a [str] that is longer,
    and it keeps a [str] that is shorter as its beginning. *)
Theorem X1_padRight_result (str pad : string) (n : nat) :
  pad <> "" ->
  padRight str pad n = substring 0 n (str ++ times pad (S n))
  /\ String.length (padRight str pad n) = n
  /\ ((n <= String.length str)%nat -> padRight str pad n = substring 0 n str)
  /\ ((String.length str <= n)%nat ->
      padRight str pad n
      = str ++ substring 0 (n - String.length str) (times pad (S n))).
Proof. apply padRight_eq. Qed.

(** X2.  With the empty pad the loop of [padRight] makes no progress:
    for a [str] of at most [length] bytes it returns in no number of
    rounds. *)
Theorem X2_padRight_empty_pad_never_returns (str : string) (n : nat) :
  (String.length str <= n)%nat ->
  forall fuel : nat, padRight_loop fuel str "" n = None.
Proof.
  intros Hs fuel. induction fuel as [|fuel IH]; [reflexivity|].
  cbn [padRight_loop]. rewrite append_nil_r.
  destruct (Nat.ltb_spec n (String.length str)) as [Hlt|_]; [lia|exact IH].
Qed.

(** X3.  [spaces(howMany)] is [howMany] blanks, the empty text for 0. *)
Theorem X3_spaces_blanks (n : nat) :
  spaces n = Repeat " " n /\ String.length (spaces n) = n.
Proof.
  rewrite spaces_eq. split; [reflexivity|apply length_Repeat].
Qed.

(** ** What the encoders never emit *)

Lemma noneOf_times (p : ascii -> bool) (pad : string) (k : nat) :
  noneOf p pad = true -> noneOf p (times pad k) = true.
Proof.
  intros Hp. induction k as [|k IH]; [reflexivity|].
  cbn [times]. now rewrite noneOf_app, Hp, IH.
Qed.

Lemma noneOf_padRight (p : ascii -> bool) (s : string) (n : nat) :
  p " "%char = false -> noneOf p s = true ->
  noneOf p (padRight s " " n) = true.
Proof.
  intros Hb Hs.
  destruct (padRight_eq s " " n) as [-> _]; [discriminate|].
  apply noneOf_substring. rewrite noneOf_app, Hs.
  rewrite noneOf_times; [reflexivity|]. cbn. now rewrite Hb.
Qed.

Lemma noneOf_pad (p : ascii -> bool) (c : ascii) (v : verb) (s : string) :
  p " "%char = false -> p c = false -> noneOf p s = true ->
  noneOf p (pad c v s) = true.
Proof.
  intros Hb Hc Hs. unfold pad.
  destruct (wid v) as [[|w]|]; try exact Hs.
  destruct (minus v); rewrite noneOf_app, Hs, noneOf_Repeat by assumption;
    reflexivity.
Qed.

Lemma noneOf_truncate (p : ascii -> bool) (n within : nat) (s : string) :
  noneOf p s = true -> noneOf p (truncate n within s) = true.
Proof.
  revert n within. induction s as [|c s IH]; intros n within H;
    [reflexivity|].
  cbn [noneOf] in H. apply andb_true_iff in H. destruct H as [Hc Hs].
  cbn [truncate]. destruct within as [|k].
  - destruct n as [|n]; [reflexivity|].
    cbn [noneOf]. rewrite Hc. apply IH, Hs.
  - cbn [noneOf]. rewrite Hc. apply IH, Hs.
Qed.

Lemma noneOf_fmt_s (p : ascii -> bool) (zp : bool) (v : verb) (s : string) :
  p " "%char = false -> p "0"%char = false -> noneOf p s = true ->
  noneOf p (fmt_s zp v s) = true.
Proof.
  intros Hb H0 Hs. unfold fmt_s. apply noneOf_pad; try assumption.
  - destruct (zero v && negb (minus v) && zp); assumption.
  - destruct (prec v); [apply noneOf_truncate, Hs|exact Hs].
Qed.

Lemma noneOf_fmt_d (p : ascii -> bool) (v : verb) (x : Z) :
  offNumbers p -> noneOf p (fmt_d v x) = true.
Proof.
  intros Hp. pose proof (offNumbers_zero p Hp) as H0.
  pose proof (noneOf_utoa p x Hp) as Hu.
  destruct Hp as (Hd & Hb & Hm & Hdot).
  unfold fmt_d. apply noneOf_pad; try assumption.
  apply noneOf_minus; [repeat split; assumption|].
  destruct (prec v) as [q|].
  - destruct ((q =? 0)%nat && (x =? 0)); [reflexivity|].
    now rewrite noneOf_app, noneOf_Repeat, Hu.
  - destruct (zero v), (wid v); try exact Hu.
    now rewrite noneOf_app, noneOf_Repeat, Hu.
Qed.

Lemma offNumbers_isLF : offNumbers isLF.
Proof.
  repeat split; try reflexivity.
  intros c Hc. unfold isLF. apply Ascii.eqb_neq. intros ->. discriminate.
Qed.

(** ** What a line keeps of a time and of an amount *)

Lemma exp_Round (a : Decimal.t) : Decimal.exp (Decimal.Round a 2) = -2.
Proof.
  unfold Decimal.Round. change (- (2)) with (-2). change (-2 - 1) with (-3).
  destruct (Z.eqb_spec (Decimal.exp a) (-2)) as [He|He]; [exact He|].
  cbn [Decimal.exp]. unfold Decimal.rescale.
  destruct (Z.eqb_spec (Decimal.exp a) (-3)) as [He'|He'].
  - rewrite He'. reflexivity.
  - destruct (_ >? _); reflexivity.
Qed.

Lemma exp_RoundBank (a : Decimal.t) : Decimal.exp (Decimal.RoundBank a 2) = -2.
Proof.
  unfold Decimal.RoundBank. pose proof (exp_Round a) as He.
  destruct (Decimal.Cmp _ _); try exact He.
  destruct (Z.odd _); [|exact He].
  destruct (_ <? _); exact He.
Qed.

Lemma dateOk_dateOnly (d : Time.t) : dateFits d -> dateOk (dateOnly d).
Proof. intros (Hy & Hm & Hd). repeat split; cbn; lia. Qed.

Lemma amountOk_RoundBank (a : Decimal.t) :
  amountFits a -> amountOk (Decimal.RoundBank a 2).
Proof. intros Ha. split; [apply exp_RoundBank|exact Ha]. Qed.

Lemma StringFixedBank_RoundBank (a : Decimal.t) :
  Decimal.StringFixedBank (Decimal.RoundBank a 2) 2
  = Decimal.StringFixedBank a 2.
Proof.
  rewrite StringFixedBank_two_places by apply exp_RoundBank. reflexivity.
Qed.



(** The encoders print the kept values. *)
Lemma Record_Write_kept (zp : bool) (r : TxnRecord.t) :
  Record_Write zp (keptRecord r) = Record_Write zp r.
Proof.
  unfold Record_Write, keptRecord.
  cbn [TxnRecord.BSBNumber TxnRecord.AccountNumber TxnRecord.AccountName
       TxnRecord.TransactionDate TxnRecord.Amount TxnRecord.Indicator
       TxnRecord.TransactionCode TxnRecord.Description
       TxnRecord.ReferenceNumber TxnRecord.SecondaryReferenceNumber
       TxnRecord.ChequeNumber].
  rewrite StringFixedBank_RoundBank. reflexivity.
Qed.

Lemma BatchHeader_Write_kept (zp : bool) (rt : Z) (h : BatchHeader.t) :
  BatchHeader_Write zp (keptBatchHeader rt h) = BatchHeader_Write zp h.
Proof.
  unfold BatchHeader_Write, keptBatchHeader.
  cbn [BatchHeader.BSBNumber BatchHeader.AccountNumber
       BatchHeader.AccountName BatchHeader.TransactionDate
       BatchHeader.Amount BatchHeader.Indicator].
  rewrite StringFixedBank_RoundBank. reflexivity.
Qed.

Lemma BatchTrailer_Write_kept (zp : bool) (t : BatchTrailer.t) :
  BatchTrailer_Write zp (keptBatchTrailer t) = BatchTrailer_Write zp t.
Proof.
  unfold BatchTrailer_Write, keptBatchTrailer.
  cbn [BatchTrailer.recordType BatchTrailer.BSBNumber
       BatchTrailer.AccountNumber BatchTrailer.AccountName
       BatchTrailer.TransactionDate BatchTrailer.Amount
       BatchTrailer.Indicator BatchTrailer.BatchType
       BatchTrailer.ReferenceNumber BatchTrailer.TotalDebitTransactions
       BatchTrailer.TotalCreditTransactions BatchTrailer.TotalDebitAmount
       BatchTrailer.TotalCreditAmount].
  rewrite !StringFixedBank_RoundBank. reflexivity.
Qed.

Lemma FileTrailer_Write_kept (zp : bool) (t : FileTrailer.t) :
  FileTrailer_Write zp (keptFileTrailer t) = FileTrailer_Write zp t.
Proof.
  unfold FileTrailer_Write, keptFileTrailer.
  cbn [FileTrailer.recordType FileTrailer.CustomerNumber
       FileTrailer.CustomerName FileTrailer.TotalDebitTransactions
       FileTrailer.TotalCreditTransactions FileTrailer.TotalDebitAmount
       FileTrailer.TotalCreditAmount].
  rewrite !StringFixedBank_RoundBank. reflexivity.
Qed.

Lemma wfRecord_kept (r : TxnRecord.t) :
  recordFits r -> wfRecord (keptRecord r).
Proof.
  intros (H1 & H2 & H3 & H4 & H5 & H6 & H7 & H8 & H9 & H10 & H11).
  unfold wfRecord, keptRecord. cbn.
  repeat split; try apply H1; try apply H2; try apply H3; try apply H6;
    try apply H7; try apply H8; try apply H9; try apply H10; try apply H11;
    try apply (dateOk_dateOnly _ H4); try apply exp_RoundBank; try exact H5.
Qed.

Lemma wfBatchHeader_kept (rt : Z) (h : BatchHeader.t) :
  batchHeaderFits h -> wfBatchHeader (keptBatchHeader rt h).
Proof.
  intros (H1 & H2 & H3 & H4 & H5 & H6).
  unfold wfBatchHeader, keptBatchHeader. cbn.
  repeat split; try apply H1; try apply H2; try apply H3; try apply H6;
    try apply (dateOk_dateOnly _ H4); try apply exp_RoundBank; try exact H5.
Qed.

Lemma wfBatchTrailer_kept (t : BatchTrailer.t) :
  batchTrailerFits t -> wfBatchTrailer (keptBatchTrailer t).
Proof.
  intros (H0 & H1 & H2 & H3 & H4 & H5 & H6 & H7 & H8 & H9 & H10 & H11 & H12).
  unfold wfBatchTrailer, keptBatchTrailer. cbn.
  repeat split; try apply H0; try apply H1; try apply H2; try apply H3;
    try apply H6; try apply H7; try apply H8; try apply H9; try apply H10;
    try apply (dateOk_dateOnly _ H4); try apply exp_RoundBank;
    try exact H5; try exact H11; try exact H12.
Qed.

Lemma wfFileTrailer_kept (zp : bool) (t : FileTrailer.t) :
  fileTrailerFits zp t -> wfFileTrailer zp (keptFileTrailer t).
Proof.
  intros (H0 & H1 & Hz & H2 & H3 & H4 & H5 & H6).
  unfold wfFileTrailer, keptFileTrailer. cbn.
  repeat split; try apply H0; try apply H1; try apply H2; try apply H3;
    try apply H4; try apply exp_RoundBank; try exact H5; try exact H6;
    try exact Hz.
Qed.

(** ** What each kind reads back from its own line *)

Lemma Record_Read_kept (zp : bool) (r r0 : TxnRecord.t) (e : string)
  (wd : World) :
  recordFits r -> terminator e ->
  Record_Read r0 (Record_Write zp r ++ e) wd
  = (keptRecord r, if IsValid r then None else Some ErrInvalidRecord, wd).
Proof.
  intros Hf He. rewrite <- (Record_Write_kept zp r).
  apply (Record_round_trip zp (keptRecord r) r0 e wd);
    [apply wfRecord_kept, Hf|exact He].
Qed.

Lemma BatchHeader_Read_kept (zp : bool) (h h0 : BatchHeader.t)
  (e : string) (wd : World) :
  batchHeaderFits h -> terminator e ->
  BatchHeader_Read h0 (BatchHeader_Write zp h ++ e) wd
  = (keptBatchHeader (BatchHeader.recordType h0) h, None, wd).
Proof.
  intros Hf He.
  rewrite <- (BatchHeader_Write_kept zp (BatchHeader.recordType h0) h).
  exact (BatchHeader_round_trip zp
           (keptBatchHeader (BatchHeader.recordType h0) h) h0 e wd
           (wfBatchHeader_kept _ h Hf) He).
Qed.

Lemma BatchTrailer_Read_kept (zp : bool) (t t0 : BatchTrailer.t)
  (e : string) (wd : World) :
  batchTrailerFits t -> terminator e ->
  BatchTrailer_Read t0 (BatchTrailer_Write zp t ++ e) wd
  = (keptBatchTrailer t, None, wd).
Proof.
  intros Hf He. rewrite <- (BatchTrailer_Write_kept zp t).
  apply (BatchTrailer_round_trip zp _ t0 e wd);
    [apply wfBatchTrailer_kept, Hf|exact He].
Qed.

Lemma FileTrailer_Read_kept (zp : bool) (t t0 : FileTrailer.t)
  (e : string) (wd : World) :
  fileTrailerFits zp t -> terminator e ->
  FileTrailer_Read t0 (FileTrailer_Write zp t ++ e) wd
  = (keptFileTrailer t, None, wd).
Proof.
  intros Hf He. rewrite <- (FileTrailer_Write_kept zp t).
  apply (FileTrailer_round_trip zp _ t0 e wd);
    [apply wfFileTrailer_kept, Hf|exact He].
Qed.





Ltac one_line_field :=
  first
    [ reflexivity
    | assumption
    | apply noneOf_fmt_d, offNumbers_isLF
    | apply noneOf_fmt_s;
      [ reflexivity | reflexivity
      | first
          [ assumption
          | apply noneOf_Format, offNumbers_isLF
          | apply noneOf_StringFixedBank, offNumbers_isLF
          | rewrite spaces_eq; apply noneOf_Repeat; reflexivity ] ] ].

Ltac one_line :=
  apply noneOf_padRight; [reflexivity|];
  rewrite !noneOf_app;
  repeat match goal with
         | |- andb _ _ = true => apply andb_true_intro; split
         end;
  one_line_field.

Ltac forall_inv :=
  repeat match goal with
         | H : Forall _ (_ :: _) |- _ =>
             let H1 := fresh "Hl" in
             let H2 := fresh "Hf" in
             apply Forall_cons_iff in H; destruct H as [H1 H2]
         | H : Forall _ [] |- _ => clear H
         end.

Lemma encode_oneLine (zp : bool) (k : kind) (x : receiver k) :
  Forall oneLine (texts k x) -> oneLine (encode zp k x).
Proof.
  unfold oneLine.
  destruct k; cbn [encode texts]; intros H; forall_inv;
    [ unfold FileHeader_Write | unfold BatchHeader_Write
    | unfold Record_Write | unfold BatchTrailer_Write
    | unfold FileTrailer_Write ]; one_line.
Qed.

Lemma length_encode (zp : bool) (k : kind) (x : receiver k) :
  String.length (encode zp k x) = width k.
Proof. destruct k; apply padRight_length. Qed.

(** X4.  Whatever the fields hold, every [Write] emits exactly the width
    of its kind: 168 bytes for a record, 170 for the other four. *)
Theorem X4_encode_width (zp : bool) (k : kind) (x : receiver k) :
  String.length (encode zp k x) = width k.
Proof. apply length_encode. Qed.

(** X5.  No [Write] emits a line feed unless a string field holds one:
    numbers, dates, amounts and fill never contain it. *)
Theorem X5_encode_one_line (zp : bool) (k : kind) (x : receiver k) :
  Forall oneLine (texts k x) -> oneLine (encode zp k x).
Proof. apply encode_oneLine. Qed.

(** ** Reading the lines that [Write] wrote *)

Lemma ReadString_line (a rest : string) :
  oneLine a -> ReadString (a ++ nl ++ rest) = (a ++ nl, rest, false).
Proof.
  unfold oneLine. induction a as [|c a IH]; intros H.
  - reflexivity.
  - cbn [noneOf] in H. apply andb_true_iff in H. destruct H as [Hc Ha].
    cbn [append]. rewrite ReadString_cons.
    unfold isLF in Hc. apply negb_true_iff in Hc. rewrite Hc.
    rewrite (IH Ha). reflexivity.
Qed.

Lemma ReadString_eol (crlf : bool) (a rest : string) :
  oneLine a ->
  ReadString (a ++ eol crlf ++ rest) = (a ++ eol crlf, rest, false).
Proof.
  intros Ha. destruct crlf; cbn [eol].
  - rewrite (append_assoc cr nl rest), <- (append_assoc a cr (nl ++ rest)).
    rewrite <- (append_assoc a cr nl).
    apply ReadString_line. unfold oneLine in *.
    rewrite noneOf_app, Ha. reflexivity.
  - apply ReadString_line, Ha.
Qed.

Lemma step_line (rd : Reader.t) (wd : World) (line rest : string)
  (eof : bool) (b : ascii) :
  ReadString (line ++ rest) = (line, rest, eof) ->
  firstByte line = Some b ->
  readRecordOrHeaderOrTrailer (setInput rd (line ++ rest)) wd
  = switchRecordType b line (setInput rd rest) wd.
Proof.
  intros HR Hb. unfold readRecordOrHeaderOrTrailer.
  cbn [setInput Reader.r].
  destruct line as [|c l]; [discriminate|]. cbn in Hb. injection Hb as ->.
  cbn [append] in *. rewrite HR. reflexivity.
Qed.

Lemma loop_step (n : nat) (rd rd' : Reader.t) (wd wd' : World) :
  readRecordOrHeaderOrTrailer rd wd = (Val None, rd', wd') ->
  ReadAll_loop (S n) rd wd = ReadAll_loop n rd' wd'.
Proof.
  intros H. cbn [ReadAll_loop]. unfold bind. rewrite H. reflexivity.
Qed.

Lemma length_eol (crlf : bool) : terminator (eol crlf).
Proof. destruct crlf; [right|left]; reflexivity. Qed.

Lemma firstByte_app (a b : string) (c : ascii) :
  firstByte a = Some c -> firstByte (a ++ b) = Some c.
Proof. destruct a; [discriminate|]. cbn. auto. Qed.

Lemma firstByte_padRight (c : ascii) (s : string) (n : nat) :
  firstByte (padRight (String c s) " " (S n)) = Some c.
Proof.
  destruct (padRight_eq (String c s) " " (S n)) as [-> _]; [discriminate|].
  reflexivity.
Qed.

Lemma firstByte_encode (zp : bool) (k : kind) (x : receiver k) :
  match k return receiver k -> Prop with
  | KFileHeader => fun h => FileHeader.recordType h = 0
  | KBatchHeader => fun _ => True
  | KRecord => fun _ => True
  | KBatchTrailer => fun t => BatchTrailer.recordType t = 7
  | KFileTrailer => fun t => FileTrailer.recordType t = 9
  end x ->
  firstByte (encode zp k x)
  = Some match k with
         | KFileHeader => "0"
         | KBatchHeader => "1"
         | KRecord => "2"
         | KBatchTrailer => "7"
         | KFileTrailer => "9"
         end%char.
Proof.
  destruct k; cbn [encode]; intros H;
    [ unfold FileHeader_Write | unfold BatchHeader_Write
    | unfold Record_Write | unfold BatchTrailer_Write
    | unfold FileTrailer_Write ];
    try rewrite H;
    try change (fmt_d v_ 0) with "0";
    try change (fmt_d v_ 7) with "7";
    try change (fmt_d v_ 9) with "9";
    cbn [append]; apply firstByte_padRight.
Qed.

Lemma elemAt_snoc {A : Type} (s : list A) (x : A) :
  elemAt (s ++ [x]) (len_ (s ++ [x]) - 1) = Some x.
Proof.
  unfold elemAt, len_. rewrite List.length_app. cbn [List.length].
  destruct (Z.ltb_spec (Z.of_nat (List.length s + 1) - 1) 0); [lia|].
  destruct (Z.leb_spec (Z.of_nat (List.length s + 1))
              (Z.of_nat (List.length s + 1) - 1)); [lia|].
  cbn [orb].
  replace (Z.to_nat (Z.of_nat (List.length s + 1) - 1)) with (List.length s)
    by lia.
  rewrite nth_error_app2 by lia. rewrite Nat.sub_diag. reflexivity.
Qed.

Lemma store_snoc {A : Type} (s : list A) (x y : A) :
  store (s ++ [x]) (Z.to_nat (len_ (s ++ [x]) - 1)) y = (s ++ [y])%list.
Proof.
  unfold len_. rewrite List.length_app. cbn [List.length].
  replace (Z.to_nat (Z.of_nat (List.length s + 1) - 1)) with (List.length s)
    by lia.
  induction s as [|a s IH]; [reflexivity|].
  cbn [app List.length store]. rewrite IH. reflexivity.
Qed.

(** The five cases of the switch on a line that decodes. *)
Lemma switch_file_header (line : string) (fh h : FileHeader.t)
  (bs : list Batch.t) (ft : FileTrailer.t) (src : string) (wd : World) :
  FileHeader_Read fh line wd = (h, None, wd) ->
  switchRecordType "0" line (Reader.mk fh bs ft src) wd
  = (Val None, Reader.mk h bs ft src, wd).
Proof.
  intros H. unfold switchRecordType. cbn [Ascii.eqb Bool.eqb Reader.FileHeader].
  unfold bind. rewrite H. reflexivity.
Qed.

Lemma switch_batch_header (line : string) (fh : FileHeader.t)
  (bh : BatchHeader.t) (bs : list Batch.t) (ft : FileTrailer.t)
  (src : string) (wd : World) :
  BatchHeader_Read BatchHeader.zero line wd = (bh, None, wd) ->
  switchRecordType "1" line (Reader.mk fh bs ft src) wd
  = (Val None,
     Reader.mk fh (bs ++ [Batch.mk bh [] BatchTrailer.zero]) ft src, wd).
Proof.
  intros H. unfold switchRecordType. cbn [Ascii.eqb Bool.eqb].
  unfold bind. cbn [Batch.BatchHeader Batch.zero]. rewrite H. reflexivity.
Qed.

Lemma switch_record (line : string) (fh : FileHeader.t) (r : TxnRecord.t)
  (bs : list Batch.t) (cur : Batch.t) (ft : FileTrailer.t) (src : string)
  (wd : World) :
  Record_Read TxnRecord.zero line wd = (r, None, wd) ->
  IsValid r = true ->
  switchRecordType "2" line (Reader.mk fh (bs ++ [cur]) ft src) wd
  = (Val None,
     Reader.mk fh
       (bs ++ [Batch.mk (Batch.BatchHeader cur) (Batch.Records cur ++ [r])
                 (Batch.BatchTrailer cur)])
       ft src,
     wd).
Proof.
  intros H Hv. unfold switchRecordType. cbn [Ascii.eqb Bool.eqb].
  unfold bind. rewrite H, Hv. cbn [Reader.Batch].
  rewrite elemAt_snoc. unfold ret, setBatch. cbn [Reader.Batch].
  rewrite store_snoc. reflexivity.
Qed.

Lemma switch_batch_trailer (line : string) (fh : FileHeader.t)
  (t : BatchTrailer.t) (bs : list Batch.t) (cur : Batch.t)
  (ft : FileTrailer.t) (src : string) (wd : World) :
  BatchTrailer_Read BatchTrailer.zero line wd = (t, None, wd) ->
  switchRecordType "7" line (Reader.mk fh (bs ++ [cur]) ft src) wd
  = (Val None,
     Reader.mk fh
       (bs ++ [Batch.mk (Batch.BatchHeader cur) (Batch.Records cur) t])
       ft src,
     wd).
Proof.
  intros H. unfold switchRecordType. cbn [Ascii.eqb Bool.eqb].
  unfold bind. cbn [Batch.BatchTrailer Batch.zero]. rewrite H.
  cbn [Reader.Batch].
  rewrite elemAt_snoc. unfold ret, setBatch. cbn [Reader.Batch].
  rewrite store_snoc. reflexivity.
Qed.

Lemma switch_file_trailer (line : string) (fh : FileHeader.t)
  (ft t : FileTrailer.t) (bs : list Batch.t) (src : string) (wd : World) :
  FileTrailer_Read ft line wd = (t, None, wd) ->
  switchRecordType "9" line (Reader.mk fh bs ft src) wd
  = (Val None, Reader.mk fh bs t src, wd).
Proof.
  intros H. unfold switchRecordType. cbn [Ascii.eqb Bool.eqb Reader.FileTrailer].
  unfold bind. rewrite H. reflexivity.
Qed.

(** One line of the kind [k], read from the front of the input. *)
Lemma read_line (zp crlf : bool) (k : kind) (x : receiver k) (rest : string)
  (rd : Reader.t) (wd : World) (b : ascii) :
  Forall oneLine (texts k x) ->
  firstByte (encode zp k x) = Some b ->
  readRecordOrHeaderOrTrailer
    (setInput rd ((encode zp k x ++ eol crlf) ++ rest)) wd
  = switchRecordType b (encode zp k x ++ eol crlf) (setInput rd rest) wd.
Proof.
  intros Hx Hb.
  apply (step_line rd wd _ rest false b).
  - rewrite append_assoc. apply ReadString_eol, encode_oneLine, Hx.
  - apply firstByte_app, Hb.
Qed.

Lemma read_line_mk (zp crlf : bool) (k : kind) (x : receiver k)
  (rest : string) (fh : FileHeader.t) (bs : list Batch.t)
  (ft : FileTrailer.t) (wd : World) (b : ascii) :
  Forall oneLine (texts k x) ->
  firstByte (encode zp k x) = Some b ->
  readRecordOrHeaderOrTrailer
    (Reader.mk fh bs ft ((encode zp k x ++ eol crlf) ++ rest)) wd
  = switchRecordType b (encode zp k x ++ eol crlf) (Reader.mk fh bs ft rest)
      wd.
Proof.
  intros Hx Hb.
  exact (read_line zp crlf k x rest (Reader.mk fh bs ft "") wd b Hx Hb).
Qed.

Section ReadBack.

Variable zp crlf : bool.
Variable fh : FileHeader.t.
Variable ft : FileTrailer.t.
Variable wd : World.

(** The record lines of a batch, read into the reader's last batch. *)
Lemma read_records (rs : list TxnRecord.t) :
  Forall recordReadable rs ->
  forall (bs : list Batch.t) (cur : Batch.t) (rest : string) (n : nat),
    ReadAll_loop (List.length rs + n)
      (Reader.mk fh (bs ++ [cur]) ft (recordLines zp crlf rs ++ rest)) wd
    = ReadAll_loop n
        (Reader.mk fh
           (bs ++ [Batch.mk (Batch.BatchHeader cur)
                     (Batch.Records cur ++ map keptRecord rs)
                     (Batch.BatchTrailer cur)])
           ft rest) wd.
Proof.
  induction 1 as [|r rs (Hv & Hfit & Hone) _ IH]; intros bs cur rest n.
  - cbn [recordLines fold_right List.length Nat.add map append].
    rewrite List.app_nil_r. destruct cur; reflexivity.
  - cbn [List.length Nat.add recordLines fold_right map].
    fold (recordLines zp crlf rs).
    rewrite !append_assoc.
    rewrite <- (append_assoc (Record_Write zp r) (eol crlf)).
    erewrite loop_step.
    2:{ etransitivity;
          [exact (read_line_mk zp crlf KRecord r _ fh _ ft wd "2" Hone
                    (firstByte_encode zp KRecord r I))|].
        cbn [encode]. apply switch_record.
        - rewrite (Record_Read_kept zp r _ _ wd Hfit (length_eol crlf)).
          rewrite Hv. reflexivity.
        - exact Hv. }
    rewrite IH. cbn [Batch.BatchHeader Batch.Records Batch.BatchTrailer].
    rewrite <- List.app_assoc. reflexivity.
Qed.

(** A batch: its header line, its record lines, its trailer line. *)
Lemma read_batch (b : Batch.t) (t : BatchTrailer.t) :
  batchReadable b ->
  BatchTrailer.recordType t = 7 ->
  batchTrailerFits t ->
  Forall oneLine (texts KBatchTrailer t) ->
  forall (bs : list Batch.t) (rest : string) (n : nat),
    ReadAll_loop (2 + List.length (Batch.Records b) + n)
      (Reader.mk fh bs ft (batchText zp crlf b t ++ rest)) wd
    = ReadAll_loop n
        (Reader.mk fh
           (bs ++ [Batch.mk (keptBatchHeader 0 (Batch.BatchHeader b))
                     (map keptRecord (Batch.Records b))
                     (keptBatchTrailer t)])
           ft rest) wd.
Proof.
  intros (Hh & Hho & Hrs & _) Ht7 Htf Hto bs rest n.
  unfold batchText. rewrite !append_assoc.
  rewrite <- (append_assoc (BatchHeader_Write zp (Batch.BatchHeader b))
                (eol crlf)).
  cbn [Nat.add].
  erewrite loop_step.
  2:{ etransitivity;
        [exact (read_line_mk zp crlf KBatchHeader (Batch.BatchHeader b) _
                  fh bs ft wd "1" Hho
                  (firstByte_encode zp KBatchHeader _ I))|].
      cbn [encode]. apply switch_batch_header.
      apply (BatchHeader_Read_kept zp _ _ _ wd Hh (length_eol crlf)). }
  cbn [BatchHeader.recordType BatchHeader.zero].
  replace (S (List.length (Batch.Records b) + n))
    with (List.length (Batch.Records b) + S n)%nat by lia.
  rewrite (read_records _ Hrs).
  cbn [Batch.BatchHeader Batch.Records Batch.BatchTrailer app].
  rewrite <- (append_assoc (BatchTrailer_Write zp t) (eol crlf)).
  erewrite loop_step.
  2:{ etransitivity;
        [exact (read_line_mk zp crlf KBatchTrailer t _ fh _ ft wd "7" Hto
                  (firstByte_encode zp KBatchTrailer t Ht7))|].
      cbn [encode]. apply switch_batch_trailer.
      apply (BatchTrailer_Read_kept zp _ _ _ wd Htf (length_eol crlf)). }
  cbn [Batch.BatchHeader Batch.Records Batch.BatchTrailer].
  reflexivity.
Qed.

Lemma read_batches (bs : list Batch.t) :
  Forall batchReadable bs ->
  forall (ts : list BatchTrailer.t),
    List.length ts = List.length bs ->
    trailersReadable ts ->
    forall (bs0 : list Batch.t) (rest : string),
    exists j, forall n,
      ReadAll_loop (j + n)
        (Reader.mk fh bs0 ft (batchesText zp crlf bs ts ++ rest)) wd
      = ReadAll_loop n (Reader.mk fh (bs0 ++ readBack bs ts) ft rest) wd.
Proof.
  induction 1 as [|b bs Hb _ IH]; intros ts Hlen Hts bs0 rest.
  - destruct ts; [|discriminate]. exists O. intros n.
    cbn [batchesText readBack append Nat.add]. rewrite List.app_nil_r.
    reflexivity.
  - destruct ts as [|t ts]; [discriminate|].
    apply Forall_cons_iff in Hts. destruct Hts as [(H7 & Hf & Ho) Hts].
    cbn [batchesText readBack].
    destruct (IH ts ltac:(cbn in Hlen; lia) Hts
                (bs0 ++ [Batch.mk (keptBatchHeader 0 (Batch.BatchHeader b))
                           (map keptRecord (Batch.Records b))
                           (keptBatchTrailer t)])%list rest) as [j Hj].
    exists (2 + List.length (Batch.Records b) + j)%nat. intros n.
    rewrite append_assoc, <- Nat.add_assoc.
    rewrite (read_batch b t Hb H7 Hf Ho). rewrite Hj.
    rewrite <- List.app_assoc. reflexivity.
Qed.

End ReadBack.

Lemma tallyFile_frame (omit : bool) (rs : list TxnRecord.t)
  (t : FileTrailer.t) :
  let t' := fold_left (tallyFile omit) rs t in
  FileTrailer.recordType t' = FileTrailer.recordType t
  /\ FileTrailer.CustomerNumber t' = FileTrailer.CustomerNumber t
  /\ FileTrailer.CustomerName t' = FileTrailer.CustomerName t.
Proof.
  revert t. induction rs as [|r rs IH]; intros t; [repeat split|].
  cbn [fold_left]. destruct (IH (tallyFile omit t r)) as (H1 & H2 & H3).
  cbv zeta. rewrite H1, H2, H3. unfold tallyFile.
  destruct omit; [repeat split|].
  destruct (String.eqb _ Debit); [repeat split|].
  destruct (String.eqb _ Credit); repeat split.
Qed.

Lemma fileTotals_frame (omit : bool) (bs : list Batch.t)
  (t : FileTrailer.t) :
  let t' := fileTotals omit bs t in
  FileTrailer.recordType t' = FileTrailer.recordType t
  /\ FileTrailer.CustomerNumber t' = FileTrailer.CustomerNumber t
  /\ FileTrailer.CustomerName t' = FileTrailer.CustomerName t.
Proof.
  unfold fileTotals. revert t.
  induction bs as [|b bs IH]; intros t; [repeat split|].
  cbn [fold_left].
  destruct (IH (fold_left (tallyFile omit) (Batch.Records b) t))
    as (H1 & H2 & H3).
  destruct (tallyFile_frame omit (Batch.Records b) t) as (G1 & G2 & G3).
  cbv zeta in *. rewrite H1, H2, H3, G1, G2, G3. repeat split.
Qed.

Lemma trailers_readable (omit : bool) (clk : nat -> Time.t)
  (bs : list Batch.t) :
  Forall batchReadable bs ->
  forall (t0 k : nat),
    Forall batchTrailerFits (trailers omit clk t0 k bs) ->
    trailersReadable (trailers omit clk t0 k bs).
Proof.
  unfold trailersReadable.
  induction 1 as [|b bs (Hh & Ho & Hrs & H7) _ IH]; intros t0 k Hf;
    [constructor|].
  cbn [trailers] in *. apply Forall_cons_iff in Hf. destruct Hf as [Hf Hfs].
  constructor; [|apply IH, Hfs].
  split; [exact H7|]. split; [exact Hf|].
  cbn [texts] in *.
  apply Forall_cons_iff in Ho. destruct Ho as [O1 Ho].
  apply Forall_cons_iff in Ho. destruct Ho as [O2 Ho].
  apply Forall_cons_iff in Ho. destruct Ho as [O3 _].
  unfold batchTrailer.
  cbn [BatchTrailer.BSBNumber BatchTrailer.AccountNumber
       BatchTrailer.AccountName BatchTrailer.Indicator
       BatchTrailer.BatchType].
  repeat constructor; try assumption.
  destruct (_ <? _); reflexivity.
Qed.

Lemma allValid_readable (bs : list Batch.t) :
  Forall batchReadable bs -> allValidBatches bs.
Proof.
  unfold allValidBatches, allValid.
  induction 1 as [|b bs (_ & _ & Hrs & _) _ IH]; constructor; [|exact IH].
  clear IH. induction Hrs as [|r rs (Hv & _) _ IH]; constructor; assumption.
Qed.

Lemma readBack_length (bs : list Batch.t) (ts : list BatchTrailer.t) :
  List.length ts = List.length bs ->
  List.length (readBack bs ts) = List.length bs.
Proof.
  revert ts. induction bs as [|b bs IH]; intros [|t ts] H;
    try discriminate; [reflexivity|].
  cbn in *. rewrite IH by lia. reflexivity.
Qed.

(** [FileHeader.Read] accepts every line of one of the two lengths. *)
Lemma FileHeader_Read_accepts (h : FileHeader.t) (l : string) (wd : World) :
  badLength l 171 172 = false ->
  FileHeader_Read h l wd = (fst (fst (FileHeader_Read h l wd)), None, wd).
Proof. unfold FileHeader_Read. intros ->. reflexivity. Qed.

Lemma badLength_encode (zp : bool) (k : kind) (x : receiver k) (e : string) :
  terminator e ->
  badLength (encode zp k x ++ e) (width k + 1) (width k + 2) = false.
Proof.
  intros He. unfold badLength.
  rewrite length_append, (length_encode zp k x).
  destruct He as [-> | ->].
  - rewrite Nat.eqb_refl. reflexivity.
  - rewrite (Nat.eqb_refl (width k + 2)). apply andb_false_r.
Qed.

Lemma FileTrailer_Read_accepts (t : FileTrailer.t) (l : string) (wd : World) :
  badLength l 171 172 = false ->
  FileTrailer_Read t l wd = (fst (fst (FileTrailer_Read t l wd)), None, wd).
Proof. unfold FileTrailer_Read. intros ->. reflexivity. Qed.

(** The file that [Write] writes, read back by [ReadAll]. *)
Lemma fileText_read (zp crlf : bool) (fh : FileHeader.t)
  (bs : list Batch.t) (ts : list BatchTrailer.t) (ft : FileTrailer.t)
  (wd : World) :
  FileHeader.recordType fh = 0 ->
  Forall oneLine (texts KFileHeader fh) ->
  Forall batchReadable bs ->
  List.length ts = List.length bs ->
  trailersReadable ts ->
  FileTrailer.recordType ft = 9 ->
  Forall oneLine (texts KFileTrailer ft) ->
  ReadAll (NewReader (fileText zp crlf fh bs ts ft)) wd
  = (Some (Returned (readBack bs ts) None),
     Reader.mk
       (fst (fst (FileHeader_Read FileHeader.zero
                    (FileHeader_Write zp fh ++ eol crlf) wd)))
       (readBack bs ts)
       (fst (fst (FileTrailer_Read FileTrailer.zero
                    (FileTrailer_Write zp ft ++ eol crlf) wd)))
       "",
     wd).
Proof.
  intros H0 Hfho Hbs Hlen Hts H9 Hfto.
  destruct (read_batches zp crlf
              (fst (fst (FileHeader_Read FileHeader.zero
                           (FileHeader_Write zp fh ++ eol crlf) wd)))
              FileTrailer.zero wd bs Hbs ts Hlen Hts []
              (FileTrailer_Write zp ft ++ eol crlf)) as [j Hj].
  apply (ReadAll_loop_agree (1 + (j + 2))).
  unfold NewReader, fileText.
  rewrite <- (append_assoc (FileHeader_Write zp fh) (eol crlf)).
  cbn [Nat.add].
  erewrite loop_step.
  2:{ etransitivity;
        [exact (read_line_mk zp crlf KFileHeader fh _ _ _ _ wd "0" Hfho
                  (firstByte_encode zp KFileHeader fh H0))|].
      cbn [encode]. apply switch_file_header.
      apply FileHeader_Read_accepts.
      exact (badLength_encode zp KFileHeader fh _ (length_eol crlf)). }
  rewrite Hj. cbn [app Nat.add].
  replace (FileTrailer_Write zp ft ++ eol crlf)
    with ((FileTrailer_Write zp ft ++ eol crlf) ++ "") at 1
    by apply append_nil_r.
  erewrite loop_step.
  2:{ etransitivity;
        [exact (read_line_mk zp crlf KFileTrailer ft _ _ _ _ wd "9" Hfto
                  (firstByte_encode zp KFileTrailer ft H9))|].
      cbn [encode]. apply switch_file_trailer.
      apply FileTrailer_Read_accepts.
      exact (badLength_encode zp KFileTrailer ft _ (length_eol crlf)). }
  reflexivity.
Qed.

(** [Write] and then [ReadAll] on what it wrote. *)
Lemma Write_ReadAll (zp : bool) (w : Writer.t) (wd wdr : World) :
  Writer.wr w = "" ->
  Writer.Batch w <> [] ->
  FileHeader.recordType (Writer.FileHeader w) = 0 ->
  Forall oneLine (texts KFileHeader (Writer.FileHeader w)) ->
  Forall batchReadable (Writer.Batch w) ->
  Forall batchTrailerFits
    (trailers (Writer.OmitBatchTotals w) (clock wd) (ticks wd) 0
       (Writer.Batch w)) ->
  FileTrailer.recordType (Writer.FileTrailer w) = 9 ->
  Forall oneLine (texts KFileTrailer (Writer.FileTrailer w)) ->
  exists (w' : Writer.t) (wd' : World) (fh : FileHeader.t)
         (ft : FileTrailer.t),
    Writer_Write zp w wd = (None, w', wd')
    /\ ReadAll (NewReader (Writer.wr w')) wdr
       = (Some (Returned
                  (readBack (Writer.Batch w)
                     (trailers (Writer.OmitBatchTotals w) (clock wd)
                        (ticks wd) 0 (Writer.Batch w)))
                  None),
          Reader.mk fh
            (readBack (Writer.Batch w)
               (trailers (Writer.OmitBatchTotals w) (clock wd) (ticks wd) 0
                  (Writer.Batch w)))
            ft "",
          wdr)
    /\ List.length
         (readBack (Writer.Batch w)
            (trailers (Writer.OmitBatchTotals w) (clock wd) (ticks wd) 0
               (Writer.Batch w)))
       = List.length (Writer.Batch w)
    /\ fh = fst (fst (FileHeader_Read FileHeader.zero
                        (FileHeader_Write zp (Writer.FileHeader w)
                         ++ eol (Writer.CRLFLineEndings w)) wdr))
    /\ (fileTrailerFits zp (Writer.FileTrailer w') ->
        ft = keptFileTrailer (Writer.FileTrailer w')).
Proof.
  intros Hwr Hne H0 Hfho Hbs Htf H9 Hfto.
  pose proof (Write_valid zp w wd Hne (allValid_readable _ Hbs)) as HW.
  cbv zeta in HW. rewrite Hwr in HW. cbn [append] in HW.
  destruct (fileTotals_frame (Writer.OmitBatchTotals w) (Writer.Batch w)
              (Writer.FileTrailer w)) as (F1 & F2 & F3).
  cbv zeta in F1, F2, F3.
  do 4 eexists. split; [exact HW|].
  unfold withTrailerOut. cbn [Writer.wr Writer.FileTrailer].
  split; [|split; [apply readBack_length, trailers_length|split]].
  - apply fileText_read; try assumption.
    + apply trailers_length.
    + apply trailers_readable; assumption.
    + rewrite F1. exact H9.
    + cbn [texts] in *. rewrite F2, F3. exact Hfto.
  - reflexivity.
  - intros Hfit.
    rewrite (FileTrailer_Read_kept zp _ _ _ wdr Hfit
               (length_eol (Writer.CRLFLineEndings w))).
    reflexivity.
Qed.

(** X17.  What [Write] writes, [ReadAll] reads back.  Take a writer with
    an empty sink and at least one batch, whose file header and file
    trailer have the record types 0 and 9 and whose batch trailers have
    the record type 7, as [NewWriter] and [NewBatch] make them; whose
    records are valid; whose fields fit their columns (the strings
    ASCII, kept by [strings.TrimSpace] and within the width) and hold
    no line feed; and whose computed batch trailers fit their columns.  Then
    [Write] returns nil, and [ReadAll] on what it wrote returns, with no
    error and no log line, one batch for each batch written: the header
    with record type 0, the records with record type 2, the trailer that
    [Write] computed, each with dates for times and amounts to two
    places.  The reader's file header is what [FileHeader.Read] makes of
    the header line, and its file trailer is the one written, to two
    places, when that fits its columns. *)
Theorem X17_Write_then_ReadAll (zp : bool) (w : Writer.t) (wd wdr : World) :
  Writer.wr w = "" ->
  Writer.Batch w <> [] ->
  FileHeader.recordType (Writer.FileHeader w) = 0 ->
  Forall oneLine (texts KFileHeader (Writer.FileHeader w)) ->
  Forall batchReadable (Writer.Batch w) ->
  Forall batchTrailerFits
    (trailers (Writer.OmitBatchTotals w) (clock wd) (ticks wd) 0
       (Writer.Batch w)) ->
  FileTrailer.recordType (Writer.FileTrailer w) = 9 ->
  Forall oneLine (texts KFileTrailer (Writer.FileTrailer w)) ->
  exists (w' : Writer.t) (wd' : World) (fh : FileHeader.t)
         (ft : FileTrailer.t),
    Writer_Write zp w wd = (None, w', wd')
    /\ ReadAll (NewReader (Writer.wr w')) wdr
       = (Some (Returned
                  (readBack (Writer.Batch w)
                     (trailers (Writer.OmitBatchTotals w) (clock wd)
                        (ticks wd) 0 (Writer.Batch w)))
                  None),
          Reader.mk fh
            (readBack (Writer.Batch w)
               (trailers (Writer.OmitBatchTotals w) (clock wd) (ticks wd) 0
                  (Writer.Batch w)))
            ft "",
          wdr)
    /\ List.length
         (readBack (Writer.Batch w)
            (trailers (Writer.OmitBatchTotals w) (clock wd) (ticks wd) 0
               (Writer.Batch w)))
       = List.length (Writer.Batch w)
    /\ fh = fst (fst (FileHeader_Read FileHeader.zero
                        (FileHeader_Write zp (Writer.FileHeader w)
                         ++ eol (Writer.CRLFLineEndings w)) wdr))
    /\ (fileTrailerFits zp (Writer.FileTrailer w') ->
        ft = keptFileTrailer (Writer.FileTrailer w')).
Proof. apply Write_ReadAll. Qed.

(** ** [Writer.Write] on every writer *)

(** What [Write] ends in: one of the three outcomes. *)
Lemma Write_outcome (zp : bool) (w : Writer.t) (wd : World) :
  (Writer.Batch w = []
   /\ Writer_Write zp w wd = (Some ErrInsufficientBatches, w, wd))
  \/ (Writer.Batch w <> [] /\ allValidBatches (Writer.Batch w)
      /\ exists ft out,
           Writer_Write zp w wd
           = (None, withTrailerOut w ft (Writer.wr w ++ out),
              tick (List.length (Writer.Batch w)) wd)
           /\ ft = fileTotals (Writer.OmitBatchTotals w) (Writer.Batch w)
                     (Writer.FileTrailer w))
  \/ (exists bs1 b bs2 rs1 r rs2 ft out,
        Writer.Batch w = (bs1 ++ b :: bs2)%list
        /\ allValidBatches bs1
        /\ Batch.Records b = (rs1 ++ r :: rs2)%list
        /\ allValid rs1 /\ IsValid r = false
        /\ Writer_Write zp w wd
           = (Some (invalidRecordAt (List.length rs1)),
              withTrailerOut w ft (Writer.wr w ++ out),
              tick (List.length bs1) wd)
        /\ ft = fold_left (tallyFile (Writer.OmitBatchTotals w)) rs1
                  (fileTotals (Writer.OmitBatchTotals w) bs1
                     (Writer.FileTrailer w))).
Proof.
  destruct (Writer.Batch w) as [|b0 bs0] eqn:Hbs.
  - left. split; [reflexivity|]. apply Write_empty, Hbs.
  - right. rewrite <- Hbs.
    destruct (first_invalid_batch (Writer.Batch w))
      as [Hv|(bs1 & b & bs2 & rs1 & r & rs2 & Hsplit & Hv1 & Hrs & Hv & Hr)].
    + left. split; [congruence|]. split; [exact Hv|].
      do 2 eexists. split; [|reflexivity].
      apply Write_valid; [congruence|exact Hv].
    + right. exists bs1, b, bs2, rs1, r, rs2. do 2 eexists.
      repeat split; try eassumption.
      rewrite (Write_first_invalid zp w wd bs1 bs2 b rs1 rs2 r) by assumption.
      reflexivity.
Qed.

(** X11.  What the value that [Write] returns tells of the writer.  A
    [Write] that returns nil had a batch and no invalid record.  [Write]
    returns [ErrInsufficientBatches] exactly when the writer has no
    batch.  Every other error that it returns is the invalid-record
    error with the index, in its batch, of the first record of the file
    that fails [IsValid]. *)
Theorem X11_Write_result (zp : bool) (w : Writer.t) (wd : World) :
  (fst (fst (Writer_Write zp w wd)) = None ->
   Writer.Batch w <> [] /\ allValidBatches (Writer.Batch w))
  /\ (fst (fst (Writer_Write zp w wd)) = Some ErrInsufficientBatches
      <-> Writer.Batch w = [])
  /\ (forall e : error,
        fst (fst (Writer_Write zp w wd)) = Some e ->
        e <> ErrInsufficientBatches ->
        exists (bs1 bs2 : list Batch.t) (b : Batch.t)
               (rs1 rs2 : list TxnRecord.t) (r : TxnRecord.t),
          Writer.Batch w = (bs1 ++ b :: bs2)%list
          /\ allValidBatches bs1
          /\ Batch.Records b = (rs1 ++ r :: rs2)%list
          /\ allValid rs1 /\ IsValid r = false
          /\ e = invalidRecordAt (List.length rs1)).
Proof.
  destruct (Write_outcome zp w wd)
    as [[Hb HW]|[(Hb & Hv & ft & out & HW & _)
                |(bs1 & b & bs2 & rs1 & r & rs2 & ft & out & Hs & Hv1 & Hrs
                  & Hv & Hr & HW & _)]];
    rewrite HW; cbn [fst].
  - split; [|split].
    + discriminate.
    + split; [intros _; exact Hb|reflexivity].
    + intros e [= <-] He. contradiction.
  - split; [|split].
    + intros _. split; assumption.
    + split; [discriminate|]. intros H. contradiction.
    + intros e H. discriminate.
  - assert (Hne : Writer.Batch w <> [])
      by (rewrite Hs; destruct bs1; discriminate).
    split; [|split].
    + discriminate.
    + split; [discriminate|]. intros H. contradiction.
    + intros e [= <-] _. exists bs1, bs2, b, rs1, rs2, r.
      repeat split; assumption.
Qed.

(** X12.  [Write] logs nothing, on any writer and whatever it returns: the
    branch of the switch that would log an unknown transaction type is
    behind the validity check and never runs.  It leaves the clock as it
    was and reads it at most once for each batch. *)
Theorem X12_Write_never_logs (zp : bool) (w : Writer.t) (wd : World) :
  logs (snd (Writer_Write zp w wd)) = logs wd
  /\ clock (snd (Writer_Write zp w wd)) = clock wd
  /\ (ticks wd <= ticks (snd (Writer_Write zp w wd))
      <= ticks wd + List.length (Writer.Batch w))%nat.
Proof.
  destruct (Write_outcome zp w wd)
    as [[Hb HW]|[(Hb & Hv & ft & out & HW & _)
                |(bs1 & b & bs2 & rs1 & r & rs2 & ft & out & Hs & Hv1 & Hrs
                  & Hv & Hr & HW & _)]];
    rewrite HW; cbn [snd tick logs clock ticks]; repeat split; try lia.
  rewrite Hs, List.length_app. lia.
Qed.

(** X13.  Whatever [Write] returns, it leaves the writer's batches, file
    header and two options as they were, keeps the record type, customer
    number and customer name of the file trailer, and only appends to
    the sink; with [OmitBatchTotals] the file trailer is untouched. *)
Theorem X13_Write_frame_always (zp : bool) (w : Writer.t) (wd : World) :
  let w' := snd (fst (Writer_Write zp w wd)) in
  Writer.Batch w' = Writer.Batch w
  /\ Writer.FileHeader w' = Writer.FileHeader w
  /\ Writer.OmitBatchTotals w' = Writer.OmitBatchTotals w
  /\ Writer.CRLFLineEndings w' = Writer.CRLFLineEndings w
  /\ FileTrailer.recordType (Writer.FileTrailer w')
     = FileTrailer.recordType (Writer.FileTrailer w)
  /\ FileTrailer.CustomerNumber (Writer.FileTrailer w')
     = FileTrailer.CustomerNumber (Writer.FileTrailer w)
  /\ FileTrailer.CustomerName (Writer.FileTrailer w')
     = FileTrailer.CustomerName (Writer.FileTrailer w)
  /\ (exists out : string, Writer.wr w' = Writer.wr w ++ out)
  /\ (Writer.OmitBatchTotals w = true ->
      Writer.FileTrailer w' = Writer.FileTrailer w).
Proof.
  cbv zeta.
  destruct (Write_outcome zp w wd)
    as [[Hb HW]|[(Hb & Hv & ft & out & HW & Hft)
                |(bs1 & b & bs2 & rs1 & r & rs2 & ft & out & Hs & Hv1 & Hrs
                  & Hv & Hr & HW & Hft)]];
    rewrite HW; cbn [fst snd withTrailerOut Writer.Batch Writer.FileHeader
                     Writer.OmitBatchTotals Writer.CRLFLineEndings
                     Writer.FileTrailer Writer.wr].
  - repeat split. exists "". symmetry. apply append_nil_r.
  - destruct (fileTotals_frame (Writer.OmitBatchTotals w) (Writer.Batch w)
                (Writer.FileTrailer w)) as (F1 & F2 & F3).
    cbv zeta in F1, F2, F3. subst ft.
    repeat split; try assumption; [eauto|].
    intros ->. apply fileTotals_omit.
  - destruct (fileTotals_frame (Writer.OmitBatchTotals w) bs1
                (Writer.FileTrailer w)) as (F1 & F2 & F3).
    destruct (tallyFile_frame (Writer.OmitBatchTotals w) rs1
                (fileTotals (Writer.OmitBatchTotals w) bs1
                   (Writer.FileTrailer w))) as (G1 & G2 & G3).
    cbv zeta in F1, F2, F3, G1, G2, G3. subst ft.
    repeat split; try congruence; [eauto|].
    intros ->. rewrite fileTotals_omit.
    clear. induction rs1 as [|x rs1 IH]; [reflexivity|exact IH].
Qed.

Lemma length_recordLines (zp crlf : bool) (rs : list TxnRecord.t) :
  String.length (recordLines zp crlf rs)
  = (List.length rs * (168 + String.length (eol crlf)))%nat.
Proof.
  induction rs as [|r rs IH]; [reflexivity|].
  cbn [recordLines fold_right List.length]. fold (recordLines zp crlf rs).
  pose proof (length_encode zp KRecord r) as Hr. cbn [encode width] in Hr.
  rewrite !length_append, IH, Hr. lia.
Qed.

Lemma length_batchesText (zp crlf : bool) (bs : list Batch.t)
  (ts : list BatchTrailer.t) :
  List.length ts = List.length bs ->
  String.length (batchesText zp crlf bs ts)
  = (2 * List.length bs * (170 + String.length (eol crlf))
     + recordCount bs * (168 + String.length (eol crlf)))%nat.
Proof.
  revert ts. induction bs as [|b bs IH]; intros [|t ts] Hlen;
    try discriminate; [reflexivity|].
  cbn [batchesText recordCount fold_right List.length].
  fold (recordCount bs). unfold batchText.
  rewrite !length_append, IH by (cbn in Hlen; lia).
  rewrite length_recordLines.
  pose proof (length_encode zp KBatchHeader (Batch.BatchHeader b)) as Hh.
  pose proof (length_encode zp KBatchTrailer t) as Ht.
  cbn [encode width] in Hh, Ht. rewrite Hh, Ht. lia.
Qed.

Lemma Write_size_eq (zp : bool) (w w' : Writer.t) (wd wd' : World) :
  Writer_Write zp w wd = (None, w', wd') ->
  String.length (Writer.wr w')
  = (String.length (Writer.wr w)
     + (2 + 2 * List.length (Writer.Batch w))
       * (170 + String.length (eol (Writer.CRLFLineEndings w)))
     + recordCount (Writer.Batch w)
       * (168 + String.length (eol (Writer.CRLFLineEndings w))))%nat.
Proof.
  intros HW.
  destruct (Write_success zp w w' wd wd' HW) as [Hne Hv].
  rewrite (Write_valid zp w wd Hne Hv) in HW. cbv zeta in HW.
  injection HW as <- _.
  unfold withTrailerOut. cbn [Writer.wr]. unfold fileText.
  rewrite !length_append.
  rewrite length_batchesText by apply trailers_length.
  pose proof (length_encode zp KFileHeader (Writer.FileHeader w)) as Hh.
  pose proof (length_encode zp KFileTrailer
                (fileTotals (Writer.OmitBatchTotals w) (Writer.Batch w)
                   (Writer.FileTrailer w))) as Ht.
  cbn [encode width] in Hh, Ht. rewrite Hh, Ht. lia.
Qed.

Lemma joinLines_app (e : string) (a b : list string) :
  joinLines e (a ++ b)%list = joinLines e a ++ joinLines e b.
Proof.
  induction a as [|l a IH]; [reflexivity|].
  cbn [app joinLines fold_right]. fold (joinLines e (a ++ b)%list).
  fold (joinLines e a). rewrite IH, !append_assoc. reflexivity.
Qed.

Lemma recordLines_join (zp crlf : bool) (rs : list TxnRecord.t) :
  recordLines zp crlf rs = joinLines (eol crlf) (map (Record_Write zp) rs).
Proof.
  induction rs as [|r rs IH]; [reflexivity|].
  cbn [recordLines map joinLines fold_right].
  fold (recordLines zp crlf rs).
  fold (joinLines (eol crlf) (map (Record_Write zp) rs)).
  rewrite IH. reflexivity.
Qed.

Lemma batchesText_lines (zp crlf : bool) (bs : list Batch.t)
  (ts : list BatchTrailer.t) :
  List.length ts = List.length bs ->
  exists ls : list string,
    batchesText zp crlf bs ts = joinLines (eol crlf) ls
    /\ map String.length ls = flat_map batchWidths bs.
Proof.
  revert ts. induction bs as [|b bs IH]; intros [|t ts] Hlen;
    try discriminate.
  - exists []. split; reflexivity.
  - destruct (IH ts) as (ls & Hls & Hw); [cbn in Hlen; lia|].
    exists ((BatchHeader_Write zp (Batch.BatchHeader b)
             :: map (Record_Write zp) (Batch.Records b)
             ++ [BatchTrailer_Write zp t]) ++ ls)%list.
    split.
    + cbn [batchesText]. unfold batchText.
      rewrite joinLines_app, Hls, recordLines_join.
      cbn [joinLines fold_right].
      fold (joinLines (eol crlf)
              (map (Record_Write zp) (Batch.Records b)
               ++ [BatchTrailer_Write zp t])%list).
      rewrite joinLines_app. cbn [joinLines fold_right].
      rewrite (append_nil_r (eol crlf)). reflexivity.
    + cbn [flat_map]. rewrite map_app, Hw. f_equal.
      unfold batchWidths. cbn [map]. rewrite map_app, map_map. cbn [map].
      pose proof (length_encode zp KBatchHeader (Batch.BatchHeader b)) as Hh.
      pose proof (length_encode zp KBatchTrailer t) as Ht.
      cbn [encode] in Hh, Ht. rewrite Hh, Ht. f_equal. f_equal.
      apply map_ext. intros r.
      exact (length_encode zp KRecord r).
Qed.

(** What a [Write] that returns nil has appended, as lines. *)
Lemma Write_lines (zp : bool) (w w' : Writer.t) (wd wd' : World) :
  Writer_Write zp w wd = (None, w', wd') ->
  exists ls : list string,
    Writer.wr w'
    = Writer.wr w ++ joinLines (eol (Writer.CRLFLineEndings w)) ls
    /\ map String.length ls = lineWidths (Writer.Batch w).
Proof.
  intros HW.
  destruct (Write_success zp w w' wd wd' HW) as [Hne Hv].
  rewrite (Write_valid zp w wd Hne Hv) in HW. cbv zeta in HW.
  injection HW as <- _.
  unfold withTrailerOut. cbn [Writer.wr]. unfold fileText.
  destruct (batchesText_lines zp (Writer.CRLFLineEndings w) (Writer.Batch w)
              (trailers (Writer.OmitBatchTotals w) (clock wd) (ticks wd) 0
                 (Writer.Batch w)))
    as (ls & Hls & Hw); [apply trailers_length|].
  exists (FileHeader_Write zp (Writer.FileHeader w)
          :: ls
          ++ [FileTrailer_Write zp
                (fileTotals (Writer.OmitBatchTotals w) (Writer.Batch w)
                   (Writer.FileTrailer w))])%list.
  split.
  - cbn [joinLines fold_right].
    match goal with
    | |- context [fold_right ?f "" (ls ++ ?x)%list] =>
        change (fold_right f "" (ls ++ x)%list)
          with (joinLines (eol (Writer.CRLFLineEndings w)) (ls ++ x)%list)
    end.
    rewrite joinLines_app, Hls. cbn [joinLines fold_right].
    rewrite (append_nil_r (eol (Writer.CRLFLineEndings w))).
    rewrite ?append_assoc. reflexivity.
  - unfold lineWidths. cbn [map]. rewrite map_app, Hw. cbn [map].
    pose proof (length_encode zp KFileHeader (Writer.FileHeader w)) as Hh.
    pose proof (length_encode zp KFileTrailer
                  (fileTotals (Writer.OmitBatchTotals w) (Writer.Batch w)
                     (Writer.FileTrailer w))) as Ht.
    cbn [encode] in Hh, Ht. rewrite Hh, Ht. reflexivity.
Qed.

(** X14.  A [Write] that returns nil has kept what the sink held and
    appended to it a sequence of lines, each followed by the line
    terminator of the writer: one line of 170 bytes for the file header,
    then for each batch in turn one of 170 bytes for its header, one of
    168 bytes for each of its records and one of 170 bytes for its
    trailer, and last one of 170 bytes for the file trailer: nothing
    else, whatever the fields hold.  So the sink has grown by two lines
    of 170 bytes for the file and two for each batch and one of 168
    bytes for each record, with their terminators. *)
Theorem X14_Write_size (zp : bool) (w w' : Writer.t) (wd wd' : World) :
  Writer_Write zp w wd = (None, w', wd') ->
  (exists ls : list string,
     Writer.wr w'
     = Writer.wr w ++ joinLines (eol (Writer.CRLFLineEndings w)) ls
     /\ map String.length ls = lineWidths (Writer.Batch w))
  /\ String.length (Writer.wr w')
     = (String.length (Writer.wr w)
        + (2 + 2 * List.length (Writer.Batch w))
          * (170 + String.length (eol (Writer.CRLFLineEndings w)))
        + recordCount (Writer.Batch w)
          * (168 + String.length (eol (Writer.CRLFLineEndings w))))%nat.
Proof.
  intros HW. split; [apply (Write_lines zp w w' wd wd' HW)|].
  apply (Write_size_eq zp w w' wd wd' HW).
Qed.

(** X15.  The trailer that [Write] writes for a batch it reaches takes its
    routing number, account number and account name from the batch's
    header, always has the batch type ["ST"], whatever the batch's own
    trailer held, keeps that trailer's record type, and carries the
    reading of the clock taken after the batch's records. *)
Theorem X15_Write_batch_trailer_identity (zp : bool) (w : Writer.t) (wd : World)
  (bs1 bs2 : list Batch.t) (b : Batch.t) :
  Writer.Batch w = (bs1 ++ b :: bs2)%list ->
  allValidBatches bs1 ->
  allValid (Batch.Records b) ->
  exists (t : BatchTrailer.t) (rest : string),
    Writer.wr (snd (fst (Writer_Write zp w wd)))
    = Writer.wr w
      ++ FileHeader_Write zp (Writer.FileHeader w)
      ++ eol (Writer.CRLFLineEndings w)
      ++ batchesText zp (Writer.CRLFLineEndings w) bs1
           (trailers (Writer.OmitBatchTotals w) (clock wd) (ticks wd) 0 bs1)
      ++ batchText zp (Writer.CRLFLineEndings w) b t
      ++ rest
    /\ BatchTrailer.BSBNumber t = BatchHeader.BSBNumber (Batch.BatchHeader b)
    /\ BatchTrailer.AccountNumber t
       = BatchHeader.AccountNumber (Batch.BatchHeader b)
    /\ BatchTrailer.AccountName t
       = BatchHeader.AccountName (Batch.BatchHeader b)
    /\ BatchTrailer.BatchType t = BatchTXN
    /\ BatchTrailer.recordType t
       = BatchTrailer.recordType (Batch.BatchTrailer b)
    /\ BatchTrailer.TransactionDate t
       = clock wd (ticks wd + List.length bs1)%nat
    /\ (BatchTrailer.Indicator t = Debit \/ BatchTrailer.Indicator t = Credit).
Proof.
  intros Hs Hv1 Hv.
  destruct (Write_past_batch zp w wd bs1 bs2 b Hs Hv1 Hv) as [rest Hrest].
  eexists. exists rest. split; [exact Hrest|].
  unfold batchTrailer.
  cbn [BatchTrailer.BSBNumber BatchTrailer.AccountNumber
       BatchTrailer.AccountName BatchTrailer.BatchType
       BatchTrailer.recordType BatchTrailer.TransactionDate
       BatchTrailer.Indicator].
  repeat split. destruct (_ <? _); [left|right]; reflexivity.
Qed.

(** ** Where [ReadAll] stops *)

Lemma switch_unknown (b : ascii) (line : string) (rd : Reader.t)
  (wd : World) :
  unknownType b ->
  switchRecordType b line rd wd = (Val (Some ErrUnexpectedRecordType), rd, wd).
Proof.
  intros (H0 & H1 & H2 & H7 & H9). unfold switchRecordType.
  apply Ascii.eqb_neq in H0, H1, H2, H7, H9.
  rewrite H0, H1, H2, H7, H9. reflexivity.
Qed.

Lemma switch_bad_length (k : kind) (line : string) (rd : Reader.t)
  (wd : World) :
  badLength line (width k + 1) (width k + 2) = true ->
  switchRecordType (typeByte k) line rd wd
  = (Val (Some (badKind k)), rd, logged wd (lengthLog k line)).
Proof.
  intros Hlen. unfold switchRecordType, logged.
  destruct k; cbn [typeByte width Nat.add badKind lengthLog] in *;
    cbn [Ascii.eqb Bool.eqb];
    unfold FileHeader_Read, BatchHeader_Read, Record_Read, BatchTrailer_Read,
      FileTrailer_Read, bind, Println, ret;
    rewrite Hlen; cbn; destruct rd, wd; cbn;
    rewrite ?List.app_nil_r; reflexivity.
Qed.

(** One round of [ReadAll] on a line for which the switch returns an
    error. *)
Lemma ReadAll_loop_error_line (rd rd' : Reader.t) (wd wd' : World)
  (line rest : string) (eof : bool) (b : ascii) (e : error) :
  ReadString (line ++ rest) = (line, rest, eof) ->
  firstByte line = Some b ->
  switchRecordType b line (setInput rd rest) wd = (Val (Some e), rd', wd') ->
  ReadAll_loop 1 (setInput rd (line ++ rest)) wd
  = (Some (Returned (Reader.Batch rd') (Some e)), rd',
     logged wd' [readAllLog e]).
Proof.
  intros HR Hb Hsw.
  destruct (switch_input _ _ _ _ _ _ _ Hsw) as [_ Hne].
  cbn [ReadAll_loop]. unfold bind at 1.
  rewrite (step_line rd wd line rest eof b HR Hb), Hsw.
  destruct e; try reflexivity. congruence.
Qed.

(** Reading on from a prefix that was read without error. *)
Lemma ReadAll_after_prefix (rd rd1 rd2 : Reader.t) (wd wd1 wd2 : World)
  (pre X : string) (bs : list Batch.t) (res : readAllResult) :
  terminated pre = true ->
  ReadAll (setInput rd pre) wd = (Some (Returned bs None), rd1, wd1) ->
  ReadAll_loop 1 (setInput rd1 X) wd1 = (Some res, rd2, wd2) ->
  bs = Reader.Batch rd1
  /\ ReadAll (setInput rd (pre ++ X)) wd = (Some res, rd2, wd2).
Proof.
  intros Ht Hpre H1.
  destruct (ReadAll_loop_prefix _ rd rd1 wd wd1 pre X bs Ht Hpre)
    as [Hbs [j Hj]].
  split; [exact Hbs|].
  apply (ReadAll_loop_agree (j + 1)). rewrite Hj. exact H1.
Qed.

(** X20.  A line whose first byte is none of 0, 1, 2, 7 and 9, an empty
    line among them, stops [ReadAll]: it returns the batches read so far
    with [ErrUnexpectedRecordType], logs the error, and leaves the reader
    as it was before the line, with the rest of the input unread. *)
Theorem X20_ReadAll_unexpected_type (rd rd1 : Reader.t) (wd wd1 : World)
  (pre line rest : string) (eof : bool) (b : ascii) (bs : list Batch.t) :
  terminated pre = true ->
  ReadAll (setInput rd pre) wd = (Some (Returned bs None), rd1, wd1) ->
  ReadString (line ++ rest) = (line, rest, eof) ->
  firstByte line = Some b ->
  unknownType b ->
  ReadAll (setInput rd (pre ++ line ++ rest)) wd
  = (Some (Returned bs (Some ErrUnexpectedRecordType)),
     setInput rd1 rest,
     logged wd1 [readAllLog ErrUnexpectedRecordType]).
Proof.
  intros Ht Hpre HR Hb Hu.
  destruct (ReadAll_after_prefix rd rd1 (setInput rd1 rest) wd wd1
              (logged wd1 [readAllLog ErrUnexpectedRecordType])
              pre (line ++ rest) bs
              (Returned (Reader.Batch rd1) (Some ErrUnexpectedRecordType))
              Ht Hpre) as [-> H]; [|exact H].
  apply (ReadAll_loop_error_line rd1 (setInput rd1 rest) wd1 wd1 line rest
           eof b); try assumption.
  apply switch_unknown, Hu.
Qed.

(** X21.  A line of one of the five kinds whose length is neither the
    kind's width plus one nor plus two stops [ReadAll] with the kind's
    length error: it returns the batches read so far, the reader is as
    it was before the line, and the log holds the line of the kind's
    [Read] (none for a record) and then the line of [ReadAll]. *)
Theorem X21_ReadAll_bad_length (k : kind) (rd rd1 : Reader.t) (wd wd1 : World)
  (pre line rest : string) (eof : bool) (bs : list Batch.t) :
  terminated pre = true ->
  ReadAll (setInput rd pre) wd = (Some (Returned bs None), rd1, wd1) ->
  ReadString (line ++ rest) = (line, rest, eof) ->
  firstByte line = Some (typeByte k) ->
  String.length line <> (width k + 1)%nat ->
  String.length line <> (width k + 2)%nat ->
  ReadAll (setInput rd (pre ++ line ++ rest)) wd
  = (Some (Returned bs (Some (badKind k))),
     setInput rd1 rest,
     logged wd1 (lengthLog k line ++ [readAllLog (badKind k)])).
Proof.
  intros Ht Hpre HR Hb H1 H2.
  assert (Hbad : badLength line (width k + 1) (width k + 2) = true)
    by (apply badLength_spec; split; assumption).
  destruct (ReadAll_after_prefix rd rd1 (setInput rd1 rest) wd wd1
              (logged wd1 (lengthLog k line ++ [readAllLog (badKind k)]))
              pre (line ++ rest) bs
              (Returned (Reader.Batch rd1) (Some (badKind k)))
              Ht Hpre) as [-> H]; [|exact H].
  rewrite (ReadAll_loop_error_line rd1 (setInput rd1 rest) wd1
             (logged wd1 (lengthLog k line)) line rest eof (typeByte k)
             (badKind k) HR Hb (switch_bad_length k line _ wd1 Hbad)).
  unfold logged. cbn [logs clock ticks Reader.Batch setInput].
  rewrite <- List.app_assoc. reflexivity.
Qed.

Lemma ReadString_last (line : string) :
  oneLine line -> ReadString line = (line, "", true).
Proof.
  unfold oneLine. induction line as [|c l IH]; intros H; [reflexivity|].
  cbn [noneOf] in H. apply andb_true_iff in H. destruct H as [Hc Hl].
  rewrite ReadString_cons. unfold isLF in Hc.
  apply negb_true_iff in Hc. rewrite Hc, (IH Hl). reflexivity.
Qed.

(** X22.  The last line needs its line feed.  A last line of one of the
    five kinds that has the width of its kind but no line feed after it
    is rejected with the kind's length error, whatever it holds. *)
Theorem X22_ReadAll_unterminated_last_line (k : kind) (rd rd1 : Reader.t)
  (wd wd1 : World) (pre line : string) (bs : list Batch.t) :
  terminated pre = true ->
  ReadAll (setInput rd pre) wd = (Some (Returned bs None), rd1, wd1) ->
  oneLine line ->
  firstByte line = Some (typeByte k) ->
  String.length line = width k ->
  ReadAll (setInput rd (pre ++ line)) wd
  = (Some (Returned bs (Some (badKind k))),
     setInput rd1 "",
     logged wd1 (lengthLog k line ++ [readAllLog (badKind k)])).
Proof.
  intros Ht Hpre Hone Hb Hlen.
  assert (Hbad : badLength line (width k + 1) (width k + 2) = true)
    by (apply badLength_spec; split; lia).
  assert (HR : ReadString (line ++ "") = (line, "", true))
    by (rewrite append_nil_r; apply ReadString_last, Hone).
  destruct (ReadAll_after_prefix rd rd1 (setInput rd1 "") wd wd1
              (logged wd1 (lengthLog k line ++ [readAllLog (badKind k)]))
              pre line bs
              (Returned (Reader.Batch rd1) (Some (badKind k)))
              Ht Hpre) as [-> H]; [|exact H].
  rewrite <- (append_nil_r line) at 1.
  rewrite (ReadAll_loop_error_line rd1 (setInput rd1 "") wd1
             (logged wd1 (lengthLog k line)) line "" true (typeByte k)
             (badKind k) HR Hb (switch_bad_length k line _ wd1 Hbad)).
  unfold logged. cbn [logs clock ticks Reader.Batch setInput].
  rewrite <- List.app_assoc. reflexivity.
Qed.

(** ** Where [ReadAll] panics *)

Lemma Record_Read_valid (r0 : TxnRecord.t) (line : string) (wd : World) :
  badLength line 169 170 = false ->
  IsValid (fst (fst (Record_Read r0 line wd))) = true ->
  exists r, Record_Read r0 line wd = (r, None, wd) /\ IsValid r = true.
Proof.
  unfold Record_Read. intros ->.
  match goal with
  | |- context [negb (IsValid ?r)] => destruct (IsValid r) eqn:Hv
  end; cbn [negb fst ret].
  - intros _. eexists. split; [reflexivity|exact Hv].
  - rewrite Hv. discriminate.
Qed.

Lemma switch_panics (line : string) (rd : Reader.t) (wd : World) (s : site) :
  Reader.Batch rd = [] ->
  (s = AttachTrailer /\ badLength line 171 172 = false)
  \/ (s = AppendRecord /\ badLength line 169 170 = false
      /\ IsValid (fst (fst (Record_Read TxnRecord.zero line wd))) = true) ->
  switchRecordType (match s with AppendRecord => "2" | AttachTrailer => "7" end)
    line rd wd
  = (Panic (IndexOutOfRange s (-1) 0), rd, wd).
Proof.
  intros Hb [[-> Hlen]|(-> & Hlen & Hv)]; unfold switchRecordType;
    cbn [Ascii.eqb Bool.eqb]; unfold bind.
  - unfold BatchTrailer_Read. rewrite Hlen. unfold ret.
    rewrite Hb. reflexivity.
  - destruct (Record_Read_valid _ line wd Hlen Hv) as (r & -> & Hr).
    rewrite Hr, Hb. reflexivity.
Qed.

(** X23.  While the reader holds no batch, a ['7'] line of an accepted
    length, and a ['2'] line that decodes to a valid record, make
    [ReadAll] panic: the index of the last batch is -1 in a list of
    length 0.  Nothing is logged and the line is consumed. *)
Theorem X23_ReadAll_panics_without_batch (rd rd1 : Reader.t) (wd wd1 : World)
  (pre line rest : string) (eof : bool) (s : site) :
  terminated pre = true ->
  ReadAll (setInput rd pre) wd = (Some (Returned [] None), rd1, wd1) ->
  ReadString (line ++ rest) = (line, rest, eof) ->
  firstByte line
  = Some (match s with AppendRecord => "2" | AttachTrailer => "7" end)%char ->
  match s with
  | AttachTrailer => badLength line 171 172 = false
  | AppendRecord =>
      badLength line 169 170 = false
      /\ IsValid (fst (fst (Record_Read TxnRecord.zero line wd1))) = true
  end ->
  ReadAll (setInput rd (pre ++ line ++ rest)) wd
  = (Some (Panicked (IndexOutOfRange s (-1) 0)), setInput rd1 rest, wd1).
Proof.
  intros Ht Hpre HR Hb Hline.
  assert (Hline' :
            (s = AttachTrailer /\ badLength line 171 172 = false)
            \/ (s = AppendRecord /\ badLength line 169 170 = false
                /\ IsValid (fst (fst (Record_Read TxnRecord.zero line wd1)))
                   = true))
    by (destruct s; [right; split; [reflexivity|exact Hline]
                    |left; split; [reflexivity|exact Hline]]).
  clear Hline. rename Hline' into Hline.
  destruct (ReadAll_loop_prefix _ rd rd1 wd wd1 pre (line ++ rest) []
              Ht Hpre) as [Hbs [j Hj]].
  apply (ReadAll_loop_agree (j + 1)). rewrite Hj.
  cbn [ReadAll_loop]. unfold bind at 1.
  rewrite (step_line rd1 wd1 line rest eof _ HR Hb).
  rewrite (switch_panics line (setInput rd1 rest) wd1 s); [reflexivity| |].
  - cbn [setInput Reader.Batch]. congruence.
  - exact Hline.
Qed.

Lemma switch_no_batch_line (b : ascii) (line : string) (rd rd' : Reader.t)
  (wd wd' : World) (res : outcome (option error)) :
  b <> "2"%char -> b <> "7"%char ->
  switchRecordType b line rd wd = (res, rd', wd') ->
  (forall p, res <> Panic p)
  /\ (b = "1"%char -> res = Val None -> Reader.Batch rd' <> []).
Proof.
  intros Hb2 Hb7.
  unfold switchRecordType, FileHeader_Read, BatchHeader_Read, Record_Read,
    BatchTrailer_Read, FileTrailer_Read, bind, ret, Println.
  destruct (Ascii.eqb_spec b "0") as [->|_];
    [|destruct (Ascii.eqb_spec b "1") as [->|_];
      [|destruct (Ascii.eqb_spec b "2") as [->|_];
        [|destruct (Ascii.eqb_spec b "7") as [->|_];
          [|destruct (Ascii.eqb_spec b "9") as [->|_]]]]].
  - destruct (badLength line 171 172); cbn; intros [= <- <- <-];
      (split; [discriminate|discriminate]).
  - destruct (badLength line 171 172); cbn; intros [= <- <- <-];
      (split; [discriminate|]).
    + discriminate.
    + intros _ _. cbn. destruct (Reader.Batch rd); discriminate.
  - congruence.
  - congruence.
  - destruct (badLength line 171 172); cbn; intros [= <- <- <-];
      (split; [discriminate|discriminate]).
  - intros [= <- <- <-]. split; discriminate.
Qed.

Lemma headerBeforeBatchLines_tail (l : string) (ls : list string) :
  headerBeforeBatchLines (l :: ls) ->
  firstByte l <> Some "1"%char ->
  headerBeforeBatchLines ls.
Proof.
  intros H Hl j l2 Hj H2.
  destruct (H (S j) l2 Hj H2) as (i & l' & Hi & Hn & H1).
  destruct i as [|i].
  - cbn in Hn. injection Hn as <-. contradiction.
  - exists i, l'. repeat split; [lia|exact Hn|exact H1].
Qed.

Lemma headerBeforeBatchLines_head (l : string) (ls : list string) :
  headerBeforeBatchLines (l :: ls) ->
  firstByte l <> Some "2"%char /\ firstByte l <> Some "7"%char.
Proof.
  intros H. split; intros H2.
  - destruct (H O l eq_refl (or_introl H2)) as (i & _ & Hi & _). lia.
  - destruct (H O l eq_refl (or_intror H2)) as (i & _ & Hi & _). lia.
Qed.

Lemma step_index_safe (rd rd' : Reader.t) (wd wd' : World)
  (res : outcome (option error)) :
  indexSafe rd ->
  readRecordOrHeaderOrTrailer rd wd = (res, rd', wd') ->
  (forall p, res <> Panic p) /\ (res = Val None -> indexSafe rd').
Proof.
  intros Hsafe. unfold readRecordOrHeaderOrTrailer.
  destruct (Reader.r rd) as [|b s] eqn:Hr.
  - intros [= <- <- <-]. split; discriminate.
  - destruct (ReadString (String b s)) as [[line rest] eof] eqn:HR.
    destruct (splitLines_ReadString _ _ _ _ _ HR) as [Hsplit Hfirst].
    intros Hsw.
    destruct (switch_input _ _ _ _ _ _ _ Hsw) as [Hin _].
    cbn [setInput Reader.r] in Hin.
    destruct Hsafe as [Hopen|Hpre].
    + assert (Hopen' : Reader.Batch (setInput rd rest) <> []) by exact Hopen.
      destruct (switch_open _ _ _ _ _ _ _ Hopen' Hsw) as [Hp Hb].
      split; [exact Hp|]. intros _. left. exact Hb.
    + rewrite Hr, Hsplit in Hpre.
      destruct (headerBeforeBatchLines_head _ _ Hpre) as [H2 H7].
      rewrite Hfirst in H2, H7.
      assert (Hb2 : b <> "2"%char) by congruence.
      assert (Hb7 : b <> "7"%char) by congruence.
      destruct (switch_no_batch_line _ _ _ _ _ _ _ Hb2 Hb7 Hsw) as [Hp Hone].
      split; [exact Hp|]. intros Hres.
      destruct (Ascii.eqb_spec b "1") as [Hb1|Hb1].
      * left. apply Hone; assumption.
      * right. rewrite Hin.
        apply (headerBeforeBatchLines_tail line); [exact Hpre|].
        rewrite Hfirst. congruence.
Qed.

Lemma ReadAll_loop_index_safe (n : nat) (rd rd' : Reader.t) (wd wd' : World)
  (res : readAllResult) :
  indexSafe rd ->
  ReadAll_loop n rd wd = (Some res, rd', wd') ->
  forall p, res <> Panicked p.
Proof.
  revert rd wd. induction n as [|n IH]; intros rd wd Hsafe; [discriminate|].
  cbn [ReadAll_loop]. unfold bind.
  destruct (readRecordOrHeaderOrTrailer rd wd) as [[r1 rd1] wd1] eqn:Hstep.
  destruct (step_index_safe _ _ _ _ _ Hsafe Hstep) as [Hp Hnext].
  destruct r1 as [[err|]|p].
  - destruct err; unfold Println, ret; cbn; intros [= <- <- <-]; discriminate.
  - apply IH, Hnext. reflexivity.
  - exfalso. exact (Hp p eq_refl).
Qed.

(** X24.  [ReadAll] returns, and does not panic, whenever the reader
    already holds a batch or a ['1'] line comes before every ['2'] and
    ['7'] line of the unread input: a ['1'] line either opens a batch or
    stops the read. *)
Theorem X24_ReadAll_never_panics (rd : Reader.t) (wd : World) :
  Reader.Batch rd <> []
  \/ headerBeforeBatchLines (splitLines (Reader.r rd)) ->
  exists (bs : list Batch.t) (err : option error) (rd' : Reader.t)
         (wd' : World),
    ReadAll rd wd = (Some (Returned bs err), rd', wd').
Proof.
  intros Hsafe.
  destruct (ReadAll_returns rd wd) as (res & rd' & wd' & HR).
  destruct res as [bs err|p].
  - exists bs, err, rd', wd'. exact HR.
  - exfalso. exact (ReadAll_loop_index_safe _ _ _ _ _ _ Hsafe HR p eq_refl).
Qed.

(** ** What [ReadAll] ends in *)

(** X18.  [ReadAll] ends on every input: one call of
    [readRecordOrHeaderOrTrailer] for each unread byte and one more are
    always enough, and more rounds give the same result. *)
Theorem X18_ReadAll_terminates (rd : Reader.t) (wd : World) :
  exists (res : readAllResult) (rd' : Reader.t) (wd' : World),
    ReadAll rd wd = (Some res, rd', wd')
    /\ forall n : nat,
         (String.length (Reader.r rd) < n)%nat ->
         ReadAll_loop n rd wd = (Some res, rd', wd').
Proof.
  destruct (ReadAll_returns rd wd) as (res & rd' & wd' & HR).
  exists res, rd', wd'. split; [exact HR|].
  intros n Hn. apply (ReadAll_loop_more_fuel _ n _ _ _ _ _ HR). exact Hn.
Qed.

Lemma switch_ok_world (b : ascii) (line : string) (rd rd' : Reader.t)
  (wd wd' : World) :
  switchRecordType b line rd wd = (Val None, rd', wd') -> wd' = wd.
Proof.
  unfold switchRecordType, FileHeader_Read, BatchHeader_Read, Record_Read,
    BatchTrailer_Read, FileTrailer_Read, bind, ret, Println.
  destruct (Ascii.eqb b "0"); [|destruct (Ascii.eqb b "1");
    [|destruct (Ascii.eqb b "2"); [|destruct (Ascii.eqb b "7");
      [|destruct (Ascii.eqb b "9")]]]].
  - destruct (badLength line 171 172); cbn; intros [= <- <-];
      try discriminate; reflexivity.
  - destruct (badLength line 171 172); cbn; [discriminate|].
    intros [= <- <-]. reflexivity.
  - destruct (badLength line 169 170); cbn; [discriminate|].
    match goal with |- context [negb ?v] => destruct v eqn:Hv end; cbn;
      [|discriminate].
    rewrite Hv.
    destruct (elemAt (Reader.Batch rd) (len_ (Reader.Batch rd) - 1));
      [|discriminate].
    intros [= <- <-]. reflexivity.
  - destruct (badLength line 171 172); cbn; [discriminate|].
    destruct (elemAt (Reader.Batch rd) (len_ (Reader.Batch rd) - 1));
      [|discriminate].
    intros [= <- <-]. reflexivity.
  - destruct (badLength line 171 172); cbn; [discriminate|].
    intros [= <- <-]. reflexivity.
  - discriminate.
Qed.

Lemma switch_panic_shape (b : ascii) (line : string) (rd rd' : Reader.t)
  (wd wd' : World) (p : panic) :
  switchRecordType b line rd wd = (Panic p, rd', wd') ->
  wd' = wd /\ Reader.Batch rd' = []
  /\ exists s, p = IndexOutOfRange s (-1) 0.
Proof.
  destruct (Reader.Batch rd) as [|b0 bs0] eqn:Hbs.
  - unfold switchRecordType, FileHeader_Read, BatchHeader_Read, Record_Read,
      BatchTrailer_Read, FileTrailer_Read, bind, ret, Println.
    rewrite Hbs.
    destruct (Ascii.eqb b "0"); [|destruct (Ascii.eqb b "1");
      [|destruct (Ascii.eqb b "2"); [|destruct (Ascii.eqb b "7");
        [|destruct (Ascii.eqb b "9")]]]].
    + destruct (badLength line 171 172); cbn; discriminate.
    + destruct (badLength line 171 172); cbn; discriminate.
    + destruct (badLength line 169 170); cbn; [discriminate|].
      match goal with |- context [negb ?v] => destruct v eqn:Hv end; cbn;
        [|discriminate].
      rewrite Hv. cbn. intros [= <- <- <-]. repeat split; eauto.
    + destruct (badLength line 171 172); cbn; [discriminate|].
      intros [= <- <- <-]. repeat split; eauto.
    + destruct (badLength line 171 172); cbn; discriminate.
    + discriminate.
  - intros Hsw.
    assert (Hne : Reader.Batch rd <> []) by (rewrite Hbs; discriminate).
    destruct (switch_open _ _ _ _ _ _ _ Hne Hsw) as [Hp _].
    exfalso. exact (Hp p eq_refl).
Qed.

Lemma step_shape (rd rd' : Reader.t) (wd wd' : World)
  (res : outcome (option error)) :
  readRecordOrHeaderOrTrailer rd wd = (res, rd', wd') ->
  match res with
  | Val None => wd' = wd
  | Val (Some EOF) => Reader.r rd = "" /\ rd' = rd /\ wd' = wd
  | Val (Some _) => True
  | Panic p =>
      wd' = wd /\ Reader.Batch rd' = []
      /\ exists s, p = IndexOutOfRange s (-1) 0
  end.
Proof.
  unfold readRecordOrHeaderOrTrailer.
  destruct (Reader.r rd) as [|b s] eqn:Hr.
  - intros [= <- <- <-]. repeat split.
  - destruct (ReadString (String b s)) as [[line rest] eof].
    intros Hsw. destruct (switch_input _ _ _ _ _ _ _ Hsw) as [_ Hne].
    destruct res as [[e|]|p].
    + destruct e; try exact I. congruence.
    + apply (switch_ok_world _ _ _ _ _ _ Hsw).
    + apply (switch_panic_shape _ _ _ _ _ _ _ Hsw).
Qed.

Lemma ReadAll_loop_shape (n : nat) (rd rd' : Reader.t) (wd wd' : World)
  (res : readAllResult) :
  ReadAll_loop n rd wd = (Some res, rd', wd') ->
  match res with
  | Returned bs None => Reader.r rd' = "" /\ bs = Reader.Batch rd' /\ wd' = wd
  | Returned bs (Some e) =>
      e <> EOF /\ bs = Reader.Batch rd'
      /\ (exists ls, wd' = logged wd (ls ++ [readAllLog e]))
      /\ (String.length (Reader.r rd') < String.length (Reader.r rd))%nat
  | Panicked p =>
      wd' = wd /\ Reader.Batch rd' = []
      /\ (exists s, p = IndexOutOfRange s (-1) 0)
      /\ (String.length (Reader.r rd') < String.length (Reader.r rd))%nat
  end.
Proof.
  revert rd wd. induction n as [|n IH]; intros rd wd; [discriminate|].
  cbn [ReadAll_loop]. unfold bind.
  destruct (readRecordOrHeaderOrTrailer rd wd) as [[r1 rd1] wd1] eqn:Hstep.
  pose proof (step_shape _ _ _ _ _ Hstep) as Hshape.
  assert (Hcons : Reader.r rd <> "" ->
                  (String.length (Reader.r rd1) < String.length (Reader.r rd))%nat).
  { intros Hne. apply (step_consumes _ _ _ _ _ Hne Hstep). }
  destruct r1 as [[e|]|p].
  - assert (Hlog : forall e', e' <> EOF -> e = e' ->
              (Println ("readRecordOrHeaderOrTrailer " ++ Error e') ;;
               ret (Some (Returned (Reader.Batch rd1) (Some e')), rd1))%go wd1
              = (Some res, rd', wd') ->
              match res with
              | Returned bs None =>
                  Reader.r rd' = "" /\ bs = Reader.Batch rd' /\ wd' = wd
              | Returned bs (Some e0) =>
                  e0 <> EOF /\ bs = Reader.Batch rd'
                  /\ (exists ls, wd' = logged wd (ls ++ [readAllLog e0]))
                  /\ (String.length (Reader.r rd')
                      < String.length (Reader.r rd))%nat
              | Panicked p =>
                  wd' = wd /\ Reader.Batch rd' = []
                  /\ (exists s, p = IndexOutOfRange s (-1) 0)
                  /\ (String.length (Reader.r rd')
                      < String.length (Reader.r rd))%nat
              end).
    { intros e' Hne He. unfold bind, Println, ret. intros [= <- <- <-].
      split; [exact Hne|]. split; [reflexivity|].
      assert (Hr : Reader.r rd <> "").
      { intros Hr. rewrite (step_empty rd wd Hr) in Hstep. congruence. }
      split; [|apply Hcons, Hr].
      clear - Hstep Hr.
      unfold readRecordOrHeaderOrTrailer in Hstep.
      destruct (Reader.r rd) as [|b s]; [congruence|].
      destruct (ReadString (String b s)) as [[line rest] eof].
      revert Hstep. generalize (setInput rd rest). intros rd0.
      unfold switchRecordType, FileHeader_Read, BatchHeader_Read,
        Record_Read, BatchTrailer_Read, FileTrailer_Read, bind, ret, Println,
        logged, readAllLog.
      destruct (Ascii.eqb b "0"); [|destruct (Ascii.eqb b "1");
        [|destruct (Ascii.eqb b "2"); [|destruct (Ascii.eqb b "7");
          [|destruct (Ascii.eqb b "9")]]]].
      - destruct (badLength line 171 172); cbn; intros [= <- <- <-].
        eexists [_]. cbn. rewrite <- List.app_assoc. reflexivity.
      - destruct (badLength line 171 172); cbn; intros [= <- <- <-].
        eexists [_]. cbn. rewrite <- List.app_assoc. reflexivity.
      - destruct (badLength line 169 170); cbn.
        + intros [= <- <- <-]. exists []. destruct wd; reflexivity.
        + match goal with |- context [negb ?v] => destruct v eqn:Hv end; cbn.
          * rewrite Hv.
            destruct (elemAt (Reader.Batch rd0) (len_ (Reader.Batch rd0) - 1));
              intros [= <- <- <-].
          * intros [= <- <- <-]. exists []. destruct wd; reflexivity.
      - destruct (badLength line 171 172); cbn.
        + intros [= <- <- <-].
          eexists [_]. cbn. rewrite <- List.app_assoc. reflexivity.
        + destruct (elemAt (Reader.Batch rd0) (len_ (Reader.Batch rd0) - 1));
            intros [= <- <- <-].
      - destruct (badLength line 171 172); cbn; intros [= <- <- <-].
        eexists [_]. cbn. rewrite <- List.app_assoc. reflexivity.
      - intros [= <- <- <-]. exists []. destruct wd; reflexivity. }
    destruct e; try (apply Hlog; [discriminate|reflexivity]).
    destruct Hshape as (Hr & -> & ->).
    unfold ret. intros [= <- <- <-]. repeat split. exact Hr.
  - subst wd1. intros Hrun. specialize (IH rd1 wd Hrun).
    assert (Hr : Reader.r rd <> "").
    { intros Hr. rewrite (step_empty rd wd Hr) in Hstep. congruence. }
    specialize (Hcons Hr).
    destruct res as [bs [e|]|p]; [| exact IH |].
    + destruct IH as (H1 & H2 & H3 & H4). repeat split; try assumption. lia.
    + destruct IH as (H1 & H2 & H3 & H4). repeat split; try assumption. lia.
  - destruct Hshape as (-> & Hb & Hp).
    unfold ret. intros [= <- <- <-]. repeat split; try assumption.
    apply Hcons. intros Hr. rewrite (step_empty rd wd Hr) in Hstep.
    congruence.
Qed.

(** X19.  What [ReadAll] ends in.  With a nil error the whole input has
    been read, nothing has been logged, and a further [ReadAll] returns
    the same batches again.  With an error, which is never [io.EOF],
    input has been consumed and the last log line is the one of
    [ReadAll].  A panic is the index -1 in the empty batch list, and
    nothing has been logged.  What is returned is the reader's own batch
    list. *)
Theorem X19_ReadAll_result (rd rd' : Reader.t) (wd wd' : World)
  (res : readAllResult) :
  ReadAll rd wd = (Some res, rd', wd') ->
  match res with
  | Returned bs None =>
      Reader.r rd' = "" /\ bs = Reader.Batch rd' /\ wd' = wd
      /\ ReadAll rd' wd' = (Some (Returned bs None), rd', wd')
  | Returned bs (Some e) =>
      e <> EOF /\ bs = Reader.Batch rd'
      /\ (exists ls, wd' = logged wd (ls ++ [readAllLog e]))
      /\ (String.length (Reader.r rd') < String.length (Reader.r rd))%nat
  | Panicked p =>
      wd' = wd /\ Reader.Batch rd' = []
      /\ (exists s, p = IndexOutOfRange s (-1) 0)
      /\ (String.length (Reader.r rd') < String.length (Reader.r rd))%nat
  end.
Proof.
  intros HR. pose proof (ReadAll_loop_shape _ _ _ _ _ _ HR) as H.
  destruct res as [bs [e|]|p]; try exact H.
  destruct H as (Hr & Hb & Hw). repeat split; try assumption.
  apply (ReadAll_loop_agree 1). cbn [ReadAll_loop]. unfold bind.
  rewrite (step_empty rd' wd' Hr). subst bs. reflexivity.
Qed.

(** ** The file header, and the writer of [NewWriter] *)

Lemma wfFileHeader_dated (h : FileHeader.t) :
  fileHeaderFits h -> wfFileHeader (datedFileHeader h).
Proof.
  intros (H0 & H1 & H2 & H3 & H4 & H5 & H6).
  unfold wfFileHeader, datedFileHeader. cbn.
  repeat split; try apply H0; try apply H1; try apply H2; try apply H3;
    try apply H6; try apply (dateOk_dateOnly _ H4);
    try apply (dateOk_dateOnly _ H5).
Qed.

Lemma FileHeader_Write_dated (zp : bool) (h : FileHeader.t) :
  FileHeader_Write zp (datedFileHeader h) = FileHeader_Write zp h.
Proof. reflexivity. Qed.

(** X10.  [FileHeader.Read] of the line [FileHeader.Write] emits for a
    file header whose fields fit (its strings ASCII, kept by
    [strings.TrimSpace] and within the width of their columns) and whose
    customer name is not empty returns nil and logs nothing, gives back the record type, the
    description and the dates of the two times, and does not give back
    the customer number: it reads nine bytes where [Write] wrote eight,
    and the customer number comes back with the first byte of the
    customer name after it. *)
Theorem X10_FileHeader_reads_back (zp : bool) (h h0 : FileHeader.t)
  (e : string) (wd : World) :
  fileHeaderFits h -> terminator e -> FileHeader.CustomerName h <> "" ->
  exists (c : ascii) (got : FileHeader.t),
    FileHeader_Read h0 (FileHeader_Write zp h ++ e) wd = (got, None, wd)
    /\ firstByte (FileHeader.CustomerName h) = Some c
    /\ FileHeader.CustomerNumber got
       = (if zp
          then Repeat "0" (8 - String.length (FileHeader.CustomerNumber h))
          else "")
         ++ FileHeader.CustomerNumber h ++ String c ""
    /\ FileHeader.CustomerNumber got <> FileHeader.CustomerNumber h
    /\ FileHeader.recordType got = FileHeader.recordType h
    /\ FileHeader.FileCreated got = dateOnly (FileHeader.FileCreated h)
    /\ FileHeader.ProcessingDate got = dateOnly (FileHeader.ProcessingDate h)
    /\ FileHeader.Description got = FileHeader.Description h.
Proof.
  intros Hf He Hname.
  destruct (FileHeader.CustomerName h) as [|c name'] eqn:Hn; [congruence|].
  pose proof (wfFileHeader_dated h Hf) as Hwf.
  assert (Hn' : FileHeader.CustomerName (datedFileHeader h) = String c name')
    by exact Hn.
  destruct (FileHeader_reads_shifted zp (datedFileHeader h) h0 e wd c name'
              Hwf He Hn') as (G1 & G2 & G3 & G4 & G5 & G6).
  cbv zeta in G1, G2, G3, G4, G5, G6.
  rewrite FileHeader_Write_dated in G1, G2, G3, G4, G5, G6.
  assert (Hacc : FileHeader_Read h0 (FileHeader_Write zp h ++ e) wd
                 = (fst (fst (FileHeader_Read h0
                                (FileHeader_Write zp h ++ e) wd)),
                    None, wd)).
  { apply FileHeader_Read_accepts.
    exact (badLength_encode zp KFileHeader h e He). }
  exists c. eexists. split; [exact Hacc|].
  split; [reflexivity|]. split; [exact G2|].
  split; [|repeat split; assumption].
  rewrite G2. cbn [datedFileHeader FileHeader.CustomerNumber]. intros Heq.
  apply (f_equal String.length) in Heq.
  rewrite !length_append in Heq. cbn [String.length] in Heq. lia.
Qed.

(** X16.  The writer that [NewWriter] returns can be written as it is:
    when the clock shows dates that the layout prints in eight digits,
    [Write] returns nil and writes four lines, and [ReadAll] reads them
    back as one batch without records, whose header and trailer hold
    the dates that [NewBatch] and [Write] read from the clock, zero
    amounts, the indicator ["CR"] and the batch type ["ST"]. *)
Theorem X16_NewWriter_written_and_read (zp : bool) (wd wdr : World) :
  (forall n : nat, dateFits (clock wd n)) ->
  exists (w' : Writer.t) (wd' : World) (rd' : Reader.t),
    Writer_Write zp (fst (NewWriter wd)) (snd (NewWriter wd))
    = (None, w', wd')
    /\ String.length (Writer.wr w') = 684%nat
    /\ ReadAll (NewReader (Writer.wr w')) wdr
       = (Some (Returned
                  [Batch.mk
                     (BatchHeader.mk 0 "" "" "" (dateOnly (clock wd (2 + ticks wd)))
                        (Decimal.New 0 (-2)) "")
                     []
                     (BatchTrailer.mk 7 "" "" ""
                        (dateOnly (clock wd (4 + ticks wd)))
                        (Decimal.New 0 (-2)) Credit BatchTXN 0 0 0
                        (Decimal.New 0 (-2)) (Decimal.New 0 (-2)))]
                  None),
          rd', wdr).
Proof.
  intros Hclk.
  destruct (Write_ReadAll zp (fst (NewWriter wd)) (snd (NewWriter wd)) wdr)
    as (w' & wd' & fh & ft & HW & HR & _).
  - reflexivity.
  - discriminate.
  - reflexivity.
  - repeat constructor.
  - constructor; [|constructor].
    split; [|split; [repeat constructor|split; [constructor|reflexivity]]].
    repeat split; try reflexivity; try apply Hclk; vm_compute; lia.
  - constructor; [|constructor].
    repeat split; try reflexivity; try apply Hclk;
      vm_compute; first [lia|discriminate].
  - reflexivity.
  - repeat constructor.
  - exists w', wd'. eexists. split; [exact HW|]. split; [|exact HR].
    pose proof (Write_size_eq zp _ _ _ _ HW) as Hs. exact Hs.
Qed.

(** ** Validity survives the line *)

Lemma length_substring_le (s : string) (n : nat) :
  (String.length (substring 0 n s) <= n)%nat.
Proof.
  revert n. induction s as [|c s IH]; intros [|n]; cbn; try lia.
  specialize (IH n). lia.
Qed.

(** A string verb whose precision is its width always fills exactly the
    width. *)
Lemma length_fmt_s_exact (zp m z : bool) (w : nat) (s : string) :
  isASCII s = true ->
  String.length (fmt_s zp (mkVerb m z (Some w) (Some w)) s) = w.
Proof.
  intros Ha. unfold fmt_s, pad. cbn [prec wid minus].
  rewrite truncate_ascii by exact Ha.
  rewrite RuneCount_ascii by (apply isASCII_substring, Ha).
  pose proof (length_substring_le s w) as Hle.
  destruct w as [|w].
  - destruct (substring 0 0 s); [reflexivity|cbn in Hle; lia].
  - destruct m; rewrite length_append, length_Repeat; lia.
Qed.

Lemma bsb_shape (s : string) :
  bsbNumberRegEx_MatchString s = true ->
  String.length s = 7%nat /\ isASCII s = true /\ blankFree s.
Proof.
  unfold bsbNumberRegEx_MatchString.
  destruct s as [|a [|b [|c [|h [|d [|e [|f [|g s]]]]]]]]; try discriminate.
  intros H. repeat (apply andb_true_iff in H; destruct H as [H ?]).
  split; [reflexivity|]. split.
  { match goal with Hh : Ascii.eqb h _ = true |- _ =>
      apply Ascii.eqb_eq in Hh; subst h end.
    unfold isASCII. cbn [noneOf].
    repeat match goal with
           | Hd : isDigit ?x = true |- _ =>
               rewrite (isDigit_low x Hd); clear Hd
           end.
    reflexivity. }
  apply blankFree_ends.
  - cbn. now rewrite (isDigit_not_space a H).
  - cbn. match goal with Hf : isDigit f = true |- _ =>
      now rewrite (isDigit_not_space f Hf) end.
Qed.

(** [Record.Write] emits the fields up to the indicator, when they are
    within the line, and fills or cuts what follows. *)
Lemma Record_Write_head (zp : bool) (r : TxnRecord.t) (n : nat) :
  String.length (recordHead zp r) = n -> (n <= 168)%nat ->
  exists rest : string,
    Record_Write zp r = recordHead zp r ++ rest
    /\ String.length rest = (168 - n)%nat.
Proof.
  intros LP Hn.
  pose proof (length_encode zp KRecord r) as Hlen. cbn [encode width] in Hlen.
  unfold Record_Write in *.
  match goal with
  | |- context [padRight ?str " " 168] =>
      assert (Estr : exists R, str = recordHead zp r ++ R)
        by (eexists; unfold recordHead; rewrite !append_assoc; reflexivity);
      destruct Estr as [R Estr]; rewrite Estr in *
  end.
  destruct (padRight_eq (recordHead zp r ++ R) " " 168) as [Heq _];
    [discriminate|].
  rewrite Heq in *. clear Heq.
  rewrite append_assoc in *.
  assert (ES : substring 0 168 (recordHead zp r ++ R ++ times " " 169)
               = recordHead zp r
                 ++ substring 0 (168 - n) (R ++ times " " 169)).
  { rewrite <- substring_0_app, LP. f_equal. lia. }
  rewrite ES in *.
  eexists. split; [reflexivity|].
  rewrite length_append in Hlen. lia.
Qed.

(** The line of a record, as its first seven fields and the rest. *)
Lemma Record_Write_fields (zp : bool) (r : TxnRecord.t) :
  isASCII (TxnRecord.BSBNumber r) = true ->
  isASCII (TxnRecord.AccountNumber r) = true ->
  isASCII (TxnRecord.AccountName r) = true ->
  isASCII (TxnRecord.Indicator r) = true ->
  exists rest : string,
    Record_Write zp r
    = "2"
      ++ fmt_s zp (v_wp 7 7) (TxnRecord.BSBNumber r)
      ++ fmt_s zp (v_wp 9 9) (TxnRecord.AccountNumber r)
      ++ fmt_s zp (v_minus 35 35) (TxnRecord.AccountName r)
      ++ fmt_s zp (v_wp 8 8) (Time.Format (TxnRecord.TransactionDate r))
      ++ fmt_s zp (v_wp 16 16) (Decimal.StringFixedBank (TxnRecord.Amount r) 2)
      ++ fmt_s zp (v_wp 2 2) (TxnRecord.Indicator r)
      ++ rest
    /\ String.length rest = 90%nat.
Proof.
  intros A1 A2 A3 A6.
  pose proof (length_fmt_s_exact zp false false 7 _ A1) as L1.
  pose proof (length_fmt_s_exact zp false false 9 _ A2) as L2.
  pose proof (length_fmt_s_exact zp true false 35 _ A3) as L3.
  pose proof (length_fmt_s_exact zp false false 8 _
                (noneOf_Format high (TxnRecord.TransactionDate r)
                   offNumbers_high)) as L4.
  pose proof (length_fmt_s_exact zp false false 16 _
                (noneOf_StringFixedBank high (TxnRecord.Amount r) 2
                   offNumbers_high)) as L5.
  pose proof (length_fmt_s_exact zp false false 2 _ A6) as L6.
  fold (v_wp 7 7) in L1. fold (v_wp 9 9) in L2. fold (v_minus 35 35) in L3.
  fold (v_wp 8 8) in L4. fold (v_wp 16 16) in L5. fold (v_wp 2 2) in L6.
  destruct (Record_Write_head zp r 78) as (rest & Hr & Lr); [|lia|].
  { unfold recordHead. rewrite !length_append, L1, L2, L3, L4, L5, L6.
    reflexivity. }
  exists rest. split; [|exact Lr].
  rewrite Hr. unfold recordHead. rewrite !append_assoc. reflexivity.
Qed.

(** A record that passes [IsValid] is read back, from the line [Write]
    emits for it, as a record that passes [IsValid]. *)
Lemma valid_record_line (zp : bool) (r r0 : TxnRecord.t) (e : string)
  (wd : World) :
  IsValid r = true -> terminator e ->
  isASCII (TxnRecord.AccountNumber r) = true ->
  isASCII (TxnRecord.AccountName r) = true ->
  exists r' : TxnRecord.t,
    Record_Read r0 (Record_Write zp r ++ e) wd = (r', None, wd)
    /\ TxnRecord.BSBNumber r' = TxnRecord.BSBNumber r
    /\ TxnRecord.Indicator r' = TxnRecord.Indicator r
    /\ IsValid r' = true.
Proof.
  intros Hv He A2 A3.
  assert (Hbsb : bsbNumberRegEx_MatchString (TxnRecord.BSBNumber r) = true).
  { unfold IsValid in Hv. destruct (_ || _); [exact Hv|discriminate]. }
  destruct (bsb_shape _ Hbsb) as (Lb & A1 & Tb).
  assert (A6 : isASCII (TxnRecord.Indicator r) = true)
    by (destruct (IsValid_indicator r Hv) as [-> | ->]; reflexivity).
  assert (R1 : TrimSpace (fmt_s zp (v_wp 7 7) (TxnRecord.BSBNumber r))
               = TxnRecord.BSBNumber r).
  { rewrite fmt_s_wp by (first [exact A1|lia]).
    apply TrimSpace_left_fill; assumption. }
  assert (R6 : TrimSpace (fmt_s zp (v_wp 2 2) (TxnRecord.Indicator r))
               = TxnRecord.Indicator r).
  { destruct (IsValid_indicator r Hv) as [-> | ->]; destruct zp; reflexivity. }
  destruct (Record_Write_fields zp r A1 A2 A3 A6) as (rest & -> & Lr).
  pose proof (length_fmt_s_exact zp false false 7 _ A1) as L1.
  pose proof (length_fmt_s_exact zp false false 9 _ A2) as L2.
  pose proof (length_fmt_s_exact zp true false 35 _ A3) as L3.
  pose proof (length_fmt_s_exact zp false false 8 _
                (noneOf_Format high (TxnRecord.TransactionDate r)
                   offNumbers_high)) as L4.
  pose proof (length_fmt_s_exact zp false false 16 _
                (noneOf_StringFixedBank high (TxnRecord.Amount r) 2
                   offNumbers_high)) as L5.
  pose proof (length_fmt_s_exact zp false false 2 _ A6) as L6.
  fold (v_wp 7 7) in L1. fold (v_wp 9 9) in L2. fold (v_minus 35 35) in L3.
  fold (v_wp 8 8) in L4. fold (v_wp 16 16) in L5. fold (v_wp 2 2) in L6.
  assert (L0 : String.length "2" = 1%nat) by reflexivity.
  set (f0 := "2") in *.
  set (f1 := fmt_s zp (v_wp 7 7) (TxnRecord.BSBNumber r)) in *.
  set (f2 := fmt_s zp (v_wp 9 9) (TxnRecord.AccountNumber r)) in *.
  set (f3 := fmt_s zp (v_minus 35 35) (TxnRecord.AccountName r)) in *.
  set (f4 := fmt_s zp (v_wp 8 8) (Time.Format (TxnRecord.TransactionDate r))) in *.
  set (f5 := fmt_s zp (v_wp 16 16)
               (Decimal.StringFixedBank (TxnRecord.Amount r) 2)) in *.
  set (f6 := fmt_s zp (v_wp 2 2) (TxnRecord.Indicator r)) in *.
  clearbody f0 f1 f2 f3 f4 f5 f6.
  unfold Record_Read.
  replace (badLength _ 169 170) with false
    by (unfold badLength; rewrite !length_append, L0, L1, L2, L3, L4, L5, L6,
          Lr; destruct He as [-> | ->]; reflexivity).
  rewrite !append_assoc.
  assert (E1 : slice (f0 ++ f1 ++ f2 ++ f3 ++ f4 ++ f5 ++ f6 ++ rest ++ e) 1 8
               = f1).
  { rewrite (slice_skip f0 _ 1 1 8 L0) by lia. cbn [Nat.sub].
    apply (slice_field f1 _ 7 L1). }
  assert (E6 : slice (f0 ++ f1 ++ f2 ++ f3 ++ f4 ++ f5 ++ f6 ++ rest ++ e) 76 78
               = f6).
  { rewrite (slice_skip f0 _ 1 76 78 L0) by lia. cbn [Nat.sub].
    rewrite (slice_skip f1 _ 7 75 77 L1) by lia. cbn [Nat.sub].
    rewrite (slice_skip f2 _ 9 68 70 L2) by lia. cbn [Nat.sub].
    rewrite (slice_skip f3 _ 35 59 61 L3) by lia. cbn [Nat.sub].
    rewrite (slice_skip f4 _ 8 24 26 L4) by lia. cbn [Nat.sub].
    rewrite (slice_skip f5 _ 16 16 18 L5) by lia. cbn [Nat.sub].
    apply (slice_field f6 _ 2 L6). }
  rewrite E1, E6, R1, R6.
  match goal with
  | |- context [negb (IsValid ?x)] =>
      assert (Hx : IsValid x = true) by exact Hv;
      set (r' := x) in *
  end.
  rewrite Hx. cbn [negb]. exists r'. repeat split. exact Hx.
Qed.

(** X25.  Validity survives the line, however long the fields are: for
    every record that passes [IsValid] and whose account number and
    account name are ASCII, [Record.Read] of the line that
    [Record.Write] emits for it returns nil and gives a record with the
    same routing number and indicator, which passes [IsValid] too.  The
    fields before the indicator all have a precision equal to their
    width, so no overlong field moves it; a rune of more than one byte
    in one of them would. *)
Theorem X25_valid_record_reads_back_valid (zp : bool) (r r0 : TxnRecord.t)
  (e : string) (wd : World) :
  IsValid r = true -> terminator e ->
  isASCII (TxnRecord.AccountNumber r) = true ->
  isASCII (TxnRecord.AccountName r) = true ->
  exists r' : TxnRecord.t,
    Record_Read r0 (Record_Write zp r ++ e) wd = (r', None, wd)
    /\ TxnRecord.BSBNumber r' = TxnRecord.BSBNumber r
    /\ TxnRecord.Indicator r' = TxnRecord.Indicator r
    /\ IsValid r' = true.
Proof. apply valid_record_line. Qed.

(** ** A rune of two bytes in a record's account name *)

Lemma Decode_two_bytes (c1 c2 : ascii) (s : string) :
  twoByteRune c1 c2 ->
  snd (DecodeRuneInString (String c1 (String c2 s))) = 2%nat.
Proof.
  intros [H1 H2]. cbn [DecodeRuneInString String.length].
  unfold RuneSelf, first.
  replace (byte c1 <? 128) with false by (symmetry; apply Z.ltb_ge; lia).
  replace (byte c1 <? 194) with false by (symmetry; apply Z.ltb_ge; lia).
  replace (byte c1 <=? 223) with true by (symmetry; apply Z.leb_le; lia).
  cbn [Nat.ltb Nat.leb].
  replace (byte c2 <? 128) with false by (symmetry; apply Z.ltb_ge; lia).
  replace (191 <? byte c2) with false by (symmetry; apply Z.ltb_ge; lia).
  reflexivity.
Qed.

Lemma runeCount_ascii_app (a s : string) :
  isASCII a = true ->
  RuneCountInString (a ++ s) = (String.length a + RuneCountInString s)%nat.
Proof.
  unfold RuneCountInString, isASCII.
  induction a as [|c a IH]; [reflexivity|].
  cbn [noneOf]. intros H. apply andb_true_iff in H. destruct H as [Hc Ha].
  apply negb_true_iff in Hc.
  cbn [append runeCount String.length].
  rewrite (DecodeRune_low c (a ++ s) Hc). cbn [snd Nat.sub].
  rewrite IH by exact Ha. reflexivity.
Qed.

Lemma truncate_ascii_app (n : nat) (a s : string) :
  isASCII a = true -> (String.length a <= n)%nat ->
  truncateString n (a ++ s) = a ++ truncateString (n - String.length a) s.
Proof.
  unfold truncateString, isASCII. revert n.
  induction a as [|c a IH]; intros n H Hn.
  - cbn [append String.length]. rewrite Nat.sub_0_r. reflexivity.
  - cbn [noneOf] in H. apply andb_true_iff in H. destruct H as [Hc Ha].
    apply negb_true_iff in Hc. cbn [String.length] in Hn.
    destruct n as [|n]; [lia|].
    cbn [append truncate String.length Nat.sub].
    rewrite (DecodeRune_low c (a ++ s) Hc). cbn [snd Nat.sub].
    rewrite IH by (first [exact Ha|lia]). reflexivity.
Qed.

(** A text of at most [w] runes, one of them of two bytes, fills one
    byte more than the [w] of its column. *)
Lemma length_fmt_s_two_bytes (zp : bool) (w : nat) (a b : string)
  (c1 c2 : ascii) :
  isASCII a = true -> isASCII b = true -> twoByteRune c1 c2 ->
  (String.length a + 1 + String.length b <= w)%nat ->
  String.length (fmt_s zp (v_minus w w) (a ++ String c1 (String c2 b)))
  = S w.
Proof.
  intros Ha Hb Hc Hw.
  pose proof (Decode_two_bytes c1 c2 b Hc) as Hd.
  assert (Hcount : RuneCountInString (String c1 (String c2 b))
                   = S (String.length b)).
  { unfold RuneCountInString. cbn [runeCount]. rewrite Hd. cbn [Nat.sub].
    fold (RuneCountInString b). rewrite RuneCount_ascii by exact Hb.
    reflexivity. }
  assert (Htr : truncateString w (a ++ String c1 (String c2 b))
                = a ++ String c1 (String c2 b)).
  { rewrite truncate_ascii_app by (first [exact Ha|lia]). f_equal.
    unfold truncateString.
    destruct (w - String.length a)%nat as [|m] eqn:Em; [lia|].
    cbn [truncate]. rewrite Hd. cbn [Nat.sub].
    fold (truncateString m b). rewrite truncate_ascii by exact Hb.
    rewrite substring_0_ge by lia. reflexivity. }
  unfold fmt_s, v_minus, pad. cbn [prec wid minus zero andb negb].
  rewrite Htr, runeCount_ascii_app, Hcount by exact Ha.
  destruct w as [|w']; [lia|].
  rewrite !length_append, length_Repeat. cbn [String.length]. lia.
Qed.

Lemma offNumbers_highOrCD : offNumbers highOrCD.
Proof.
  repeat split; try reflexivity.
  intros c Hc. unfold highOrCD. rewrite (isDigit_low c Hc). cbn [orb].
  unfold isDigit, digitVal in Hc.
  destruct (Ascii.eqb_spec c "C") as [->|_]; [discriminate|].
  destruct (Ascii.eqb_spec c "D") as [->|_]; [discriminate|].
  reflexivity.
Qed.

Lemma last_byte (s : string) (n : nat) :
  String.length s = S n ->
  exists (s' : string) (x : ascii),
    s = s' ++ String x "" /\ String.length s' = n.
Proof.
  revert n. induction s as [|c s IH]; intros n H; [discriminate|].
  destruct s as [|d s].
  - exists "", c. cbn in H. split; [reflexivity|]. cbn. lia.
  - destruct n as [|n]; [discriminate|].
    destruct (IH n) as (s' & x & Hs & Hl); [cbn in *; lia|].
    exists (String c s'), x. rewrite Hs. split; [reflexivity|].
    cbn. rewrite Hl. reflexivity.
Qed.

(** What [TrimSpace] leaves of a byte of a number's text and the first
    byte of an indicator is no indicator. *)
Lemma shifted_indicator (x d : ascii) :
  highOrCD x = false -> d = "D"%char \/ d = "C"%char ->
  let got := TrimSpace (String x (String d "")) in
  String.eqb got Credit || String.eqb got Debit = false.
Proof.
  intros Hx Hd. unfold highOrCD in Hx.
  apply orb_false_iff in Hx. destruct Hx as [Hx HD].
  apply orb_false_iff in Hx. destruct Hx as [Hh HC].
  cbn [TrimSpace]. rewrite Hh.
  destruct (isSpace x) eqn:Hs.
  - destruct Hd as [-> | ->]; reflexivity.
  - destruct Hd as [-> | ->].
    + change (trimStop (String x "D") (String.length (String x "D")))
        with (String x "D").
      unfold Credit, Debit. cbn [String.eqb]. rewrite HC, HD. reflexivity.
    + change (trimStop (String x "C") (String.length (String x "C")))
        with (String x "C").
      unfold Credit, Debit. cbn [String.eqb]. rewrite HC, HD. reflexivity.
Qed.

(** A record that [Write] accepts and [Read] rejects. *)
Lemma two_byte_rune_line (zp : bool) (r r0 : TxnRecord.t) (e : string)
  (wd : World) (a b : string) (c1 c2 : ascii) :
  IsValid r = true -> terminator e ->
  isASCII (TxnRecord.AccountNumber r) = true ->
  TxnRecord.AccountName r = a ++ String c1 (String c2 b) ->
  isASCII a = true -> isASCII b = true -> twoByteRune c1 c2 ->
  (String.length a + 1 + String.length b <= 35)%nat ->
  exists r' : TxnRecord.t,
    Record_Read r0 (Record_Write zp r ++ e) wd
    = (r', Some ErrInvalidRecord, wd)
    /\ TxnRecord.Indicator r' <> TxnRecord.Indicator r.
Proof.
  intros Hv He A2 Hname Ha Hb Hc Hw.
  assert (Hbsb : bsbNumberRegEx_MatchString (TxnRecord.BSBNumber r) = true).
  { unfold IsValid in Hv. destruct (_ || _); [exact Hv|discriminate]. }
  destruct (bsb_shape _ Hbsb) as (Lb & A1 & Tb).
  assert (A6 : isASCII (TxnRecord.Indicator r) = true)
    by (destruct (IsValid_indicator r Hv) as [-> | ->]; reflexivity).
  pose proof (length_fmt_s_exact zp false false 7 _ A1) as L1.
  pose proof (length_fmt_s_exact zp false false 9 _ A2) as L2.
  pose proof (length_fmt_s_two_bytes zp 35 a b c1 c2 Ha Hb Hc Hw) as L3.
  rewrite <- Hname in L3.
  pose proof (length_fmt_s_exact zp false false 8 _
                (noneOf_Format high (TxnRecord.TransactionDate r)
                   offNumbers_high)) as L4.
  pose proof (length_fmt_s_exact zp false false 16 _
                (noneOf_StringFixedBank high (TxnRecord.Amount r) 2
                   offNumbers_high)) as L5.
  pose proof (length_fmt_s_exact zp false false 2 _ A6) as L6.
  fold (v_wp 7 7) in L1. fold (v_wp 9 9) in L2.
  fold (v_wp 8 8) in L4. fold (v_wp 16 16) in L5. fold (v_wp 2 2) in L6.
  assert (N5 : noneOf highOrCD
                 (fmt_s zp (v_wp 16 16)
                    (Decimal.StringFixedBank (TxnRecord.Amount r) 2)) = true).
  { apply noneOf_fmt_s; try reflexivity.
    apply noneOf_StringFixedBank, offNumbers_highOrCD. }
  assert (E6 : exists d : ascii,
             fmt_s zp (v_wp 2 2) (TxnRecord.Indicator r)
             = String d "R"
             /\ (d = "D"%char \/ d = "C"%char)
             /\ TxnRecord.Indicator r = String d "R").
  { destruct (IsValid_indicator r Hv) as [Hi | Hi]; rewrite Hi.
    - exists "D"%char. destruct zp; repeat split; now left.
    - exists "C"%char. destruct zp; repeat split; now right. }
  destruct E6 as (d & E6 & Hd & Hind).
  destruct (Record_Write_head zp r 79) as (rest & Hr & Lr); [|lia|].
  { unfold recordHead. rewrite !length_append, L1, L2, L3, L4, L5, L6.
    reflexivity. }
  rewrite Hr. unfold recordHead. clear Hr.
  assert (L0 : String.length "2" = 1%nat) by reflexivity.
  set (f0 := "2") in *.
  set (f1 := fmt_s zp (v_wp 7 7) (TxnRecord.BSBNumber r)) in *.
  set (f2 := fmt_s zp (v_wp 9 9) (TxnRecord.AccountNumber r)) in *.
  set (f3 := fmt_s zp (v_minus 35 35) (TxnRecord.AccountName r)) in *.
  set (f4 := fmt_s zp (v_wp 8 8) (Time.Format (TxnRecord.TransactionDate r))) in *.
  set (f5 := fmt_s zp (v_wp 16 16)
               (Decimal.StringFixedBank (TxnRecord.Amount r) 2)) in *.
  set (f6 := fmt_s zp (v_wp 2 2) (TxnRecord.Indicator r)) in *.
  clearbody f0 f1 f2 f3 f4 f5 f6.
  destruct (last_byte f5 15 L5) as (f5' & x & -> & L5').
  rewrite noneOf_app in N5. apply andb_true_iff in N5.
  destruct N5 as [_ Nx]. cbn [noneOf] in Nx.
  rewrite andb_true_r in Nx. apply negb_true_iff in Nx.
  subst f6.
  unfold Record_Read.
  replace (badLength _ 169 170) with false
    by (unfold badLength; rewrite !length_append, L0, L1, L2, L3, L4, L5',
          Lr; cbn [String.length]; destruct He as [-> | ->]; reflexivity).
  rewrite !append_assoc.
  assert (E : slice (f0 ++ f1 ++ f2 ++ f3 ++ f4 ++ f5' ++ String x ""
                     ++ String d "R" ++ rest ++ e) 76 78
              = String x (String d "")).
  { rewrite (slice_skip f0 _ 1 76 78 L0) by lia. cbn [Nat.sub].
    rewrite (slice_skip f1 _ 7 75 77 L1) by lia. cbn [Nat.sub].
    rewrite (slice_skip f2 _ 9 68 70 L2) by lia. cbn [Nat.sub].
    rewrite (slice_skip f3 _ 36 59 61 L3) by lia. cbn [Nat.sub].
    rewrite (slice_skip f4 _ 8 23 25 L4) by lia. cbn [Nat.sub].
    rewrite (slice_skip f5' _ 15 15 17 L5') by lia. cbn [Nat.sub].
    reflexivity. }
  pose proof (shifted_indicator x d Nx Hd) as Hbad. cbv zeta in Hbad.
  match goal with
  | |- context [negb (IsValid ?y)] =>
      assert (Hy : IsValid y = false)
        by (unfold IsValid; cbn [TxnRecord.Indicator]; rewrite E, Hbad;
            reflexivity);
      set (r' := y) in *
  end.
  rewrite Hy. cbn [negb]. exists r'. split; [reflexivity|].
  intros Heq. unfold IsValid in Hv. rewrite <- Heq in Hv.
  subst r'. cbn [TxnRecord.Indicator] in Hv. rewrite E, Hbad in Hv.
  discriminate.
Qed.

(** X26.  A rune of two bytes takes the line out of step.  For every
    record that passes [IsValid], whose account number is ASCII and whose
    account name is ASCII but for one well-formed rune of two bytes and
    has at most 35 runes, [Record.Write] fills the account name to 35
    runes, which are 36 bytes, so the indicator stands one byte after
    the column [Record.Read] takes it from: [Read] of the line that
    [Write] emits returns [ErrInvalidRecord], with another indicator
    than the record's. *)
Theorem X26_two_byte_rune_breaks_record (zp : bool) (r r0 : TxnRecord.t)
  (e : string) (wd : World) (a b : string) (c1 c2 : ascii) :
  IsValid r = true -> terminator e ->
  isASCII (TxnRecord.AccountNumber r) = true ->
  TxnRecord.AccountName r = a ++ String c1 (String c2 b) ->
  isASCII a = true -> isASCII b = true -> twoByteRune c1 c2 ->
  (String.length a + 1 + String.length b <= 35)%nat ->
  exists r' : TxnRecord.t,
    Record_Read r0 (Record_Write zp r ++ e) wd
    = (r', Some ErrInvalidRecord, wd)
    /\ TxnRecord.Indicator r' <> TxnRecord.Indicator r.
Proof. apply two_byte_rune_line. Qed.

(* ===================================================================== *)
(** * The properties at the example data *)
(* ===================================================================== *)

(** C2 at the batch of the test. *)
Lemma C2_witness :
  (Writer.OmitBatchTotals exampleWriter = false
   /\ Writer.Batch exampleWriter = ([] ++ exampleBatch :: [])%list
   /\ allValidBatches []
   /\ allValid (Batch.Records exampleBatch))
  /\ exists (t : BatchTrailer.t) (rest : string),
       Writer.wr (snd (fst (Writer_Write true exampleWriter exampleWorld)))
       = Writer.wr exampleWriter
         ++ FileHeader_Write true (Writer.FileHeader exampleWriter)
         ++ eol (Writer.CRLFLineEndings exampleWriter)
         ++ batchesText true (Writer.CRLFLineEndings exampleWriter) []
              (trailers (Writer.OmitBatchTotals exampleWriter)
                 (clock exampleWorld) (ticks exampleWorld) 0 [])
         ++ batchText true (Writer.CRLFLineEndings exampleWriter)
              exampleBatch t
         ++ rest
       /\ let debitSum := sumAmounts Debit (Batch.Records exampleBatch) in
          let creditSum := sumAmounts Credit (Batch.Records exampleBatch) in
          (toQ (BatchTrailer.TotalDebitAmount t) == debitSum)%Q
          /\ (toQ (BatchTrailer.TotalCreditAmount t) == creditSum)%Q
          /\ (toQ (BatchTrailer.Amount t) == Qabs (creditSum - debitSum))%Q
          /\ (BatchTrailer.Indicator t = "CR" <-> (debitSum <= creditSum)%Q)
          /\ BatchTrailer.ReferenceNumber t
             = Z.of_nat (@List.length Batch.t []).
Proof.
  assert (H1 : Writer.OmitBatchTotals exampleWriter = false) by reflexivity.
  assert (H2 : Writer.Batch exampleWriter = ([] ++ exampleBatch :: [])%list)
    by reflexivity.
  assert (H3 : allValidBatches []) by constructor.
  assert (H4 : allValid (Batch.Records exampleBatch)) by (repeat constructor).
  split; [repeat split; assumption|].
  exact (C2_batch_trailer_totals true exampleWriter exampleWorld [] []
           exampleBatch H1 H2 H3 H4).
Defined.

(** C3 as the claim has it fails at the writer whose only record has the
    indicator ["XX"]: [Write] returns the invalid-record error, the sink
    holds the file header line and the batch header line and no record
    line, and nothing is logged. *)
Lemma C3_counterexample :
  TxnRecord.Indicator recordXX = "XX"
  /\ Writer_Write true writerXX exampleWorld
     = (Some (Errorf "txn: Invalid Record can't be written (record 0)"),
        withTrailerOut writerXX (Writer.FileTrailer writerXX)
          (FileHeader_Write true exampleFileHeader ++ nl
           ++ BatchHeader_Write true exampleBatchHeader ++ nl),
        exampleWorld)
  /\ logs (snd (Writer_Write true writerXX exampleWorld)) = [].
Proof. repeat split. Qed.

(** C3, as amended, at that writer. *)
Lemma C3_witness :
  (Writer.Batch writerXX
   = ([] ++ Batch.mk exampleBatchHeader [recordXX] BatchTrailer.zero :: [])%list
   /\ allValidBatches []
   /\ Batch.Records (Batch.mk exampleBatchHeader [recordXX] BatchTrailer.zero)
      = ([] ++ recordXX :: [])%list
   /\ allValid []
   /\ TxnRecord.Indicator recordXX <> Debit
   /\ TxnRecord.Indicator recordXX <> Credit)
  /\ exists (w' : Writer.t) (wd' : World),
       Writer_Write true writerXX exampleWorld
       = (Some (Errorf ("txn: Invalid Record can't be written (record "
                        ++ itoa (Z.of_nat (@List.length TxnRecord.t [])) ++ ")")),
          w', wd')
       /\ logs wd' = logs exampleWorld
       /\ Writer.FileTrailer w'
          = fold_left (tallyFile (Writer.OmitBatchTotals writerXX)) []
              (fileTotals (Writer.OmitBatchTotals writerXX) []
                 (Writer.FileTrailer writerXX))
       /\ Writer.wr w'
          = Writer.wr writerXX
            ++ FileHeader_Write true (Writer.FileHeader writerXX)
            ++ eol (Writer.CRLFLineEndings writerXX)
            ++ batchesText true (Writer.CRLFLineEndings writerXX) []
                 (trailers (Writer.OmitBatchTotals writerXX)
                    (clock exampleWorld) (ticks exampleWorld) 0 [])
            ++ BatchHeader_Write true
                 (Batch.BatchHeader
                    (Batch.mk exampleBatchHeader [recordXX] BatchTrailer.zero))
            ++ eol (Writer.CRLFLineEndings writerXX)
            ++ recordLines true (Writer.CRLFLineEndings writerXX) [].
Proof.
  assert (H1 : Writer.Batch writerXX
               = ([] ++ Batch.mk exampleBatchHeader [recordXX]
                          BatchTrailer.zero :: [])%list) by reflexivity.
  assert (H2 : allValidBatches []) by constructor.
  assert (H3 : Batch.Records
                 (Batch.mk exampleBatchHeader [recordXX] BatchTrailer.zero)
               = ([] ++ recordXX :: [])%list) by reflexivity.
  assert (H4 : allValid []) by constructor.
  assert (H5 : TxnRecord.Indicator recordXX <> Debit) by discriminate.
  assert (H6 : TxnRecord.Indicator recordXX <> Credit) by discriminate.
  split; [repeat split; assumption|].
  exact (C3_bad_indicator_aborts true writerXX exampleWorld [] []
           (Batch.mk exampleBatchHeader [recordXX] BatchTrailer.zero)
           [] [] recordXX H1 H2 H3 H4 H5 H6).
Defined.

(** C4 as the claim has it fails on a batch header line, the line of
    [recordXX] and a valid record line: [ReadAll] returns the batch
    without records and the invalid-record error, and the valid record
    line that follows is left unread. *)
Lemma C4_counterexample :
  ReadAll (NewReader (batchHeaderLine ++ recordLineXX ++ recordLine))
    exampleWorld
  = (Some (Returned [exampleReadBatch] (Some ErrInvalidRecord)),
     Reader.mk FileHeader.zero [exampleReadBatch] FileTrailer.zero recordLine,
     mkWorld
       ["readRecordOrHeaderOrTrailer txn: Invalid Record can't be written"]
       (clock exampleWorld) (ticks exampleWorld))
  /\ Record_Read TxnRecord.zero recordLine exampleWorld
     = (hd TxnRecord.zero exampleRecords, None, exampleWorld).
Proof. split; reflexivity. Qed.

(** C4, as amended, on that input. *)
Lemma C4_witness :
  (terminated batchHeaderLine = true
   /\ ReadAll (setInput (NewReader "") batchHeaderLine) exampleWorld
      = (Some (Returned [exampleReadBatch] None),
         Reader.mk FileHeader.zero [exampleReadBatch] FileTrailer.zero "",
         exampleWorld)
   /\ ReadString (recordLineXX ++ recordLine)
      = (recordLineXX, recordLine, false)
   /\ firstByte recordLineXX = Some "2"%char
   /\ badLength recordLineXX 169 170 = false
   /\ IsValid (fst (fst (Record_Read TxnRecord.zero recordLineXX exampleWorld)))
      = false)
  /\ ReadAll
       (setInput (NewReader "")
          (batchHeaderLine ++ recordLineXX ++ recordLine))
       exampleWorld
     = (Some (Returned [exampleReadBatch] (Some ErrInvalidRecord)),
        setInput
          (Reader.mk FileHeader.zero [exampleReadBatch] FileTrailer.zero "")
          recordLine,
        mkWorld (logs exampleWorld ++ [readAllLog ErrInvalidRecord])
          (clock exampleWorld) (ticks exampleWorld)).
Proof.
  assert (H1 : terminated batchHeaderLine = true) by reflexivity.
  assert (H2 : ReadAll (setInput (NewReader "") batchHeaderLine) exampleWorld
               = (Some (Returned [exampleReadBatch] None),
                  Reader.mk FileHeader.zero [exampleReadBatch]
                    FileTrailer.zero "",
                  exampleWorld)) by reflexivity.
  assert (H3 : ReadString (recordLineXX ++ recordLine)
               = (recordLineXX, recordLine, false)) by reflexivity.
  assert (H4 : firstByte recordLineXX = Some "2"%char) by reflexivity.
  assert (H5 : badLength recordLineXX 169 170 = false) by reflexivity.
  assert (H6 : IsValid (fst (fst (Record_Read TxnRecord.zero recordLineXX
                                    exampleWorld))) = false) by reflexivity.
  split; [repeat split; assumption|].
  exact (C4_invalid_record_stops_read (NewReader "") _ exampleWorld _
           batchHeaderLine recordLineXX recordLine false _ H1 H2 H3 H4 H5 H6).
Defined.

(** C5 at the file of the test. *)
Lemma C5_witness :
  (FileTrailer.TotalDebitTransactions (Writer.FileTrailer exampleWriter) = 0
   /\ FileTrailer.TotalCreditTransactions (Writer.FileTrailer exampleWriter) = 0
   /\ FileTrailer.TotalDebitAmount (Writer.FileTrailer exampleWriter)
      = Decimal.zero
   /\ FileTrailer.TotalCreditAmount (Writer.FileTrailer exampleWriter)
      = Decimal.zero
   /\ Writer.Batch exampleWriter <> []
   /\ allValidBatches (Writer.Batch exampleWriter))
  /\ exists (ts : list BatchTrailer.t) (w' : Writer.t) (wd' : World),
       Writer_Write true exampleWriter exampleWorld = (None, w', wd')
       /\ Writer.wr w'
          = Writer.wr exampleWriter
            ++ fileText true (Writer.CRLFLineEndings exampleWriter)
                 (Writer.FileHeader exampleWriter)
                 (Writer.Batch exampleWriter) ts (Writer.FileTrailer w')
       /\ List.length ts = List.length (Writer.Batch exampleWriter)
       /\ let ft := Writer.FileTrailer w' in
          if Writer.OmitBatchTotals exampleWriter then
            FileTrailer.TotalDebitTransactions ft = 0
            /\ FileTrailer.TotalCreditTransactions ft = 0
            /\ FileTrailer.TotalDebitAmount ft = Decimal.zero
            /\ FileTrailer.TotalCreditAmount ft = Decimal.zero
            /\ Forall zeroTotals ts
          else
            FileTrailer.TotalDebitTransactions ft
            = sumInt (map BatchTrailer.TotalDebitTransactions ts)
            /\ FileTrailer.TotalCreditTransactions ft
               = sumInt (map BatchTrailer.TotalCreditTransactions ts)
            /\ (toQ (FileTrailer.TotalDebitAmount ft)
                == sumQ (map (fun t => toQ (BatchTrailer.TotalDebitAmount t))
                           ts))%Q
            /\ (toQ (FileTrailer.TotalCreditAmount ft)
                == sumQ (map (fun t => toQ (BatchTrailer.TotalCreditAmount t))
                           ts))%Q.
Proof.
  assert (H1 : FileTrailer.TotalDebitTransactions
                 (Writer.FileTrailer exampleWriter) = 0) by reflexivity.
  assert (H2 : FileTrailer.TotalCreditTransactions
                 (Writer.FileTrailer exampleWriter) = 0) by reflexivity.
  assert (H3 : FileTrailer.TotalDebitAmount (Writer.FileTrailer exampleWriter)
               = Decimal.zero) by reflexivity.
  assert (H4 : FileTrailer.TotalCreditAmount (Writer.FileTrailer exampleWriter)
               = Decimal.zero) by reflexivity.
  assert (H5 : Writer.Batch exampleWriter <> []) by discriminate.
  assert (H6 : allValidBatches (Writer.Batch exampleWriter))
    by (repeat constructor).
  split; [repeat split; assumption|].
  exact (C5_file_totals true exampleWriter exampleWorld H1 H2 H3 H4 H5 H6).
Defined.

(** C6 at the writer whose only record has the indicator ["XX"]. *)
Lemma C6_witness :
  (Writer.Batch writerXX
   = ([] ++ Batch.mk exampleBatchHeader [recordXX] BatchTrailer.zero :: [])%list
   /\ allValidBatches []
   /\ Batch.Records (Batch.mk exampleBatchHeader [recordXX] BatchTrailer.zero)
      = ([] ++ recordXX :: [])%list
   /\ allValid []
   /\ IsValid recordXX = false)
  /\ exists (w' : Writer.t) (wd' : World),
       Writer_Write true writerXX exampleWorld
       = (Some (Errorf ("txn: Invalid Record can't be written (record "
                        ++ itoa (Z.of_nat (@List.length TxnRecord.t [])) ++ ")")),
          w', wd')
       /\ Writer.wr w'
          = Writer.wr writerXX
            ++ FileHeader_Write true (Writer.FileHeader writerXX)
            ++ eol (Writer.CRLFLineEndings writerXX)
            ++ batchesText true (Writer.CRLFLineEndings writerXX) []
                 (trailers (Writer.OmitBatchTotals writerXX)
                    (clock exampleWorld) (ticks exampleWorld) 0 [])
            ++ BatchHeader_Write true
                 (Batch.BatchHeader
                    (Batch.mk exampleBatchHeader [recordXX] BatchTrailer.zero))
            ++ eol (Writer.CRLFLineEndings writerXX)
            ++ recordLines true (Writer.CRLFLineEndings writerXX) [].
Proof.
  assert (H1 : Writer.Batch writerXX
               = ([] ++ Batch.mk exampleBatchHeader [recordXX]
                          BatchTrailer.zero :: [])%list) by reflexivity.
  assert (H2 : allValidBatches []) by constructor.
  assert (H3 : Batch.Records
                 (Batch.mk exampleBatchHeader [recordXX] BatchTrailer.zero)
               = ([] ++ recordXX :: [])%list) by reflexivity.
  assert (H4 : allValid []) by constructor.
  assert (H5 : IsValid recordXX = false) by reflexivity.
  split; [repeat split; assumption|].
  exact (C6_first_invalid_record_aborts true writerXX exampleWorld [] []
           (Batch.mk exampleBatchHeader [recordXX] BatchTrailer.zero)
           [] [] recordXX H1 H2 H3 H4 H5).
Defined.

(** C7 at the example writer without batches. *)
Lemma C7_witness :
  Writer.Batch emptyWriter = []
  /\ (Writer_Write true emptyWriter exampleWorld
      = (Some ErrInsufficientBatches, emptyWriter, exampleWorld)
      /\ Writer.wr (snd (fst (Writer_Write true emptyWriter exampleWorld)))
         = Writer.wr emptyWriter).
Proof.
  assert (H1 : Writer.Batch emptyWriter = []) by reflexivity.
  split; [exact H1|].
  exact (C7_empty_batch_list true emptyWriter exampleWorld H1).
Defined.

(** C9 on a batch header line followed by a record line. *)
Lemma C9_witness :
  headerBeforeRecords (splitLines (batchHeaderLine ++ recordLine))
  /\ forall (i : Z) (n : nat),
       fst (fst (ReadAll (NewReader (batchHeaderLine ++ recordLine))
                   exampleWorld))
       <> Some (Panicked (IndexOutOfRange AppendRecord i n)).
Proof.
  assert (H1 : headerBeforeRecords
                 (splitLines (batchHeaderLine ++ recordLine))).
  { intros j l Hj H2. destruct j as [|[|j]].
    - vm_compute in Hj. injection Hj as <-. vm_compute in H2. discriminate.
    - exists O, batchHeaderLine. repeat split. lia.
    - vm_compute in Hj. destruct j; discriminate. }
  split; [exact H1|].
  exact (proj2 C9_record_before_batch_header
           (batchHeaderLine ++ recordLine) exampleWorld H1).
Defined.

(** C10 at the file of the test. *)
Lemma C10_witness :
  (in_range
     (FileTrailer.TotalDebitTransactions (Writer.FileTrailer exampleWriter))
   /\ in_range
        (FileTrailer.TotalCreditTransactions (Writer.FileTrailer exampleWriter))
   /\ Writer_Write true exampleWriter exampleWorld
      = (None, exampleWritten, exampleWorldAfter))
  /\ let ft := Writer.FileTrailer exampleWriter in
     let ft' := Writer.FileTrailer exampleWritten in
     (Writer.Batch exampleWritten = Writer.Batch exampleWriter
      /\ Writer.FileHeader exampleWritten = Writer.FileHeader exampleWriter
      /\ Writer.OmitBatchTotals exampleWritten
         = Writer.OmitBatchTotals exampleWriter
      /\ Writer.CRLFLineEndings exampleWritten
         = Writer.CRLFLineEndings exampleWriter
      /\ FileTrailer.recordType ft' = FileTrailer.recordType ft
      /\ FileTrailer.CustomerNumber ft' = FileTrailer.CustomerNumber ft
      /\ FileTrailer.CustomerName ft' = FileTrailer.CustomerName ft)
     /\ (exists ts : list BatchTrailer.t,
           Writer.wr exampleWritten
           = Writer.wr exampleWriter
             ++ fileText true (Writer.CRLFLineEndings exampleWriter)
                  (Writer.FileHeader exampleWriter)
                  (Writer.Batch exampleWriter) ts ft'
           /\ List.length ts = List.length (Writer.Batch exampleWriter)
           /\ FileTrailer.TotalDebitTransactions ft'
              = int_add (FileTrailer.TotalDebitTransactions ft)
                  (sumInt (map BatchTrailer.TotalDebitTransactions ts))
           /\ FileTrailer.TotalCreditTransactions ft'
              = int_add (FileTrailer.TotalCreditTransactions ft)
                  (sumInt (map BatchTrailer.TotalCreditTransactions ts))
           /\ (toQ (FileTrailer.TotalDebitAmount ft')
               == toQ (FileTrailer.TotalDebitAmount ft)
                  + sumQ (map (fun t => toQ (BatchTrailer.TotalDebitAmount t))
                            ts))%Q
           /\ (toQ (FileTrailer.TotalCreditAmount ft')
               == toQ (FileTrailer.TotalCreditAmount ft)
                  + sumQ (map (fun t => toQ (BatchTrailer.TotalCreditAmount t))
                            ts))%Q)
     /\ (if Writer.OmitBatchTotals exampleWriter then ft' = ft
         else
           FileTrailer.TotalDebitTransactions ft'
           = int_add (FileTrailer.TotalDebitTransactions ft)
               (fileCount Debit (Writer.Batch exampleWriter))
           /\ FileTrailer.TotalCreditTransactions ft'
              = int_add (FileTrailer.TotalCreditTransactions ft)
                  (fileCount Credit (Writer.Batch exampleWriter))
           /\ (toQ (FileTrailer.TotalDebitAmount ft')
               == toQ (FileTrailer.TotalDebitAmount ft)
                  + fileSum Debit (Writer.Batch exampleWriter))%Q
           /\ (toQ (FileTrailer.TotalCreditAmount ft')
               == toQ (FileTrailer.TotalCreditAmount ft)
                  + fileSum Credit (Writer.Batch exampleWriter))%Q)
     /\ (FileTrailer.TotalDebitTransactions ft = 0 ->
         FileTrailer.TotalCreditTransactions ft = 0 ->
         (toQ (FileTrailer.TotalDebitAmount ft) == 0)%Q ->
         (toQ (FileTrailer.TotalCreditAmount ft) == 0)%Q ->
         exists (w'' : Writer.t) (wd'' : World),
           Writer_Write true exampleWritten exampleWorldAfter
           = (None, w'', wd'')
           /\ let ft'' := Writer.FileTrailer w'' in
              FileTrailer.TotalDebitTransactions ft''
              = int_add (FileTrailer.TotalDebitTransactions ft')
                  (FileTrailer.TotalDebitTransactions ft')
              /\ FileTrailer.TotalCreditTransactions ft''
                 = int_add (FileTrailer.TotalCreditTransactions ft')
                     (FileTrailer.TotalCreditTransactions ft')
              /\ (toQ (FileTrailer.TotalDebitAmount ft'')
                  == 2 * toQ (FileTrailer.TotalDebitAmount ft'))%Q
              /\ (toQ (FileTrailer.TotalCreditAmount ft'')
                  == 2 * toQ (FileTrailer.TotalCreditAmount ft'))%Q).
Proof.
  assert (H1 : in_range
                 (FileTrailer.TotalDebitTransactions
                    (Writer.FileTrailer exampleWriter)))
    by (vm_compute; split; discriminate).
  assert (H2 : in_range
                 (FileTrailer.TotalCreditTransactions
                    (Writer.FileTrailer exampleWriter)))
    by (vm_compute; split; discriminate).
  assert (H3 : Writer_Write true exampleWriter exampleWorld
               = (None, exampleWritten, exampleWorldAfter))
    by (vm_compute; reflexivity).
  split; [split; [exact H1|split; [exact H2|exact H3]]|].
  exact (C10_write_frame true exampleWriter exampleWritten exampleWorld
           exampleWorldAfter H1 H2 H3).
Defined.

(** ** The further properties at the example data *)

(** X1 on a two-byte pad. *)
Lemma X1_witness :
  "xy" <> ""
  /\ (padRight "ab" "xy" 5 = substring 0 5 ("ab" ++ times "xy" 6)
      /\ String.length (padRight "ab" "xy" 5) = 5%nat
      /\ ((5 <= String.length "ab")%nat
          -> padRight "ab" "xy" 5 = substring 0 5 "ab")
      /\ ((String.length "ab" <= 5)%nat ->
          padRight "ab" "xy" 5
          = "ab" ++ substring 0 (5 - String.length "ab") (times "xy" 6))).
Proof.
  assert (H : "xy" <> "") by discriminate.
  split; [exact H|].
  exact (X1_padRight_result "ab" "xy" 5 H).
Defined.

(** X2 on a text shorter than the length asked for. *)
Lemma X2_witness :
  (String.length "ab" <= 5)%nat
  /\ forall fuel : nat, padRight_loop fuel "ab" "" 5 = None.
Proof.
  assert (H : (String.length "ab" <= 5)%nat) by (cbn; lia).
  split; [exact H|].
  exact (X2_padRight_empty_pad_never_returns "ab" 5 H).
Defined.

(** X5 at the first record of the test. *)
Lemma X5_witness :
  Forall oneLine (texts KRecord exampleRecord)
  /\ oneLine (encode true KRecord exampleRecord).
Proof.
  assert (H : Forall oneLine (texts KRecord exampleRecord))
    by (repeat constructor).
  split; [exact H|].
  exact (X5_encode_one_line true KRecord exampleRecord H).
Defined.





(** X10 at the file header of the test. *)
Lemma X10_witness :
  (fileHeaderFits exampleFileHeader /\ terminator nl
   /\ FileHeader.CustomerName exampleFileHeader <> "")
  /\ exists (c : ascii) (got : FileHeader.t),
       FileHeader_Read FileHeader.zero
         (FileHeader_Write true exampleFileHeader ++ nl) exampleWorld
       = (got, None, exampleWorld)
       /\ firstByte (FileHeader.CustomerName exampleFileHeader) = Some c
       /\ FileHeader.CustomerNumber got
          = (if true
             then Repeat "0"
                    (8 - String.length
                           (FileHeader.CustomerNumber exampleFileHeader))
             else "")
            ++ FileHeader.CustomerNumber exampleFileHeader ++ String c ""
       /\ FileHeader.CustomerNumber got
          <> FileHeader.CustomerNumber exampleFileHeader
       /\ FileHeader.recordType got = FileHeader.recordType exampleFileHeader
       /\ FileHeader.FileCreated got
          = dateOnly (FileHeader.FileCreated exampleFileHeader)
       /\ FileHeader.ProcessingDate got
          = dateOnly (FileHeader.ProcessingDate exampleFileHeader)
       /\ FileHeader.Description got
          = FileHeader.Description exampleFileHeader.
Proof.
  assert (H1 : fileHeaderFits exampleFileHeader) by holds.
  assert (H2 : terminator nl) by (left; reflexivity).
  assert (H3 : FileHeader.CustomerName exampleFileHeader <> "")
    by discriminate.
  split; [exact (conj H1 (conj H2 H3))|].
  exact (X10_FileHeader_reads_back true exampleFileHeader FileHeader.zero nl
           exampleWorld H1 H2 H3).
Defined.

(** X11 at the writer of the test with an invalid first record. *)
Lemma X11_witness :
  (fst (fst (Writer_Write true writerXX exampleWorld))
   = Some (invalidRecordAt 0)
   /\ invalidRecordAt 0 <> ErrInsufficientBatches)
  /\ exists (bs1 bs2 : list Batch.t) (b : Batch.t)
            (rs1 rs2 : list TxnRecord.t) (r : TxnRecord.t),
       Writer.Batch writerXX = (bs1 ++ b :: bs2)%list
       /\ allValidBatches bs1
       /\ Batch.Records b = (rs1 ++ r :: rs2)%list
       /\ allValid rs1 /\ IsValid r = false
       /\ invalidRecordAt 0 = invalidRecordAt (List.length rs1).
Proof.
  assert (H1 : fst (fst (Writer_Write true writerXX exampleWorld))
               = Some (invalidRecordAt 0)) by (vm_compute; reflexivity).
  assert (H2 : invalidRecordAt 0 <> ErrInsufficientBatches) by discriminate.
  split; [exact (conj H1 H2)|].
  exact (proj2 (proj2 (X11_Write_result true writerXX exampleWorld))
           (invalidRecordAt 0) H1 H2).
Defined.

(** X14 at the file of the test. *)
Lemma X14_witness :
  Writer_Write true exampleWriter exampleWorld
  = (None, exampleWritten, exampleWorldAfter)
  /\ (exists ls : list string,
        Writer.wr exampleWritten
        = Writer.wr exampleWriter
          ++ joinLines (eol (Writer.CRLFLineEndings exampleWriter)) ls
        /\ map String.length ls = lineWidths (Writer.Batch exampleWriter))
  /\ String.length (Writer.wr exampleWritten)
     = (String.length (Writer.wr exampleWriter)
        + (2 + 2 * List.length (Writer.Batch exampleWriter))
          * (170 + String.length (eol (Writer.CRLFLineEndings exampleWriter)))
        + recordCount (Writer.Batch exampleWriter)
          * (168 + String.length
                     (eol (Writer.CRLFLineEndings exampleWriter))))%nat.
Proof.
  assert (H : Writer_Write true exampleWriter exampleWorld
              = (None, exampleWritten, exampleWorldAfter))
    by (vm_compute; reflexivity).
  split; [exact H|].
  exact (X14_Write_size true exampleWriter exampleWritten exampleWorld
           exampleWorldAfter H).
Defined.

(** X15 at the batch of the test. *)
Lemma X15_witness :
  (Writer.Batch exampleWriter = ([] ++ exampleBatch :: [])%list
   /\ allValidBatches []
   /\ allValid (Batch.Records exampleBatch))
  /\ exists (t : BatchTrailer.t) (rest : string),
       Writer.wr (snd (fst (Writer_Write true exampleWriter exampleWorld)))
       = Writer.wr exampleWriter
         ++ FileHeader_Write true (Writer.FileHeader exampleWriter)
         ++ eol (Writer.CRLFLineEndings exampleWriter)
         ++ batchesText true (Writer.CRLFLineEndings exampleWriter) []
              (trailers (Writer.OmitBatchTotals exampleWriter)
                 (clock exampleWorld) (ticks exampleWorld) 0 [])
         ++ batchText true (Writer.CRLFLineEndings exampleWriter)
              exampleBatch t
         ++ rest
       /\ BatchTrailer.BSBNumber t
          = BatchHeader.BSBNumber (Batch.BatchHeader exampleBatch)
       /\ BatchTrailer.AccountNumber t
          = BatchHeader.AccountNumber (Batch.BatchHeader exampleBatch)
       /\ BatchTrailer.AccountName t
          = BatchHeader.AccountName (Batch.BatchHeader exampleBatch)
       /\ BatchTrailer.BatchType t = BatchTXN
       /\ BatchTrailer.recordType t
          = BatchTrailer.recordType (Batch.BatchTrailer exampleBatch)
       /\ BatchTrailer.TransactionDate t
          = clock exampleWorld
              (ticks exampleWorld + @List.length Batch.t [])%nat
       /\ (BatchTrailer.Indicator t = Debit
           \/ BatchTrailer.Indicator t = Credit).
Proof.
  assert (H2 : Writer.Batch exampleWriter = ([] ++ exampleBatch :: [])%list)
    by reflexivity.
  assert (H3 : allValidBatches []) by constructor.
  assert (H4 : allValid (Batch.Records exampleBatch)) by (repeat constructor).
  split; [exact (conj H2 (conj H3 H4))|].
  exact (X15_Write_batch_trailer_identity true exampleWriter exampleWorld
           [] [] exampleBatch H2 H3 H4).
Defined.

(** X16 with the clock of the test. *)
Lemma X16_witness :
  (forall n : nat, dateFits (clock exampleWorld n))
  /\ exists (w' : Writer.t) (wd' : World) (rd' : Reader.t),
       Writer_Write true (fst (NewWriter exampleWorld))
         (snd (NewWriter exampleWorld))
       = (None, w', wd')
       /\ String.length (Writer.wr w') = 684%nat
       /\ ReadAll (NewReader (Writer.wr w')) exampleWorld
          = (Some (Returned
                     [Batch.mk
                        (BatchHeader.mk 0 "" "" ""
                           (dateOnly (clock exampleWorld
                                        (2 + ticks exampleWorld)))
                           (Decimal.New 0 (-2)) "")
                        []
                        (BatchTrailer.mk 7 "" "" ""
                           (dateOnly (clock exampleWorld
                                        (4 + ticks exampleWorld)))
                           (Decimal.New 0 (-2)) Credit BatchTXN 0 0 0
                           (Decimal.New 0 (-2)) (Decimal.New 0 (-2)))]
                     None),
             rd', exampleWorld).
Proof.
  assert (H : forall n : nat, dateFits (clock exampleWorld n))
    by (intros n; repeat split; vm_compute; discriminate).
  split; [exact H|].
  exact (X16_NewWriter_written_and_read true exampleWorld exampleWorld H).
Defined.

(** X17 at the file of the test. *)
Lemma X17_witness :
  (Writer.wr exampleWriter = ""
   /\ Writer.Batch exampleWriter <> []
   /\ FileHeader.recordType (Writer.FileHeader exampleWriter) = 0
   /\ Forall oneLine (texts KFileHeader (Writer.FileHeader exampleWriter))
   /\ Forall batchReadable (Writer.Batch exampleWriter)
   /\ Forall batchTrailerFits
        (trailers (Writer.OmitBatchTotals exampleWriter) (clock exampleWorld)
           (ticks exampleWorld) 0 (Writer.Batch exampleWriter))
   /\ FileTrailer.recordType (Writer.FileTrailer exampleWriter) = 9
   /\ Forall oneLine (texts KFileTrailer (Writer.FileTrailer exampleWriter)))
  /\ exists (w' : Writer.t) (wd' : World) (fh : FileHeader.t)
            (ft : FileTrailer.t),
       Writer_Write true exampleWriter exampleWorld = (None, w', wd')
       /\ ReadAll (NewReader (Writer.wr w')) exampleWorld
          = (Some (Returned
                     (readBack (Writer.Batch exampleWriter)
                        (trailers (Writer.OmitBatchTotals exampleWriter)
                           (clock exampleWorld) (ticks exampleWorld) 0
                           (Writer.Batch exampleWriter)))
                     None),
             Reader.mk fh
               (readBack (Writer.Batch exampleWriter)
                  (trailers (Writer.OmitBatchTotals exampleWriter)
                     (clock exampleWorld) (ticks exampleWorld) 0
                     (Writer.Batch exampleWriter)))
               ft "",
             exampleWorld)
       /\ List.length
            (readBack (Writer.Batch exampleWriter)
               (trailers (Writer.OmitBatchTotals exampleWriter)
                  (clock exampleWorld) (ticks exampleWorld) 0
                  (Writer.Batch exampleWriter)))
          = List.length (Writer.Batch exampleWriter)
       /\ fh = fst (fst (FileHeader_Read FileHeader.zero
                           (FileHeader_Write true
                              (Writer.FileHeader exampleWriter)
                            ++ eol (Writer.CRLFLineEndings exampleWriter))
                           exampleWorld))
       /\ (fileTrailerFits true (Writer.FileTrailer w') ->
           ft = keptFileTrailer (Writer.FileTrailer w')).
Proof.
  assert (H1 : Writer.wr exampleWriter = "") by reflexivity.
  assert (H2 : Writer.Batch exampleWriter <> []) by discriminate.
  assert (H3 : FileHeader.recordType (Writer.FileHeader exampleWriter) = 0)
    by reflexivity.
  assert (H4 : Forall oneLine
                 (texts KFileHeader (Writer.FileHeader exampleWriter)))
    by (repeat constructor).
  assert (H5 : Forall batchReadable (Writer.Batch exampleWriter)).
  { constructor; [|constructor].
    split; [holds|]. split; [repeat constructor|].
    split; [|reflexivity].
    repeat constructor; holds. }
  assert (H6 : Forall batchTrailerFits
                 (trailers (Writer.OmitBatchTotals exampleWriter)
                    (clock exampleWorld) (ticks exampleWorld) 0
                    (Writer.Batch exampleWriter)))
    by (constructor; [holds|constructor]).
  assert (H7 : FileTrailer.recordType (Writer.FileTrailer exampleWriter) = 9)
    by reflexivity.
  assert (H8 : Forall oneLine
                 (texts KFileTrailer (Writer.FileTrailer exampleWriter)))
    by (repeat constructor).
  split;
    [exact (conj H1 (conj H2 (conj H3 (conj H4 (conj H5 (conj H6
              (conj H7 H8)))))))|].
  exact (X17_Write_then_ReadAll true exampleWriter exampleWorld exampleWorld
           H1 H2 H3 H4 H5 H6 H7 H8).
Defined.

(** X19 on the batch header line of the test. *)
Lemma X19_witness :
  ReadAll (NewReader batchHeaderLine) exampleWorld
  = (Some (Returned [exampleReadBatch] None), exampleReader, exampleWorld)
  /\ (Reader.r exampleReader = ""
      /\ [exampleReadBatch] = Reader.Batch exampleReader
      /\ exampleWorld = exampleWorld
      /\ ReadAll exampleReader exampleWorld
         = (Some (Returned [exampleReadBatch] None), exampleReader,
            exampleWorld)).
Proof.
  assert (H : ReadAll (NewReader batchHeaderLine) exampleWorld
              = (Some (Returned [exampleReadBatch] None), exampleReader,
                 exampleWorld)) by reflexivity.
  split; [exact H|].
  exact (X19_ReadAll_result (NewReader batchHeaderLine) exampleReader
           exampleWorld exampleWorld (Returned [exampleReadBatch] None) H).
Defined.

(** X20 on an empty line between the batch header line and a record
    line. *)
Lemma X20_witness :
  (terminated batchHeaderLine = true
   /\ ReadAll (setInput (NewReader "") batchHeaderLine) exampleWorld
      = (Some (Returned [exampleReadBatch] None), exampleReader,
         exampleWorld)
   /\ ReadString (nl ++ recordLine) = (nl, recordLine, false)
   /\ firstByte nl = Some (ascii_of_nat 10)
   /\ unknownType (ascii_of_nat 10))
  /\ ReadAll (setInput (NewReader "") (batchHeaderLine ++ nl ++ recordLine))
       exampleWorld
     = (Some (Returned [exampleReadBatch] (Some ErrUnexpectedRecordType)),
        setInput exampleReader recordLine,
        logged exampleWorld [readAllLog ErrUnexpectedRecordType]).
Proof.
  assert (H1 : terminated batchHeaderLine = true) by reflexivity.
  assert (H2 : ReadAll (setInput (NewReader "") batchHeaderLine) exampleWorld
               = (Some (Returned [exampleReadBatch] None), exampleReader,
                  exampleWorld)) by reflexivity.
  assert (H3 : ReadString (nl ++ recordLine) = (nl, recordLine, false))
    by reflexivity.
  assert (H4 : firstByte nl = Some (ascii_of_nat 10)) by reflexivity.
  assert (H5 : unknownType (ascii_of_nat 10))
    by (repeat split; discriminate).
  split; [exact (conj H1 (conj H2 (conj H3 (conj H4 H5))))|].
  exact (X20_ReadAll_unexpected_type (NewReader "") exampleReader
           exampleWorld exampleWorld batchHeaderLine nl recordLine false
           (ascii_of_nat 10) [exampleReadBatch] H1 H2 H3 H4 H5).
Defined.

(** X21 on a record line cut short. *)
Lemma X21_witness :
  (terminated batchHeaderLine = true
   /\ ReadAll (setInput (NewReader "") batchHeaderLine) exampleWorld
      = (Some (Returned [exampleReadBatch] None), exampleReader,
         exampleWorld)
   /\ ReadString (("2182-222" ++ nl) ++ recordLine)
      = ("2182-222" ++ nl, recordLine, false)
   /\ firstByte ("2182-222" ++ nl) = Some (typeByte KRecord)
   /\ String.length ("2182-222" ++ nl) <> (width KRecord + 1)%nat
   /\ String.length ("2182-222" ++ nl) <> (width KRecord + 2)%nat)
  /\ ReadAll
       (setInput (NewReader "")
          (batchHeaderLine ++ ("2182-222" ++ nl) ++ recordLine))
       exampleWorld
     = (Some (Returned [exampleReadBatch] (Some (badKind KRecord))),
        setInput exampleReader recordLine,
        logged exampleWorld
          (lengthLog KRecord ("2182-222" ++ nl)
           ++ [readAllLog (badKind KRecord)])).
Proof.
  assert (H1 : terminated batchHeaderLine = true) by reflexivity.
  assert (H2 : ReadAll (setInput (NewReader "") batchHeaderLine) exampleWorld
               = (Some (Returned [exampleReadBatch] None), exampleReader,
                  exampleWorld)) by reflexivity.
  assert (H3 : ReadString (("2182-222" ++ nl) ++ recordLine)
               = ("2182-222" ++ nl, recordLine, false)) by reflexivity.
  assert (H4 : firstByte ("2182-222" ++ nl) = Some (typeByte KRecord))
    by reflexivity.
  assert (H5 : String.length ("2182-222" ++ nl) <> (width KRecord + 1)%nat)
    by (cbn; lia).
  assert (H6 : String.length ("2182-222" ++ nl) <> (width KRecord + 2)%nat)
    by (cbn; lia).
  split; [exact (conj H1 (conj H2 (conj H3 (conj H4 (conj H5 H6)))))|].
  exact (X21_ReadAll_bad_length KRecord (NewReader "") exampleReader
           exampleWorld exampleWorld batchHeaderLine ("2182-222" ++ nl)
           recordLine false [exampleReadBatch] H1 H2 H3 H4 H5 H6).
Defined.

(** X22 on the file trailer of the test, written without its line
    feed. *)
Lemma X22_witness :
  (terminated batchHeaderLine = true
   /\ ReadAll (setInput (NewReader "") batchHeaderLine) exampleWorld
      = (Some (Returned [exampleReadBatch] None), exampleReader,
         exampleWorld)
   /\ oneLine fileTrailerText
   /\ firstByte fileTrailerText = Some (typeByte KFileTrailer)
   /\ String.length fileTrailerText = width KFileTrailer)
  /\ ReadAll (setInput (NewReader "") (batchHeaderLine ++ fileTrailerText))
       exampleWorld
     = (Some (Returned [exampleReadBatch] (Some (badKind KFileTrailer))),
        setInput exampleReader "",
        logged exampleWorld
          (lengthLog KFileTrailer fileTrailerText
           ++ [readAllLog (badKind KFileTrailer)])).
Proof.
  assert (H1 : terminated batchHeaderLine = true) by reflexivity.
  assert (H2 : ReadAll (setInput (NewReader "") batchHeaderLine) exampleWorld
               = (Some (Returned [exampleReadBatch] None), exampleReader,
                  exampleWorld)) by reflexivity.
  assert (H3 : oneLine fileTrailerText) by reflexivity.
  assert (H4 : firstByte fileTrailerText = Some (typeByte KFileTrailer))
    by reflexivity.
  assert (H5 : String.length fileTrailerText = width KFileTrailer)
    by reflexivity.
  split; [exact (conj H1 (conj H2 (conj H3 (conj H4 H5))))|].
  exact (X22_ReadAll_unterminated_last_line KFileTrailer (NewReader "")
           exampleReader exampleWorld exampleWorld batchHeaderLine
           fileTrailerText [exampleReadBatch] H1 H2 H3 H4 H5).
Defined.

(** X23 on the batch trailer line of the test at the start of the
    input. *)
Lemma X23_witness :
  (terminated "" = true
   /\ ReadAll (setInput (NewReader "") "") exampleWorld
      = (Some (Returned [] None), NewReader "", exampleWorld)
   /\ ReadString (batchTrailerLine ++ recordLine)
      = (batchTrailerLine, recordLine, false)
   /\ firstByte batchTrailerLine = Some "7"%char
   /\ badLength batchTrailerLine 171 172 = false)
  /\ ReadAll (setInput (NewReader "") ("" ++ batchTrailerLine ++ recordLine))
       exampleWorld
     = (Some (Panicked (IndexOutOfRange AttachTrailer (-1) 0)),
        setInput (NewReader "") recordLine, exampleWorld).
Proof.
  assert (H1 : terminated "" = true) by reflexivity.
  assert (H2 : ReadAll (setInput (NewReader "") "") exampleWorld
               = (Some (Returned [] None), NewReader "", exampleWorld))
    by reflexivity.
  assert (H3 : ReadString (batchTrailerLine ++ recordLine)
               = (batchTrailerLine, recordLine, false)) by reflexivity.
  assert (H4 : firstByte batchTrailerLine = Some "7"%char) by reflexivity.
  assert (H5 : badLength batchTrailerLine 171 172 = false) by reflexivity.
  split; [exact (conj H1 (conj H2 (conj H3 (conj H4 H5))))|].
  exact (X23_ReadAll_panics_without_batch (NewReader "") (NewReader "")
           exampleWorld exampleWorld "" batchTrailerLine recordLine false
           AttachTrailer H1 H2 H3 H4 H5).
Defined.

(** X24 on a batch header line followed by a record line and a batch
    trailer line. *)
Lemma X24_witness :
  (Reader.Batch
     (NewReader (batchHeaderLine ++ recordLine ++ batchTrailerLine)) <> []
   \/ headerBeforeBatchLines
        (splitLines
           (Reader.r
              (NewReader (batchHeaderLine ++ recordLine ++ batchTrailerLine)))))
  /\ exists (bs : list Batch.t) (err : option error) (rd' : Reader.t)
            (wd' : World),
       ReadAll (NewReader (batchHeaderLine ++ recordLine ++ batchTrailerLine))
         exampleWorld
       = (Some (Returned bs err), rd', wd').
Proof.
  assert (H : Reader.Batch
                (NewReader (batchHeaderLine ++ recordLine ++ batchTrailerLine))
              <> []
              \/ headerBeforeBatchLines
                   (splitLines
                      (Reader.r
                         (NewReader
                            (batchHeaderLine ++ recordLine
                             ++ batchTrailerLine))))).
  { right. intros j l Hj H2. destruct j as [|j].
    - vm_compute in Hj. injection Hj as <-. vm_compute in H2.
      destruct H2; discriminate.
    - exists O, batchHeaderLine. repeat split. lia. }
  split; [exact H|].
  exact (X24_ReadAll_never_panics
           (NewReader (batchHeaderLine ++ recordLine ++ batchTrailerLine))
           exampleWorld H).
Defined.

(** X25 at a record with fields longer than their columns. *)
Lemma X25_witness :
  (IsValid overlongRecord = true /\ terminator nl
   /\ isASCII (TxnRecord.AccountNumber overlongRecord) = true
   /\ isASCII (TxnRecord.AccountName overlongRecord) = true)
  /\ (exists r' : TxnRecord.t,
        Record_Read TxnRecord.zero (Record_Write true overlongRecord ++ nl)
          exampleWorld
        = (r', None, exampleWorld)
        /\ TxnRecord.BSBNumber r' = TxnRecord.BSBNumber overlongRecord
        /\ TxnRecord.Indicator r' = TxnRecord.Indicator overlongRecord
        /\ IsValid r' = true).
Proof.
  assert (H1 : IsValid overlongRecord = true) by reflexivity.
  assert (H2 : terminator nl) by (left; reflexivity).
  assert (H3 : isASCII (TxnRecord.AccountNumber overlongRecord) = true)
    by reflexivity.
  assert (H4 : isASCII (TxnRecord.AccountName overlongRecord) = true)
    by reflexivity.
  split; [exact (conj H1 (conj H2 (conj H3 H4)))|].
  exact (X25_valid_record_reads_back_valid true overlongRecord TxnRecord.zero
           nl exampleWorld H1 H2 H3 H4).
Defined.

(** X26 at the record with an accent in its account name. *)
Lemma X26_witness :
  (IsValid accentRecord = true /\ terminator nl
   /\ isASCII (TxnRecord.AccountNumber accentRecord) = true
   /\ TxnRecord.AccountName accentRecord
      = "CAF" ++ String (ascii_of_nat 195) (String (ascii_of_nat 137)
                                              " DU MONDE")
   /\ isASCII "CAF" = true /\ isASCII " DU MONDE" = true
   /\ twoByteRune (ascii_of_nat 195) (ascii_of_nat 137)
   /\ (String.length "CAF" + 1 + String.length " DU MONDE" <= 35)%nat)
  /\ exists r' : TxnRecord.t,
       Record_Read TxnRecord.zero (Record_Write true accentRecord ++ nl)
         exampleWorld
       = (r', Some ErrInvalidRecord, exampleWorld)
       /\ TxnRecord.Indicator r' <> TxnRecord.Indicator accentRecord.
Proof.
  assert (H1 : IsValid accentRecord = true) by reflexivity.
  assert (H2 : terminator nl) by (left; reflexivity).
  assert (H3 : isASCII (TxnRecord.AccountNumber accentRecord) = true)
    by reflexivity.
  assert (H4 : TxnRecord.AccountName accentRecord
               = "CAF" ++ String (ascii_of_nat 195)
                            (String (ascii_of_nat 137) " DU MONDE"))
    by reflexivity.
  assert (H5 : isASCII "CAF" = true) by reflexivity.
  assert (H6 : isASCII " DU MONDE" = true) by reflexivity.
  assert (H7 : twoByteRune (ascii_of_nat 195) (ascii_of_nat 137))
    by (vm_compute; repeat split; discriminate).
  assert (H8 : (String.length "CAF" + 1 + String.length " DU MONDE"
                <= 35)%nat) by (vm_compute; lia).
  split; [exact (conj H1 (conj H2 (conj H3 (conj H4 (conj H5 (conj H6
                   (conj H7 H8)))))))|].
  exact (X26_two_byte_rune_breaks_record true accentRecord TxnRecord.zero nl
           exampleWorld "CAF" " DU MONDE" (ascii_of_nat 195)
           (ascii_of_nat 137) H1 H2 H3 H4 H5 H6 H7 H8).
Defined.

(** ** Text that is not ASCII *)

(** Widths count runes.  The account name of [accentRecord] fills 36
    bytes of the line where the layout has 35, every later column is one
    byte further on, [Record.Read] takes the indicator from the last
    digit of the amount and the ['D'] of ["DR"], and returns
    [ErrInvalidRecord] for the line of a record that passes [IsValid]. *)
Example Record_two_byte_rune_example :
  IsValid accentRecord = true
  /\ String.length (TxnRecord.AccountName accentRecord) = 14%nat
  /\ RuneCountInString (TxnRecord.AccountName accentRecord) = 13%nat
  /\ String.length (Record_Write true accentRecord) = 168%nat
  /\ snd (fst (Record_Read TxnRecord.zero
                 (Record_Write true accentRecord ++ nl) exampleWorld))
     = Some ErrInvalidRecord
  /\ TxnRecord.Indicator
       (fst (fst (Record_Read TxnRecord.zero
                    (Record_Write true accentRecord ++ nl) exampleWorld)))
     = "8D".
Proof. repeat split; vm_compute; reflexivity. Qed.

(** [strings.TrimSpace] takes off Unicode white space.  The account name
    of [noBreakHeader] comes back without its no-break space, and the
    column of the indicator, one byte further on in the line, is read
    as ["0C"]. *)
Example BatchHeader_no_break_space_example :
  BatchHeader.AccountName
    (fst (fst (BatchHeader_Read BatchHeader.zero
                 (BatchHeader_Write true noBreakHeader ++ nl) exampleWorld)))
  = "AB"
  /\ BatchHeader.Indicator
       (fst (fst (BatchHeader_Read BatchHeader.zero
                    (BatchHeader_Write true noBreakHeader ++ nl)
                    exampleWorld)))
     = "0C".
Proof. split; vm_compute; reflexivity. Qed.
